(** * Recurrent cells of [h_cell.py]: LSTM, layer-normalised LSTM, hyper-LSTM

    The module builds TensorFlow (1.x, graph mode) recurrent cells.  A cell is
    a Python object whose [call] method, given the input tensor and the
    previous state, requests weight variables from the enclosing variable
    scope, stores the handles on [self] and returns the output tensor and
    the new state.

    The embedding follows the source statement by statement:
    - a tensor of rank 2 is a list of rows, a tensor of rank 1 a list; the
      scalar type and the primitive operations of the tensor framework
      (addition, sigmoid, square root, ...) are the members of the class
      [Scalar], so every statement holds for each interpretation of them;
    - the value a variable holds when the graph is run is [theta name i j];
      a variable handle records the name and the declared shape;
    - Python exceptions and the mutation of [self] and of the graph's
      variable store are threaded through the monad [M]: the state is kept
      when an exception is raised, as in Python;
    - static shape inference of the framework is not represented: binary
      operations pair the entries of their operands position by position. *)

From Stdlib Require Import Reals Lra QArith Qreals.
From stdpp Require Import gmap strings list.

Set Default Proof Using "Type".

(** ** Scalars and the primitive operations of the tensor framework *)

Class Scalar (T : Type) := {
  flit : Q → T;               (* a Python float literal *)
  fnat : nat → T;             (* the number of reduced entries, as a float *)
  fadd : T → T → T;
  fsub : T → T → T;
  fmul : T → T → T;
  fdiv : T → T → T;
  fneg : T → T;
  fsqrt : T → T;
  fsigmoid : T → T;
  ftanh : T → T;
  fminimum : T → T → T;
  fmaximum : T → T → T
}.

(** ** Tensors *)

Section Tensor.
Context {T : Type} `{!Scalar T}.

Definition vector := list T.
Definition matrix := list (list T).

(** Static number of columns, [t.get_shape()[1]]. *)
Definition ncols (m : matrix) : nat :=
  match m with [] => 0 | r :: _ => length r end.

Definition mmap (f : T → T) (m : matrix) : matrix := map (map f) m.

(** [a + b], [a * b] on two tensors of rank 2. *)
Definition madd (a b : matrix) : matrix := zip_with (zip_with fadd) a b.
Definition mmul (a b : matrix) : matrix := zip_with (zip_with fmul) a b.

(** [m + s] with a Python float [s]. *)
Definition sadd (m : matrix) (s : T) : matrix := mmap (λ x, fadd x s) m.

(** [v * m] and [v + m] with [v] of rank 1 broadcast over the rows of [m]. *)
Definition vmul (v : vector) (m : matrix) : matrix := map (zip_with fmul v) m.
Definition vadd (v : vector) (m : matrix) : matrix := map (zip_with fadd v) m.

(** [math_ops.sigmoid], [math_ops.tanh]. *)
Definition sigmoid (m : matrix) : matrix := mmap fsigmoid m.
Definition tanh (m : matrix) : matrix := mmap ftanh m.

Definition dot (u v : vector) : T := foldr fadd (flit 0) (zip_with fmul u v).
Definition column (j : nat) (b : matrix) : vector := map (λ r, nth j r (flit 0)) b.

(** [math_ops.matmul a b] where [b] has [p] columns. *)
Definition matmul (a b : matrix) (p : nat) : matrix :=
  map (λ r, map (λ j, dot r (column j b)) (seq 0 p)) a.

(** [nn_ops.bias_add]. *)
Definition bias_add (m : matrix) (b : vector) : matrix :=
  map (λ r, zip_with fadd r b) m.

(** [array_ops.concat(args, 1)] of tensors with the same number of rows.
    TensorFlow refuses tensors whose numbers of rows differ when the graph
    is built; here the rows beyond the fewest are dropped, and a statement
    below that a call returns has the shapes of the arguments among its
    hypotheses.  An empty list of tensors is refused by the callers. *)
Fixpoint concat (args : list matrix) : matrix :=
  match args with
  | [] => []
  | [a] => a
  | a :: rest => zip_with app a (concat rest)
  end.

(** [array_ops.slice(t, [0, start], [-1, size])] and [t[:, start:]]. *)
Definition slice (start size : nat) (m : matrix) : matrix :=
  map (λ r, take size (drop start r)) m.
Definition slice_from (start : nat) (m : matrix) : matrix := map (drop start) m.

(** [array_ops.split(value, 4, axis=1)]. *)
Definition split (m : matrix) : matrix * matrix * matrix * matrix :=
  let n := ncols m / 4 in
  (slice 0 n m, slice n n m, slice (2 * n) n m, slice (3 * n) n m).

(** [tf.split(value, 4, 0)] on a tensor of rank 1. *)
Definition split_vector (v : vector) : vector * vector * vector * vector :=
  let n := length v / 4 in
  (take n v, take n (drop n v), take n (drop (2 * n) v), take n (drop (3 * n) v)).

(** [clip_ops.clip_by_value(t, lo, hi)]: [maximum(minimum(t, hi), lo)]. *)
Definition clip_by_value (m : matrix) (lo hi : T) : matrix :=
  mmap (λ x, fmaximum (fminimum x hi) lo) m.

(** [tf.nn.moments(inputs, [1], keep_dims=True)], one row at a time. *)
Definition reduce_mean (r : vector) : T :=
  fdiv (foldr fadd (flit 0) r) (fnat (length r)).
Definition moments (r : vector) : T * T :=
  let m := reduce_mean r in
  (m, reduce_mean (map (λ x, fmul (fsub x m) (fsub x m)) r)).

Definition tabulate (rows cols : nat) (f : nat → nat → T) : matrix :=
  map (λ i, map (f i) (seq 0 cols)) (seq 0 rows).

End Tensor.

(** ** Exceptions, state and the variable store *)

Inductive exn :=
  ValueError | AttributeError | NameError | TypeError | IndexError | ZeroDivisionError.

Definition M (S A : Type) : Type := S → (exn + A) * S.

Global Instance M_ret {S} : MRet (M S) := λ A a s, (inr a, s).
Global Instance M_bind {S} : MBind (M S) := λ A B f m s,
  match m s with
  | (inl e, s') => (inl e, s')
  | (inr a, s') => f a s'
  end.

Definition raise {S A} (e : exn) : M S A := λ s, (inl e, s).
Definition get_self {Self G} : M (Self * G) Self := λ s, (inr s.1, s).
Definition set_self {Self G} (f : Self → Self) : M (Self * G) () :=
  λ s, (inr (), (f s.1, s.2)).

(** A variable handle: the full name, innermost scope first, and the shape. *)
Record variable := { v_name : list string; v_shape : list nat }.

(** An initializer is run on the shape when the variable is created; only
    whether it raises matters here. *)
Definition initializer := list nat → option exn.

(** The part of the default graph the module acts on. *)
Record tf_graph := {
  g_vars : gmap (list string) (list nat);   (* the variables created so far *)
  g_scope : list string;                    (* the current variable scope *)
  g_reuse : bool;                           (* its reuse flag *)
  g_initializer : option initializer        (* its default initializer *)
}.

Definition get_graph {Self} : M (Self * tf_graph) tf_graph := λ s, (inr s.2, s).

Definition run_initializer (init : option initializer) (g : tf_graph)
    (shape : list nat) : option exn :=
  match init, g_initializer g with
  | Some f, _ => f shape
  | None, Some f => f shape
  | None, None => None          (* the framework's default never raises *)
  end.

(** [vs.get_variable(name, shape, initializer=init)]. *)
Definition get_variable {Self} (name : string) (shape : list nat)
    (init : option initializer) : M (Self * tf_graph) variable := λ '(self, g),
  let full := name :: g_scope g in
  match g_vars g !! full with
  | Some sh =>
      if g_reuse g then
        if decide (sh = shape)
        then (inr {| v_name := full; v_shape := sh |}, (self, g))
        else (inl ValueError, (self, g))
      else (inl ValueError, (self, g))
  | None =>
      if g_reuse g then (inl ValueError, (self, g))
      else match run_initializer init g shape with
           | Some e => (inl e, (self, g))
           | None =>
               (inr {| v_name := full; v_shape := shape |},
                (self, {| g_vars := <[full := shape]> (g_vars g);
                          g_scope := g_scope g; g_reuse := g_reuse g;
                          g_initializer := g_initializer g |}))
           end
  end.

Definition enter_scope (scope : list string) (reuse : bool)
    (init : option initializer) (g : tf_graph) : tf_graph :=
  {| g_vars := g_vars g; g_scope := scope; g_reuse := reuse;
     g_initializer := match init with Some f => Some f | None => g_initializer g end |}.
Definition leave_scope (outer inner : tf_graph) : tf_graph :=
  {| g_vars := g_vars inner; g_scope := g_scope outer; g_reuse := g_reuse outer;
     g_initializer := g_initializer outer |}.

(** [with vs.variable_scope(name): body]; the outer scope is restored when
    the block is left, also by an exception. *)
Definition variable_scope {Self A} (name : string)
    (body : M (Self * tf_graph) A) : M (Self * tf_graph) A := λ '(self, g),
  let '(r, (self', g')) :=
    body (self, enter_scope (name :: g_scope g) (g_reuse g) None g) in
  (r, (self', leave_scope g g')).

(** [with vs.variable_scope(vs.get_variable_scope(), initializer=init): body]:
    the current scope is entered again, with another default initializer. *)
Definition scope_initializer {Self A} (init : option initializer)
    (body : M (Self * tf_graph) A) : M (Self * tf_graph) A := λ '(self, g),
  let '(r, (self', g')) :=
    body (self, enter_scope (g_scope g) (g_reuse g) init g) in
  (r, (self', leave_scope g g')).

(** [tf.get_variable_scope().reuse_variables()]. *)
Definition reuse_variables {Self} : M (Self * tf_graph) () := λ '(self, g),
  (inr (), (self, enter_scope (g_scope g) true None g)).

(** ** Reading variables when the graph is run *)

Section Session.
Context {T : Type} `{!Scalar T}.
Variable theta : list string → nat → nat → T.

Definition read_matrix (v : variable) : matrix :=
  match v_shape v with
  | [r; c] => tabulate r c (theta (v_name v))
  | _ => []
  end.

Definition read_vector (v : variable) : vector :=
  match v_shape v with
  | [n] => map (theta (v_name v) 0) (seq 0 n)
  | _ => []
  end.

Definition out_dim (v : variable) : nat :=
  match v_shape v with
  | [_; c] => c
  | _ => 0
  end.

(** [math_ops.matmul(x, w)] with [w] a variable. *)
Definition matmul_var (x : matrix) (w : variable) : matrix :=
  matmul x (read_matrix w) (out_dim w).

End Session.

(** ** [class _Linear] *)

Module _Linear.
Section Class.
Context {T : Type} `{!Scalar T}.
Variable theta : list string → nat → nat → T.

(** The argument of a linear map: one tensor, or a Python sequence. *)
Inductive args := Single (a : matrix (T:=T)) | Sequence (l : list (matrix (T:=T))).

Record t := {
  _build_bias : bool;
  _is_sequence : bool;
  _weights : variable;
  _biases : option variable
}.

Definition __init__ {Self} (a : args) (output_size : nat) (build_bias : bool)
    : M (Self * tf_graph) t :=
  '(l, is_sequence) ← match a with
     | Sequence [] => raise ValueError
     | Sequence l => mret (l, true)
     | Single x => mret ([x], false)
     end;
  let total_arg_size := foldl (λ acc x, acc + ncols x) 0 l in
  weights ← get_variable "kernel" [total_arg_size; output_size] None;
  if build_bias then
    biases ← get_variable "bias" [output_size] (Some (λ _, None));
    mret {| _build_bias := build_bias; _is_sequence := is_sequence;
            _weights := weights; _biases := Some biases |}
  else
    mret {| _build_bias := build_bias; _is_sequence := is_sequence;
            _weights := weights; _biases := None |}.

Definition __call__ {S} (self : t) (a : args) : M S (matrix (T:=T)) :=
  l ← match a with
      | Single x => if _is_sequence self then raise TypeError else mret [x]
      | Sequence l => if _is_sequence self then mret l else raise ValueError
      end;
  res ← match l with
        | [] => raise ValueError
        | [x] => mret (matmul_var theta x (_weights self))
        | _ => mret (matmul_var theta (concat l) (_weights self))
        end;
  if _build_bias self then
    match _biases self with
    | Some b => mret (bias_add res (read_vector theta b))
    | None => raise AttributeError
    end
  else mret res.

End Class.
End _Linear.

(** ** [class Layer_Normalization] *)

Module Layer_Normalization.
Section Class.
Context {T : Type} `{!Scalar T}.
Variable theta : list string → nat → nat → T.

Record t := { _epsilon : T; _g : variable; _b : variable }.

Definition __init__ {Self} (dim : list nat) (scope : string) (epsilon : T)
    : M (Self * tf_graph) t :=
  variable_scope scope (
    g ← get_variable "gain" dim (Some (λ _, None));
    b ← get_variable "bias" dim (Some (λ _, None));
    mret {| _epsilon := epsilon; _g := g; _b := b |}).

(** The default of the keyword argument [epsilon]. *)
Definition epsilon_default : T := flit (1 # 100000).

Definition __call__ (self : t) (inputs : matrix) : matrix :=
  map (λ r,
    let '(m, v) := moments r in
    let norm_inputs := map (λ x, fdiv (fsub x m) (fsqrt (fadd v (_epsilon self)))) r in
    zip_with fadd (zip_with fmul norm_inputs (read_vector theta (_g self)))
             (read_vector theta (_b self))) inputs.

End Class.
End Layer_Normalization.

(** ** [class RNNCell(base_layer.Layer)] *)

(** The attributes the base class keeps: the constructor's [_reuse], the
    flag [built] and the variable scope captured by the first invocation
    (its name and its reuse flag). *)
Record Layer := {
  _reuse : option bool;
  built : bool;
  _scope : option (list string * bool)
}.

Definition new_layer (reuse : option bool) : Layer :=
  {| _reuse := reuse; built := false; _scope := None |}.

Module RNNCell.
Section Class.
Context {Self A : Type}.
Variable layer : Self → Layer.
Variable set_layer : Layer → Self → Self.
Variable base_name : string.

(** [RNNCell.__call__(inputs, state, scope)] enters the given scope, if any,
    and hands over to [base_layer.Layer.__call__], which is not part of the
    module.  Its behaviour in TensorFlow 1.x is: the first invocation
    captures the variable scope [scope], or the layer's default name, under
    the current scope; [call] runs inside the captured scope, with
    [reuse = self.built or self._reuse]; [built] is set once [call] has
    returned.  The default name is taken as it is: TensorFlow appends a
    number to a default name that has been opened in the current scope
    before ([lstm_cell_1]), and the graph of this embedding does not record
    the scopes that have been opened.  What is stated below about the names
    of the variables of a cell is therefore stated of [call], run in the
    scope that it finds. *)
Definition __call__ (call : M (Self * tf_graph) A) (scope : option string)
    : M (Self * tf_graph) A := λ '(self, g),
  let ly := layer self in
  let captured :=
    match _scope ly with
    | Some s => s
    | None => (default base_name scope :: g_scope g, g_reuse g)
    end in
  let reuse := built ly || bool_decide (_reuse ly = Some true) || captured.2 in
  let self0 :=
    set_layer {| _reuse := _reuse ly; built := built ly; _scope := Some captured |} self in
  let '(r, (self1, g1)) := call (self0, enter_scope captured.1 reuse None g) in
  match r with
  | inr a =>
      let ly1 := layer self1 in
      (inr a, (set_layer {| _reuse := _reuse ly1; built := true; _scope := _scope ly1 |} self1,
               leave_scope g g1))
  | inl e => (inl e, (self1, leave_scope g g1))
  end.

End Class.
End RNNCell.

(** [LSTMStateTuple(c, h)], or the two tensors concatenated along the
    columns when [state_is_tuple] is false. *)
Inductive lstm_state {T : Type} :=
  | LSTMStateTuple (c h : matrix (T:=T))
  | StateTensor (s : matrix (T:=T)).
Arguments lstm_state : clear implicits.

(** [state_size]: an [LSTMStateTuple] of two sizes, or one integer. *)
Inductive state_size := SizeTuple (c h : nat) | SizeInt (n : nat).

(** [_concat(prefix, suffix)] for a prefix and a suffix that are Python
    integers, as [zero_state] passes them for a static batch size and the
    integer sizes of the cells of this module: [as_shape] makes each a shape
    of rank 1 and the result is their concatenation, whether [static] is
    set or not.  (The branches for [Tensor] arguments are not reached
    then.) *)
Definition _concat (prefix suffix : nat) : list nat := [prefix] ++ [suffix].

(** [array_ops.zeros(shape)] for a shape of rank 2. *)
Definition zeros {T} `{!Scalar T} (shape_ : list nat) : matrix :=
  match shape_ with
  | [rows; cols] => replicate rows (replicate cols (flit 0))
  | _ => []
  end.

(** [_zero_state_tensors(state_size, batch_size, dtype)]:
    [nest.map_structure] applies [get_state_shape] to each size. *)
Definition _zero_state_tensors {T} `{!Scalar T} (sz : state_size) (batch_size : nat)
    : lstm_state T :=
  let get_state_shape s := zeros (_concat batch_size s) in
  match sz with
  | SizeTuple c h => LSTMStateTuple (get_state_shape c) (get_state_shape h)
  | SizeInt n => StateTensor (get_state_shape n)
  end.

(** Truth value of an optional integer, [if num_proj:]. *)
Definition truthy (n : option nat) : bool :=
  match n with Some (S _) => true | _ => false end.

(** [if cond: body]. *)
Definition when {S} (cond : bool) (body : M S ()) : M S () :=
  if cond then body else mret ().

(** ** Attributes assigned after construction

    The attributes a constructor initialises with [None] and [call] fills in
    later live in the object's [__dict__]; reading a name that was never
    assigned raises [AttributeError]. *)

Inductive attr {T : Type} (C : Type) :=
  | PyNone
  | PyLinear (l : _Linear.t)
  | PyNorm (n : Layer_Normalization.t (T:=T))
  | PyVar (v : variable)
  | PyCell (c : C).
Arguments attr : clear implicits.
Arguments PyNone {T C}.
Arguments PyLinear {T C} l.
Arguments PyNorm {T C} n.
Arguments PyVar {T C} v.
Arguments PyCell {T C} c.

Section Attributes.
Context {T C Self G : Type}.
Variable __dict__ : Self → gmap string (attr T C).
Variable set_dict : gmap string (attr T C) → Self → Self.

Definition getattr (name : string) : M (Self * G) (attr T C) := λ s,
  match __dict__ s.1 !! name with
  | Some a => (inr a, s)
  | None => (inl AttributeError, s)
  end.

Definition setattr (name : string) (a : attr T C) : M (Self * G) () := λ s,
  (inr (), (set_dict (<[name := a]> (__dict__ s.1)) s.1, s.2)).

End Attributes.

(** [a is None], and the truth value of an attribute: [None] is false, an
    object is true. *)
Definition is_None {T C} (a : attr T C) : bool :=
  match a with PyNone => true | _ => false end.

(** Using an attribute as a linear map, a normalisation or a variable;
    [None], or an object of another class, raises [TypeError]. *)
Definition as_linear {T C S} (a : attr T C) : M S _Linear.t :=
  match a with PyLinear l => mret l | _ => raise TypeError end.
Definition as_norm {T C S} (a : attr T C) : M S (Layer_Normalization.t (T:=T)) :=
  match a with PyNorm n => mret n | _ => raise TypeError end.
Definition as_variable {T C S} (a : attr T C) : M S variable :=
  match a with PyVar v => mret v | _ => raise TypeError end.
Definition as_cell {T C S} (a : attr T C) : M S C :=
  match a with PyCell c => mret c | _ => raise TypeError end.

(** ** [class LSTMCell(RNNCell)] *)

Module LSTMCell.
Section Class.
Context {T : Type} `{!Scalar T}.
Variable theta : list string → nat → nat → T.

Record t := {
  layer : Layer;
  _num_units : nat;
  _use_peepholes : bool;
  _cell_clip : option T;
  _initializer : option initializer;
  _num_proj : option nat;
  _proj_clip : option T;
  _num_unit_shards : option nat;
  _num_proj_shards : option nat;
  _forget_bias : T;
  _state_is_tuple : bool;
  _activation : T → T;
  _state_size : state_size;
  _output_size : nat;
  __dict__ : gmap string (attr T Empty_set)
}.

(** [activation] is an elementwise function; [activation or math_ops.tanh]. *)
Definition __init__ (num_units : nat) (use_peepholes : bool) (cell_clip : option T)
    (initializer : option initializer) (num_proj : option nat) (proj_clip : option T)
    (num_unit_shards num_proj_shards : option nat) (forget_bias : T)
    (state_is_tuple : bool) (activation : option (T → T)) (reuse : option bool) : t :=
  {| layer := new_layer reuse;
     _num_units := num_units;
     _use_peepholes := use_peepholes;
     _cell_clip := cell_clip;
     _initializer := initializer;
     _num_proj := num_proj;
     _proj_clip := proj_clip;
     _num_unit_shards := num_unit_shards;
     _num_proj_shards := num_proj_shards;
     _forget_bias := forget_bias;
     _state_is_tuple := state_is_tuple;
     _activation := default ftanh activation;
     _state_size :=
       if truthy num_proj then
         if state_is_tuple then SizeTuple num_units (default 0 num_proj)
         else SizeInt (num_units + default 0 num_proj)
       else
         if state_is_tuple then SizeTuple num_units num_units
         else SizeInt (2 * num_units);
     _output_size := if truthy num_proj then default 0 num_proj else num_units;
     __dict__ :=
       let d := <["_linear2" := PyNone]> (<["_linear1" := PyNone]> ∅) in
       if use_peepholes then
         <["_w_o_diag" := PyNone]> (<["_w_i_diag" := PyNone]> (<["_w_f_diag" := PyNone]> d))
       else d |}.

(** The constructor with every keyword argument at its default. *)
Definition new (num_units : nat) : t :=
  __init__ num_units false None None None None None None (flit 1) true None None.

Definition state_size (self : t) := _state_size self.
Definition output_size (self : t) := _output_size self.

(** [RNNCell.zero_state(batch_size, dtype)]. *)
Definition zero_state (self : t) (batch_size : nat) : lstm_state T :=
  _zero_state_tensors (state_size self) batch_size.

Definition set_layer (ly : Layer) (self : t) : t :=
  {| layer := ly; _num_units := _num_units self; _use_peepholes := _use_peepholes self;
     _cell_clip := _cell_clip self; _initializer := _initializer self;
     _num_proj := _num_proj self; _proj_clip := _proj_clip self;
     _num_unit_shards := _num_unit_shards self; _num_proj_shards := _num_proj_shards self;
     _forget_bias := _forget_bias self; _state_is_tuple := _state_is_tuple self;
     _activation := _activation self; _state_size := _state_size self;
     _output_size := _output_size self; __dict__ := __dict__ self |}.

Definition set_dict (d : gmap string (attr T Empty_set)) (self : t) : t :=
  {| layer := layer self; _num_units := _num_units self;
     _use_peepholes := _use_peepholes self;
     _cell_clip := _cell_clip self; _initializer := _initializer self;
     _num_proj := _num_proj self; _proj_clip := _proj_clip self;
     _num_unit_shards := _num_unit_shards self; _num_proj_shards := _num_proj_shards self;
     _forget_bias := _forget_bias self; _state_is_tuple := _state_is_tuple self;
     _activation := _activation self; _state_size := _state_size self;
     _output_size := _output_size self; __dict__ := d |}.

(** [self.name] and [self.name = a]. *)
Definition self_get := getattr (G:=tf_graph) __dict__.
Definition self_set := setattr (G:=tf_graph) __dict__ set_dict.

(** The previous cell state and output held by [state]. *)
Definition unpack_state (self : t) (state : lstm_state T)
    : M (t * tf_graph) (matrix (T:=T) * matrix (T:=T)) :=
  let num_proj := default (_num_units self) (_num_proj self) in
  if _state_is_tuple self then
    match state with
    | LSTMStateTuple c_prev m_prev => mret (c_prev, m_prev)
    | StateTensor _ => raise TypeError
    end
  else
    match state with
    | StateTensor s =>
        mret (slice 0 (_num_units self) s, slice (_num_units self) num_proj s)
    | LSTMStateTuple _ _ => raise ValueError
    end.

(** [unit_scope.set_partitioner(...)] shards the storage of the variables
    created in the scope and leaves their names and values as they are. *)
Definition call (inputs : matrix) (state : lstm_state T)
    : M (t * tf_graph) (matrix (T:=T) * lstm_state T) :=
  self ← get_self;
  '(c_prev, m_prev) ← unpack_state self state;
  linear1 ← self_get "_linear1";
  when (is_None linear1) (
    scope_initializer (_initializer self) (
      l ← _Linear.__init__ (_Linear.Sequence [inputs; m_prev]) (4 * _num_units self) true;
      self_set "_linear1" (PyLinear l)));;
  (* i = input_gate, j = new_input, f = forget_gate, o = output_gate *)
  linear1 ← self_get "_linear1" ≫= as_linear;
  lstm_matrix ← _Linear.__call__ theta linear1 (_Linear.Sequence [inputs; m_prev]);
  let '(i, j, f, o) := split lstm_matrix in
  (* Diagonal connections *)
  create ← (if _use_peepholes self
            then w ← self_get "_w_f_diag"; mret (is_None w) else mret false);
  when create (
    scope_initializer (_initializer self) (
      w_f ← get_variable "w_f_diag" [_num_units self] None;
      self_set "_w_f_diag" (PyVar w_f);;
      w_i ← get_variable "w_i_diag" [_num_units self] None;
      self_set "_w_i_diag" (PyVar w_i);;
      w_o ← get_variable "w_o_diag" [_num_units self] None;
      self_set "_w_o_diag" (PyVar w_o)));;
  c ← (if _use_peepholes self then
         w_f ← self_get "_w_f_diag" ≫= as_variable;
         w_i ← self_get "_w_i_diag" ≫= as_variable;
         mret (madd
           (mmul (sigmoid (madd (sadd f (_forget_bias self))
                                (vmul (read_vector theta w_f) c_prev))) c_prev)
           (mmul (sigmoid (madd i (vmul (read_vector theta w_i) c_prev)))
                 (mmap (_activation self) j)))
       else
         mret (madd (mmul (sigmoid (sadd f (_forget_bias self))) c_prev)
                    (mmul (sigmoid i) (mmap (_activation self) j))));
  let c := match _cell_clip self with
           | Some cell_clip => clip_by_value c (fneg cell_clip) cell_clip
           | None => c
           end in
  m ← (if _use_peepholes self then
         w_o ← self_get "_w_o_diag" ≫= as_variable;
         mret (mmul (sigmoid (madd o (vmul (read_vector theta w_o) c)))
                    (mmap (_activation self) c))
       else mret (mmul (sigmoid o) (mmap (_activation self) c)));
  m ← (match _num_proj self with
       | Some num_proj =>
           linear2 ← self_get "_linear2";
           when (is_None linear2) (
             scope_initializer (_initializer self) (
               variable_scope "projection" (
                 l ← _Linear.__init__ (_Linear.Single m) num_proj false;
                 self_set "_linear2" (PyLinear l))));;
           linear2 ← self_get "_linear2" ≫= as_linear;
           m ← _Linear.__call__ theta linear2 (_Linear.Single m);
           mret (match _proj_clip self with
                 | Some proj_clip => clip_by_value m (fneg proj_clip) proj_clip
                 | None => m
                 end)
       | None => mret m
       end);
  let new_state := if _state_is_tuple self then LSTMStateTuple c m
                   else StateTensor (concat [c; m]) in
  mret (m, new_state).

(** [cell(inputs, state)]. *)
Definition __call__ (inputs : matrix) (state : lstm_state T) :=
  RNNCell.__call__ layer set_layer "lstm_cell" (call inputs state) None.

End Class.
End LSTMCell.

(** ** [class LN_LSTMCell(RNNCell)] *)

Module LN_LSTMCell.
Section Class.
Context {T : Type} `{!Scalar T}.
Variable theta : list string → nat → nat → T.

Record t := {
  layer : Layer;
  _num_units : nat;
  _use_peepholes : bool;
  _cell_clip : option T;
  _initializer : option initializer;
  _num_proj : option nat;
  _proj_clip : option T;
  _forget_bias : T;
  _state_is_tuple : bool;
  _activation : T → T;
  _state_size : state_size;
  _output_size : nat;
  __dict__ : gmap string (attr T Empty_set)
}.

Definition __init__ (num_units : nat) (use_peepholes : bool) (cell_clip : option T)
    (initializer : option initializer) (num_proj : option nat) (proj_clip : option T)
    (forget_bias : T) (state_is_tuple : bool) (activation : option (T → T))
    (reuse : option bool) : t :=
  {| layer := new_layer reuse;
     _num_units := num_units;
     _use_peepholes := use_peepholes;
     _cell_clip := cell_clip;
     _initializer := initializer;
     _num_proj := num_proj;
     _proj_clip := proj_clip;
     _forget_bias := forget_bias;
     _state_is_tuple := state_is_tuple;
     _activation := default ftanh activation;
     _state_size :=
       if truthy num_proj then
         if state_is_tuple then SizeTuple num_units (default 0 num_proj)
         else SizeInt (num_units + default 0 num_proj)
       else
         if state_is_tuple then SizeTuple num_units num_units
         else SizeInt (num_units + num_units);
     _output_size := if truthy num_proj then default 0 num_proj else num_units;
     __dict__ :=
       let d := <["_linear2" := PyNone]> (<["_linear1" := PyNone]> ∅) in
       let d := if use_peepholes then
           <["_w_o_diag" := PyNone]> (<["_w_i_diag" := PyNone]> (<["_w_f_diag" := PyNone]> d))
         else d in
       let d := <["_ln_o" := PyNone]> (<["_ln_f" := PyNone]>
                  (<["_ln_j" := PyNone]> (<["_ln_i" := PyNone]> d))) in
       let d := if use_peepholes then <["_ln_p2" := PyNone]> (<["_ln_p1" := PyNone]> d)
                else d in
       <["_ln_c" := PyNone]> d |}.

Definition state_size (self : t) := _state_size self.
Definition output_size (self : t) := _output_size self.

(** [RNNCell.zero_state(batch_size, dtype)]. *)
Definition zero_state (self : t) (batch_size : nat) : lstm_state T :=
  _zero_state_tensors (state_size self) batch_size.

Definition set_layer (ly : Layer) (self : t) : t :=
  {| layer := ly; _num_units := _num_units self; _use_peepholes := _use_peepholes self;
     _cell_clip := _cell_clip self; _initializer := _initializer self;
     _num_proj := _num_proj self; _proj_clip := _proj_clip self;
     _forget_bias := _forget_bias self; _state_is_tuple := _state_is_tuple self;
     _activation := _activation self; _state_size := _state_size self;
     _output_size := _output_size self; __dict__ := __dict__ self |}.

Definition set_dict (d : gmap string (attr T Empty_set)) (self : t) : t :=
  {| layer := layer self; _num_units := _num_units self;
     _use_peepholes := _use_peepholes self;
     _cell_clip := _cell_clip self; _initializer := _initializer self;
     _num_proj := _num_proj self; _proj_clip := _proj_clip self;
     _forget_bias := _forget_bias self; _state_is_tuple := _state_is_tuple self;
     _activation := _activation self; _state_size := _state_size self;
     _output_size := _output_size self; __dict__ := d |}.

(** [self.name] and [self.name = a]. *)
Definition self_get := getattr (G:=tf_graph) __dict__.
Definition self_set := setattr (G:=tf_graph) __dict__ set_dict.

Definition unpack_state (self : t) (state : lstm_state T)
    : M (t * tf_graph) (matrix (T:=T) * matrix (T:=T)) :=
  let num_proj := default (_num_units self) (_num_proj self) in
  if _state_is_tuple self then
    match state with
    | LSTMStateTuple c_prev m_prev => mret (c_prev, m_prev)
    | StateTensor _ => raise TypeError
    end
  else
    match state with
    | StateTensor s =>
        mret (slice 0 (_num_units self) s, slice (_num_units self) num_proj s)
    | LSTMStateTuple _ _ => raise ValueError
    end.

(** [if self.name is None: self.name = Layer_Normalization([num_units], scope)]. *)
Definition ensure_norm (self : t) (name scope : string) : M (t * tf_graph) () :=
  ln ← self_get name;
  when (is_None ln) (
    n ← Layer_Normalization.__init__ [_num_units self] scope
           Layer_Normalization.epsilon_default;
    self_set name (PyNorm n)).

(** [self.name(x)]. *)
Definition norm (name : string) (x : matrix) : M (t * tf_graph) (matrix (T:=T)) :=
  ln ← self_get name ≫= as_norm;
  mret (Layer_Normalization.__call__ theta ln x).

Definition call (inputs : matrix) (state : lstm_state T)
    : M (t * tf_graph) (matrix (T:=T) * lstm_state T) :=
  self ← get_self;
  '(c_prev, m_prev) ← unpack_state self state;
  linear1 ← self_get "_linear1";
  when (is_None linear1) (
    scope_initializer (_initializer self) (
      l ← _Linear.__init__ (_Linear.Sequence [inputs; m_prev]) (4 * _num_units self) true;
      self_set "_linear1" (PyLinear l)));;
  linear1 ← self_get "_linear1" ≫= as_linear;
  lstm_matrix ← _Linear.__call__ theta linear1 (_Linear.Sequence [inputs; m_prev]);
  (* i=input_gate, j=new_input, f=forget_gate, o=output_gate *)
  let '(i, j, f, o) := split lstm_matrix in
  ensure_norm self "_ln_i" "i_norm";;
  ensure_norm self "_ln_j" "j_norm";;
  ensure_norm self "_ln_f" "f_norm";;
  ensure_norm self "_ln_o" "o_norm";;
  i ← norm "_ln_i" i;
  j ← norm "_ln_j" j;
  f ← norm "_ln_f" f;
  o ← norm "_ln_o" o;
  (* diagonal connections *)
  create ← (if _use_peepholes self
            then w ← self_get "_w_f_diag"; mret (is_None w) else mret false);
  when create (
    scope_initializer (_initializer self) (
      w_f ← get_variable "w_f_diag" [_num_units self] None;
      self_set "_w_f_diag" (PyVar w_f);;
      w_i ← get_variable "w_i_diag" [_num_units self] None;
      self_set "_w_i_diag" (PyVar w_i);;
      w_o ← get_variable "w_o_diag" [_num_units self] None;
      self_set "_w_o_diag" (PyVar w_o);;
      ensure_norm self "_ln_p1" "p1_norm";;
      ensure_norm self "_ln_p2" "p2_norm"));;
  c ← (if _use_peepholes self then
         w_f ← self_get "_w_f_diag" ≫= as_variable;
         let peep1 := vmul (read_vector theta w_f) c_prev in
         w_i ← self_get "_w_i_diag" ≫= as_variable;
         let peep2 := vmul (read_vector theta w_i) c_prev in
         p1 ← norm "_ln_p1" peep1;
         p2 ← norm "_ln_p2" peep2;
         mret (madd (sigmoid (madd (sadd f (_forget_bias self)) p1))
                    (mmul (sigmoid (madd i p2)) (mmap (_activation self) j)))
       else
         mret (madd (mmul (sigmoid (sadd f (_forget_bias self))) c_prev)
                    (mmul (sigmoid i) (mmap (_activation self) j))));
  ensure_norm self "_ln_c" "c_norm";;
  c ← norm "_ln_c" c;
  m ← (if _use_peepholes self then
         w_o ← self_get "_w_o_diag" ≫= as_variable;
         mret (mmul (sigmoid (madd o (vmul (read_vector theta w_o) c)))
                    (mmap (_activation self) c))
       else mret (mmul (sigmoid o) (mmap (_activation self) c)));
  m ← (match _num_proj self with
       | Some num_proj =>
           linear2 ← self_get "_linear2";
           when (is_None linear2) (
             scope_initializer (_initializer self) (
               variable_scope "projection" (
                 l ← _Linear.__init__ (_Linear.Single m) num_proj false;
                 self_set "_linear2" (PyLinear l))));;
           linear2 ← self_get "_linear2" ≫= as_linear;
           m ← _Linear.__call__ theta linear2 (_Linear.Single m);
           mret (match _proj_clip self with
                 | Some proj_clip => clip_by_value m (fneg proj_clip) proj_clip
                 | None => m
                 end)
       | None => mret m
       end);
  let new_state := if _state_is_tuple self then LSTMStateTuple c m
                   else StateTensor (concat [c; m]) in
  mret (m, new_state).

(** [cell(inputs, state)]. *)
Definition __call__ (inputs : matrix) (state : lstm_state T) :=
  RNNCell.__call__ layer set_layer "ln_lstm_cell" (call inputs state) None.

End Class.
End LN_LSTMCell.

(** ** [orthogonal] and [lstm_ortho_initializer] *)

(** A Python number: a shape entry is an [int]; [shape[1]/4] is a [float],
    the module importing [division] from [__future__]. *)
Inductive pynum := PyInt (z : Z) | PyFloat (q : Q).

Definition to_Q (x : pynum) : Q :=
  match x with PyInt z => inject_Z z | PyFloat q => q end.

(** [x / k] for a non-zero integer literal [k]. *)
Definition true_div (x : pynum) (k : Z) : pynum := PyFloat (to_Q x / inject_Z k).

(** [x * k] for an integer literal [k]. *)
Definition pymul (x : pynum) (k : Z) : pynum :=
  match x with
  | PyInt z => PyInt (z * k)
  | PyFloat q => PyFloat (q * inject_Z k)
  end.

(** [l[i]]. *)
Definition getitem {S A} (l : list A) (i : nat) : M S A :=
  match l !! i with Some x => mret x | None => raise IndexError end.

(** [l * k] on a Python list: repetition by an [int], [TypeError] otherwise. *)
Definition list_mul {S A} (l : list A) (k : pynum) : M S (list A) :=
  match k with
  | PyInt z => mret (mjoin (replicate (Z.to_nat z) l))
  | PyFloat _ => raise TypeError
  end.

(** The members of [numpy] the two functions use, on arrays of type [A]. *)
Module numpy.
Record t (A : Type) := {
  prod : list pynum → pynum;
  zeros : list pynum → A;
  random_normal : Q → Q → list pynum → A;
  linalg_svd : A → A * A * A;
  shape : A → list pynum;
  reshape : A → list pynum → A;
  times : A → pynum → A;
  (* [t[:, lo:hi] = v] *)
  set_columns : A → option pynum → option pynum → A → A
}.
Arguments prod {A}. Arguments zeros {A}. Arguments random_normal {A}.
Arguments linalg_svd {A}. Arguments shape {A}. Arguments reshape {A}.
Arguments times {A}. Arguments set_columns {A}.
End numpy.

Section Initializers.
Context {A : Type}.

(** The global name [np]: the module has no [import numpy as np], nor any
    other binding of the name. *)
Definition np : option (numpy.t A) := None.

(** Looking a global name up. *)
Definition global {S B} (binding : option B) : M S B :=
  match binding with Some b => mret b | None => raise NameError end.

Definition pynum_list_eqb (a b : list pynum) : bool :=
  bool_decide (length a = length b) &&
  forallb (λ p, Qeq_bool (to_Q p.1) (to_Q p.2)) (zip a b).

Definition orthogonal {S} (shape_ : list pynum) : M S A :=
  s0 ← getitem shape_ 0;
  np ← global np;
  let flat_shape := [s0; numpy.prod np (drop 1 shape_)] in
  let a := numpy.random_normal np 0 1 flat_shape in
  let '(u, _, v) := numpy.linalg_svd np a in
  let q := if pynum_list_eqb (numpy.shape np u) flat_shape then u else v in
  mret (numpy.reshape np q shape_).

(** [lstm_ortho_initializer(scale)] returns the function [_initializer]. *)
Definition lstm_ortho_initializer {S} (scale : pynum) : list pynum → M S A :=
  λ shape_,
  size_x ← getitem shape_ 0;
  s1 ← getitem shape_ 1;
  let size_h := true_div s1 4 in
  np ← global np;
  let t := numpy.zeros np shape_ in
  o ← orthogonal [size_x; size_h];
  let t := numpy.set_columns np t None (Some size_h) (numpy.times np o scale) in
  o ← orthogonal [size_x; size_h];
  let t := numpy.set_columns np t (Some size_h) (Some (pymul size_h 2)) (numpy.times np o scale) in
  o ← orthogonal [size_x; size_h];
  let t := numpy.set_columns np t (Some (pymul size_h 2)) (Some (pymul size_h 3))
             (numpy.times np o scale) in
  sh ← list_mul [size_x; size_h] scale;
  o ← orthogonal sh;
  let t := numpy.set_columns np t (Some (pymul size_h 3)) None o in
  mret t.

(** The function as the variable store runs it when a variable is created:
    on the list of integers of the shape, for the exception only. *)
Definition ortho_initializer (scale : pynum) : initializer := λ shape_,
  match lstm_ortho_initializer scale (PyInt ∘ Z.of_nat <$> shape_) () with
  | (inl e, _) => Some e
  | (inr _, _) => None
  end.

End Initializers.

(** ** [_h_linear], [_hyper_norm], [_hyper_bias] *)

Section Hyper.
Context {T : Type} `{!Scalar T}.
Variable theta : list string → nat → nat → T.
Context {Self : Type}.

Definition _h_linear (x : matrix) (output_size : nat) (scope : option string)
    (reuse : bool) (init_w : string) (weight_start : Q) (use_bias : bool)
    (bias_start : Q) (input_size : option nat)
    : M (Self * tf_graph) (matrix (T:=T)) :=
  let shape_ := ncols x in
  variable_scope (default "linear" scope) (
    when reuse reuse_variables;;
    let x_size := match input_size with None => shape_ | Some _ => output_size end in
    let w_init : option initializer :=
      if String.eqb init_w "zeros" then Some (λ _, None)
      else if String.eqb init_w "constant" then Some (λ _, None)
      else if String.eqb init_w "gaussian" then Some (λ _, None)
      else if String.eqb init_w "ortho" then Some (ortho_initializer (A:=()) (PyFloat 1))
      else None in
    w ← get_variable "super_linear_w" [x_size; output_size] w_init;
    if use_bias then
      b ← get_variable "super_linear_b" [output_size] (Some (λ _, None));
      mret (bias_add (matmul_var theta x w) (read_vector theta b))
    else mret (matmul_var theta x w)).

Definition _hyper_norm (layer_ : matrix) (hyper_output : matrix)
    (embedding_size num_units : nat) (scope : string)
    : M (Self * tf_graph) (matrix (T:=T)) :=
  let init_gamma := (1 # 10)%Q in
  variable_scope scope (
    zw ← _h_linear hyper_output embedding_size (Some "zw") false "constant" 0 true 1 None;
    weight_start ← (if decide (embedding_size = 0) then raise ZeroDivisionError
                    else mret (init_gamma / inject_Z (Z.of_nat embedding_size))%Q);
    alpha ← _h_linear zw num_units (Some "alpha") false "constant" weight_start false 0 None;
    mret (mmul alpha layer_)).

Definition _hyper_bias (layer_ : vector) (hyper_output : matrix)
    (embedding_size num_units : nat) (scope : string)
    : M (Self * tf_graph) (matrix (T:=T)) :=
  beta ← variable_scope scope (
    zb ← _h_linear hyper_output embedding_size (Some "zb") false "gaussian" (1 # 100) false 0
           None;
    _h_linear zb num_units (Some "beta") false "constant" 0 false 0 None);
  mret (vadd layer_ beta).

End Hyper.

(** ** [class H_LSTMCell(RNNCell)] *)

Module H_LSTMCell.
Section Class.
Context {T : Type} `{!Scalar T}.
Variable theta : list string → nat → nat → T.

Record t := {
  layer : Layer;
  _num_units : nat;
  _use_peepholes : bool;
  _cell_clip : option T;
  _initializer : option initializer;
  _num_proj : option nat;
  _proj_clip : option T;
  _forget_bias : T;
  _activation : T → T;
  _hyper_num_units : nat;
  _hyper_embed_size : nat;
  _state_size : state_size;
  _output_size : nat;
  __dict__ : gmap string (attr T (LSTMCell.t (T:=T)))
}.

Definition __init__ (num_units : nat) (use_peepholes : bool) (cell_clip : option T)
    (initializer : option initializer) (num_proj : option nat) (proj_clip : option T)
    (forget_bias : T) (activation : option (T → T)) (reuse : option bool)
    (hyper_num_units hyper_embed_size : nat) : t :=
  {| layer := new_layer reuse;
     _num_units := num_units;
     _use_peepholes := use_peepholes;
     _cell_clip := cell_clip;
     _initializer := initializer;
     _num_proj := num_proj;
     _proj_clip := proj_clip;
     _forget_bias := forget_bias;
     _activation := default ftanh activation;
     _hyper_num_units := hyper_num_units;
     _hyper_embed_size := hyper_embed_size;
     _state_size :=
       if truthy num_proj then
         SizeTuple (num_units + hyper_num_units) (default 0 num_proj + hyper_num_units)
       else
         SizeTuple (num_units + hyper_num_units) (num_units + hyper_num_units);
     _output_size := if truthy num_proj then default 0 num_proj else num_units;
     __dict__ :=
       let d : gmap string (attr T (LSTMCell.t (T:=T))) :=
         if use_peepholes then
           <["_w_o_diag" := PyNone]> (<["_w_i_diag" := PyNone]> (<["_w_f_diag" := PyNone]> ∅))
         else ∅ in
       let d := <["_ln_o" := PyNone]> (<["_ln_f" := PyNone]>
                  (<["_ln_j" := PyNone]> (<["_ln_i" := PyNone]> d))) in
       let d := if use_peepholes then <["_ln_p2" := PyNone]> (<["_ln_p1" := PyNone]> d)
                else d in
       <["_hyper_cell" := PyNone]> (<["_ln_c" := PyNone]> d) |}.

Definition state_size (self : t) := _state_size self.
Definition output_size (self : t) := _output_size self.

(** [RNNCell.zero_state(batch_size, dtype)]. *)
Definition zero_state (self : t) (batch_size : nat) : lstm_state T :=
  _zero_state_tensors (state_size self) batch_size.

Definition set_layer (ly : Layer) (self : t) : t :=
  {| layer := ly; _num_units := _num_units self; _use_peepholes := _use_peepholes self;
     _cell_clip := _cell_clip self; _initializer := _initializer self;
     _num_proj := _num_proj self; _proj_clip := _proj_clip self;
     _forget_bias := _forget_bias self; _activation := _activation self;
     _hyper_num_units := _hyper_num_units self;
     _hyper_embed_size := _hyper_embed_size self; _state_size := _state_size self;
     _output_size := _output_size self; __dict__ := __dict__ self |}.

Definition set_dict (d : gmap string (attr T (LSTMCell.t (T:=T)))) (self : t) : t :=
  {| layer := layer self; _num_units := _num_units self;
     _use_peepholes := _use_peepholes self;
     _cell_clip := _cell_clip self; _initializer := _initializer self;
     _num_proj := _num_proj self; _proj_clip := _proj_clip self;
     _forget_bias := _forget_bias self; _activation := _activation self;
     _hyper_num_units := _hyper_num_units self;
     _hyper_embed_size := _hyper_embed_size self; _state_size := _state_size self;
     _output_size := _output_size self; __dict__ := d |}.

(** [self.name] and [self.name = a]. *)
Definition self_get := getattr (G:=tf_graph) __dict__.
Definition self_set := setattr (G:=tf_graph) __dict__ set_dict.

(** [if self.name is None: self.name = Layer_Normalization([num_units], scope)]. *)
Definition ensure_norm (self : t) (name scope : string) : M (t * tf_graph) () :=
  ln ← self_get name;
  when (is_None ln) (
    n ← Layer_Normalization.__init__ [_num_units self] scope
           Layer_Normalization.epsilon_default;
    self_set name (PyNorm n)).

(** [self.name(x)]. *)
Definition norm (name : string) (x : matrix) : M (t * tf_graph) (matrix (T:=T)) :=
  ln ← self_get name ≫= as_norm;
  mret (Layer_Normalization.__call__ theta ln x).

(** [self._hyper_cell(x, state)]: the cell object held by the attribute is
    invoked, and is the same object afterwards. *)
Definition invoke (cell : LSTMCell.t) (x : matrix) (state : lstm_state T)
    : M (t * tf_graph) (matrix (T:=T) * lstm_state T) := λ '(self, g),
  let '(r, (cell', g')) := LSTMCell.__call__ theta x state (cell, g) in
  (r, (set_dict (<["_hyper_cell" := PyCell cell']> (__dict__ self)) self, g')).

Definition hyper_cell (x : matrix) (state : lstm_state T)
    : M (t * tf_graph) (matrix (T:=T) * lstm_state T) :=
  cell ← self_get "_hyper_cell" ≫= as_cell;
  invoke cell x state.

(** The statements of [call] up to the gate pre-activations [i, j, f, o]. *)
Definition gates (self : t) (inputs : matrix) (m_prev : matrix)
    (hyper_state : lstm_state T)
    : M (t * tf_graph)
        (matrix (T:=T) * matrix (T:=T) * matrix (T:=T) * matrix (T:=T) * lstm_state T) :=
  let w_init : option initializer := None in
  let h_init := ortho_initializer (A:=()) (PyFloat 1) in
  let input_size := ncols inputs in
  let x_hat := concat [inputs; m_prev] in
  cell ← self_get "_hyper_cell";
  when (is_None cell) (
    variable_scope "hyper_lstm" (
      self_set "_hyper_cell" (PyCell (LSTMCell.new (_hyper_num_units self)))));;
  '(h_out, new_hyper_state) ← hyper_cell x_hat hyper_state;
  W_xh ← get_variable "W_xh" [input_size; _num_units self * 4] w_init;
  W_hh ← get_variable "W_hh" [input_size; _num_units self * 4] w_init;
  bias ← get_variable "W_bias" [_num_units self * 4] (Some (λ _, None));
  let xh := matmul_var theta inputs W_xh in
  let hh := matmul_var theta inputs W_hh in
  let e := _hyper_embed_size self in
  let n := _num_units self in
  let '(ix, jx, fx, ox) := split xh in
  ix ← _hyper_norm theta ix h_out e n "hyper_ix";
  jx ← _hyper_norm theta jx h_out e n "hyper_jx";
  fx ← _hyper_norm theta fx h_out e n "hyper_fx";
  ox ← _hyper_norm theta ox h_out e n "hyper_ox";
  let '(ih, jh, fh, oh) := split hh in
  ih ← _hyper_norm theta ih h_out e n "hyper_ih";
  jh ← _hyper_norm theta jh h_out e n "hyper_jh";
  fh ← _hyper_norm theta fh h_out e n "hyper_fh";
  oh ← _hyper_norm theta oh h_out e n "hyper_oh";
  let '(ib, jb, fb, ob) := split_vector (read_vector theta bias) in
  ib ← _hyper_bias theta ib h_out e n "hyper_ib";
  jb ← _hyper_bias theta jb h_out e n "hyper_jb";
  fb ← _hyper_bias theta fb h_out e n "hyper_fb";
  ob ← _hyper_bias theta ob h_out e n "hyper_ob";
  let i := madd (madd ix ih) ib in
  let j := madd (madd jx jh) jb in
  let f := madd (madd fx fh) fb in
  let o := madd (madd ox oh) ob in
  (* print(i) *)
  mret (i, j, f, o, new_hyper_state).

(** The statements of [call] up to the projection: the new cell state, the
    output before the projection and the new state of the auxiliary cell. *)
Definition recurrence (self : t) (inputs : matrix) (state : lstm_state T)
    : M (t * tf_graph) (matrix (T:=T) * matrix (T:=T) * lstm_state T) :=
  '(c_t, m_t) ← match state with
                | LSTMStateTuple c_t m_t => mret (c_t, m_t)
                | StateTensor _ => raise TypeError
                end;
  let c_prev := slice 0 (_num_units self) c_t in
  let m_prev := slice 0 (_num_units self) m_t in
  let hyper_state := LSTMStateTuple (slice_from (_num_units self) c_t)
                                    (slice_from (_num_units self) m_t) in
  '(i, j, f, o, new_hyper_state) ← gates self inputs m_prev hyper_state;
  ensure_norm self "_ln_i" "i_norm";;
  ensure_norm self "_ln_j" "j_norm";;
  ensure_norm self "_ln_f" "f_norm";;
  ensure_norm self "_ln_o" "o_norm";;
  i ← norm "_ln_i" i;
  j ← norm "_ln_j" j;
  f ← norm "_ln_f" f;
  o ← norm "_ln_o" o;
  create ← (if _use_peepholes self
            then w ← self_get "_w_f_diag"; mret (is_None w) else mret false);
  when create (
    scope_initializer (_initializer self) (
      w_f ← get_variable "w_f_diag" [_num_units self] None;
      self_set "_w_f_diag" (PyVar w_f);;
      w_i ← get_variable "w_i_diag" [_num_units self] None;
      self_set "_w_i_diag" (PyVar w_i);;
      w_o ← get_variable "w_o_diag" [_num_units self] None;
      self_set "_w_o_diag" (PyVar w_o);;
      ensure_norm self "_ln_p1" "p1_norm";;
      ensure_norm self "_ln_p2" "p2_norm"));;
  c ← (if _use_peepholes self then
         w_f ← self_get "_w_f_diag" ≫= as_variable;
         let peep1 := vmul (read_vector theta w_f) c_prev in
         w_i ← self_get "_w_i_diag" ≫= as_variable;
         let peep2 := vmul (read_vector theta w_i) c_prev in
         p1 ← norm "_ln_p1" peep1;
         p2 ← norm "_ln_p2" peep2;
         mret (madd (sigmoid (madd (sadd f (_forget_bias self)) p1))
                    (mmul (sigmoid (madd i p2)) (mmap (_activation self) j)))
       else
         mret (madd (mmul (sigmoid (sadd f (_forget_bias self))) c_prev)
                    (mmul (sigmoid i) (mmap (_activation self) j))));
  ensure_norm self "_ln_c" "c_norm";;
  c ← norm "_ln_c" c;
  m ← (if _use_peepholes self then
         w_o ← self_get "_w_o_diag" ≫= as_variable;
         mret (mmul (sigmoid (madd o (vmul (read_vector theta w_o) c)))
                    (mmap (_activation self) c))
       else mret (mmul (sigmoid o) (mmap (_activation self) c)));
  mret (c, m, new_hyper_state).

Definition call (inputs : matrix) (state : lstm_state T)
    : M (t * tf_graph) (matrix (T:=T) * lstm_state T) :=
  self ← get_self;
  '(c, m, new_hyper_state) ← recurrence self inputs state;
  m ← (match _num_proj self with
       | Some num_proj =>
           linear ← self_get "_linear";
           when (is_None linear) (
             (* [vs.get_variable_scope(scope)]: the function takes no argument *)
             raise TypeError);;
           linear2 ← self_get "_linear2" ≫= as_linear;
           m ← _Linear.__call__ theta linear2 (_Linear.Single m);
           mret (match _proj_clip self with
                 | Some proj_clip => clip_by_value m (fneg proj_clip) proj_clip
                 | None => m
                 end)
       | None => mret m
       end);
  '(hyper_c, hyper_h) ← match new_hyper_state with
                         | LSTMStateTuple hyper_c hyper_h => mret (hyper_c, hyper_h)
                         | StateTensor _ => raise TypeError
                         end;
  let new_state := LSTMStateTuple (concat [c; hyper_c]) (concat [m; hyper_h]) in
  mret (m, new_state).

(** [cell(inputs, state)]. *)
Definition __call__ (inputs : matrix) (state : lstm_state T) :=
  RNNCell.__call__ layer set_layer "h_lstm_cell" (call inputs state) None.

End Class.
End H_LSTMCell.

(** * Specification-side definitions *)

Section Specification.
Context {T : Type} `{!Scalar T}.
Variable theta : list string → nat → nat → T.

(** The linear map [sum_i(args[i] * W[i])] of a [_Linear] object, with its
    bias when it has one. *)
Definition linear_map (lin : _Linear.t) (args : list (matrix (T:=T))) : matrix :=
  let res := matmul_var theta (concat args) (_Linear._weights lin) in
  if _Linear._build_bias lin then
    match _Linear._biases lin with
    | Some b => bias_add res (read_vector theta b)
    | None => res
    end
  else res.

(** Clipping to [[-bound, bound]] when a bound is given. *)
Definition clipped (bound : option T) (m : matrix) : matrix :=
  match bound with
  | Some b => clip_by_value m (fneg b) b
  | None => m
  end.

(** The state a cell with [state_is_tuple] returns. *)
Definition packed (state_is_tuple : bool) (c m : matrix) : lstm_state T :=
  if state_is_tuple then LSTMStateTuple c m else StateTensor (concat [c; m]).

End Specification.

(** Whether a run has returned a value, and not raised. *)
Definition returns {S A} (r : (exn + A) * S) : bool :=
  match r.1 with inr _ => true | inl _ => false end.

(** ** Invariants of the state monad *)

(** [preserves I m Q]: from a state satisfying [I], [m] ends in a state
    satisfying [I], whether it returns or raises, and a returned value
    satisfies [Q]. *)
Definition preserves {S A} (I : S → Prop) (m : M S A) (Q : A → Prop) : Prop :=
  ∀ s, I s → match m s with
             | (inr a, s') => I s' ∧ Q a
             | (inl _, s') => I s'
             end.

(** The invariant of a run inside a variable scope that reuses variables:
    the object satisfies [P], the variable store is [vars] and the reuse
    flag of the current scope is set. *)
Definition reusing {Self} (P : Self → Prop) (vars : gmap (list string) (list nat))
    : Self * tf_graph → Prop :=
  λ s, P s.1 ∧ g_vars s.2 = vars ∧ g_reuse s.2 = true.

(** An invariant of the pair of an object and the graph that does not look
    at the graph. *)
Definition on_self {Self} (P : Self → Prop) : Self * tf_graph → Prop := λ s, P s.1.

(** An invariant of the object and of the variables created so far that
    goes on holding when more variables are created: [P] holds of the object
    with every store that contains the store of the graph. *)
Definition storing {Self} (P : Self → gmap (list string) (list nat) → Prop)
    : Self * tf_graph → Prop :=
  λ s, ∀ vars, g_vars s.2 ⊆ vars → P s.1 vars.

(** A linear map whose output has [out] columns. *)
Definition linear_ok (out : nat) (lin : _Linear.t) : Prop :=
  out_dim (_Linear._weights lin) = out ∧
  ∀ b, _Linear._biases lin = Some b → v_shape b = [out].

(** A normalisation over [dim] with the constructor's default epsilon. *)
Definition norm_ok {T} `{!Scalar T} (dim : list nat) (ln : Layer_Normalization.t (T:=T)) : Prop :=
  Layer_Normalization._epsilon ln = Layer_Normalization.epsilon_default ∧
  v_shape (Layer_Normalization._g ln) = dim ∧
  v_shape (Layer_Normalization._b ln) = dim.

(** ** The equations of one step of [LSTMCell] *)

Section LSTMEquations.
Context {T : Type} `{!Scalar T}.
Variable theta : list string → nat → nat → T.

(** [self] is the cell when [call] is entered and [self'] the cell when it
    returns: the cell state [c] and the output [m0] before the projection,
    from the previous cell state [c_prev] and the previous output [m_prev]. *)
Definition lstm_gates (self self' : LSTMCell.t (T:=T)) (inputs c_prev m_prev : matrix)
    (c m0 : matrix) : Prop :=
  ∃ lin, LSTMCell.__dict__ self' !! "_linear1" = Some (PyLinear lin) ∧
  let '(i, j, f, o) := split (linear_map theta lin [inputs; m_prev]) in
  let act := mmap (LSTMCell._activation self) in
  let forget_bias := LSTMCell._forget_bias self in
  if LSTMCell._use_peepholes self then
    ∃ w_f w_i w_o,
      LSTMCell.__dict__ self' !! "_w_f_diag" = Some (PyVar w_f) ∧
      LSTMCell.__dict__ self' !! "_w_i_diag" = Some (PyVar w_i) ∧
      LSTMCell.__dict__ self' !! "_w_o_diag" = Some (PyVar w_o) ∧
      c = clipped (LSTMCell._cell_clip self)
            (madd (mmul (sigmoid (madd (sadd f forget_bias)
                                       (vmul (read_vector theta w_f) c_prev))) c_prev)
                  (mmul (sigmoid (madd i (vmul (read_vector theta w_i) c_prev))) (act j))) ∧
      m0 = mmul (sigmoid (madd o (vmul (read_vector theta w_o) c))) (act c)
  else
    c = clipped (LSTMCell._cell_clip self)
          (madd (mmul (sigmoid (sadd f forget_bias)) c_prev) (mmul (sigmoid i) (act j))) ∧
    m0 = mmul (sigmoid o) (act c).

(** The output [m] and the new state a call returns. *)
Definition lstm_equations (self self' : LSTMCell.t (T:=T)) (inputs c_prev m_prev : matrix)
    (m : matrix) (new_state : lstm_state T) : Prop :=
  ∃ c m0,
    lstm_gates self self' inputs c_prev m_prev c m0 ∧
    new_state = packed (LSTMCell._state_is_tuple self) c m ∧
    match LSTMCell._num_proj self with
    | None => m = m0
    | Some _ =>
        ∃ lin2, LSTMCell.__dict__ self' !! "_linear2" = Some (PyLinear lin2) ∧
                m = clipped (LSTMCell._proj_clip self) (linear_map theta lin2 [m0])
    end.

End LSTMEquations.

(** ** The real numbers as scalars *)

(** Exact arithmetic, for the examples and for what holds of the exact
    operations: the floats of the tensors round, and their sigmoid and tanh
    reach 0, 1 and -1. *)

Definition Rsigmoid (x : R) : R := (1 / (1 + exp (- x)))%R.

Global Instance R_scalar : Scalar R := {|
  flit := Q2R;
  fnat := INR;
  fadd := Rplus;
  fsub := Rminus;
  fmul := Rmult;
  fdiv := Rdiv;
  fneg := Ropp;
  fsqrt := sqrt;
  fsigmoid := Rsigmoid;
  ftanh := Rtrigo_def.tanh;
  fminimum := Rmin;
  fmaximum := Rmax
|}.

(** The sum of a list of real numbers. *)
Definition Rsum (r : list R) : R := foldr Rplus 0%R r.

(** ** Concrete graphs, cells and inputs *)

(** A graph without variables, at the root scope. *)
Definition empty_graph : tf_graph :=
  {| g_vars := ∅; g_scope := []; g_reuse := false; g_initializer := None |}.

Section Examples.
Context {T : Type} `{!Scalar T}.

(** Every variable holds zero. *)
Definition zero_weights : list string → nat → nat → T := λ _ _ _, flit 0.
(** Every variable holds one. *)
Definition unit_weights : list string → nat → nat → T := λ _ _ _, flit 1.

(** One unit, one input feature, batch size one. *)
Definition x0 : matrix (T:=T) := [[flit 0]].
Definition state10 : lstm_state T := LSTMStateTuple [[flit 1]] [[flit 0]].

(** [LSTMCell(1, cell_clip=0.25)]. *)
Definition clipping_cell : LSTMCell.t (T:=T) :=
  LSTMCell.__init__ 1 false (Some (flit (1 # 4))) None None None None None (flit 1) true
    None None.

(** [LSTMCell(1, num_proj=1, proj_clip=0.5)]. *)
Definition projecting_cell : LSTMCell.t (T:=T) :=
  LSTMCell.__init__ 1 false None None (Some 1) (Some (flit (1 # 2))) None None (flit 1) true
    None None.

(** [LN_LSTMCell(2)] and [LN_LSTMCell(2, use_peepholes=True)]. *)
Definition ln_cell : LN_LSTMCell.t (T:=T) :=
  LN_LSTMCell.__init__ 2 false None None None None (flit 1) true None None.
Definition ln_peephole_cell : LN_LSTMCell.t (T:=T) :=
  LN_LSTMCell.__init__ 2 true None None None None (flit 1) true None None.

(** A state of two units, all zero. *)
Definition state20 : lstm_state T :=
  LSTMStateTuple [[flit 0; flit 0]] [[flit 0; flit 0]].

(** [LSTMCell(5, num_proj=0)]. *)
Definition degenerate_cell : LSTMCell.t (T:=T) :=
  LSTMCell.__init__ 5 false None None (Some 0) None None None (flit 1) true None None.

(** [LSTMCell(1, use_peepholes=True)] and
    [H_LSTMCell(1, use_peepholes=True, hyper_num_units=1, hyper_embed_size=1)]. *)
Definition peephole_cell : LSTMCell.t (T:=T) :=
  LSTMCell.__init__ 1 true None None None None None None (flit 1) true None None.
Definition h_peephole_cell : H_LSTMCell.t (T:=T) :=
  H_LSTMCell.__init__ 1 true None None None None (flit 1) None None 1 1.

(** [LSTMCell(1, initializer=lstm_ortho_initializer(1.0))]. *)
Definition ortho_cell : LSTMCell.t (T:=T) :=
  LSTMCell.__init__ 1 false None (Some (ortho_initializer (A:=()) (PyFloat 1))) None None
    None None (flit 1) true None None.

(** [LSTMCell(1, state_is_tuple=False)]. *)
Definition concat_state_cell : LSTMCell.t (T:=T) :=
  LSTMCell.__init__ 1 false None None None None None None (flit 1) false None None.

(** [H_LSTMCell(1, hyper_num_units=1, hyper_embed_size=1)], and the same
    cell with [num_proj=1]; their state has two columns, one of the main
    cell and one of the auxiliary cell. *)
Definition h_cell : H_LSTMCell.t (T:=T) :=
  H_LSTMCell.__init__ 1 false None None None None (flit 1) None None 1 1.
Definition h_projecting_cell : H_LSTMCell.t (T:=T) :=
  H_LSTMCell.__init__ 1 false None None (Some 1) None (flit 1) None None 1 1.

End Examples.

(** What an attribute may hold in a cell of [n] units: a linear map to
    [4 * n] columns in [_linear1], a linear map without bias to [num_proj]
    columns in [_linear2], a normalisation over [n] features, a diagonal of
    length [n], an inner cell satisfying [cell_ok]. *)
Definition attr_ok {T C} `{!Scalar T} (cell_ok : C → Prop) (n : nat) (num_proj : option nat)
    (name : string) (a : attr T C) : Prop :=
  match a with
  | PyNone => True
  | PyLinear lin =>
      (name = "_linear1" → linear_ok (4 * n) lin) ∧
      (name = "_linear2" →
         _Linear._build_bias lin = false ∧ ∃ p, num_proj = Some p ∧ linear_ok p lin)
  | PyNorm ln => norm_ok [n] ln
  | PyVar v => v_shape v = [n]
  | PyCell c => cell_ok c
  end.

(** ** Well-formed cells

    What [call] leaves in the attributes of a cell: a linear map, a
    normalisation or a diagonal of the shape the cell's configuration asks
    for.  The configuration is the object without the attributes [call]
    assigns. *)

Section LSTMInvariant.
Context {T : Type} `{!Scalar T}.

Definition LSTMCell_config (self : LSTMCell.t (T:=T)) : LSTMCell.t :=
  LSTMCell.set_dict ∅ (LSTMCell.set_layer (new_layer None) self).

Definition LSTMCell_wf (self : LSTMCell.t (T:=T)) : Prop :=
  map_Forall (attr_ok (λ _, True) (LSTMCell._num_units self) (LSTMCell._num_proj self))
    (LSTMCell.__dict__ self).

(** A well-formed cell with the configuration of [self0]. *)
Definition LSTMCell_inv (self0 x : LSTMCell.t (T:=T)) : Prop :=
  LSTMCell_config x = LSTMCell_config self0 ∧ LSTMCell_wf x.

End LSTMInvariant.

(** ** The equations of one step of [LN_LSTMCell] *)

Section LNEquations.
Context {T : Type} `{!Scalar T}.
Variable theta : list string → nat → nat → T.

(** Layer normalisation of one row, as the paper writes it: the entries
    minus their mean, over the square root of their variance plus epsilon,
    times the gain, plus the bias. *)
Definition normalized (epsilon : T) (r : vector) : vector :=
  let mean := fdiv (foldr fadd (flit 0) r) (fnat (length r)) in
  let variance :=
    fdiv (foldr fadd (flit 0) (map (λ x, fmul (fsub x mean) (fsub x mean)) r))
         (fnat (length r)) in
  map (λ x, fdiv (fsub x mean) (fsqrt (fadd variance epsilon))) r.

Definition layer_norm (ln : Layer_Normalization.t (T:=T)) (x : matrix) : matrix :=
  map (λ r, zip_with fadd
              (zip_with fmul (normalized (Layer_Normalization._epsilon ln) r)
                 (read_vector theta (Layer_Normalization._g ln)))
              (read_vector theta (Layer_Normalization._b ln))) x.

(** The normalised gate pre-activations [i, j, f, o] of a call, from the
    normalisations held by [self'] when the call returns. *)
Definition ln_preactivations (self' : LN_LSTMCell.t (T:=T)) (inputs m_prev : matrix)
    (i j f o : matrix) : Prop :=
  ∃ lin ln_i ln_j ln_f ln_o,
    LN_LSTMCell.__dict__ self' !! "_linear1" = Some (PyLinear lin) ∧
    LN_LSTMCell.__dict__ self' !! "_ln_i" = Some (PyNorm ln_i) ∧
    LN_LSTMCell.__dict__ self' !! "_ln_j" = Some (PyNorm ln_j) ∧
    LN_LSTMCell.__dict__ self' !! "_ln_f" = Some (PyNorm ln_f) ∧
    LN_LSTMCell.__dict__ self' !! "_ln_o" = Some (PyNorm ln_o) ∧
    let '(i0, j0, f0, o0) := split (linear_map theta lin [inputs; m_prev]) in
    i = layer_norm ln_i i0 ∧ j = layer_norm ln_j j0 ∧
    f = layer_norm ln_f f0 ∧ o = layer_norm ln_o o0.

(** The cell state [c] and the output [m0] before the projection, from the
    normalised pre-activations; [d] holds the attributes of the cell when
    the call returns. *)
Definition norm_gates {C} (d : gmap string (attr T C)) (use_peepholes : bool)
    (forget_bias : T) (activation : T → T) (c_prev : matrix)
    (i j f o : matrix) (c m0 : matrix) : Prop :=
  ∃ ln_c, d !! "_ln_c" = Some (PyNorm ln_c) ∧
  let act := mmap activation in
  if use_peepholes then
    ∃ w_f w_i w_o ln_p1 ln_p2,
      d !! "_w_f_diag" = Some (PyVar w_f) ∧
      d !! "_w_i_diag" = Some (PyVar w_i) ∧
      d !! "_w_o_diag" = Some (PyVar w_o) ∧
      d !! "_ln_p1" = Some (PyNorm ln_p1) ∧
      d !! "_ln_p2" = Some (PyNorm ln_p2) ∧
      c = layer_norm ln_c
            (madd (sigmoid (madd (sadd f forget_bias)
                                 (layer_norm ln_p1 (vmul (read_vector theta w_f) c_prev))))
                  (mmul (sigmoid (madd i (layer_norm ln_p2
                                            (vmul (read_vector theta w_i) c_prev))))
                        (act j))) ∧
      m0 = mmul (sigmoid (madd o (vmul (read_vector theta w_o) c))) (act c)
  else
    c = layer_norm ln_c
          (madd (mmul (sigmoid (sadd f forget_bias)) c_prev) (mmul (sigmoid i) (act j))) ∧
    m0 = mmul (sigmoid o) (act c).

Definition ln_gates (self self' : LN_LSTMCell.t (T:=T)) (c_prev : matrix)
    (i j f o : matrix) (c m0 : matrix) : Prop :=
  norm_gates (LN_LSTMCell.__dict__ self') (LN_LSTMCell._use_peepholes self)
    (LN_LSTMCell._forget_bias self) (LN_LSTMCell._activation self) c_prev i j f o c m0.

Definition ln_equations (self self' : LN_LSTMCell.t (T:=T)) (inputs c_prev m_prev : matrix)
    (m : matrix) (new_state : lstm_state T) : Prop :=
  ∃ i j f o c m0,
    ln_preactivations self' inputs m_prev i j f o ∧
    ln_gates self self' c_prev i j f o c m0 ∧
    new_state = packed (LN_LSTMCell._state_is_tuple self) c m ∧
    match LN_LSTMCell._num_proj self with
    | None => m = m0
    | Some _ =>
        ∃ lin2, LN_LSTMCell.__dict__ self' !! "_linear2" = Some (PyLinear lin2) ∧
                m = clipped (LN_LSTMCell._proj_clip self) (linear_map theta lin2 [m0])
    end.

Definition LN_LSTMCell_config (self : LN_LSTMCell.t (T:=T)) : LN_LSTMCell.t :=
  LN_LSTMCell.set_dict ∅ (LN_LSTMCell.set_layer (new_layer None) self).

Definition LN_LSTMCell_wf (self : LN_LSTMCell.t (T:=T)) : Prop :=
  map_Forall (attr_ok (λ _, True) (LN_LSTMCell._num_units self) (LN_LSTMCell._num_proj self))
    (LN_LSTMCell.__dict__ self).

Definition LN_LSTMCell_inv (self0 x : LN_LSTMCell.t (T:=T)) : Prop :=
  LN_LSTMCell_config x = LN_LSTMCell_config self0 ∧ LN_LSTMCell_wf x.

(** The variables of a normalisation that [Layer_Normalization(dim, scope)]
    has built: [gain] and [bias] in the variable scope [scope], opened in
    some scope [path], both held by the store [vars] with their shapes. *)
Definition norm_stored (vars : gmap (list string) (list nat)) (scope : string)
    (ln : Layer_Normalization.t (T:=T)) : Prop :=
  ∃ path,
    v_name (Layer_Normalization._g ln) = "gain" :: scope :: path ∧
    v_name (Layer_Normalization._b ln) = "bias" :: scope :: path ∧
    vars !! v_name (Layer_Normalization._g ln) = Some (v_shape (Layer_Normalization._g ln)) ∧
    vars !! v_name (Layer_Normalization._b ln) = Some (v_shape (Layer_Normalization._b ln)).

(** The attributes of [LN_LSTMCell] that hold a normalisation, each with
    the scope that [call] builds it in. *)
Definition LN_norm_scopes : list (string * string) :=
  [("_ln_i", "i_norm"); ("_ln_j", "j_norm"); ("_ln_f", "f_norm"); ("_ln_o", "o_norm");
   ("_ln_p1", "p1_norm"); ("_ln_p2", "p2_norm"); ("_ln_c", "c_norm")].

(** Every normalisation that the cell holds has been built in the scope
    of its attribute, and its variables are in the store [vars]. *)
Definition LN_norms_in (self : LN_LSTMCell.t (T:=T))
    (vars : gmap (list string) (list nat)) : Prop :=
  ∀ name scope ln,
    (name, scope) ∈ LN_norm_scopes →
    LN_LSTMCell.__dict__ self !! name = Some (PyNorm ln) →
    norm_stored vars scope ln.

(** The same of a cell and the store of the graph. *)
Definition LN_norms_stored (s : LN_LSTMCell.t (T:=T) * tf_graph) : Prop :=
  LN_norms_in s.1 (g_vars s.2).

End LNEquations.

(** ** The hyper-network terms of [H_LSTMCell] *)

Section HyperEquations.
Context {T : Type} `{!Scalar T}.
Variable theta : list string → nat → nat → T.

(** The value of [_h_linear(x, out)] in the variable scope [path]. *)
Definition h_linear_value (path : list string) (x : matrix) (out : nat)
    (use_bias : bool) : matrix :=
  let w := {| v_name := "super_linear_w" :: path; v_shape := [ncols x; out] |} in
  if use_bias then
    bias_add (matmul_var theta x w)
      (read_vector theta {| v_name := "super_linear_b" :: path; v_shape := [out] |})
  else matmul_var theta x w.

(** The factor [alpha] by which the scope [path] scales a gate term, and the
    shift [beta] it adds to a bias term: functions of the output [h_out] of
    the auxiliary cell. *)
Definition hyper_scale (path : list string) (e n : nat) (h_out : matrix) : matrix :=
  h_linear_value ("alpha" :: path) (h_linear_value ("zw" :: path) h_out e true) n false.

Definition hyper_shift (path : list string) (e n : nat) (h_out : matrix) : matrix :=
  h_linear_value ("beta" :: path) (h_linear_value ("zb" :: path) h_out e false) n false.

(** The gate pre-activations [i, j, f, o] of a cell of [n] units in the
    scope [path]: the four column blocks of the input term [xh] and of the
    hidden term [hh], each scaled by the factor of its own scope, plus the
    four blocks of the bias, each shifted by the term of its own scope. *)
Definition hyper_combine (path : list string) (n e : nat) (xh hh : matrix)
    (bias : vector) (h_out : matrix) : matrix * matrix * matrix * matrix :=
  let '(ix, jx, fx, ox) := split xh in
  let '(ih, jh, fh, oh) := split hh in
  let '(ib, jb, fb, ob) := split_vector bias in
  let scaled name layer_ := mmul (hyper_scale (name :: path) e n h_out) layer_ in
  let shifted name layer_ := vadd layer_ (hyper_shift (name :: path) e n h_out) in
  (madd (madd (scaled "hyper_ix" ix) (scaled "hyper_ih" ih)) (shifted "hyper_ib" ib),
   madd (madd (scaled "hyper_jx" jx) (scaled "hyper_jh" jh)) (shifted "hyper_jb" jb),
   madd (madd (scaled "hyper_fx" fx) (scaled "hyper_fh" fh)) (shifted "hyper_fb" fb),
   madd (madd (scaled "hyper_ox" ox) (scaled "hyper_oh" oh)) (shifted "hyper_ob" ob)).

(** The variables [W_xh], [W_hh] and [W_bias] of a cell of [n] units in the
    scope [path], for inputs of [input_size] columns. *)
Definition W_xh (path : list string) (input_size n : nat) : variable :=
  {| v_name := "W_xh" :: path; v_shape := [input_size; n * 4] |}.
Definition W_hh (path : list string) (input_size n : nat) : variable :=
  {| v_name := "W_hh" :: path; v_shape := [input_size; n * 4] |}.
Definition W_bias (path : list string) (n : nat) : variable :=
  {| v_name := "W_bias" :: path; v_shape := [n * 4] |}.

End HyperEquations.

(** ** The equations of one step of [H_LSTMCell] *)

Section HEquations.
Context {T : Type} `{!Scalar T}.
Variable theta : list string → nat → nat → T.

(** [self] is the cell when [call] is entered and [self'] the cell when it
    returns; [c_t] and [m_t] are the two tensors of the state.  The first
    [num_units] columns of each are the state of the main cell, the others
    the state of the auxiliary cell; the pre-activations of [gates] are
    normalised gate by gate and enter the equations of [norm_gates]. *)
Definition h_equations (self self' : H_LSTMCell.t (T:=T)) g (inputs c_t m_t : matrix)
    (c m0 : matrix) (new_hyper_state : lstm_state T) : Prop :=
  let n := H_LSTMCell._num_units self in
  let c_prev := slice 0 n c_t in
  let m_prev := slice 0 n m_t in
  let hyper_state := LSTMStateTuple (slice_from n c_t) (slice_from n m_t) in
  ∃ i0 j0 f0 o0 self1 g1 ln_i ln_j ln_f ln_o,
    H_LSTMCell.gates theta self inputs m_prev hyper_state (self, g)
      = (inr (i0, j0, f0, o0, new_hyper_state), (self1, g1)) ∧
    H_LSTMCell.__dict__ self' !! "_hyper_cell" = H_LSTMCell.__dict__ self1 !! "_hyper_cell" ∧
    H_LSTMCell.__dict__ self' !! "_ln_i" = Some (PyNorm ln_i) ∧
    H_LSTMCell.__dict__ self' !! "_ln_j" = Some (PyNorm ln_j) ∧
    H_LSTMCell.__dict__ self' !! "_ln_f" = Some (PyNorm ln_f) ∧
    H_LSTMCell.__dict__ self' !! "_ln_o" = Some (PyNorm ln_o) ∧
    norm_gates theta (H_LSTMCell.__dict__ self') (H_LSTMCell._use_peepholes self)
      (H_LSTMCell._forget_bias self) (H_LSTMCell._activation self) c_prev
      (layer_norm theta ln_i i0) (layer_norm theta ln_j j0)
      (layer_norm theta ln_f f0) (layer_norm theta ln_o o0) c m0.

End HEquations.

(** Two graphs with the same current scope, reuse flag and default
    initializer. *)
Definition same_scope (g g' : tf_graph) : Prop :=
  g_scope g' = g_scope g ∧ g_reuse g' = g_reuse g ∧ g_initializer g' = g_initializer g.

(** The cell that [self._hyper_cell] holds when it is invoked: the one the
    attribute holds already, or a new [LSTMCell(hyper_num_units)]. *)
Definition hyper_cell_of {T} `{!Scalar T} (self : H_LSTMCell.t (T:=T))
    (cell : LSTMCell.t (T:=T)) : Prop :=
  H_LSTMCell.__dict__ self !! "_hyper_cell" = Some (PyCell cell) ∨
  H_LSTMCell.__dict__ self !! "_hyper_cell" = Some PyNone ∧
  cell = LSTMCell.new (H_LSTMCell._hyper_num_units self).

(** ** Well-formed [H_LSTMCell] objects *)

Section HInvariant.
Context {T : Type} `{!Scalar T}.

Definition H_LSTMCell_config (self : H_LSTMCell.t (T:=T)) : H_LSTMCell.t :=
  H_LSTMCell.set_dict ∅ (H_LSTMCell.set_layer (new_layer None) self).

(** The attributes hold normalisations and diagonals of [num_units]
    entries, and [_hyper_cell], once assigned, a well-formed
    [LSTMCell(hyper_num_units)]. *)
Definition H_LSTMCell_wf (self : H_LSTMCell.t (T:=T)) : Prop :=
  map_Forall
    (attr_ok (LSTMCell_inv (LSTMCell.new (H_LSTMCell._hyper_num_units self)))
       (H_LSTMCell._num_units self) (H_LSTMCell._num_proj self))
    (H_LSTMCell.__dict__ self).

Definition H_LSTMCell_inv (self0 x : H_LSTMCell.t (T:=T)) : Prop :=
  H_LSTMCell_config x = H_LSTMCell_config self0 ∧ H_LSTMCell_wf x.

(** The attribute [_linear] does not exist. *)
Definition no_linear (self : H_LSTMCell.t (T:=T)) : Prop :=
  H_LSTMCell.__dict__ self !! "_linear" = None.

End HInvariant.

(** ** The variables of a first call *)

(** The graph [g] with the variable store [vars]. *)
Definition with_vars (vars : gmap (list string) (list nat)) (g : tf_graph) : tf_graph :=
  {| g_vars := vars; g_scope := g_scope g; g_reuse := g_reuse g;
     g_initializer := g_initializer g |}.

(** An initializer that does not raise, whatever the shape. *)
Definition quiet (init : option initializer) : Prop :=
  ∀ f shape, init = Some f → f shape = None.

(** The variables of an [LSTMCell] under [scope], for inputs of
    [input_size] columns and a previous output of [output_size] columns,
    added to the store [vars]. *)
Definition LSTMCell_variables (num_units : nat) (use_peepholes : bool)
    (num_proj : option nat) (input_size output_size : nat) (scope : list string)
    (vars : gmap (list string) (list nat)) : gmap (list string) (list nat) :=
  let v1 := <["bias" :: scope := [4 * num_units]]>
              (<["kernel" :: scope := [input_size + output_size; 4 * num_units]]> vars) in
  let v2 := if use_peepholes
            then <["w_o_diag" :: scope := [num_units]]>
                   (<["w_i_diag" :: scope := [num_units]]>
                      (<["w_f_diag" :: scope := [num_units]]> v1))
            else v1 in
  match num_proj with
  | Some p => <["kernel" :: "projection" :: scope := [num_units; p]]> v2
  | None => v2
  end.

(** The normalisation that [Layer_Normalization(dim, scope)] builds under
    [path], and its two variables added to the store [vars]. *)
Definition norm_at {T} `{!Scalar T} (path : list string) (dim : list nat)
    : Layer_Normalization.t (T:=T) :=
  {| Layer_Normalization._epsilon := Layer_Normalization.epsilon_default;
     Layer_Normalization._g := {| v_name := "gain" :: path; v_shape := dim |};
     Layer_Normalization._b := {| v_name := "bias" :: path; v_shape := dim |} |}.

Definition norm_variables (path : list string) (dim : list nat)
    (vars : gmap (list string) (list nat)) : gmap (list string) (list nat) :=
  <["bias" :: path := dim]> (<["gain" :: path := dim]> vars).

(** The variables of an [LN_LSTMCell] under [scope], in the order of their
    creation. *)
Definition LN_LSTMCell_variables (num_units : nat) (use_peepholes : bool)
    (num_proj : option nat) (input_size output_size : nat) (scope : list string)
    (vars : gmap (list string) (list nat)) : gmap (list string) (list nat) :=
  let n := [num_units] in
  let v := <["bias" :: scope := [4 * num_units]]>
             (<["kernel" :: scope := [input_size + output_size; 4 * num_units]]> vars) in
  let v := norm_variables ("o_norm" :: scope) n
             (norm_variables ("f_norm" :: scope) n
                (norm_variables ("j_norm" :: scope) n
                   (norm_variables ("i_norm" :: scope) n v))) in
  let v := if use_peepholes
           then norm_variables ("p2_norm" :: scope) n
                  (norm_variables ("p1_norm" :: scope) n
                     (<["w_o_diag" :: scope := n]>
                        (<["w_i_diag" :: scope := n]> (<["w_f_diag" :: scope := n]> v))))
           else v in
  let v := norm_variables ("c_norm" :: scope) n v in
  match num_proj with
  | Some p => <["kernel" :: "projection" :: scope := [num_units; p]]> v
  | None => v
  end.

(** The attributes of an [LN_LSTMCell] that no call has assigned yet. *)
Definition LN_LSTMCell_unset {T} `{!Scalar T} (self : LN_LSTMCell.t (T:=T)) : Prop :=
  let d := LN_LSTMCell.__dict__ self in
  d !! "_linear1" = Some PyNone ∧ d !! "_linear2" = Some PyNone ∧
  d !! "_ln_i" = Some PyNone ∧ d !! "_ln_j" = Some PyNone ∧
  d !! "_ln_f" = Some PyNone ∧ d !! "_ln_o" = Some PyNone ∧ d !! "_ln_c" = Some PyNone ∧
  (LN_LSTMCell._use_peepholes self = true →
   d !! "_w_f_diag" = Some PyNone ∧ d !! "_ln_p1" = Some PyNone ∧
   d !! "_ln_p2" = Some PyNone).

(** The variables of [_h_linear] under [path]; those of [_hyper_norm] and
    [_hyper_bias] for an auxiliary output of [hn] columns, an embedding of
    [e] entries and [n] units. *)
Definition h_linear_variables (path : list string) (x_size out : nat) (use_bias : bool)
    (vars : gmap (list string) (list nat)) : gmap (list string) (list nat) :=
  let v := <["super_linear_w" :: path := [x_size; out]]> vars in
  if use_bias then <["super_linear_b" :: path := [out]]> v else v.

Definition hyper_norm_variables (path : list string) (hn e n : nat)
    (vars : gmap (list string) (list nat)) : gmap (list string) (list nat) :=
  h_linear_variables ("alpha" :: path) e n false
    (h_linear_variables ("zw" :: path) hn e true vars).

Definition hyper_bias_variables (path : list string) (hn e n : nat)
    (vars : gmap (list string) (list nat)) : gmap (list string) (list nat) :=
  h_linear_variables ("beta" :: path) e n false
    (h_linear_variables ("zb" :: path) hn e false vars).

(** The variables that the gates of an [H_LSTMCell] of [n] units create
    under [scope], with an auxiliary cell of [hn] units and an embedding of
    [e] entries, for inputs of [d] columns, in the order of their creation:
    those of the auxiliary cell, in the scope [aux] that its first
    invocation captures under [scope], [W_xh], [W_hh], [W_bias], and those
    of the eight [_hyper_norm] and the four [_hyper_bias]. *)
Definition H_gates_variables (aux : string) (n hn e d : nat) (scope : list string)
    (vars : gmap (list string) (list nat)) : gmap (list string) (list nat) :=
  let v := LSTMCell_variables hn false None (d + n) hn (aux :: scope) vars in
  let v := <["W_bias" :: scope := [n * 4]]>
             (<["W_hh" :: scope := [d; n * 4]]> (<["W_xh" :: scope := [d; n * 4]]> v)) in
  let v := foldl (λ v name, hyper_norm_variables (name :: scope) hn e n v) v
             ["hyper_ix"; "hyper_jx"; "hyper_fx"; "hyper_ox";
              "hyper_ih"; "hyper_jh"; "hyper_fh"; "hyper_oh"] in
  foldl (λ v name, hyper_bias_variables (name :: scope) hn e n v) v
    ["hyper_ib"; "hyper_jb"; "hyper_fb"; "hyper_ob"].

(** The variables of an [H_LSTMCell]: those of its gates, and the gains and
    biases of its normalisations, with the diagonals when it has
    peepholes. *)
Definition H_LSTMCell_variables (aux : string) (n : nat) (use_peepholes : bool)
    (hn e d : nat) (scope : list string) (vars : gmap (list string) (list nat))
    : gmap (list string) (list nat) :=
  let v := H_gates_variables aux n hn e d scope vars in
  let v := foldl (λ v name, norm_variables (name :: scope) [n] v) v
             ["i_norm"; "j_norm"; "f_norm"; "o_norm"] in
  let v := if use_peepholes
           then norm_variables ("p2_norm" :: scope) [n]
                  (norm_variables ("p1_norm" :: scope) [n]
                     (<["w_o_diag" :: scope := [n]]>
                        (<["w_i_diag" :: scope := [n]]>
                           (<["w_f_diag" :: scope := [n]]> v))))
           else v in
  norm_variables ("c_norm" :: scope) [n] v.

(** The attributes of an [H_LSTMCell] that no call has assigned yet. *)
Definition H_LSTMCell_unset {T} `{!Scalar T} (self : H_LSTMCell.t (T:=T)) : Prop :=
  let d := H_LSTMCell.__dict__ self in
  d !! "_hyper_cell" = Some PyNone ∧
  d !! "_ln_i" = Some PyNone ∧ d !! "_ln_j" = Some PyNone ∧
  d !! "_ln_f" = Some PyNone ∧ d !! "_ln_o" = Some PyNone ∧ d !! "_ln_c" = Some PyNone ∧
  (H_LSTMCell._use_peepholes self = true →
   d !! "_w_f_diag" = Some PyNone ∧ d !! "_ln_p1" = Some PyNone ∧
   d !! "_ln_p2" = Some PyNone).

(** ** Shapes *)

(** A tensor of rank 2 with [rows] rows of [cols] entries each. *)
Definition shaped {T} (rows cols : nat) (m : list (list T)) : Prop :=
  length m = rows ∧ Forall (λ r, length r = cols) m.

(** Every entry of a tensor of rank 2 satisfies [P]. *)
Definition entries {T} (P : T → Prop) (m : list (list T)) : Prop := Forall (Forall P) m.

(** A state of [batch] rows whose columns are those of the size [sz]. *)
Definition state_shaped {T} (batch : nat) (sz : state_size) (st : lstm_state T) : Prop :=
  match sz, st with
  | SizeTuple c h, LSTMStateTuple cs hs => shaped batch c cs ∧ shaped batch h hs
  | SizeInt n, StateTensor s => shaped batch n s
  | _, _ => False
  end.

(** ** Invocations of a cell *)

(** [x'] is the object [x] after one invocation [run inputs state], on some
    inputs, some state and some graph, whether it returned or raised. *)
Definition invocation {T Self A} (run : list (list T) → lstm_state T → M (Self * tf_graph) A)
    (x x' : Self) : Prop :=
  ∃ inputs state g r g', run inputs state (x, g) = (r, (x', g')).

(** One use of an [H_LSTMCell]: a run of [call] or an invocation
    [cell(inputs, state)], on some inputs, state and graph, whether it
    returned or raised. *)
Definition H_LSTMCell_used {T : Type} `{!Scalar T} (theta : list string → nat → nat → T)
    (x y : H_LSTMCell.t (T:=T)) : Prop :=
  invocation (H_LSTMCell.call theta) x y ∨ invocation (H_LSTMCell.__call__ theta) x y.

(** An [H_LSTMCell] that has been built, holding an auxiliary cell that has
    been built. *)
Definition H_LSTMCell_built {T} `{!Scalar T} (self : H_LSTMCell.t (T:=T)) : Prop :=
  built (H_LSTMCell.layer self) = true ∧
  ∃ cell, H_LSTMCell.__dict__ self !! "_hyper_cell" = Some (PyCell cell) ∧
          built (LSTMCell.layer cell) = true.

(** The tensors a linear map is given: one tensor, or the tensors of a list. *)
Definition args_list {T} `{!Scalar T} (a : _Linear.args (T:=T)) : list (matrix (T:=T)) :=
  match a with _Linear.Single x => [x] | _Linear.Sequence l => l end.

(** * Properties *)

(** ** Running the monad *)

Section Run.
Context {S A B : Type}.
Implicit Types (s : S).

Lemma bind_inr (m : M S A) (f : A → M S B) s b s' :
  (m ≫= f) s = (inr b, s') → ∃ a s1, m s = (inr a, s1) ∧ f a s1 = (inr b, s').
Proof.
  unfold mbind, M_bind. destruct (m s) as [[e|a] s1]; [discriminate|]. eauto.
Qed.

Lemma bind_run (m : M S A) (f : A → M S B) s a s1 :
  m s = (inr a, s1) → (m ≫= f) s = f a s1.
Proof. unfold mbind, M_bind. by intros ->. Qed.

Lemma bind_raise (m : M S A) (f : A → M S B) s e s1 :
  m s = (inl e, s1) → (m ≫= f) s = (inl e, s1).
Proof. unfold mbind, M_bind. by intros ->. Qed.

Lemma ret_inr (a b : A) s s' : mret (M:=M S) a s = (inr b, s') → b = a ∧ s' = s.
Proof. unfold mret, M_ret. by intros [= -> ->]. Qed.

Lemma get_self_inr {G} (x : S * G) a x' : get_self x = (inr a, x') → a = x.1 ∧ x' = x.
Proof. by intros [= <- <-]. Qed.

Lemma when_inr (c : bool) (body : M S ()) s u s' :
  when c body s = (inr u, s') → if c then body s = (inr u, s') else s' = s.
Proof. destruct c; simpl; [done|]. by intros [= _ ->]. Qed.

Lemma returns_inr' (r : (exn + A) * S) :
  returns r = true → ∃ a s', r = (inr a, s').
Proof. destruct r as [[e|a] s']; [discriminate|]. eauto. Qed.

End Run.

Lemma returns_inr {Self A B G : Type} (r : (exn + A * B) * (Self * G)) :
  returns r = true → ∃ a b self' g', r = (inr (a, b), (self', g')).
Proof. destruct r as [[e|[a b]] [self' g']]; [discriminate|]. eauto. Qed.

Section Preserves.
Context {S : Type}.
Implicit Types (I : S → Prop).

Lemma preserves_run {A} I (m : M S A) Q s a s' :
  preserves I m Q → I s → m s = (inr a, s') → I s' ∧ Q a.
Proof. intros Hm Hs E. specialize (Hm s Hs). by rewrite E in Hm. Qed.

Lemma preserves_state {A} I (m : M S A) Q s :
  preserves I m Q → I s → I (m s).2.
Proof. intros Hm Hs. specialize (Hm s Hs). by destruct (m s) as [[e|a] s']; [|destruct Hm]. Qed.

Lemma preserves_conseq {A} I (m : M S A) (Q Q' : A → Prop) :
  preserves I m Q → (∀ a, Q a → Q' a) → preserves I m Q'.
Proof.
  intros Hm HQ s Hs. specialize (Hm s Hs).
  destruct (m s) as [[e|a] s']; [done|]. destruct Hm. auto.
Qed.

Lemma preserves_ret {A} I (a : A) (Q : A → Prop) : Q a → preserves I (mret a) Q.
Proof. by intros Ha s Hs. Qed.

Lemma preserves_raise {A} I e (Q : A → Prop) : preserves I (raise e) Q.
Proof. by intros s Hs. Qed.

Lemma preserves_bind {A B} I (m : M S A) (f : A → M S B) Q1 Q :
  preserves I m Q1 → (∀ a, Q1 a → preserves I (f a) Q) → preserves I (m ≫= f) Q.
Proof.
  intros Hm Hf s Hs. specialize (Hm s Hs). unfold mbind, M_bind.
  destruct (m s) as [[e|a] s1]; [done|]. destruct Hm as [Hs1 Ha].
  exact (Hf a Ha s1 Hs1).
Qed.

Lemma preserves_when I (c : bool) (body : M S ()) Q :
  preserves I body Q → preserves I (when c body) (λ _, True).
Proof.
  intros Hb. destruct c; simpl; [|by apply preserves_ret].
  eapply preserves_conseq; eauto.
Qed.

Lemma preserves_top {A} I (m : M S A) :
  preserves I m (λ _, True) → preserves I m (λ _, True).
Proof. done. Qed.

Lemma preserves_if {A} I (c : bool) (m1 m2 : M S A) Q1 Q2 :
  preserves I m1 Q1 → preserves I m2 Q2 →
  preserves I (if c then m1 else m2) (λ a, if c then Q1 a else Q2 a).
Proof. by destruct c. Qed.

End Preserves.

(** ** The variable store *)

Section Graph.
Context {Self : Type}.
Implicit Types (I : Self * tf_graph → Prop) (P : Self → Prop).

Lemma get_variable_inr name shape init (self self' : Self) g g' v :
  get_variable name shape init (self, g) = (inr v, (self', g')) →
  v = {| v_name := name :: g_scope g; v_shape := shape |} ∧ self' = self ∧
  g_scope g' = g_scope g ∧ g_reuse g' = g_reuse g ∧
  g_initializer g' = g_initializer g ∧
  (g' = g ∨ g_vars g' = <[name :: g_scope g := shape]> (g_vars g)).
Proof.
  unfold get_variable.
  destruct (g_vars g !! (name :: g_scope g)) as [sh|]; destruct (g_reuse g) eqn:Hr;
    try discriminate.
  - destruct (decide (sh = shape)) as [->|]; [|discriminate].
    intros [= <- <- <-]. auto 10.
  - destruct (run_initializer init g shape); [discriminate|].
    intros [= <- <- <-]. simpl. auto 10.
Qed.

Lemma preserves_get_variable P name shape init :
  preserves (on_self P) (get_variable name shape init)
    (λ v, v_shape v = shape).
Proof.
  intros [self g] Hs. unfold get_variable.
  destruct (g_vars g !! (name :: g_scope g)) as [sh|]; destruct (g_reuse g); try done.
  - destruct (decide (sh = shape)) as [->|]; done.
  - by destruct (run_initializer init g shape).
Qed.

Lemma preserves_variable_scope {A} P name (body : M (Self * tf_graph) A) Q :
  preserves (on_self P) body Q → preserves (on_self P) (variable_scope name body) Q.
Proof.
  intros Hb [self g] Hs. unfold variable_scope.
  specialize (Hb (self, enter_scope (name :: g_scope g) (g_reuse g) None g) Hs).
  by destruct (body _) as [[e|a] [self' g']].
Qed.

Lemma preserves_scope_initializer {A} P init (body : M (Self * tf_graph) A) Q :
  preserves (on_self P) body Q → preserves (on_self P) (scope_initializer init body) Q.
Proof.
  intros Hb [self g] Hs. unfold scope_initializer.
  specialize (Hb (self, enter_scope (g_scope g) (g_reuse g) init g) Hs).
  by destruct (body _) as [[e|a] [self' g']].
Qed.

Lemma preserves_reuse_variables P :
  preserves (on_self P) (reuse_variables (Self:=Self)) (λ _, True).
Proof. by intros [self g] Hs. Qed.

Lemma preserves_run_self {A} P (m : M (Self * tf_graph) A) Q self g a self' g' :
  preserves (on_self P) m Q → P self → m (self, g) = (inr a, (self', g')) →
  P self' ∧ Q a.
Proof. intros Hm Hs E. by apply (preserves_run (on_self P) m Q (self, g) a (self', g')). Qed.

Lemma preserves_get_self P :
  preserves (on_self P) (get_self (G:=tf_graph)) P.
Proof. by intros [self g] Hs. Qed.

End Graph.

(** ** Attributes *)

Section AttributeLemmas.
Context {T C Self : Type}.
Variable __dict__ : Self → gmap string (attr T C).
Variable set_dict : gmap string (attr T C) → Self → Self.
Implicit Types (P : Self → Prop).

Lemma getattr_inr name (s s' : Self * tf_graph) a :
  getattr __dict__ name s = (inr a, s') → __dict__ s.1 !! name = Some a ∧ s' = s.
Proof.
  unfold getattr. destruct (__dict__ s.1 !! name); [|discriminate].
  by intros [= -> ->].
Qed.

Lemma getattr_run name (s : Self * tf_graph) a :
  __dict__ s.1 !! name = Some a → getattr __dict__ name s = (inr a, s).
Proof. unfold getattr. by intros ->. Qed.

Lemma getattr_missing name (s : Self * tf_graph) :
  __dict__ s.1 !! name = None → getattr __dict__ name s = (inl AttributeError, s).
Proof. unfold getattr. by intros ->. Qed.

Lemma preserves_getattr P name (Q : attr T C → Prop) :
  (∀ self a, P self → __dict__ self !! name = Some a → Q a) →
  preserves (on_self P) (getattr (G:=tf_graph) __dict__ name) Q.
Proof.
  intros HQ [self g] Hs. unfold getattr. simpl.
  destruct (__dict__ self !! name) eqn:E; [|done]. split; [done|]. eauto.
Qed.

Lemma preserves_setattr P name a :
  (∀ self, P self → P (set_dict (<[name := a]> (__dict__ self)) self)) →
  preserves (on_self P) (setattr (G:=tf_graph) __dict__ set_dict name a) (λ _, True).
Proof. intros HP [self g] Hs. split; [|done]. by apply HP. Qed.

End AttributeLemmas.

Lemma as_linear_inr {T C S} (a : attr T C) (s s' : S) l :
  as_linear a s = (inr l, s') → a = PyLinear l ∧ s' = s.
Proof. destruct a; try discriminate. by intros [= -> ->]. Qed.

Lemma as_norm_inr {T C S} (a : attr T C) (s s' : S) n :
  as_norm a s = (inr n, s') → a = PyNorm n ∧ s' = s.
Proof. destruct a; try discriminate. by intros [= -> ->]. Qed.

Lemma as_variable_inr {T C S} (a : attr T C) (s s' : S) v :
  as_variable a s = (inr v, s') → a = PyVar v ∧ s' = s.
Proof. destruct a; try discriminate. by intros [= -> ->]. Qed.

Lemma as_cell_inr {T C S} (a : attr T C) (s s' : S) c :
  as_cell a s = (inr c, s') → a = PyCell c ∧ s' = s.
Proof. destruct a; try discriminate. by intros [= -> ->]. Qed.

Lemma preserves_as_linear {T C S} (I : S → Prop) (a : attr T C) :
  preserves I (as_linear a) (λ l, a = PyLinear l).
Proof. intros s Hs. by destruct a. Qed.

Lemma preserves_as_norm {T C S} (I : S → Prop) (a : attr T C) :
  preserves I (as_norm a) (λ n, a = PyNorm n).
Proof. intros s Hs. by destruct a. Qed.

Lemma preserves_as_variable {T C S} (I : S → Prop) (a : attr T C) :
  preserves I (as_variable a) (λ v, a = PyVar v).
Proof. intros s Hs. by destruct a. Qed.

Lemma preserves_as_cell {T C S} (I : S → Prop) (a : attr T C) :
  preserves I (as_cell a) (λ c, a = PyCell c).
Proof. intros s Hs. by destruct a. Qed.

(** ** [_Linear] and [Layer_Normalization] *)

Section Objects.
Context {T : Type} `{!Scalar T}.
Variable theta : list string → nat → nat → T.
Context {Self : Type}.
Implicit Types (P : Self → Prop).

Lemma preserves_Linear_init P a output_size build_bias :
  preserves (on_self P) (_Linear.__init__ (T:=T) (Self:=Self) a output_size build_bias)
    (λ lin, linear_ok output_size lin ∧ _Linear._build_bias lin = build_bias).
Proof.
  unfold _Linear.__init__.
  eapply preserves_bind with (Q1 := λ _, True).
  { destruct a as [x|[|x l]]; first [by apply preserves_ret | by apply preserves_raise]. }
  intros [l is_sequence] _.
  eapply preserves_bind; [apply preserves_get_variable|].
  intros w Hw. destruct build_bias.
  - eapply preserves_bind; [apply preserves_get_variable|].
    intros b Hb. apply preserves_ret. split; [split|done]; simpl.
    + unfold out_dim. by rewrite Hw.
    + by intros ? [= <-].
  - apply preserves_ret. split; [split|done]; simpl; [|done].
    unfold out_dim. by rewrite Hw.
Qed.

Lemma Linear_call_inr {S} (lin : _Linear.t) a (s s' : S) r :
  _Linear.__call__ theta lin a s = (inr r, s') →
  s' = s ∧
  match a with
  | _Linear.Sequence l => r = linear_map theta lin l
  | _Linear.Single x => r = linear_map theta lin [x]
  end.
Proof.
  unfold _Linear.__call__, linear_map. intros H.
  apply bind_inr in H as (l & s1 & H1 & H).
  assert (s1 = s ∧ match a with
                   | _Linear.Sequence l' => l = l'
                   | _Linear.Single x => l = [x]
                   end) as [-> Hl].
  { destruct a; destruct (_Linear._is_sequence lin); try discriminate;
      by apply ret_inr in H1 as [-> ->]. }
  apply bind_inr in H as (res & s1 & H2 & H).
  assert (s1 = s ∧ res = matmul_var theta (concat l) (_Linear._weights lin)) as [-> ->].
  { destruct l as [|x [|y l]]; try discriminate; by apply ret_inr in H2 as [-> ->]. }
  destruct (_Linear._build_bias lin).
  - destruct (_Linear._biases lin); [|discriminate].
    apply ret_inr in H as [-> ->]. by destruct a; subst.
  - apply ret_inr in H as [-> ->]. by destruct a; subst.
Qed.

Lemma preserves_Linear_call {S} (I : S → Prop) (lin : _Linear.t) a :
  preserves I (_Linear.__call__ theta lin a)
    (λ r, match a with
          | _Linear.Sequence l => r = linear_map theta lin l
          | _Linear.Single x => r = linear_map theta lin [x]
          end).
Proof.
  intros s Hs. destruct (_Linear.__call__ theta lin a s) as [[e|r] s'] eqn:E.
  - revert E. unfold _Linear.__call__, mbind, M_bind, raise, mret, M_ret.
    destruct a; destruct (_Linear._is_sequence lin); try by intros [= _ <-].
    + destruct (_Linear._build_bias lin); [destruct (_Linear._biases lin)|];
        by intros [= _ <-].
    + destruct l as [|x [|y l]]; try by intros [= _ <-].
      all: destruct (_Linear._build_bias lin); [destruct (_Linear._biases lin)|];
        by intros [= _ <-].
  - apply Linear_call_inr in E as [-> E]. done.
Qed.

Lemma preserves_Norm_init P dim scope epsilon :
  preserves (on_self P)
    (Layer_Normalization.__init__ (T:=T) (Self:=Self) dim scope epsilon)
    (λ ln, Layer_Normalization._epsilon ln = epsilon ∧
           v_shape (Layer_Normalization._g ln) = dim ∧
           v_shape (Layer_Normalization._b ln) = dim).
Proof.
  unfold Layer_Normalization.__init__. apply preserves_variable_scope.
  eapply preserves_bind; [apply preserves_get_variable|]. intros g Hg.
  eapply preserves_bind; [apply preserves_get_variable|]. intros b Hb.
  by apply preserves_ret.
Qed.

End Objects.

(** ** Scopes that reuse variables *)

Section Reusing.
Context {Self : Type}.
Implicit Types (P : Self → Prop) (vars : gmap (list string) (list nat)).

(** With the reuse flag set, [get_variable] returns an existing variable or
    raises; it creates none. *)
Lemma reusing_get_variable P vars name shape init :
  preserves (reusing P vars) (get_variable name shape init) (λ v, v_shape v = shape).
Proof.
  intros [self g] (Hs & Hv & Hr). unfold get_variable. simpl in Hr. rewrite Hr.
  destruct (g_vars g !! (name :: g_scope g)) as [sh|]; [|done].
  destruct (decide (sh = shape)) as [->|]; done.
Qed.

Lemma reusing_variable_scope {A} P vars name (body : M (Self * tf_graph) A) Q :
  preserves (reusing P vars) body Q → preserves (reusing P vars) (variable_scope name body) Q.
Proof.
  intros Hb [self g] (Hs & Hv & Hr). unfold variable_scope.
  specialize (Hb (self, enter_scope (name :: g_scope g) (g_reuse g) None g)
                 (conj Hs (conj Hv Hr))).
  destruct (body _) as [[e|a] [self' g']].
  - destruct Hb as (? & ? & ?). done.
  - destruct Hb as [(? & ? & ?) ?]. done.
Qed.

Lemma reusing_scope_initializer {A} P vars init (body : M (Self * tf_graph) A) Q :
  preserves (reusing P vars) body Q →
  preserves (reusing P vars) (scope_initializer init body) Q.
Proof.
  intros Hb [self g] (Hs & Hv & Hr). unfold scope_initializer.
  specialize (Hb (self, enter_scope (g_scope g) (g_reuse g) init g)
                 (conj Hs (conj Hv Hr))).
  destruct (body _) as [[e|a] [self' g']].
  - destruct Hb as (? & ? & ?). done.
  - destruct Hb as [(? & ? & ?) ?]. done.
Qed.

Lemma reusing_reuse_variables P vars :
  preserves (reusing P vars) (reuse_variables (Self:=Self)) (λ _, True).
Proof. by intros [self g] (Hs & Hv & Hr). Qed.

Lemma reusing_get_self P vars :
  preserves (reusing P vars) (get_self (G:=tf_graph)) P.
Proof. by intros [self g] (Hs & Hv & Hr). Qed.

End Reusing.

Section ReusingAttributes.
Context {T C Self : Type}.
Variable __dict__ : Self → gmap string (attr T C).
Variable set_dict : gmap string (attr T C) → Self → Self.
Implicit Types (P : Self → Prop) (vars : gmap (list string) (list nat)).

Lemma reusing_getattr P vars name (Q : attr T C → Prop) :
  (∀ self a, P self → __dict__ self !! name = Some a → Q a) →
  preserves (reusing P vars) (getattr (G:=tf_graph) __dict__ name) Q.
Proof.
  intros HQ [self g] Hs. unfold getattr. simpl.
  destruct (__dict__ self !! name) eqn:E; [|done]. split; [done|].
  destruct Hs as [Hs _]. eauto.
Qed.

Lemma reusing_setattr P vars name a :
  (∀ self, P self → P (set_dict (<[name := a]> (__dict__ self)) self)) →
  preserves (reusing P vars) (setattr (G:=tf_graph) __dict__ set_dict name a) (λ _, True).
Proof. intros HP [self g] (Hs & Hv & Hr). split; [|done]. split; [by apply HP|done]. Qed.

End ReusingAttributes.

Section ReusingObjects.
Context {T : Type} `{!Scalar T} {Self : Type}.
Implicit Types (P : Self → Prop) (vars : gmap (list string) (list nat)).

Lemma reusing_Linear_init P vars a output_size build_bias :
  preserves (reusing P vars)
    (_Linear.__init__ (T:=T) (Self:=Self) a output_size build_bias)
    (λ lin, linear_ok output_size lin ∧ _Linear._build_bias lin = build_bias).
Proof.
  unfold _Linear.__init__.
  eapply preserves_bind with (Q1 := λ _, True).
  { destruct a as [x|[|x l]]; first [by apply preserves_ret | by apply preserves_raise]. }
  intros [l is_sequence] _.
  eapply preserves_bind; [apply reusing_get_variable|].
  intros w Hw. destruct build_bias.
  - eapply preserves_bind; [apply reusing_get_variable|].
    intros b Hb. apply preserves_ret. split; [split|done]; simpl.
    + unfold out_dim. by rewrite Hw.
    + by intros ? [= <-].
  - apply preserves_ret. split; [split|done]; simpl; [|done].
    unfold out_dim. by rewrite Hw.
Qed.

Lemma reusing_Norm_init P vars dim scope epsilon :
  preserves (reusing P vars)
    (Layer_Normalization.__init__ (T:=T) (Self:=Self) dim scope epsilon)
    (λ ln, Layer_Normalization._epsilon ln = epsilon ∧
           v_shape (Layer_Normalization._g ln) = dim ∧
           v_shape (Layer_Normalization._b ln) = dim).
Proof.
  unfold Layer_Normalization.__init__. apply reusing_variable_scope.
  eapply preserves_bind; [apply reusing_get_variable|]. intros g Hg.
  eapply preserves_bind; [apply reusing_get_variable|]. intros b Hb.
  by apply preserves_ret.
Qed.

End ReusingObjects.

(** ** Invariants of the object and the variable store *)

Section Storing.
Context {Self : Type}.
Implicit Types (P : Self → gmap (list string) (list nat) → Prop).

Lemma storing_grows P (self : Self) g g' :
  g_vars g ⊆ g_vars g' → storing P (self, g) → storing P (self, g').
Proof. intros Hsub H vars Hv. apply H. by etrans. Qed.

Lemma storing_get_variable P name shape init :
  preserves (storing P) (get_variable name shape init) (λ v, v_shape v = shape).
Proof.
  intros [self g] Hs. unfold get_variable.
  destruct (g_vars g !! (name :: g_scope g)) as [sh|] eqn:E; destruct (g_reuse g);
    try done.
  - destruct (decide (sh = shape)) as [->|]; done.
  - destruct (run_initializer init g shape); [done|]. split; [|done].
    eapply storing_grows; [|exact Hs]. simpl. by apply insert_subseteq.
Qed.

Lemma storing_variable_scope {A} P name (body : M (Self * tf_graph) A) Q :
  preserves (storing P) body Q → preserves (storing P) (variable_scope name body) Q.
Proof.
  intros Hb [self g] Hs. unfold variable_scope.
  specialize (Hb (self, enter_scope (name :: g_scope g) (g_reuse g) None g) Hs).
  by destruct (body _) as [[e|a] [self' g']].
Qed.

Lemma storing_scope_initializer {A} P init (body : M (Self * tf_graph) A) Q :
  preserves (storing P) body Q → preserves (storing P) (scope_initializer init body) Q.
Proof.
  intros Hb [self g] Hs. unfold scope_initializer.
  specialize (Hb (self, enter_scope (g_scope g) (g_reuse g) init g) Hs).
  by destruct (body _) as [[e|a] [self' g']].
Qed.

Lemma storing_reuse_variables P :
  preserves (storing P) (reuse_variables (Self:=Self)) (λ _, True).
Proof. by intros [self g] Hs. Qed.

Lemma storing_get_self P :
  preserves (storing P) (get_self (G:=tf_graph)) (λ _, True).
Proof. by intros [self g] Hs. Qed.

End Storing.

Section StoringAttributes.
Context {T C Self : Type}.
Variable __dict__ : Self → gmap string (attr T C).
Variable set_dict : gmap string (attr T C) → Self → Self.
Implicit Types (P : Self → gmap (list string) (list nat) → Prop).

Lemma storing_getattr P name :
  preserves (storing P) (getattr (G:=tf_graph) __dict__ name) (λ _, True).
Proof.
  intros [self g] Hs. unfold getattr. simpl.
  by destruct (__dict__ self !! name).
Qed.

Lemma storing_setattr P name a :
  (∀ self vars, P self vars → P (set_dict (<[name := a]> (__dict__ self)) self) vars) →
  preserves (storing P) (setattr (G:=tf_graph) __dict__ set_dict name a) (λ _, True).
Proof. intros HP [self g] Hs. split; [|done]. intros vars Hv. by apply HP, Hs. Qed.

End StoringAttributes.

Section StoringObjects.
Context {T : Type} `{!Scalar T} {Self : Type}.
Implicit Types (P : Self → gmap (list string) (list nat) → Prop).

Lemma storing_Linear_init P a output_size build_bias :
  preserves (storing P)
    (_Linear.__init__ (T:=T) (Self:=Self) a output_size build_bias) (λ _, True).
Proof.
  unfold _Linear.__init__.
  eapply preserves_bind with (Q1 := λ _, True).
  { destruct a as [x|[|x l]]; first [by apply preserves_ret | by apply preserves_raise]. }
  intros [l is_sequence] _.
  eapply preserves_bind; [apply storing_get_variable|].
  intros w Hw. destruct build_bias.
  - eapply preserves_bind; [apply storing_get_variable|].
    intros b Hb. by apply preserves_ret.
  - by apply preserves_ret.
Qed.

End StoringObjects.

(** ** Automation for [preserves] over an invariant of the object *)

(** Rules for the methods of one class, added where the class is treated. *)
Ltac pres_method := fail.

Ltac pres_leaf :=
  lazymatch goal with
  | |- preserves _ (mret ?a) _ =>
      first [ apply (preserves_ret _ a (λ x, x = a)); reflexivity
            | apply (preserves_ret _ a (λ _, True)); exact I ]
  | |- preserves _ (raise _) _ => apply (preserves_raise _ _ (λ _, True))
  | |- preserves _ (get_variable _ _ _) _ =>
      first [ apply preserves_get_variable | apply reusing_get_variable
            | apply storing_get_variable ]
  | |- preserves _ get_self _ =>
      first [apply preserves_get_self | apply reusing_get_self | apply storing_get_self]
  | |- preserves _ reuse_variables _ =>
      first [ apply preserves_reuse_variables | apply reusing_reuse_variables
            | apply storing_reuse_variables ]
  | |- preserves _ (_Linear.__init__ _ _ _) _ =>
      first [ apply preserves_Linear_init | apply reusing_Linear_init
            | apply storing_Linear_init ]
  | |- preserves _ (_Linear.__call__ _ _ _) _ =>
      first [ apply preserves_Linear_call
            | apply (preserves_conseq _ _ _ (λ _, True) (preserves_Linear_call _ _ _ _));
              done ]
  | |- preserves _ (Layer_Normalization.__init__ _ _ _) _ =>
      first [apply preserves_Norm_init | apply reusing_Norm_init]
  | |- preserves _ (as_linear _) _ =>
      apply (preserves_conseq _ _ _ (λ _, True) (preserves_as_linear _ _)); done
  | |- preserves _ (as_norm _) _ =>
      apply (preserves_conseq _ _ _ (λ _, True) (preserves_as_norm _ _)); done
  | |- preserves _ (as_variable _) _ =>
      apply (preserves_conseq _ _ _ (λ _, True) (preserves_as_variable _ _)); done
  | |- preserves _ (as_cell _) _ =>
      apply (preserves_conseq _ _ _ (λ _, True) (preserves_as_cell _ _)); done
  | |- preserves _ (getattr _ _) _ =>
      first [ apply preserves_getattr with (Q := λ _, True); done
            | apply reusing_getattr with (Q := λ _, True); done
            | apply storing_getattr ]
  end.

Ltac pres :=
  lazymatch goal with
  | |- preserves _ _ ?Q =>
      tryif is_evar Q then pres_raw
      else (eapply preserves_conseq; [pres_raw | try done])
  end
with pres_raw :=
  lazymatch goal with
  | |- preserves _ (mbind _ _) _ =>
      eapply preserves_bind; [pres_raw | intros ? ?; pres_raw]
  | |- preserves _ (when _ _) _ => eapply preserves_when; pres_raw
  | |- preserves _ (variable_scope _ _) _ =>
      first [ apply preserves_variable_scope | apply reusing_variable_scope
            | apply storing_variable_scope ]; pres_raw
  | |- preserves _ (scope_initializer _ _) _ =>
      first [ apply preserves_scope_initializer | apply reusing_scope_initializer
            | apply storing_scope_initializer ]; pres_raw
  | |- preserves _ (if decide ?P then _ else _) _ =>
      apply preserves_top; destruct (decide P); pres
  | |- preserves _ (if ?c then _ else _) _ =>
      first [ eapply preserves_if; pres_raw
            | apply preserves_top; destruct c eqn:?; pres ]
  | |- preserves _ (match ?x with _ => _ end) _ =>
      apply preserves_top; destruct x eqn:?; pres
  | |- preserves _ (setattr _ _ _ _) _ =>
      first [apply preserves_setattr | apply reusing_setattr | apply storing_setattr]
  | |- preserves _ (_h_linear _ _ _ _ _ _ _ _ _ _) _ => unfold _h_linear; pres
  | |- preserves _ (_hyper_norm _ _ _ _ _ _) _ => unfold _hyper_norm; pres
  | |- preserves _ (_hyper_bias _ _ _ _ _ _) _ => unfold _hyper_bias; pres
  | |- _ => first [pres_method | pres_leaf]
  end.

(** A statement that assigns other attributes keeps the value of the
    attribute that [Hlookup] reads; [H] is the run of the statement. *)
Ltac frame H Hlookup :=
  lazymatch type of Hlookup with
  | ?dict _ !! ?name = Some ?a =>
      lazymatch type of H with
      | ?m _ = (inr _, _) =>
          let Hp := fresh in
          assert (preserves (on_self (λ x, dict x !! name = Some a)) m (λ _, True)) as Hp
            by (pres; (intros ? ?; simpl; rewrite lookup_insert_ne by discriminate;
                       assumption));
          apply (preserves_run_self _ _ _ _ _ _ _ _ Hp Hlookup) in H as [H _]; clear Hp
      end
  end.

(** All the attributes read so far, across the run [H] of a statement. *)
Ltac frame_all H :=
  lazymatch type of H with
  | _ (?x, _) = (inr _, (_, _)) =>
      repeat match goal with
      | Hl : _ x !! _ = Some _ |- _ =>
          let H' := fresh "Hattr" in
          pose proof H as H'; frame H' Hl; clear Hl
      end
  end.

(** ** [LSTMCell] *)

Section LSTMCellLemmas.
Context {T : Type} `{!Scalar T}.
Variable theta : list string → nat → nat → T.
Implicit Types (self : LSTMCell.t (T:=T)) (g : tf_graph).

Lemma LSTMCell_unpack_state_inr self0 self state g s' c_prev m_prev :
  LSTMCell.unpack_state self0 state (self, g) = (inr (c_prev, m_prev), s') →
  s' = (self, g) ∧
  if LSTMCell._state_is_tuple self0 then state = LSTMStateTuple c_prev m_prev
  else ∃ s, state = StateTensor s ∧
            c_prev = slice 0 (LSTMCell._num_units self0) s ∧
            m_prev = slice (LSTMCell._num_units self0)
                       (default (LSTMCell._num_units self0) (LSTMCell._num_proj self0)) s.
Proof.
  unfold LSTMCell.unpack_state.
  destruct (LSTMCell._state_is_tuple self0), state; try discriminate.
  - by intros [= -> -> <-].
  - intros [= <- <- <-]. eauto.
Qed.

End LSTMCellLemmas.

Section LSTMCellCall.
Context {T : Type} `{!Scalar T}.
Variable theta : list string → nat → nat → T.
Implicit Types (self : LSTMCell.t (T:=T)) (g : tf_graph).

Lemma LSTMCell_call_inr self g inputs state m ns self' g' :
  LSTMCell.call theta inputs state (self, g) = (inr (m, ns), (self', g')) →
  ∃ c_prev m_prev,
    LSTMCell.unpack_state self state (self, g) = (inr (c_prev, m_prev), (self, g)) ∧
    lstm_equations theta self self' inputs c_prev m_prev m ns.
Proof.
  intros H. unfold LSTMCell.call, LSTMCell.self_get, LSTMCell.self_set in H.
  apply bind_inr in H as (self0 & s & [-> ->]%get_self_inr & H). cbn [fst snd] in H.
  apply bind_inr in H as ([c_prev m_prev] & s & Hu & H).
  pose proof Hu as Hu'. apply LSTMCell_unpack_state_inr in Hu' as [-> _].
  exists c_prev, m_prev. split; [done|].
  apply bind_inr in H as (l1 & s & [_ ->]%getattr_inr & H).
  apply bind_inr in H as ([] & [self1 g1] & _ & H).
  apply bind_inr in H as (lin & s & H2 & H).
  apply bind_inr in H2 as (a & s2 & [Hlin ->]%getattr_inr & [-> ->]%as_linear_inr).
  apply bind_inr in H as (lstm_matrix & s & [-> ->]%Linear_call_inr & H).
  unfold lstm_equations, lstm_gates. cbn [fst snd] in Hlin.
  destruct (split (linear_map theta lin [inputs; m_prev])) as [[[i j] f] o] eqn:Hsplit.
  apply bind_inr in H as (create & s & Hc & H).
  assert (s = (self1, g1)) as ->.
  { destruct (LSTMCell._use_peepholes self).
    - apply bind_inr in Hc as (w & s2 & [_ ->]%getattr_inr & [_ ->]%ret_inr). done.
    - by apply ret_inr in Hc as [_ ->]. }
  clear Hc.
  apply bind_inr in H as ([] & [self2 g2] & Hdiag & H).
  pose proof Hdiag as Hlin2. frame Hlin2 Hlin.
  apply bind_inr in H as (c0 & s & Hc0 & H).
  apply bind_inr in H as (m0 & s3 & Hm0 & H).
  apply bind_inr in H as (mp & s4 & Hmp & [[= -> ->] <-]%ret_inr).
  fold (clipped (LSTMCell._cell_clip self) c0) in Hm0 |- *.
  set (c := clipped (LSTMCell._cell_clip self) c0) in *.
  assert (s = (self2, g2) ∧ s3 = (self2, g2) ∧
    if LSTMCell._use_peepholes self then
       ∃ w_f w_i w_o,
         LSTMCell.__dict__ self2 !! "_w_f_diag" = Some (PyVar w_f) ∧
         LSTMCell.__dict__ self2 !! "_w_i_diag" = Some (PyVar w_i) ∧
         LSTMCell.__dict__ self2 !! "_w_o_diag" = Some (PyVar w_o) ∧
         c = clipped (LSTMCell._cell_clip self)
               (madd (mmul (sigmoid (madd (sadd f (LSTMCell._forget_bias self))
                                          (vmul (read_vector theta w_f) c_prev))) c_prev)
                     (mmul (sigmoid (madd i (vmul (read_vector theta w_i) c_prev)))
                           (mmap (LSTMCell._activation self) j))) ∧
         m0 = mmul (sigmoid (madd o (vmul (read_vector theta w_o) c)))
                   (mmap (LSTMCell._activation self) c)
     else
       c = clipped (LSTMCell._cell_clip self)
             (madd (mmul (sigmoid (sadd f (LSTMCell._forget_bias self))) c_prev)
                   (mmul (sigmoid i) (mmap (LSTMCell._activation self) j))) ∧
       m0 = mmul (sigmoid o) (mmap (LSTMCell._activation self) c))
    as (-> & -> & Hgate).
  { subst c. destruct (LSTMCell._use_peepholes self).
    - apply bind_inr in Hc0 as (w_f & s5 & Hf & Hc0).
      apply bind_inr in Hf as (? & ? & [Hf ->]%getattr_inr & [-> ->]%as_variable_inr).
      apply bind_inr in Hc0 as (w_i & s6 & Hi & [-> ->]%ret_inr).
      apply bind_inr in Hi as (? & ? & [Hi ->]%getattr_inr & [-> ->]%as_variable_inr).
      apply bind_inr in Hm0 as (w_o & s7 & Ho & [-> ->]%ret_inr).
      apply bind_inr in Ho as (? & ? & [Ho ->]%getattr_inr & [-> ->]%as_variable_inr).
      repeat split; try done. by exists w_f, w_i, w_o.
    - apply ret_inr in Hc0 as [-> ->]. by apply ret_inr in Hm0 as [-> ->]. }
  clearbody c. clear Hc0 Hm0.
  exists c, m0.
  destruct (LSTMCell._num_proj self) as [num_proj|] eqn:Hproj.
  - apply bind_inr in Hmp as (l2 & s & [_ ->]%getattr_inr & Hmp).
    apply bind_inr in Hmp as ([] & [self3 g3] & Hblock & Hmp).
    apply bind_inr in Hmp as (lin2 & s & H3 & Hmp).
    apply bind_inr in H3 as (? & ? & [Hlin2' ->]%getattr_inr & [-> ->]%as_linear_inr).
    apply bind_inr in Hmp as (mq & s & [-> ->]%Linear_call_inr & [-> [= <- <-]]%ret_inr).
    pose proof Hblock as Hlin3. frame Hlin3 Hlin2.
    split; [|split; [done|by exists lin2]].
    exists lin. split; [done|]. rewrite Hsplit.
    destruct (LSTMCell._use_peepholes self); [|done].
    destruct Hgate as (w_f & w_i & w_o & Hf & Hi & Ho & -> & ->).
    pose proof Hblock as Hf'. frame Hf' Hf.
    pose proof Hblock as Hi'. frame Hi' Hi.
    pose proof Hblock as Ho'. frame Ho' Ho.
    by exists w_f, w_i, w_o.
  - apply ret_inr in Hmp as [-> [= <- <-]].
    split; [|done]. exists lin. split; [done|]. by rewrite Hsplit.
Qed.
End LSTMCellCall.

(** ** Sigmoid and tanh on the real numbers *)

Section RealFacts.
Local Open Scope R_scope.

Lemma Rsigmoid_pos x : 0 < Rsigmoid x.
Proof.
  unfold Rsigmoid. pose proof (exp_pos (- x)).
  apply Rdiv_lt_0_compat; lra.
Qed.

Lemma Rsigmoid_lt_1 x : Rsigmoid x < 1.
Proof.
  unfold Rsigmoid. pose proof (exp_pos (- x)).
  apply Rmult_lt_reg_r with (1 + exp (- x)); [lra|].
  replace (1 / (1 + exp (- x)) * (1 + exp (- x))) with 1 by (field; lra). lra.
Qed.

Lemma Rsigmoid_half x : 0 <= x → 1 / 2 <= Rsigmoid x.
Proof.
  intros Hx. unfold Rsigmoid. pose proof (exp_pos (- x)) as Hpos.
  assert (exp (- x) <= 1) as Hle.
  { rewrite <- exp_0. destruct (Req_dec x 0) as [->|Hne].
    - rewrite Ropp_0. lra.
    - left. apply exp_increasing. lra. }
  apply Rmult_le_reg_r with (1 + exp (- x)); [lra|].
  replace (1 / (1 + exp (- x)) * (1 + exp (- x))) with 1 by (field; lra). lra.
Qed.

Lemma Rtanh_0 : Rtrigo_def.tanh 0 = 0.
Proof. unfold Rtrigo_def.tanh. rewrite sinh_0. lra. Qed.

Lemma Q2R_0 : Q2R 0 = 0.
Proof. unfold Q2R. simpl. lra. Qed.

Lemma Q2R_1 : Q2R 1 = 1.
Proof. unfold Q2R. simpl. lra. Qed.

End RealFacts.

(** ** Layer normalisation on the real numbers *)

Section NormalizedFacts.
Local Open Scope R_scope.
Implicit Types (r : list R).

Lemma Rsum_scaled r (mu k : R) :
  Rsum (map (λ x, (x - mu) * k) r) = (Rsum r - INR (length r) * mu) * k.
Proof.
  induction r as [|x r IH]; [simpl; lra|].
  change (Rsum (map _ (x :: r))) with ((x - mu) * k + Rsum (map (λ x, (x - mu) * k) r)).
  change (Rsum (x :: r)) with (x + Rsum r).
  rewrite IH. change (length (x :: r)) with (Datatypes.S (length r)). rewrite S_INR. lra.
Qed.

Lemma Rsum_squares_scaled r (mu k : R) :
  Rsum (map (λ x, (x - mu) * k * ((x - mu) * k)) r)
    = Rsum (map (λ x, (x - mu) * (x - mu)) r) * (k * k).
Proof.
  induction r as [|x r IH]; [simpl; lra|].
  change (Rsum (map ?f (x :: r))) with (f x + Rsum (map f r)).
  cbv beta. rewrite IH.
  change (Rsum (map ?f (x :: r))) with (f x + Rsum (map f r)). cbv beta. lra.
Qed.

Lemma Rsum_squares_nonneg r (mu : R) : 0 <= Rsum (map (λ x, (x - mu) * (x - mu)) r).
Proof.
  induction r as [|x r IH]; [simpl; lra|].
  change (Rsum (map ?f (x :: r))) with (f x + Rsum (map f r)). cbv beta.
  pose proof (Rle_0_sqr (x - mu)) as Hsq. unfold Rsqr in Hsq. lra.
Qed.

(** The normalised entries of a non-empty row have mean zero, and, for a
    positive epsilon, variance [v / (v + epsilon)], where [v] is the
    variance of the row. *)
Lemma normalized_mean_zero (epsilon : R) r :
  r ≠ [] → Rsum (normalized epsilon r) / INR (length r) = 0.
Proof.
  intros Hr. unfold normalized. cbn [fdiv fsub fadd fmul flit fnat fsqrt R_scalar].
  fold (Rsum r). rewrite Q2R_0. unfold Rdiv at 1 2.
  set (mu := Rsum r * / INR (length r)).
  rewrite (Rsum_scaled r mu).
  assert (INR (length r) ≠ 0) as Hn.
  { apply not_0_INR. by destruct r. }
  unfold mu.
  assert (Rsum r - INR (length r) * (Rsum r * / INR (length r)) = 0) as ->
    by (field; exact Hn).
  lra.
Qed.

Lemma normalized_variance (epsilon : R) r :
  r ≠ [] → 0 < epsilon →
  let mu := Rsum r / INR (length r) in
  let v := Rsum (map (λ x, (x - mu) * (x - mu)) r) / INR (length r) in
  Rsum (map (λ y, y * y) (normalized epsilon r)) / INR (length r) = v / (v + epsilon).
Proof.
  intros Hr Heps mu v. unfold normalized.
  cbn [fdiv fsub fadd fmul flit fnat fsqrt R_scalar].
  rewrite Q2R_0. fold (Rsum r). fold mu. fold (Rsum (map (λ x, (x - mu) * (x - mu)) r)).
  fold v. rewrite map_map. unfold Rdiv at 1 2 3.
  rewrite (Rsum_squares_scaled r mu (/ sqrt (v + epsilon))).
  assert (0 < INR (length r)) as Hn.
  { apply lt_0_INR. destruct r; [done|]. simpl. lia. }
  assert (0 <= v) as Hv.
  { unfold v, Rdiv. apply Rmult_le_pos; [apply Rsum_squares_nonneg|].
    left. by apply Rinv_0_lt_compat. }
  assert (0 < sqrt (v + epsilon)) as Hs by (apply sqrt_lt_R0; lra).
  rewrite <- Rinv_mult, sqrt_sqrt by lra.
  assert (Rsum (map (λ x, (x - mu) * (x - mu)) r) = v * INR (length r)) as ->.
  { unfold v. field. lra. }
  clearbody v mu. field. split; lra.
Qed.

End NormalizedFacts.

(** ** The claims on [LSTMCell] *)

(** C1, as amended.  A call of [LSTMCell.call] with [use_peepholes=False]
    that returns has computed, from the four equal column-splits
    [i, j, f, o] of the linear map [self._linear1] of [[inputs, m_prev]]:
    the new cell state [sigmoid(f + forget_bias) * c_prev + sigmoid(i) *
    activation(j)], clipped to [[-cell_clip, cell_clip]] when [cell_clip] is
    set, and the output [sigmoid(o) * activation(c)], passed through the
    output projection when [num_proj] is set.  The activation of a cell
    constructed without one is [tanh]. *)
Theorem LSTMCell_call_without_peepholes {T : Type} `{!Scalar T}
    (theta : list string → nat → nat → T) :
  (∀ num_units use_peepholes cell_clip initializer num_proj proj_clip num_unit_shards
     num_proj_shards forget_bias state_is_tuple reuse,
     mmap (LSTMCell._activation
             (LSTMCell.__init__ num_units use_peepholes cell_clip initializer num_proj
                proj_clip num_unit_shards num_proj_shards forget_bias state_is_tuple
                None reuse)) = tanh) ∧
  ∀ (self self' : LSTMCell.t) g g' inputs state m new_state,
    LSTMCell._use_peepholes self = false →
    LSTMCell.call theta inputs state (self, g) = (inr (m, new_state), (self', g')) →
    ∃ c_prev m_prev lin,
      LSTMCell.unpack_state self state (self, g) = (inr (c_prev, m_prev), (self, g)) ∧
      LSTMCell.__dict__ self' !! "_linear1" = Some (PyLinear lin) ∧
      let '(i, j, f, o) := split (linear_map theta lin [inputs; m_prev]) in
      let activation := mmap (LSTMCell._activation self) in
      let c := clipped (LSTMCell._cell_clip self)
                 (madd (mmul (sigmoid (sadd f (LSTMCell._forget_bias self))) c_prev)
                       (mmul (sigmoid i) (activation j))) in
      let m0 := mmul (sigmoid o) (activation c) in
      new_state = packed (LSTMCell._state_is_tuple self) c m ∧
      match LSTMCell._num_proj self with
      | None => m = m0
      | Some _ =>
          ∃ lin2, LSTMCell.__dict__ self' !! "_linear2" = Some (PyLinear lin2) ∧
                  m = clipped (LSTMCell._proj_clip self) (linear_map theta lin2 [m0])
      end.
Proof.
  split; [done|].
  intros self self' g g' inputs state m new_state Hpeep Hcall.
  apply LSTMCell_call_inr in Hcall
    as (c_prev & m_prev & Hu & c & m0 & (lin & Hlin & Hgate) & Hstate & Hproj).
  exists c_prev, m_prev, lin. split; [done|]. split; [done|].
  destruct (split (linear_map theta lin [inputs; m_prev])) as [[[i j] f] o].
  rewrite Hpeep in Hgate. destruct Hgate as [-> ->]. done.
Qed.

Lemma LSTMCell_call_without_peepholes_witness :
  ∃ m new_state self' g',
    LSTMCell._use_peepholes (T:=R) clipping_cell = false ∧
    LSTMCell.call zero_weights x0 state10 (clipping_cell, empty_graph)
      = (inr (m, new_state), (self', g')) ∧
    ∃ c_prev m_prev lin,
      LSTMCell.unpack_state clipping_cell state10 (clipping_cell, empty_graph)
        = (inr (c_prev, m_prev), (clipping_cell, empty_graph)) ∧
      LSTMCell.__dict__ self' !! "_linear1" = Some (PyLinear lin) ∧
      let '(i, j, f, o) := split (linear_map zero_weights lin [x0; m_prev]) in
      let activation := mmap (LSTMCell._activation clipping_cell) in
      let c := clipped (LSTMCell._cell_clip clipping_cell)
                 (madd (mmul (sigmoid (sadd f (LSTMCell._forget_bias clipping_cell))) c_prev)
                       (mmul (sigmoid i) (activation j))) in
      let m0 := mmul (sigmoid o) (activation c) in
      new_state = packed (LSTMCell._state_is_tuple clipping_cell) c m ∧
      match LSTMCell._num_proj (T:=R) clipping_cell with
      | None => m = m0
      | Some _ =>
          ∃ lin2, LSTMCell.__dict__ self' !! "_linear2" = Some (PyLinear lin2) ∧
                  m = clipped (LSTMCell._proj_clip clipping_cell)
                        (linear_map zero_weights lin2 [m0])
      end.
Proof.
  eexists _, _, _, _. split; [reflexivity|]. split; [reflexivity|].
  eapply (proj2 (LSTMCell_call_without_peepholes zero_weights)); reflexivity.
Defined.

(** C1, as stated, fails on a cell with [cell_clip=0.25]: from the previous
    cell state 1 and weights all zero, [sigmoid(f + forget_bias) * c_prev +
    sigmoid(i) * tanh(j)] is [sigmoid(1)], above one half, and the new cell
    state is the clipped value. *)
Lemma LSTMCell_cell_clip_counterexample :
  ∃ m c h self' g' lin,
    LSTMCell._use_peepholes (T:=R) clipping_cell = false ∧
    LSTMCell.call zero_weights x0 state10 (clipping_cell, empty_graph)
      = (inr (m, LSTMStateTuple c h), (self', g')) ∧
    LSTMCell.__dict__ self' !! "_linear1" = Some (PyLinear lin) ∧
    let '(i, j, f, o) := split (linear_map zero_weights lin [x0; [[flit 0]]]) in
    c ≠ madd (mmul (sigmoid (sadd f (flit 1))) [[flit 1]]) (mmul (sigmoid i) (tanh j)).
Proof.
  eexists _, _, _, _, _, _. split; [reflexivity|]. split; [reflexivity|].
  split; [reflexivity|]. cbn. intros [= E]. revert E.
  rewrite !Q2R_0, Q2R_1.
  replace (0 * 0 + (0 * 0 + 0) + 0)%R with 0%R by lra.
  rewrite Rtanh_0.
  replace (Q2R (1 # 4)) with (1 / 4)%R by (unfold Q2R; simpl; lra).
  pose proof (Rsigmoid_half (0 + 1)%R ltac:(lra)).
  unfold Rmax, Rmin. repeat destruct Rle_dec; lra.
Qed.

(** ** Well-formed [LSTMCell] objects *)

Section LSTMCellInvariant.
Context {T : Type} `{!Scalar T}.
Variable theta : list string → nat → nat → T.
Implicit Types (self x : LSTMCell.t (T:=T)) (g : tf_graph).

Lemma LSTMCell_config_set_dict d x :
  LSTMCell_config (LSTMCell.set_dict d x) = LSTMCell_config x.
Proof. reflexivity. Qed.

Lemma LSTMCell_config_set_layer ly x :
  LSTMCell_config (LSTMCell.set_layer ly x) = LSTMCell_config x.
Proof. reflexivity. Qed.

Lemma LSTMCell_config_num_units x y :
  LSTMCell_config x = LSTMCell_config y → LSTMCell._num_units x = LSTMCell._num_units y.
Proof. intros E. exact (f_equal LSTMCell._num_units E). Qed.

Lemma LSTMCell_config_num_proj x y :
  LSTMCell_config x = LSTMCell_config y → LSTMCell._num_proj x = LSTMCell._num_proj y.
Proof. intros E. exact (f_equal LSTMCell._num_proj E). Qed.

Lemma LSTMCell_init_wf num_units use_peepholes cell_clip initializer num_proj proj_clip
    num_unit_shards num_proj_shards forget_bias state_is_tuple activation reuse :
  LSTMCell_wf (LSTMCell.__init__ (T:=T) num_units use_peepholes cell_clip initializer
                 num_proj proj_clip num_unit_shards num_proj_shards forget_bias
                 state_is_tuple activation reuse).
Proof.
  unfold LSTMCell_wf. simpl.
  destruct use_peepholes; repeat (apply map_Forall_insert_2; [done|]);
    apply map_Forall_empty.
Qed.

Lemma LSTMCell_inv_set self0 x name a :
  attr_ok (λ _, True) (LSTMCell._num_units self0) (LSTMCell._num_proj self0) name a →
  LSTMCell_inv self0 x →
  LSTMCell_inv self0 (LSTMCell.set_dict (<[name := a]> (LSTMCell.__dict__ x)) x).
Proof.
  intros Ha [Hc Hwf]. split; [done|]. unfold LSTMCell_wf in *. simpl.
  rewrite (LSTMCell_config_num_units _ _ Hc), (LSTMCell_config_num_proj _ _ Hc) in *.
  by apply map_Forall_insert_2.
Qed.

Lemma LSTMCell_call_inv self0 inputs state :
  preserves (on_self (LSTMCell_inv self0)) (LSTMCell.call theta inputs state) (λ _, True).
Proof.
  unfold LSTMCell.call, LSTMCell.self_get, LSTMCell.self_set, LSTMCell.unpack_state.
  eapply preserves_bind; [apply preserves_get_self|]. intros self [Hc _].
  pose proof (LSTMCell_config_num_units _ _ Hc) as Hn.
  pose proof (LSTMCell_config_num_proj _ _ Hc) as Hp.
  pres; (intros x Hx; apply LSTMCell_inv_set; [|done]; simpl in *;
         rewrite <- ?Hn, <- ?Hp; try done;
         (split; intros E; try discriminate E; naive_solver)).
Qed.
End LSTMCellInvariant.

Section RNNCellLemmas.
Context {Self A : Type}.
Variable layer : Self → Layer.
Variable set_layer : Layer → Self → Self.
Variable base_name : string.

Lemma preserves_RNNCell_call (P : Self → Prop) (call : M (Self * tf_graph) A) scope Q :
  (∀ ly x, P x → P (set_layer ly x)) →
  preserves (on_self P) call Q →
  preserves (on_self P) (RNNCell.__call__ layer set_layer base_name call scope) Q.
Proof.
  intros Hly Hcall [self g] Hs. unfold RNNCell.__call__.
  match goal with |- context [call ?s] => specialize (Hcall s) end.
  destruct (call _) as [[e|a] [self1 g1]].
  - apply Hcall, Hly, Hs.
  - destruct Hcall as [H1 Ha]; [apply Hly, Hs|]. split; [|done]. by apply Hly.
Qed.

End RNNCellLemmas.

Section LSTMCellInvariantCall.
Context {T : Type} `{!Scalar T}.
Variable theta : list string → nat → nat → T.

Lemma LSTMCell___call___inv (self0 : LSTMCell.t (T:=T)) inputs state :
  preserves (on_self (LSTMCell_inv self0)) (LSTMCell.__call__ theta inputs state)
    (λ _, True).
Proof.
  apply preserves_RNNCell_call; [|apply LSTMCell_call_inv].
  intros ly x [Hc Hwf]. split; [done|]. exact Hwf.
Qed.

End LSTMCellInvariantCall.
(** The output projection of [LSTMCell].  If [num_proj] is a positive
    integer, [output_size] is [num_proj]; if it is [None], [output_size] is
    [num_units].  A call on a well-formed cell that returns: with
    [num_proj] set, has applied the linear map [self._linear2], which has no
    bias and [num_proj] output columns, to [m], and clipped the result
    elementwise to [[-proj_clip, proj_clip]] if [proj_clip] is provided;
    with [num_proj=None], it returns [m] as it is. *)
Theorem LSTMCell_output_projection {T : Type} `{!Scalar T}
    (theta : list string → nat → nat → T) :
  (∀ num_units use_peepholes cell_clip initializer p proj_clip num_unit_shards
     num_proj_shards forget_bias state_is_tuple activation reuse,
     LSTMCell.output_size
       (LSTMCell.__init__ (T:=T) num_units use_peepholes cell_clip initializer (Some (S p))
          proj_clip num_unit_shards num_proj_shards forget_bias state_is_tuple
          activation reuse) = S p) ∧
  (∀ num_units use_peepholes cell_clip initializer proj_clip num_unit_shards
     num_proj_shards forget_bias state_is_tuple activation reuse,
     LSTMCell.output_size
       (LSTMCell.__init__ (T:=T) num_units use_peepholes cell_clip initializer None
          proj_clip num_unit_shards num_proj_shards forget_bias state_is_tuple
          activation reuse) = num_units) ∧
  (∀ (m : matrix) proj_clip,
     clipped (Some proj_clip) m
       = mmap (λ x, fmaximum (fminimum x proj_clip) (fneg proj_clip)) m) ∧
  ∀ (self self' : LSTMCell.t) g g' inputs state m new_state,
    LSTMCell_wf self →
    LSTMCell.call theta inputs state (self, g) = (inr (m, new_state), (self', g')) →
    ∃ c_prev m_prev c m0,
      LSTMCell.unpack_state self state (self, g) = (inr (c_prev, m_prev), (self, g)) ∧
      lstm_gates theta self self' inputs c_prev m_prev c m0 ∧
      match LSTMCell._num_proj self with
      | Some num_proj =>
          ∃ lin2,
            LSTMCell.__dict__ self' !! "_linear2" = Some (PyLinear lin2) ∧
            _Linear._build_bias lin2 = false ∧
            out_dim (_Linear._weights lin2) = num_proj ∧
            m = clipped (LSTMCell._proj_clip self)
                  (matmul_var theta m0 (_Linear._weights lin2))
      | None => m = m0
      end.
Proof.
  split; [done|]. split; [done|]. split; [done|].
  intros self self' g g' inputs state m new_state Hwf Hcall.
  pose proof (preserves_run_self _ _ _ _ _ _ _ _ (LSTMCell_call_inv theta self inputs state)
                (conj eq_refl Hwf) Hcall) as [[Hc Hwf'] _].
  apply LSTMCell_call_inr in Hcall
    as (c_prev & m_prev & Hu & c & m0 & Hgates & Hstate & Hproj).
  exists c_prev, m_prev, c, m0. split; [done|]. split; [done|].
  destruct (LSTMCell._num_proj self) as [num_proj|] eqn:Hp; [|done].
  destruct Hproj as (lin2 & Hlin2 & ->). exists lin2. split; [done|].
  pose proof (Hwf' _ _ Hlin2) as [_ (Hb & p & Hp' & Hout & _)]; [done|].
  rewrite (LSTMCell_config_num_proj _ _ Hc), Hp in Hp'. injection Hp' as <-.
  split; [done|]. split; [done|]. unfold linear_map. by rewrite Hb.
Qed.

Lemma projecting_cell_returns {T : Type} `{!Scalar T} :
  ∃ m new_state self' g',
    LSTMCell.call (T:=T) zero_weights x0 state10 (projecting_cell, empty_graph)
      = (inr (m, new_state), (self', g')).
Proof. eexists _, _, _, _. vm_compute. reflexivity. Qed.

Lemma LSTMCell_output_projection_witness :
  ∃ m new_state self' g',
    LSTMCell_wf (T:=R) projecting_cell ∧
    LSTMCell.call zero_weights x0 state10 (projecting_cell, empty_graph)
      = (inr (m, new_state), (self', g')) ∧
    ∃ c_prev m_prev c m0,
      LSTMCell.unpack_state projecting_cell state10 (projecting_cell, empty_graph)
        = (inr (c_prev, m_prev), (projecting_cell, empty_graph)) ∧
      lstm_gates zero_weights projecting_cell self' x0 c_prev m_prev c m0 ∧
      match LSTMCell._num_proj (T:=R) projecting_cell with
      | Some num_proj =>
          ∃ lin2,
            LSTMCell.__dict__ self' !! "_linear2" = Some (PyLinear lin2) ∧
            _Linear._build_bias lin2 = false ∧
            out_dim (_Linear._weights lin2) = num_proj ∧
            m = clipped (LSTMCell._proj_clip projecting_cell)
                  (matmul_var zero_weights m0 (_Linear._weights lin2))
      | None => m = m0
      end.
Proof.
  destruct (projecting_cell_returns (T:=R)) as (m & new_state & self' & g' & Hcall).
  exists m, new_state, self', g'. split; [apply LSTMCell_init_wf|]. split; [exact Hcall|].
  exact (proj2 (proj2 (proj2 (LSTMCell_output_projection zero_weights)))
           _ _ _ _ _ _ _ _ (LSTMCell_init_wf _ _ _ _ _ _ _ _ _ _ _ _) Hcall).
Defined.

Lemma degenerate_cell_runs {T : Type} `{!Scalar T} :
  match (LSTMCell.call (T:=T) zero_weights x0 (LSTMCell.zero_state degenerate_cell 1)
           (degenerate_cell, empty_graph)).1 with
  | inr (m, LSTMStateTuple c h) => (map length m, map length c, map length h)
  | _ => ([], [], [])
  end = ([0], [5], [0]).
Proof. vm_compute. reflexivity. Qed.

(** C7.  The cell [LSTMCell(5, num_proj=0)], called on a row of one input
    and its own zero state in an empty graph.  The constructor tests
    [if num_proj:], so that the cell has [output_size = num_units = 5] and a
    state size of [(5, 5)]; [call] tests [self._num_proj is not None], so
    that it projects the output on [num_proj = 0] columns: the output and
    the second part of the new state have no column, the first part has
    five. *)
Lemma LSTMCell_num_proj_zero {T : Type} `{!Scalar T} :
  let cell := degenerate_cell (T:=T) in
  LSTMCell._num_proj cell = Some 0 ∧
  LSTMCell.output_size cell = 5 ∧
  LSTMCell.state_size cell = SizeTuple 5 5 ∧
  ∃ m c h s',
    LSTMCell.call zero_weights x0 (LSTMCell.zero_state cell 1) (cell, empty_graph)
      = (inr (m, LSTMStateTuple c h), s') ∧
    shaped 1 0 m ∧ shaped 1 5 c ∧ shaped 1 0 h.
Proof.
  cbv zeta. split; [done|]. split; [done|]. split; [done|].
  pose proof (degenerate_cell_runs (T:=T)) as H.
  destruct (LSTMCell.call zero_weights x0 (LSTMCell.zero_state degenerate_cell 1)
              (degenerate_cell, empty_graph)) as [[e|[m [c h|st]]] s']; try discriminate H.
  cbn in H. injection H as Hm Hc Hh. exists m, c, h, s'. split; [done|].
  assert (∀ (l : list (list T)) k, map length l = [k] → shaped 1 k l) as Hsh.
  { intros [|r [|r' l]] k [=]. split; [done|]. by repeat constructor. }
  auto.
Qed.

(** ** [LN_LSTMCell] *)

Section LNCellCall.
Context {T : Type} `{!Scalar T}.
Variable theta : list string → nat → nat → T.
Implicit Types (self : LN_LSTMCell.t (T:=T)) (g : tf_graph).

Lemma layer_norm_call ln x :
  Layer_Normalization.__call__ theta ln x = layer_norm theta ln x.
Proof.
  unfold Layer_Normalization.__call__, layer_norm, normalized, moments, reduce_mean.
  apply map_ext. intros r. by rewrite length_map.
Qed.

Lemma LN_unpack_state_inr self0 self state g s' c_prev m_prev :
  LN_LSTMCell.unpack_state self0 state (self, g) = (inr (c_prev, m_prev), s') →
  s' = (self, g) ∧
  if LN_LSTMCell._state_is_tuple self0 then state = LSTMStateTuple c_prev m_prev
  else ∃ s, state = StateTensor s ∧
            c_prev = slice 0 (LN_LSTMCell._num_units self0) s ∧
            m_prev = slice (LN_LSTMCell._num_units self0)
                       (default (LN_LSTMCell._num_units self0)
                          (LN_LSTMCell._num_proj self0)) s.
Proof.
  unfold LN_LSTMCell.unpack_state.
  destruct (LN_LSTMCell._state_is_tuple self0), state; try discriminate.
  - by intros [= -> -> <-].
  - intros [= <- <- <-]. eauto.
Qed.

(** [self.name(x)] returns the normalisation of [x] by the attribute. *)
Lemma LN_norm_inr name x (s s' : LN_LSTMCell.t (T:=T) * tf_graph) r :
  ((getattr LN_LSTMCell.__dict__ name ≫= as_norm)
   ≫= λ ln, mret (Layer_Normalization.__call__ theta ln x)) s = (inr r, s') →
  s' = s ∧ ∃ ln, LN_LSTMCell.__dict__ s.1 !! name = Some (PyNorm ln) ∧
                 r = layer_norm theta ln x.
Proof.
  intros H. apply bind_inr in H as (ln & s1 & H1 & [-> ->]%ret_inr).
  apply bind_inr in H1 as (a & s2 & [Ha ->]%getattr_inr & [-> ->]%as_norm_inr).
  split; [done|]. exists ln. split; [done|]. apply layer_norm_call.
Qed.

Lemma LN_variable_inr name (s s' : LN_LSTMCell.t (T:=T) * tf_graph) v :
  (getattr LN_LSTMCell.__dict__ name ≫= as_variable) s = (inr v, s') →
  s' = s ∧ LN_LSTMCell.__dict__ s.1 !! name = Some (PyVar v).
Proof.
  intros H.
  apply bind_inr in H as (a & s2 & [Ha ->]%getattr_inr & [-> ->]%as_variable_inr).
  eauto.
Qed.

Ltac conjs :=
  repeat match goal with |- _ ∧ _ => split end; first [eassumption | reflexivity].

Lemma LN_call_inr self g inputs state m ns self' g' :
  LN_LSTMCell.call theta inputs state (self, g) = (inr (m, ns), (self', g')) →
  ∃ c_prev m_prev,
    LN_LSTMCell.unpack_state self state (self, g) = (inr (c_prev, m_prev), (self, g)) ∧
    ln_equations theta self self' inputs c_prev m_prev m ns.
Proof.
  intros H.
  unfold LN_LSTMCell.call, LN_LSTMCell.ensure_norm, LN_LSTMCell.norm,
    LN_LSTMCell.self_get, LN_LSTMCell.self_set in H.
  apply bind_inr in H as (self0 & s & [-> ->]%get_self_inr & H). cbn [fst snd] in H.
  apply bind_inr in H as ([c_prev m_prev] & s & Hu & H).
  pose proof Hu as Hu'. apply LN_unpack_state_inr in Hu' as [-> _].
  exists c_prev, m_prev. split; [done|].
  apply bind_inr in H as (l1 & s & [_ ->]%getattr_inr & H).
  apply bind_inr in H as ([] & [self1 g1] & _ & H).
  apply bind_inr in H as (lin & s & H2 & H).
  apply bind_inr in H2 as (a & s2 & [Hlin ->]%getattr_inr & [-> ->]%as_linear_inr).
  apply bind_inr in H as (lstm_matrix & s & [-> ->]%Linear_call_inr & H).
  cbn [fst snd] in Hlin.
  destruct (split (linear_map theta lin [inputs; m_prev])) as [[[i0 j0] f0] o0] eqn:Hsplit.
  apply bind_inr in H as ([] & [self2 g2] & He1 & H). frame He1 Hlin.
  apply bind_inr in H as ([] & [self3 g3] & He2 & H). frame He2 He1.
  apply bind_inr in H as ([] & [self4 g4] & He3 & H). frame He3 He2.
  apply bind_inr in H as ([] & [self5 g5] & He4 & H). frame He4 He3.
  clear Hlin He1 He2 He3. rename He4 into Hlin.
  apply bind_inr in H as (i & s & [-> (ln_i & Hi & ->)]%LN_norm_inr & H).
  apply bind_inr in H as (j & s & [-> (ln_j & Hj & ->)]%LN_norm_inr & H).
  apply bind_inr in H as (f & s & [-> (ln_f & Hf & ->)]%LN_norm_inr & H).
  apply bind_inr in H as (o & s & [-> (ln_o & Ho & ->)]%LN_norm_inr & H).
  cbn [fst snd] in Hi, Hj, Hf, Ho.
  apply bind_inr in H as (create & s & Hc & H).
  assert (s = (self5, g5)) as ->.
  { destruct (LN_LSTMCell._use_peepholes self).
    - apply bind_inr in Hc as (w & s2 & [_ ->]%getattr_inr & [_ ->]%ret_inr). done.
    - by apply ret_inr in Hc as [_ ->]. }
  clear Hc.
  apply bind_inr in H as ([] & [self6 g6] & Hdiag & H).
  frame_all Hdiag.
  apply bind_inr in H as (c0 & s & Hc0 & H).
  apply bind_inr in H as ([] & [self7 g7] & Hec & H).
  apply bind_inr in H as (c & s8 & Hcn & H).
  apply bind_inr in H as (m0 & s9 & Hm0 & H).
  apply bind_inr in H as (mp & s10 & Hmp & [[= -> ->] <-]%ret_inr).
  unfold ln_equations, ln_preactivations, ln_gates, norm_gates.
  assert (∃ c0' m0',
    s = (self6, g6) ∧ s8 = (self7, g7) ∧ s9 = (self7, g7) ∧ c0 = c0' ∧ m0 = m0' ∧
    (∃ ln_c, LN_LSTMCell.__dict__ self7 !! "_ln_c" = Some (PyNorm ln_c) ∧
       c = layer_norm theta ln_c c0') ∧
    if LN_LSTMCell._use_peepholes self then
      ∃ w_f w_i w_o ln_p1 ln_p2,
        LN_LSTMCell.__dict__ self7 !! "_w_f_diag" = Some (PyVar w_f) ∧
        LN_LSTMCell.__dict__ self7 !! "_w_i_diag" = Some (PyVar w_i) ∧
        LN_LSTMCell.__dict__ self7 !! "_w_o_diag" = Some (PyVar w_o) ∧
        LN_LSTMCell.__dict__ self7 !! "_ln_p1" = Some (PyNorm ln_p1) ∧
        LN_LSTMCell.__dict__ self7 !! "_ln_p2" = Some (PyNorm ln_p2) ∧
        c0' = madd (sigmoid (madd (sadd (layer_norm theta ln_f f0)
                                        (LN_LSTMCell._forget_bias self))
                                  (layer_norm theta ln_p1
                                     (vmul (read_vector theta w_f) c_prev))))
                   (mmul (sigmoid (madd (layer_norm theta ln_i i0)
                                        (layer_norm theta ln_p2
                                           (vmul (read_vector theta w_i) c_prev))))
                         (mmap (LN_LSTMCell._activation self) (layer_norm theta ln_j j0))) ∧
        m0' = mmul (sigmoid (madd (layer_norm theta ln_o o0)
                                  (vmul (read_vector theta w_o) c)))
                   (mmap (LN_LSTMCell._activation self) c)
    else
      c0' = madd (mmul (sigmoid (sadd (layer_norm theta ln_f f0)
                                      (LN_LSTMCell._forget_bias self))) c_prev)
                 (mmul (sigmoid (layer_norm theta ln_i i0))
                       (mmap (LN_LSTMCell._activation self) (layer_norm theta ln_j j0))) ∧
      m0' = mmul (sigmoid (layer_norm theta ln_o o0))
                 (mmap (LN_LSTMCell._activation self) c))
    as (c0' & m0' & -> & -> & -> & -> & -> & (ln_c & Hlc & Hc) & Hgate).
  { destruct (LN_LSTMCell._use_peepholes self) eqn:Hpeep.
    - apply bind_inr in Hc0 as (w_f & ? & [-> Hwf]%LN_variable_inr & Hc0).
      apply bind_inr in Hc0 as (w_i & ? & [-> Hwi]%LN_variable_inr & Hc0).
      apply bind_inr in Hc0 as (p1 & ? & [-> (ln_p1 & Hp1 & ->)]%LN_norm_inr & Hc0).
      apply bind_inr in Hc0
        as (p2 & ? & [-> (ln_p2 & Hp2 & ->)]%LN_norm_inr & [-> ->]%ret_inr).
      cbn [fst snd] in *. frame_all Hec.
      apply LN_norm_inr in Hcn as [-> (ln_c & Hlc & ->)].
      apply bind_inr in Hm0 as (w_o & ? & [-> Hwo]%LN_variable_inr & [-> ->]%ret_inr).
      cbn [fst snd] in *.
      eexists _, _. repeat (split; [reflexivity|]). split; [by exists ln_c|].
      exists w_f, w_i, w_o, ln_p1, ln_p2. repeat split; first [eassumption|reflexivity].
    - apply ret_inr in Hc0 as [-> ->].
      apply LN_norm_inr in Hcn as [-> (ln_c & Hlc & ->)].
      apply ret_inr in Hm0 as [-> ->]. cbn [fst snd] in *.
      eexists _, _. repeat (split; [reflexivity|]). split; [by exists ln_c|].
      split; reflexivity. }
  clear Hc0 Hcn Hm0. frame_all Hec.
  exists (layer_norm theta ln_i i0), (layer_norm theta ln_j j0),
    (layer_norm theta ln_f f0), (layer_norm theta ln_o o0), c, m0'.
  destruct (LN_LSTMCell._num_proj self) as [num_proj|] eqn:Hproj.
  - apply bind_inr in Hmp as (l2 & s & [_ ->]%getattr_inr & Hmp).
    apply bind_inr in Hmp as ([] & [self8 g8] & Hblock & Hmp).
    apply bind_inr in Hmp as (lin2 & s & H3 & Hmp).
    apply bind_inr in H3 as (? & ? & [Hlin2 ->]%getattr_inr & [-> ->]%as_linear_inr).
    apply bind_inr in Hmp as (mq & s & [-> ->]%Linear_call_inr & [-> [= <- <-]]%ret_inr).
    cbn [fst snd] in *.
    destruct (LN_LSTMCell._use_peepholes self).
    + destruct Hgate as (w_f & w_i & w_o & ln_p1 & ln_p2 & Hwf & Hwi & Hwo & Hp1 & Hp2 & Hg).
      frame_all Hblock.
      split; [exists lin, ln_i, ln_j, ln_f, ln_o; rewrite Hsplit; conjs|].
      split; [exists ln_c; split; [done|];
              exists w_f, w_i, w_o, ln_p1, ln_p2; destruct Hg as [-> Hg]; conjs|].
      split; [done|]. by exists lin2.
    + frame_all Hblock.
      split; [exists lin, ln_i, ln_j, ln_f, ln_o; rewrite Hsplit; conjs|].
      split; [exists ln_c; split; [done|]; destruct Hgate as [-> Hg]; conjs|].
      split; [done|]. by exists lin2.
  - apply ret_inr in Hmp as [-> [= <- <-]].
    split; [exists lin, ln_i, ln_j, ln_f, ln_o; rewrite Hsplit; conjs|].
    split; [|done]. exists ln_c. split; [done|].
    destruct (LN_LSTMCell._use_peepholes self); [|destruct Hgate as [-> Hg]; conjs].
    destruct Hgate as (w_f & w_i & w_o & ln_p1 & ln_p2 & Hwf & Hwi & Hwo & Hp1 & Hp2 & Hg).
    exists w_f, w_i, w_o, ln_p1, ln_p2. destruct Hg as [-> Hg]. conjs.
Qed.

End LNCellCall.
(** ** The variables of the normalisations of [LN_LSTMCell] *)

Section LNStored.
Context {T : Type} `{!Scalar T}.
Variable theta : list string → nat → nat → T.
Implicit Types (self x : LN_LSTMCell.t (T:=T)) (g : tf_graph).
Implicit Types (vars : gmap (list string) (list nat)).

Lemma norm_stored_mono vars vars' scope (ln : Layer_Normalization.t (T:=T)) :
  vars ⊆ vars' → norm_stored vars scope ln → norm_stored vars' scope ln.
Proof.
  intros Hsub (path & Hg & Hb & Hvg & Hvb). exists path.
  split; [done|]. split; [done|].
  split; eapply lookup_weaken; eassumption.
Qed.

Lemma LN_norms_in_mono self vars vars' :
  vars ⊆ vars' → LN_norms_in self vars → LN_norms_in self vars'.
Proof.
  intros Hsub H name scope ln Hin Hl.
  eapply norm_stored_mono; [exact Hsub|]. by eapply H.
Qed.

Lemma LN_norms_stored_storing (s : LN_LSTMCell.t (T:=T) * tf_graph) :
  LN_norms_stored s ↔ storing LN_norms_in s.
Proof.
  split.
  - intros H vars Hv. by eapply LN_norms_in_mono.
  - intros H. by apply H.
Qed.

Lemma preserves_LN_norms_stored {A} (m : M (LN_LSTMCell.t (T:=T) * tf_graph) A) Q :
  preserves (storing LN_norms_in) m Q → preserves LN_norms_stored m Q.
Proof.
  intros Hm s Hs. apply LN_norms_stored_storing in Hs. specialize (Hm s Hs).
  destruct (m s) as [[e|a] s'].
  - by apply LN_norms_stored_storing.
  - destruct Hm as [Hs' Ha]. split; [by apply LN_norms_stored_storing|done].
Qed.

(** A run of [Layer_Normalization.__init__] keeps the object and the
    variables of the store; the normalisation it returns has its two
    variables in the scope [scope] under the current scope, and the store
    holds them. *)
Lemma Norm_init_stored {Self} dim scope epsilon (o o' : Self) g r g' :
  Layer_Normalization.__init__ (T:=T) dim scope epsilon (o, g) = (r, (o', g')) →
  o' = o ∧ g_vars g ⊆ g_vars g' ∧
  ∀ ln, r = inr ln → norm_stored (g_vars g') scope ln.
Proof.
  unfold Layer_Normalization.__init__, variable_scope, mbind, M_bind, get_variable.
  cbn [enter_scope g_vars g_scope g_reuse g_initializer].
  destruct (g_vars g !! ("gain" :: scope :: g_scope g)) as [sg|] eqn:Eg;
    destruct (g_reuse g) eqn:Er; cbn;
    try (intros [= <- <- <-]; by split; [|split]).
  - destruct (decide (sg = dim)) as [->|]; cbn;
      [|intros [= <- <- <-]; by split; [|split]].
    destruct (g_vars g !! ("bias" :: scope :: g_scope g)) as [sb|] eqn:Eb; cbn;
      [|intros [= <- <- <-]; by split; [|split]].
    destruct (decide (sb = dim)) as [->|]; cbn;
      [|intros [= <- <- <-]; by split; [|split]].
    intros [= <- <- <-]. split; [done|]. split; [done|].
    intros ln [= <-]. exists (g_scope g). by cbn.
  - destruct (g_vars g !! ("bias" :: scope :: g_scope g)) as [sb|] eqn:Eb.
    + rewrite lookup_insert_ne by discriminate. rewrite Eb. cbn.
      intros [= <- <- <-]. split; [done|]. split; [by apply insert_subseteq|done].
    + rewrite lookup_insert_ne by discriminate. rewrite Eb. cbn.
      intros [= <- <- <-]. split; [done|]. split.
      { cbn. etrans; [|apply insert_subseteq; by rewrite lookup_insert_ne].
        by apply insert_subseteq. }
      intros ln [= <-]. exists (g_scope g). cbn.
      split; [done|]. split; [done|]. split.
      * rewrite lookup_insert_ne by discriminate. by rewrite lookup_insert_eq.
      * by rewrite lookup_insert_eq.
Qed.

Lemma LN_norm_scopes_fun name scope scope' :
  (name, scope) ∈ LN_norm_scopes → (name, scope') ∈ LN_norm_scopes → scope' = scope.
Proof.
  unfold LN_norm_scopes. intros H1 H2.
  repeat (apply elem_of_cons in H1 as [H1|H1]);
    try (by apply elem_of_nil in H1); injection H1 as -> ->;
    repeat (apply elem_of_cons in H2 as [H2|H2]);
    try (by apply elem_of_nil in H2); by injection H2 as ?.
Qed.

(** [ensure_norm] with an attribute of [LN_norm_scopes] and its scope. *)
Lemma LN_ensure_norm_stored self0 name scope :
  (name, scope) ∈ LN_norm_scopes →
  preserves (storing LN_norms_in) (LN_LSTMCell.ensure_norm self0 name scope) (λ _, True).
Proof.
  intros Hin [self g] Hs.
  unfold LN_LSTMCell.ensure_norm, LN_LSTMCell.self_get, LN_LSTMCell.self_set,
    mbind, M_bind, getattr, setattr. cbn [fst snd].
  destruct (LN_LSTMCell.__dict__ self !! name) as [a|]; [|done].
  unfold when. destruct (is_None a); [|done].
  destruct (Layer_Normalization.__init__ [LN_LSTMCell._num_units self0] scope
              Layer_Normalization.epsilon_default (self, g)) as [r [self1 g1]] eqn:E.
  apply Norm_init_stored in E as (-> & Hsub & Hln).
  destruct r as [e|ln]; cbn.
  { eapply storing_grows; [exact Hsub|exact Hs]. }
  split; [|done]. intros vars Hv name' scope' ln' Hin' Hl. cbn in Hl, Hv.
  destruct (decide (name' = name)) as [->|Hne].
  - rewrite lookup_insert_eq in Hl. injection Hl as <-.
    rewrite (LN_norm_scopes_fun _ _ _ Hin Hin').
    eapply norm_stored_mono; [exact Hv|]. by apply Hln.
  - rewrite lookup_insert_ne in Hl by done.
    assert (LN_norms_in self vars) as Hvars by (apply (Hs vars); by etrans).
    exact (Hvars _ _ _ Hin' Hl).
Qed.

End LNStored.

Ltac pres_method ::=
  lazymatch goal with
  | |- preserves (storing LN_norms_in) (LN_LSTMCell.ensure_norm _ _ _) _ =>
      apply LN_ensure_norm_stored; unfold LN_norm_scopes;
      repeat first [by apply list_elem_of_here | apply list_elem_of_further]
  end.

Section LNStoredCall.
Context {T : Type} `{!Scalar T}.
Variable theta : list string → nat → nat → T.
Implicit Types (self x : LN_LSTMCell.t (T:=T)) (g : tf_graph).

(** Assigning an attribute that holds no normalisation. *)
Lemma LN_norms_in_set x vars name a :
  (∀ scope, (name, scope) ∉ LN_norm_scopes) →
  LN_norms_in x vars →
  LN_norms_in (LN_LSTMCell.set_dict (<[name := a]> (LN_LSTMCell.__dict__ x)) x) vars.
Proof.
  intros Hname H name' scope ln Hin Hl. cbn in Hl.
  rewrite lookup_insert_ne in Hl; [by eapply H|].
  intros ->. by apply (Hname scope).
Qed.

Lemma LN_call_stored inputs state :
  preserves LN_norms_stored (LN_LSTMCell.call theta inputs state) (λ _, True).
Proof.
  apply preserves_LN_norms_stored.
  unfold LN_LSTMCell.call, LN_LSTMCell.norm, LN_LSTMCell.self_get, LN_LSTMCell.self_set,
    LN_LSTMCell.unpack_state.
  pres; (intros x vars Hx; apply LN_norms_in_set; [|done];
         intros scope Hin; unfold LN_norm_scopes in Hin;
         repeat (apply elem_of_cons in Hin as [Hin|Hin]); try discriminate Hin;
         by apply elem_of_nil in Hin).
Qed.

Lemma LN___call___stored inputs state :
  preserves LN_norms_stored (LN_LSTMCell.__call__ theta inputs state) (λ _, True).
Proof.
  intros [self g] Hs. unfold LN_LSTMCell.__call__, RNNCell.__call__.
  match goal with |- context [LN_LSTMCell.call theta inputs state ?s] =>
    pose proof (LN_call_stored inputs state s Hs) as Hcall end.
  destruct (LN_LSTMCell.call _ _ _ _) as [[e|a] [self1 g1]].
  - exact Hcall.
  - destruct Hcall as [H1 _]. split; [|done]. exact H1.
Qed.

Lemma LN_init_stored num_units use_peepholes cell_clip initializer num_proj proj_clip
    forget_bias state_is_tuple activation reuse g :
  LN_norms_stored
    (LN_LSTMCell.__init__ (T:=T) num_units use_peepholes cell_clip initializer num_proj
       proj_clip forget_bias state_is_tuple activation reuse, g).
Proof.
  intros name scope ln Hin Hl. exfalso. cbn in Hl.
  unfold LN_norm_scopes in Hin.
  repeat (apply elem_of_cons in Hin as [Hin|Hin]);
    try (by apply elem_of_nil in Hin); injection Hin as -> ->;
    destruct use_peepholes; cbn in Hl;
    repeat (rewrite lookup_insert_ne in Hl by discriminate);
    first [ rewrite lookup_insert_eq in Hl; discriminate
          | rewrite lookup_empty in Hl; discriminate ].
Qed.

(** Normalisations of different attributes have different variables. *)
Lemma norm_stored_names vars vars' scope scope' (ln ln' : Layer_Normalization.t (T:=T)) :
  scope ≠ scope' → norm_stored vars scope ln → norm_stored vars' scope' ln' →
  v_name (Layer_Normalization._g ln) ≠ v_name (Layer_Normalization._g ln') ∧
  v_name (Layer_Normalization._g ln) ≠ v_name (Layer_Normalization._b ln') ∧
  v_name (Layer_Normalization._b ln) ≠ v_name (Layer_Normalization._g ln') ∧
  v_name (Layer_Normalization._b ln) ≠ v_name (Layer_Normalization._b ln').
Proof.
  intros Hne (p & -> & -> & _) (p' & -> & -> & _).
  repeat split; intros [=]; done.
Qed.

End LNStoredCall.

Section LNCellInvariant.
Context {T : Type} `{!Scalar T}.
Variable theta : list string → nat → nat → T.
Implicit Types (self x : LN_LSTMCell.t (T:=T)) (g : tf_graph).

Lemma LN_config_num_units x y :
  LN_LSTMCell_config x = LN_LSTMCell_config y →
  LN_LSTMCell._num_units x = LN_LSTMCell._num_units y.
Proof. intros E. exact (f_equal LN_LSTMCell._num_units E). Qed.

Lemma LN_config_num_proj x y :
  LN_LSTMCell_config x = LN_LSTMCell_config y →
  LN_LSTMCell._num_proj x = LN_LSTMCell._num_proj y.
Proof. intros E. exact (f_equal LN_LSTMCell._num_proj E). Qed.

Lemma LN_init_wf num_units use_peepholes cell_clip initializer num_proj proj_clip
    forget_bias state_is_tuple activation reuse :
  LN_LSTMCell_wf (LN_LSTMCell.__init__ (T:=T) num_units use_peepholes cell_clip initializer
                    num_proj proj_clip forget_bias state_is_tuple activation reuse).
Proof.
  unfold LN_LSTMCell_wf. simpl.
  destruct use_peepholes; repeat (apply map_Forall_insert_2; [done|]);
    apply map_Forall_empty.
Qed.

Lemma LN_inv_set self0 x name a :
  attr_ok (λ _, True) (LN_LSTMCell._num_units self0) (LN_LSTMCell._num_proj self0) name a →
  LN_LSTMCell_inv self0 x →
  LN_LSTMCell_inv self0 (LN_LSTMCell.set_dict (<[name := a]> (LN_LSTMCell.__dict__ x)) x).
Proof.
  intros Ha [Hc Hwf]. split; [done|]. unfold LN_LSTMCell_wf in *. simpl.
  rewrite (LN_config_num_units _ _ Hc), (LN_config_num_proj _ _ Hc) in *.
  by apply map_Forall_insert_2.
Qed.

Lemma LN_call_inv self0 inputs state :
  preserves (on_self (LN_LSTMCell_inv self0)) (LN_LSTMCell.call theta inputs state)
    (λ _, True).
Proof.
  unfold LN_LSTMCell.call, LN_LSTMCell.ensure_norm, LN_LSTMCell.norm,
    LN_LSTMCell.self_get, LN_LSTMCell.self_set, LN_LSTMCell.unpack_state.
  eapply preserves_bind; [apply preserves_get_self|]. intros self [Hc _].
  pose proof (LN_config_num_units _ _ Hc) as Hn.
  pose proof (LN_config_num_proj _ _ Hc) as Hp.
  pres; (intros x Hx; apply LN_inv_set; [|done]; simpl in *;
         rewrite <- ?Hn, <- ?Hp; try done;
         first [ by split; [|intros [=]]; intros _; intuition
               | by split; [intros [=]|]; intros _; intuition eauto ]).
Qed.

End LNCellInvariant.

(** C6.  For every call of [LN_LSTMCell.call] that returns, on a
    well-formed cell whose normalisations are those that earlier calls have
    built ([LN_norms_stored]; this holds of a new cell on every graph and
    every call keeps it, also one that raises), each of the four
    column-splits [i, j, f, o] of the linear map of [[inputs, m_prev]] goes
    through the normalisation held by its own attribute ([_ln_i], [_ln_j],
    [_ln_f], [_ln_o]): every row minus its mean over the square root of its
    variance plus epsilon, epsilon being 1e-5, times a gain and plus a bias
    of [num_units] entries.  The gain and the bias of each of the four are
    variables of the graph, [gain] and [bias] in the scope [i_norm],
    [j_norm], [f_norm], [o_norm], and the eight variables are pairwise
    different.  The gate nonlinearities of [ln_gates] are applied to the
    normalised values; they give the new cell state [c] and the output
    [m0], and the output [m] of the call is [m0], or its clipped projection
    when [num_proj] is set.  On the real numbers the normalised row has
    mean zero and variance [v / (v + epsilon)], [v] being the variance of
    the row. *)
Theorem LN_LSTMCell_gate_normalization {T : Type} `{!Scalar T}
    (theta : list string → nat → nat → T) :
  (∀ ln x, Layer_Normalization.__call__ theta ln x = layer_norm theta ln x) ∧
  (∀ (epsilon : R) (r : list R), r ≠ [] → 0 < epsilon →
     Rsum (normalized epsilon r) / INR (length r) = 0 ∧
     let mu := Rsum r / INR (length r) in
     let v := Rsum (map (λ x, (x - mu) * (x - mu)) r) / INR (length r) in
     Rsum (map (λ y, y * y) (normalized epsilon r)) / INR (length r) = v / (v + epsilon))%R ∧
  (∀ num_units use_peepholes cell_clip initializer num_proj proj_clip forget_bias
     state_is_tuple activation reuse g,
     LN_norms_stored
       (LN_LSTMCell.__init__ (T:=T) num_units use_peepholes cell_clip initializer num_proj
          proj_clip forget_bias state_is_tuple activation reuse, g)) ∧
  (∀ inputs state,
     preserves LN_norms_stored (LN_LSTMCell.call theta inputs state) (λ _, True) ∧
     preserves LN_norms_stored (LN_LSTMCell.__call__ theta inputs state) (λ _, True)) ∧
  ∀ (self self' : LN_LSTMCell.t) g g' inputs state m new_state,
    LN_LSTMCell_wf self →
    LN_norms_stored (self, g) →
    LN_LSTMCell.call theta inputs state (self, g) = (inr (m, new_state), (self', g')) →
    ∃ c_prev m_prev lin ln_i ln_j ln_f ln_o c m0,
      LN_LSTMCell.unpack_state self state (self, g) = (inr (c_prev, m_prev), (self, g)) ∧
      LN_LSTMCell.__dict__ self' !! "_linear1" = Some (PyLinear lin) ∧
      LN_LSTMCell.__dict__ self' !! "_ln_i" = Some (PyNorm ln_i) ∧
      LN_LSTMCell.__dict__ self' !! "_ln_j" = Some (PyNorm ln_j) ∧
      LN_LSTMCell.__dict__ self' !! "_ln_f" = Some (PyNorm ln_f) ∧
      LN_LSTMCell.__dict__ self' !! "_ln_o" = Some (PyNorm ln_o) ∧
      Forall (λ ln, Layer_Normalization._epsilon ln = flit (1 # 100000) ∧
                    v_shape (Layer_Normalization._g ln) = [LN_LSTMCell._num_units self] ∧
                    v_shape (Layer_Normalization._b ln) = [LN_LSTMCell._num_units self])
        [ln_i; ln_j; ln_f; ln_o] ∧
      norm_stored (g_vars g') "i_norm" ln_i ∧
      norm_stored (g_vars g') "j_norm" ln_j ∧
      norm_stored (g_vars g') "f_norm" ln_f ∧
      norm_stored (g_vars g') "o_norm" ln_o ∧
      NoDup (map v_name
               [Layer_Normalization._g ln_i; Layer_Normalization._b ln_i;
                Layer_Normalization._g ln_j; Layer_Normalization._b ln_j;
                Layer_Normalization._g ln_f; Layer_Normalization._b ln_f;
                Layer_Normalization._g ln_o; Layer_Normalization._b ln_o]) ∧
      let '(i0, j0, f0, o0) := split (linear_map theta lin [inputs; m_prev]) in
      ln_gates theta self self' c_prev
        (layer_norm theta ln_i i0) (layer_norm theta ln_j j0)
        (layer_norm theta ln_f f0) (layer_norm theta ln_o o0) c m0 ∧
      match LN_LSTMCell._num_proj self with
      | None => m = m0
      | Some _ =>
          ∃ lin2, LN_LSTMCell.__dict__ self' !! "_linear2" = Some (PyLinear lin2) ∧
                  m = clipped (LN_LSTMCell._proj_clip self) (linear_map theta lin2 [m0])
      end ∧
      new_state = packed (LN_LSTMCell._state_is_tuple self) c m.
Proof.
  split; [apply layer_norm_call|]. split.
  { intros epsilon r Hr Heps. split.
    - by apply normalized_mean_zero.
    - by apply normalized_variance. }
  split; [intros; apply LN_init_stored|]. split.
  { intros inputs state. split; [apply LN_call_stored|apply LN___call___stored]. }
  intros self self' g g' inputs state m new_state Hwf Hst Hcall.
  pose proof (preserves_run_self _ _ _ _ _ _ _ _ (LN_call_inv theta self inputs state)
                (conj eq_refl Hwf) Hcall) as [[Hc Hwf'] _].
  pose proof (preserves_run _ _ _ _ _ _ (LN_call_stored theta inputs state) Hst Hcall)
    as [Hst' _].
  apply LN_call_inr in Hcall as (c_prev & m_prev & Hu & i & j & f & o & c & m0 &
    (lin & ln_i & ln_j & ln_f & ln_o & Hlin & Hi & Hj & Hf & Ho & Hpre) & Hgates & Hns & Hm).
  assert (norm_stored (g_vars g') "i_norm" ln_i) as Si.
  { apply (Hst' "_ln_i"); [|exact Hi]. unfold LN_norm_scopes.
    repeat first [by apply list_elem_of_here | apply list_elem_of_further]. }
  assert (norm_stored (g_vars g') "j_norm" ln_j) as Sj.
  { apply (Hst' "_ln_j"); [|exact Hj]. unfold LN_norm_scopes.
    repeat first [by apply list_elem_of_here | apply list_elem_of_further]. }
  assert (norm_stored (g_vars g') "f_norm" ln_f) as Sf.
  { apply (Hst' "_ln_f"); [|exact Hf]. unfold LN_norm_scopes.
    repeat first [by apply list_elem_of_here | apply list_elem_of_further]. }
  assert (norm_stored (g_vars g') "o_norm" ln_o) as So.
  { apply (Hst' "_ln_o"); [|exact Ho]. unfold LN_norm_scopes.
    repeat first [by apply list_elem_of_here | apply list_elem_of_further]. }
  exists c_prev, m_prev, lin, ln_i, ln_j, ln_f, ln_o, c, m0.
  repeat (split; [done|]). split.
  { rewrite <- (LN_config_num_units _ _ Hc).
    repeat constructor;
      [ apply (Hwf' _ _ Hi) | apply (Hwf' _ _ Hi) | apply (Hwf' _ _ Hi)
      | apply (Hwf' _ _ Hj) | apply (Hwf' _ _ Hj) | apply (Hwf' _ _ Hj)
      | apply (Hwf' _ _ Hf) | apply (Hwf' _ _ Hf) | apply (Hwf' _ _ Hf)
      | apply (Hwf' _ _ Ho) | apply (Hwf' _ _ Ho) | apply (Hwf' _ _ Ho) ]. }
  repeat (split; [done|]). split.
  { destruct Si as (pi & Egi & Ebi & _), Sj as (pj & Egj & Ebj & _),
      Sf as (pf & Egf & Ebf & _), So as (po & Ego & Ebo & _).
    cbn [map]. rewrite Egi, Ebi, Egj, Ebj, Egf, Ebf, Ego, Ebo.
    repeat (apply NoDup_cons; split;
            [ intros Hin; repeat (apply elem_of_cons in Hin as [Hin|Hin]);
              try discriminate Hin; by apply elem_of_nil in Hin | ]).
    apply NoDup_nil_2. }
  destruct (split (linear_map theta lin [inputs; m_prev])) as [[[i0 j0] f0] o0].
  destruct Hpre as (-> & -> & -> & ->). done.
Qed.

Lemma ln_cell_returns {T : Type} `{!Scalar T} :
  ∃ m new_state self' g',
    LN_LSTMCell.call (T:=T) zero_weights x0 state20 (ln_cell, empty_graph)
      = (inr (m, new_state), (self', g')).
Proof. eexists _, _, _, _. vm_compute. reflexivity. Qed.

Lemma LN_LSTMCell_gate_normalization_witness :
  ([1; 3]%R ≠ [] ∧ (0 < 1)%R ∧
   (Rsum (normalized 1 [1; 3]) / INR (length [1; 3]%R) = 0)%R) ∧
  ∃ m new_state self' g',
    LN_LSTMCell_wf (T:=R) ln_cell ∧
    LN_norms_stored (T:=R) (ln_cell, empty_graph) ∧
    LN_LSTMCell.call zero_weights x0 state20 (ln_cell, empty_graph)
      = (inr (m, new_state), (self', g')) ∧
    ∃ ln_i ln_j ln_f ln_o,
      LN_LSTMCell.__dict__ self' !! "_ln_i" = Some (PyNorm ln_i) ∧
      LN_LSTMCell.__dict__ self' !! "_ln_j" = Some (PyNorm ln_j) ∧
      LN_LSTMCell.__dict__ self' !! "_ln_f" = Some (PyNorm ln_f) ∧
      LN_LSTMCell.__dict__ self' !! "_ln_o" = Some (PyNorm ln_o) ∧
      Forall (λ ln, Layer_Normalization._epsilon ln = flit (1 # 100000))
        [ln_i; ln_j; ln_f; ln_o] ∧
      norm_stored (g_vars g') "o_norm" ln_o.
Proof.
  split.
  - split; [discriminate|]. split; [lra|].
    apply (proj1 (proj2 (LN_LSTMCell_gate_normalization (T:=R) zero_weights)));
      [discriminate|lra].
  - destruct (ln_cell_returns (T:=R)) as (m & new_state & self' & g' & Hcall).
    exists m, new_state, self', g'. split; [apply LN_init_wf|].
    split; [apply LN_init_stored|]. split; [exact Hcall|].
    destruct (proj2 (proj2 (proj2 (proj2 (LN_LSTMCell_gate_normalization zero_weights))))
                _ _ _ _ _ _ _ _ (LN_init_wf _ _ _ _ _ _ _ _ _ _)
                (LN_init_stored _ _ _ _ _ _ _ _ _ _ _) Hcall)
      as (c_prev & m_prev & lin & ln_i & ln_j & ln_f & ln_o & c & m0 & _ & _ &
          Hi & Hj & Hf & Ho & Hok & _ & _ & _ & Hso & _).
    exists ln_i, ln_j, ln_f, ln_o. repeat (split; [assumption|]).
    split; [|exact Hso].
    eapply Forall_impl; [exact Hok|]. by intros ln [? _].
Defined.

(** ** [_h_linear], [_hyper_norm] and [_hyper_bias] *)

Section ScopeLemmas.
Context {Self : Type}.
Implicit Types (self : Self) (g : tf_graph).

Lemma same_scope_refl g : same_scope g g.
Proof. done. Qed.

Lemma same_scope_trans g1 g2 g3 : same_scope g1 g2 → same_scope g2 g3 → same_scope g1 g3.
Proof. intros (? & ? & ?) (? & ? & ?). repeat split; congruence. Qed.

Lemma same_scope_leave g g1 : same_scope g (leave_scope g g1).
Proof. done. Qed.

Lemma get_variable_same_scope name shape init self g r self' g' :
  get_variable name shape init (self, g) = (r, (self', g')) → self' = self ∧ same_scope g g'.
Proof.
  unfold get_variable.
  destruct (g_vars g !! (name :: g_scope g)) as [sh|]; destruct (g_reuse g) eqn:Hr.
  - destruct (decide (sh = shape)); by intros [= <- <- <-].
  - by intros [= <- <- <-].
  - by intros [= <- <- <-].
  - destruct (run_initializer init g shape); intros [= <- <- <-]; [done|].
    split; [done|]. by repeat split.
Qed.

Lemma variable_scope_inr {A} name (body : M (Self * tf_graph) A) self g a self' g' :
  variable_scope name body (self, g) = (inr a, (self', g')) →
  ∃ g1, body (self, enter_scope (name :: g_scope g) (g_reuse g) None g)
          = (inr a, (self', g1)) ∧ g' = leave_scope g g1.
Proof.
  unfold variable_scope.
  destruct (body _) as [[e|a'] [self1 g1]]; [discriminate|].
  intros [= <- <- <-]. eauto.
Qed.

Lemma scope_initializer_inr {A} init (body : M (Self * tf_graph) A) self g a self' g' :
  scope_initializer init body (self, g) = (inr a, (self', g')) →
  ∃ g1, body (self, enter_scope (g_scope g) (g_reuse g) init g)
          = (inr a, (self', g1)) ∧ g' = leave_scope g g1.
Proof.
  unfold scope_initializer.
  destruct (body _) as [[e|a'] [self1 g1]]; [discriminate|].
  intros [= <- <- <-]. eauto.
Qed.

End ScopeLemmas.

Section HyperLemmas.
Context {T : Type} `{!Scalar T}.
Variable theta : list string → nat → nat → T.
Context {Self : Type}.
Implicit Types (self : Self) (g : tf_graph).

Lemma h_linear_inr x out scope init_w weight_start use_bias bias_start self g r self' g' :
  _h_linear theta x out (Some scope) false init_w weight_start use_bias bias_start None
    (self, g) = (inr r, (self', g')) →
  self' = self ∧ same_scope g g' ∧
  r = h_linear_value theta (scope :: g_scope g) x out use_bias.
Proof.
  unfold _h_linear, h_linear_value. intros H.
  apply variable_scope_inr in H as (g1 & H & ->). simpl in H.
  apply bind_inr in H as ([] & s1 & [_ ->]%ret_inr & H).
  apply bind_inr in H as (w & [self1 g2] & Hw & H).
  apply get_variable_inr in Hw as (-> & -> & Hs & _). simpl in Hs.
  destruct use_bias.
  - apply bind_inr in H as (b & [self2 g3] & Hb & [-> [= -> ->]]%ret_inr).
    apply get_variable_inr in Hb as (-> & -> & Hs' & _). rewrite Hs. simpl.
    split; [done|]. split; [apply same_scope_leave|done].
  - apply ret_inr in H as [-> [= -> ->]].
    split; [done|]. split; [apply same_scope_leave|done].
Qed.

Lemma hyper_norm_inr layer_ h_out e n scope self g r self' g' :
  _hyper_norm theta layer_ h_out e n scope (self, g) = (inr r, (self', g')) →
  self' = self ∧ same_scope g g' ∧
  r = mmul (hyper_scale theta (scope :: g_scope g) e n h_out) layer_.
Proof.
  unfold _hyper_norm, hyper_scale. intros H.
  apply variable_scope_inr in H as (g1 & H & ->).
  apply bind_inr in H as (zw & [self1 g2] & Hzw & H).
  apply h_linear_inr in Hzw as (-> & Hs1 & ->).
  apply bind_inr in H as (ws & [self2 g3] & Hws & H).
  assert (self2 = self ∧ g3 = g2) as [-> ->].
  { destruct (decide (e = 0)); [discriminate|]. by apply ret_inr in Hws as [_ [= -> ->]]. }
  apply bind_inr in H as (alpha & [self3 g4] & Ha & [-> [= -> ->]]%ret_inr).
  apply h_linear_inr in Ha as (-> & Hs2 & ->).
  split; [done|]. split; [apply same_scope_leave|].
  destruct Hs1 as (-> & _). done.
Qed.

Lemma hyper_bias_inr layer_ h_out e n scope self g r self' g' :
  _hyper_bias theta layer_ h_out e n scope (self, g) = (inr r, (self', g')) →
  self' = self ∧ same_scope g g' ∧
  r = vadd layer_ (hyper_shift theta (scope :: g_scope g) e n h_out).
Proof.
  unfold _hyper_bias, hyper_shift. intros H.
  apply bind_inr in H as (beta & [self1 g1] & Hb & [-> [= -> ->]]%ret_inr).
  apply variable_scope_inr in Hb as (g2 & H & ->).
  apply bind_inr in H as (zb & [self2 g3] & Hzb & H).
  apply h_linear_inr in Hzb as (-> & Hs1 & ->).
  apply h_linear_inr in H as (-> & Hs2 & ->).
  split; [done|]. split; [apply same_scope_leave|].
  destruct Hs1 as (-> & _). done.
Qed.

End HyperLemmas.


(** ** [H_LSTMCell]: the gate pre-activations *)

Section AttributeReads.
Context {T : Type} `{!Scalar T} {Self C : Type}.
Variable theta : list string → nat → nat → T.
Variable __dict__ : Self → gmap string (attr T C).

Lemma norm_inr name x (s s' : Self * tf_graph) r :
  ((getattr __dict__ name ≫= as_norm)
   ≫= λ ln, mret (Layer_Normalization.__call__ theta ln x)) s = (inr r, s') →
  s' = s ∧ ∃ ln, __dict__ s.1 !! name = Some (PyNorm ln) ∧ r = layer_norm theta ln x.
Proof.
  intros H. apply bind_inr in H as (ln & s1 & H1 & [-> ->]%ret_inr).
  apply bind_inr in H1 as (a & s2 & [Ha ->]%getattr_inr & [-> ->]%as_norm_inr).
  split; [done|]. exists ln. split; [done|]. apply layer_norm_call.
Qed.

Lemma variable_inr name (s s' : Self * tf_graph) v :
  (getattr __dict__ name ≫= as_variable) s = (inr v, s') →
  s' = s ∧ __dict__ s.1 !! name = Some (PyVar v).
Proof.
  intros H.
  apply bind_inr in H as (a & s2 & [Ha ->]%getattr_inr & [-> ->]%as_variable_inr).
  eauto.
Qed.

End AttributeReads.

Section VariableScope.
Context {Self : Type}.

Lemma get_variable_inr' name shape init (self self' : Self) g g' v :
  get_variable name shape init (self, g) = (inr v, (self', g')) →
  v = {| v_name := name :: g_scope g; v_shape := shape |} ∧ self' = self ∧
  same_scope g g'.
Proof. intros H. apply get_variable_inr in H as (-> & -> & ? & ? & ? & _). done. Qed.

End VariableScope.

(** One call of [_hyper_norm] or [_hyper_bias] in the run [H]; [Hsc] relates
    the current graph to the initial one. *)
Ltac hyper_step H Hsc :=
  let r := fresh "r" in
  let self_ := fresh "self" in
  let g_ := fresh "g" in
  let Hr := fresh "Hr" in
  let Hs := fresh "Hs" in
  apply bind_inr in H as (r & [self_ g_] & Hr & H);
  first [ apply hyper_norm_inr in Hr as (-> & Hs & ->)
        | apply hyper_bias_inr in Hr as (-> & Hs & ->) ];
  rewrite (proj1 Hsc) in H;
  apply (same_scope_trans _ _ _ Hsc) in Hs; clear Hsc; rename Hs into Hsc.

Section HGates.
Context {T : Type} `{!Scalar T}.
Variable theta : list string → nat → nat → T.
Implicit Types (self : H_LSTMCell.t (T:=T)) (g : tf_graph).

Lemma leave_enter_scope g scope reuse init :
  leave_scope g (enter_scope scope reuse init g) = g.
Proof. by destruct g. Qed.

Lemma RNNCell_call_same_scope {Self A} (layer : Self → Layer) set_layer base_name
    (call : M (Self * tf_graph) A) scope x g r x' g' :
  RNNCell.__call__ layer set_layer base_name call scope (x, g) = (r, (x', g')) →
  same_scope g g'.
Proof.
  unfold RNNCell.__call__.
  destruct (call _) as [[e|a] [x1 g1]]; intros [= <- <- <-]; apply same_scope_leave.
Qed.

Lemma H_gates_inr self g inputs m_prev hyper_state i j f o new_hyper_state self' g' :
  H_LSTMCell.gates theta self inputs m_prev hyper_state (self, g)
    = (inr (i, j, f, o, new_hyper_state), (self', g')) →
  ∃ cell cell' g1 h_out,
    hyper_cell_of self cell ∧
    LSTMCell.__call__ theta (concat [inputs; m_prev]) hyper_state (cell, g)
      = (inr (h_out, new_hyper_state), (cell', g1)) ∧
    self' = H_LSTMCell.set_dict
              (<["_hyper_cell" := PyCell cell']> (H_LSTMCell.__dict__ self)) self ∧
    same_scope g g' ∧
    let n := H_LSTMCell._num_units self in
    let path := g_scope g in
    (i, j, f, o) =
      hyper_combine theta path n (H_LSTMCell._hyper_embed_size self)
        (matmul_var theta inputs (W_xh path (ncols inputs) n))
        (matmul_var theta inputs (W_hh path (ncols inputs) n))
        (read_vector theta (W_bias path n)) h_out.
Proof.
  intros H. unfold H_LSTMCell.gates, H_LSTMCell.hyper_cell, H_LSTMCell.self_get,
    H_LSTMCell.self_set in H.
  apply bind_inr in H as (a & s & [Ha ->]%getattr_inr & H). cbn [fst snd] in Ha.
  apply bind_inr in H as ([] & [self1 g1] & Hnew & H).
  apply bind_inr in H as ([h_out nhs] & [self2 g2] & Hcell & H).
  apply bind_inr in Hcell as (cell & s & Hget & Hinv).
  apply bind_inr in Hget as (a' & s2 & [Ha' ->]%getattr_inr & [-> ->]%as_cell_inr).
  cbn [fst snd] in Ha'.
  assert (hyper_cell_of self cell ∧ g1 = g ∧
          ∀ c, H_LSTMCell.set_dict (<["_hyper_cell" := c]> (H_LSTMCell.__dict__ self1)) self1
               = H_LSTMCell.set_dict (<["_hyper_cell" := c]> (H_LSTMCell.__dict__ self)) self)
    as (Hof & -> & Hd).
  { destruct a as [| | | |c0]; simpl in Hnew.
    2-4: apply ret_inr in Hnew as [_ [= <- <-]]; rewrite Ha in Ha'; discriminate Ha'.
    2: { apply ret_inr in Hnew as [_ [= <- <-]]. rewrite Ha in Ha'. simplify_eq.
         split; [by left|]. done. }
    injection Hnew as <- <-. simpl in Ha'. rewrite lookup_insert_eq in Ha'. injection Ha' as <-.
    split; [by right|]. split; [by rewrite leave_enter_scope|].
    intros c. simpl. by rewrite insert_insert_eq. }
  unfold H_LSTMCell.invoke in Hinv.
  destruct (LSTMCell.__call__ theta _ _ (cell, g)) as [rc [cell' gc]] eqn:Hcall.
  injection Hinv as -> <- <-.
  pose proof (RNNCell_call_same_scope _ _ _ _ _ _ _ _ _ _ Hcall) as Hs1.
  apply bind_inr in H as (wx & [self3 g3] & Hwx & H).
  apply get_variable_inr' in Hwx as (-> & -> & Hs2). rewrite (proj1 Hs1) in H.
  pose proof (same_scope_trans _ _ _ Hs1 Hs2) as Hsc. clear Hs1 Hs2.
  apply bind_inr in H as (wh & [self4 g4] & Hwh & H).
  apply get_variable_inr' in Hwh as (-> & -> & Hs2). rewrite (proj1 Hsc) in H.
  apply (same_scope_trans _ _ _ Hsc) in Hs2. clear Hsc. rename Hs2 into Hsc.
  apply bind_inr in H as (wb & [self5 g5] & Hwb & H).
  apply get_variable_inr' in Hwb as (-> & -> & Hs2). rewrite (proj1 Hsc) in H.
  apply (same_scope_trans _ _ _ Hsc) in Hs2. clear Hsc. rename Hs2 into Hsc.
  cbv zeta. unfold hyper_combine, W_xh, W_hh, W_bias.
  destruct (split (matmul_var theta inputs _)) as [[[ix jx] fx] ox].
  do 4 hyper_step H Hsc.
  destruct (split (matmul_var theta inputs _)) as [[[ih jh] fh] oh].
  do 4 hyper_step H Hsc.
  destruct (split_vector _) as [[[ib jb] fb] ob].
  do 4 hyper_step H Hsc.
  apply ret_inr in H as [[= -> -> -> -> ->] [= -> ->]].
  exists cell, cell', gc, h_out. split; [done|]. split; [done|].
  split; [apply Hd|]. split; [done|]. reflexivity.
Qed.

End HGates.

(** ** [H_LSTMCell]: the recurrence *)

Section HCall.
Context {T : Type} `{!Scalar T}.
Variable theta : list string → nat → nat → T.
Implicit Types (self : H_LSTMCell.t (T:=T)) (g : tf_graph).

Lemma H_recurrence_inr self g inputs state c m nhs self' g' :
  H_LSTMCell.recurrence theta self inputs state (self, g)
    = (inr (c, m, nhs), (self', g')) →
  ∃ c_t m_t, state = LSTMStateTuple c_t m_t ∧
             h_equations theta self self' g inputs c_t m_t c m nhs.
Proof.
  intros H.
  unfold H_LSTMCell.recurrence, H_LSTMCell.ensure_norm, H_LSTMCell.norm,
    H_LSTMCell.self_get, H_LSTMCell.self_set in H.
  apply bind_inr in H as ([c_t m_t] & s & Hu & H).
  destruct state as [c_t' m_t'|]; [|discriminate].
  apply ret_inr in Hu as [[= -> ->] ->].
  exists c_t', m_t'. split; [done|].
  apply bind_inr in H as ([[[[i0 j0] f0] o0] nhs'] & [self1 g1] & Hgates & H).
  assert (∃ a, H_LSTMCell.__dict__ self1 !! "_hyper_cell" = Some a) as [a Hcell].
  { apply H_gates_inr in Hgates as (? & cell' & _ & _ & _ & _ & -> & _).
    simpl. rewrite lookup_insert_eq. eauto. }
  assert (Some a = H_LSTMCell.__dict__ self1 !! "_hyper_cell") as Hcell1 by done.
  apply bind_inr in H as ([] & [self2 g2] & He1 & H). frame_all He1.
  apply bind_inr in H as ([] & [self3 g3] & He2 & H). frame_all He2.
  apply bind_inr in H as ([] & [self4 g4] & He3 & H). frame_all He3.
  apply bind_inr in H as ([] & [self5 g5] & He4 & H). frame_all He4.
  apply bind_inr in H as (i & s & [-> (ln_i & Hi & ->)]%norm_inr & H).
  apply bind_inr in H as (j & s & [-> (ln_j & Hj & ->)]%norm_inr & H).
  apply bind_inr in H as (f & s & [-> (ln_f & Hf & ->)]%norm_inr & H).
  apply bind_inr in H as (o & s & [-> (ln_o & Ho & ->)]%norm_inr & H).
  cbn [fst snd] in Hi, Hj, Hf, Ho.
  apply bind_inr in H as (create & s & Hc & H).
  assert (s = (self5, g5)) as ->.
  { destruct (H_LSTMCell._use_peepholes self).
    - apply bind_inr in Hc as (w & s2 & [_ ->]%getattr_inr & [_ ->]%ret_inr). done.
    - by apply ret_inr in Hc as [_ ->]. }
  clear Hc.
  apply bind_inr in H as ([] & [self6 g6] & Hdiag & H).
  frame_all Hdiag.
  apply bind_inr in H as (c0 & s & Hc0 & H).
  apply bind_inr in H as ([] & [self7 g7] & Hec & H).
  apply bind_inr in H as (c1 & s8 & Hcn & H).
  apply bind_inr in H as (m0 & s9 & Hm0 & [[= -> -> ->] <-]%ret_inr).
  unfold h_equations. cbv zeta.
  exists i0, j0, f0, o0, self1, g1, ln_i, ln_j, ln_f, ln_o. split; [done|].
  unfold norm_gates.
  destruct (H_LSTMCell._use_peepholes self) eqn:Hpeep.
  - apply bind_inr in Hc0 as (w_f & ? & [-> Hwf]%variable_inr & Hc0).
    apply bind_inr in Hc0 as (w_i & ? & [-> Hwi]%variable_inr & Hc0).
    apply bind_inr in Hc0 as (p1 & ? & [-> (ln_p1 & Hp1 & ->)]%norm_inr & Hc0).
    apply bind_inr in Hc0
      as (p2 & ? & [-> (ln_p2 & Hp2 & ->)]%norm_inr & [-> ->]%ret_inr).
    cbn [fst snd] in *. frame_all Hec.
    apply norm_inr in Hcn as [-> (ln_c & Hlc & ->)].
    apply bind_inr in Hm0 as (w_o & ? & [-> Hwo]%variable_inr & [-> [= -> ->]]%ret_inr).
    cbn [fst snd] in *.
    split; [by rewrite <- Hcell1|]. repeat (split; [assumption|]).
    exists ln_c. split; [done|].
    exists w_f, w_i, w_o, ln_p1, ln_p2. repeat split; first [eassumption|reflexivity].
  - apply ret_inr in Hc0 as [-> ->]. frame_all Hec.
    apply norm_inr in Hcn as [-> (ln_c & Hlc & ->)].
    apply ret_inr in Hm0 as [-> [= -> ->]]. cbn [fst snd] in *.
    split; [by rewrite <- Hcell1|]. repeat (split; [assumption|]).
    exists ln_c. split; [done|]. split; reflexivity.
Qed.

End HCall.

(** ** Well-formed [H_LSTMCell] objects *)

Section HCellInvariant.
Context {T : Type} `{!Scalar T}.
Variable theta : list string → nat → nat → T.
Implicit Types (self x : H_LSTMCell.t (T:=T)) (g : tf_graph).

Lemma H_config_num_units x y :
  H_LSTMCell_config x = H_LSTMCell_config y →
  H_LSTMCell._num_units x = H_LSTMCell._num_units y.
Proof. intros E. exact (f_equal H_LSTMCell._num_units E). Qed.

Lemma H_config_num_proj x y :
  H_LSTMCell_config x = H_LSTMCell_config y →
  H_LSTMCell._num_proj x = H_LSTMCell._num_proj y.
Proof. intros E. exact (f_equal H_LSTMCell._num_proj E). Qed.

Lemma H_config_hyper_num_units x y :
  H_LSTMCell_config x = H_LSTMCell_config y →
  H_LSTMCell._hyper_num_units x = H_LSTMCell._hyper_num_units y.
Proof. intros E. exact (f_equal H_LSTMCell._hyper_num_units E). Qed.

Lemma H_init_wf num_units use_peepholes cell_clip initializer num_proj proj_clip
    forget_bias activation reuse hyper_num_units hyper_embed_size :
  H_LSTMCell_wf (H_LSTMCell.__init__ (T:=T) num_units use_peepholes cell_clip initializer
                   num_proj proj_clip forget_bias activation reuse hyper_num_units
                   hyper_embed_size).
Proof.
  unfold H_LSTMCell_wf. simpl.
  destruct use_peepholes; repeat (apply map_Forall_insert_2; [done|]);
    apply map_Forall_empty.
Qed.

Lemma H_init_no_linear num_units use_peepholes cell_clip initializer num_proj proj_clip
    forget_bias activation reuse hyper_num_units hyper_embed_size :
  no_linear (H_LSTMCell.__init__ (T:=T) num_units use_peepholes cell_clip initializer
               num_proj proj_clip forget_bias activation reuse hyper_num_units
               hyper_embed_size).
Proof. unfold no_linear. simpl. by destruct use_peepholes. Qed.

Lemma H_inv_set self0 x name a :
  attr_ok (LSTMCell_inv (LSTMCell.new (H_LSTMCell._hyper_num_units self0)))
    (H_LSTMCell._num_units self0) (H_LSTMCell._num_proj self0) name a →
  H_LSTMCell_inv self0 x →
  H_LSTMCell_inv self0 (H_LSTMCell.set_dict (<[name := a]> (H_LSTMCell.__dict__ x)) x).
Proof.
  intros Ha [Hc Hwf]. split; [done|]. unfold H_LSTMCell_wf in *. simpl.
  rewrite (H_config_num_units _ _ Hc), (H_config_num_proj _ _ Hc),
    (H_config_hyper_num_units _ _ Hc) in *.
  by apply map_Forall_insert_2.
Qed.

(** Invoking the auxiliary cell assigns nothing but [_hyper_cell]. *)
Lemma preserves_invoke (P : H_LSTMCell.t (T:=T) → Prop) cell inputs state :
  (∀ c x, P x →
     P (H_LSTMCell.set_dict (<["_hyper_cell" := PyCell c]> (H_LSTMCell.__dict__ x)) x)) →
  preserves (on_self P) (H_LSTMCell.invoke theta cell inputs state) (λ _, True).
Proof.
  intros HP [x g] Hx. unfold H_LSTMCell.invoke.
  destruct (LSTMCell.__call__ _ _ _ _) as [[e|a] [cell' g']]; [|split; [|done]];
    by apply HP.
Qed.

Lemma preserves_hyper_cell (P : H_LSTMCell.t (T:=T) → Prop) inputs state :
  (∀ c x, P x →
     P (H_LSTMCell.set_dict (<["_hyper_cell" := PyCell c]> (H_LSTMCell.__dict__ x)) x)) →
  preserves (on_self P) (H_LSTMCell.hyper_cell theta inputs state) (λ _, True).
Proof.
  intros HP. unfold H_LSTMCell.hyper_cell, H_LSTMCell.self_get.
  eapply preserves_bind; [pres|]. intros cell _. by apply preserves_invoke.
Qed.

(** The cell held by [_hyper_cell] stays a well-formed
    [LSTMCell(hyper_num_units)]. *)
Lemma H_hyper_cell_inv self0 inputs state :
  preserves (on_self (H_LSTMCell_inv self0)) (H_LSTMCell.hyper_cell theta inputs state)
    (λ _, True).
Proof.
  unfold H_LSTMCell.hyper_cell, H_LSTMCell.self_get.
  eapply preserves_bind
    with (Q1 := LSTMCell_inv (LSTMCell.new (H_LSTMCell._hyper_num_units self0))).
  { eapply preserves_bind.
    - apply preserves_getattr
        with (Q := λ a, ∀ c, a = PyCell c →
                     LSTMCell_inv (LSTMCell.new (H_LSTMCell._hyper_num_units self0)) c).
      intros x a [Hc Hwf] Ha c ->. pose proof (Hwf _ _ Ha) as Hcell. simpl in Hcell.
      by rewrite (H_config_hyper_num_units _ _ Hc) in Hcell.
    - intros a Ha. destruct a; simpl; try apply preserves_raise.
      apply preserves_ret. by apply Ha. }
  intros cell Hcell [x g] Hx. unfold H_LSTMCell.invoke.
  pose proof (LSTMCell___call___inv theta _ inputs state (cell, g) Hcell) as Hcall.
  destruct (LSTMCell.__call__ _ _ _ _) as [[e|r] [cell' g']].
  - by apply H_inv_set.
  - split; [|done]. apply H_inv_set; [|done]. apply Hcall.
Qed.

End HCellInvariant.

Ltac pres_method ::=
  lazymatch goal with
  | |- preserves (on_self (H_LSTMCell_inv _)) (H_LSTMCell.hyper_cell _ _ _) _ =>
      apply H_hyper_cell_inv
  | |- preserves _ (H_LSTMCell.hyper_cell _ _ _) _ => apply preserves_hyper_cell
  end.

Section HCellInvariantCall.
Context {T : Type} `{!Scalar T}.
Variable theta : list string → nat → nat → T.
Implicit Types (self x : H_LSTMCell.t (T:=T)) (g : tf_graph).

Lemma H_recurrence_inv self0 self inputs state :
  H_LSTMCell_config self = H_LSTMCell_config self0 →
  preserves (on_self (H_LSTMCell_inv self0)) (H_LSTMCell.recurrence theta self inputs state)
    (λ _, True).
Proof.
  intros Hc.
  pose proof (H_config_num_units _ _ Hc) as Hn.
  pose proof (H_config_num_proj _ _ Hc) as Hp.
  pose proof (H_config_hyper_num_units _ _ Hc) as Hh.
  unfold H_LSTMCell.recurrence, H_LSTMCell.gates, H_LSTMCell.ensure_norm,
    H_LSTMCell.norm, H_LSTMCell.self_get, H_LSTMCell.self_set.
  pres; (intros x Hx; apply H_inv_set; [|done]; simpl in *;
         rewrite <- ?Hn, <- ?Hp, <- ?Hh; try done).
  split; [done|]. apply LSTMCell_init_wf.
Qed.

Lemma H_call_inv self0 inputs state :
  preserves (on_self (H_LSTMCell_inv self0)) (H_LSTMCell.call theta inputs state)
    (λ _, True).
Proof.
  unfold H_LSTMCell.call.
  eapply preserves_bind; [apply preserves_get_self|]. intros self [Hc _].
  eapply preserves_bind; [by apply H_recurrence_inv|]. intros [[c m] nhs] _.
  unfold H_LSTMCell.self_get. pres.
Qed.

Lemma H___call___inv self0 inputs state :
  preserves (on_self (H_LSTMCell_inv self0)) (H_LSTMCell.__call__ theta inputs state)
    (λ _, True).
Proof.
  apply preserves_RNNCell_call; [|apply H_call_inv].
  intros ly x [Hc Hwf]. split; [done|]. exact Hwf.
Qed.

(** No statement of [call] assigns [self._linear]. *)
Lemma H_recurrence_no_linear self inputs state :
  preserves (on_self no_linear) (H_LSTMCell.recurrence theta self inputs state) (λ _, True).
Proof.
  unfold H_LSTMCell.recurrence, H_LSTMCell.gates, H_LSTMCell.ensure_norm,
    H_LSTMCell.norm, H_LSTMCell.self_get, H_LSTMCell.self_set.
  pres; (intros; unfold no_linear in *; simpl; by rewrite lookup_insert_ne).
Qed.

Lemma H_call_no_linear inputs state :
  preserves (on_self no_linear) (H_LSTMCell.call theta inputs state) (λ _, True).
Proof.
  unfold H_LSTMCell.call.
  eapply preserves_bind; [apply preserves_get_self|]. intros self _.
  eapply preserves_bind; [by apply H_recurrence_no_linear|]. intros [[c m] nhs] _.
  unfold H_LSTMCell.self_get. pres.
Qed.

Lemma H___call___no_linear inputs state :
  preserves (on_self no_linear) (H_LSTMCell.__call__ theta inputs state) (λ _, True).
Proof. apply preserves_RNNCell_call; [done|apply H_call_no_linear]. Qed.

End HCellInvariantCall.

(** ** The gates and the projection of [H_LSTMCell] *)

Section HCallLemmas.
Context {T : Type} `{!Scalar T}.
Variable theta : list string → nat → nat → T.
Implicit Types (self : H_LSTMCell.t (T:=T)) (g : tf_graph).

Lemma H_call_inr self g inputs state m ns self' g' :
  H_LSTMCell.call theta inputs state (self, g) = (inr (m, ns), (self', g')) →
  ∃ c m0 hyper_c hyper_h,
    H_LSTMCell.recurrence theta self inputs state (self, g)
      = (inr (c, m0, LSTMStateTuple hyper_c hyper_h), (self', g')) ∧
    ns = LSTMStateTuple (concat [c; hyper_c]) (concat [m; hyper_h]) ∧
    match H_LSTMCell._num_proj self with
    | None => m = m0
    | Some _ =>
        ∃ a lin2, H_LSTMCell.__dict__ self' !! "_linear" = Some a ∧ is_None a = false ∧
                  H_LSTMCell.__dict__ self' !! "_linear2" = Some (PyLinear lin2) ∧
                  m = clipped (H_LSTMCell._proj_clip self) (linear_map theta lin2 [m0])
    end.
Proof.
  intros H. unfold H_LSTMCell.call, H_LSTMCell.self_get in H.
  apply bind_inr in H as (self0 & s & [-> ->]%get_self_inr & H). cbn [fst snd] in H.
  apply bind_inr in H as ([[c m0] nhs] & [self1 g1] & Hrec & H).
  apply bind_inr in H as (mp & s & Hmp & H).
  apply bind_inr in H as ([hyper_c hyper_h] & s2 & Hh & [Hr Hs2]%ret_inr).
  destruct nhs as [hc hh|]; [|discriminate].
  apply ret_inr in Hh as [[= -> ->] ->]. injection Hr as -> ->.
  exists c, m0, hc, hh.
  destruct (H_LSTMCell._num_proj self) as [p|].
  - apply bind_inr in Hmp as (a & ? & [Ha ->]%getattr_inr & Hmp).
    apply bind_inr in Hmp as ([] & ? & Hw & Hmp).
    assert (is_None a = false) as Hnone by (by destruct a).
    rewrite Hnone in Hw. apply ret_inr in Hw as [_ ->].
    apply bind_inr in Hmp as (lin2 & ? & H3 & Hmp).
    apply bind_inr in H3 as (? & ? & [Hlin2 ->]%getattr_inr & [-> ->]%as_linear_inr).
    apply bind_inr in Hmp as (mq & ? & [-> ->]%Linear_call_inr & [-> ->]%ret_inr).
    injection Hs2 as <- <-. split; [done|]. split; [done|]. by exists a, lin2.
  - apply ret_inr in Hmp as [-> ->]. injection Hs2 as <- <-. done.
Qed.

(** With [num_proj] set, [call] does not return from a cell without the
    attribute [_linear]. *)
Lemma H_call_raises self g inputs state p :
  no_linear self → H_LSTMCell._num_proj self = Some p →
  ∃ e s', H_LSTMCell.call theta inputs state (self, g) = (inl e, s') ∧
          ∀ r s1, H_LSTMCell.recurrence theta self inputs state (self, g) = (inr r, s1) →
                  e = AttributeError ∧ s' = s1.
Proof.
  intros Hno Hp. unfold H_LSTMCell.call.
  rewrite (bind_run _ _ (self, g) self (self, g)) by done.
  destruct (H_LSTMCell.recurrence theta self inputs state (self, g))
    as [[e|[[c m] nhs]] [self1 g1]] eqn:Hrec.
  - exists e, (self1, g1). split; [|discriminate]. by apply bind_raise.
  - exists AttributeError, (self1, g1). split; [|by intros r s1 [= <- <-]].
    rewrite (bind_run _ _ _ _ _ Hrec). rewrite Hp.
    apply bind_raise, bind_raise. apply getattr_missing.
    by apply (preserves_run_self _ _ _ _ _ _ _ _
                (H_recurrence_no_linear theta self inputs state) Hno Hrec).
Qed.

End HCallLemmas.

(** C4.  [_hyper_norm] multiplies its argument by the factor [hyper_scale]
    and [_hyper_bias] adds the shift [hyper_shift] to its argument, both
    computed from the output of the auxiliary cell in the scope named by the
    call.  In a call of [H_LSTMCell.call] on a well-formed cell that
    returns, the auxiliary cell is an [LSTMCell(hyper_num_units)] held by
    [_hyper_cell]; it is run on the concatenation of [inputs] and [m_prev]
    with the columns of the state beyond [num_units]; its output [h_out]
    scales the eight column blocks of [xh] and [hh] and shifts the four
    blocks of the bias ([hyper_combine]); the four sums are the gate
    pre-activations that are normalised and enter the cell equations
    ([norm_gates]), which give the new cell state [c] and the output [m0];
    the output [m] of the call is [m0] when [num_proj] is [None], and
    otherwise the clipped product of [m0] with the kernel of [_linear2]. *)
Theorem H_LSTMCell_hyper_gates {T : Type} `{!Scalar T}
    (theta : list string → nat → nat → T) :
  (∀ Self layer_ h_out e n scope (x : Self) g r s',
     _hyper_norm theta layer_ h_out e n scope (x, g) = (inr r, s') →
     r = mmul (hyper_scale theta (scope :: g_scope g) e n h_out) layer_) ∧
  (∀ Self layer_ h_out e n scope (x : Self) g r s',
     _hyper_bias theta layer_ h_out e n scope (x, g) = (inr r, s') →
     r = vadd layer_ (hyper_shift theta (scope :: g_scope g) e n h_out)) ∧
  ∀ (self self' : H_LSTMCell.t) g g' inputs state m new_state,
    H_LSTMCell_wf self →
    H_LSTMCell.call theta inputs state (self, g) = (inr (m, new_state), (self', g')) →
    ∃ c_t m_t cell cell' g1 h_out hyper_c hyper_h,
      state = LSTMStateTuple c_t m_t ∧
      let n := H_LSTMCell._num_units self in
      let m_prev := slice 0 n m_t in
      let hyper_state := LSTMStateTuple (slice_from n c_t) (slice_from n m_t) in
      hyper_cell_of self cell ∧
      LSTMCell_config cell
        = LSTMCell_config (LSTMCell.new (H_LSTMCell._hyper_num_units self)) ∧
      LSTMCell.__call__ theta (concat [inputs; m_prev]) hyper_state (cell, g)
        = (inr (h_out, LSTMStateTuple hyper_c hyper_h), (cell', g1)) ∧
      H_LSTMCell.__dict__ self' !! "_hyper_cell" = Some (PyCell cell') ∧
      let path := g_scope g in
      let '(i0, j0, f0, o0) :=
        hyper_combine theta path n (H_LSTMCell._hyper_embed_size self)
          (matmul_var theta inputs (W_xh path (ncols inputs) n))
          (matmul_var theta inputs (W_hh path (ncols inputs) n))
          (read_vector theta (W_bias path n)) h_out in
      ∃ ln_i ln_j ln_f ln_o c m0,
        H_LSTMCell.__dict__ self' !! "_ln_i" = Some (PyNorm ln_i) ∧
        H_LSTMCell.__dict__ self' !! "_ln_j" = Some (PyNorm ln_j) ∧
        H_LSTMCell.__dict__ self' !! "_ln_f" = Some (PyNorm ln_f) ∧
        H_LSTMCell.__dict__ self' !! "_ln_o" = Some (PyNorm ln_o) ∧
        norm_gates theta (H_LSTMCell.__dict__ self') (H_LSTMCell._use_peepholes self)
          (H_LSTMCell._forget_bias self) (H_LSTMCell._activation self) (slice 0 n c_t)
          (layer_norm theta ln_i i0) (layer_norm theta ln_j j0)
          (layer_norm theta ln_f f0) (layer_norm theta ln_o o0) c m0 ∧
        match H_LSTMCell._num_proj self with
        | None => m = m0
        | Some _ =>
            ∃ a lin2,
              H_LSTMCell.__dict__ self' !! "_linear" = Some a ∧ is_None a = false ∧
              H_LSTMCell.__dict__ self' !! "_linear2" = Some (PyLinear lin2) ∧
              m = clipped (H_LSTMCell._proj_clip self) (linear_map theta lin2 [m0])
        end ∧
        new_state = LSTMStateTuple (concat [c; hyper_c]) (concat [m; hyper_h]).
Proof.
  split.
  { intros Self layer_ h_out e n scope x g r [x' g'] H.
    by apply hyper_norm_inr in H as (_ & _ & ->). }
  split.
  { intros Self layer_ h_out e n scope x g r [x' g'] H.
    by apply hyper_bias_inr in H as (_ & _ & ->). }
  intros self self' g g' inputs state m new_state Hwf Hcall.
  apply H_call_inr in Hcall as (c & m0 & hyper_c & hyper_h & Hrec & -> & Hm).
  apply H_recurrence_inr in Hrec as (c_t & m_t & -> & Heq).
  destruct Heq as (i0 & j0 & f0 & o0 & self1 & g1 & ln_i & ln_j & ln_f & ln_o &
                   Hgates & Hcell & Hi & Hj & Hf & Ho & Hnorm).
  apply H_gates_inr in Hgates as (cell & cell' & gc & h_out & Hof & Hrun & -> & _ & Hcomb).
  exists c_t, m_t, cell, cell', gc, h_out, hyper_c, hyper_h.
  split; [done|]. cbv zeta. split; [done|]. split.
  { destruct Hof as [Hin| [_ ->]]; [|done]. apply (Hwf _ _ Hin). }
  split; [done|]. split.
  { rewrite Hcell. simpl. by rewrite lookup_insert_eq. }
  cbv zeta in Hcomb. rewrite <- Hcomb.
  exists ln_i, ln_j, ln_f, ln_o, c, m0. done.
Qed.

Lemma h_cell_runs {T : Type} `{!Scalar T} :
  returns (H_LSTMCell.call (T:=T) zero_weights x0 state20 (h_cell, empty_graph)) = true.
Proof. vm_compute. reflexivity. Qed.

Lemma h_cell_returns {T : Type} `{!Scalar T} :
  ∃ m new_state self' g',
    H_LSTMCell.call (T:=T) zero_weights x0 state20 (h_cell, empty_graph)
      = (inr (m, new_state), (self', g')).
Proof. apply returns_inr, h_cell_runs. Qed.

Lemma H_LSTMCell_hyper_gates_witness :
  ∃ m new_state self' g',
    H_LSTMCell_wf (T:=R) h_cell ∧
    H_LSTMCell.call zero_weights x0 state20 (h_cell, empty_graph)
      = (inr (m, new_state), (self', g')) ∧
    ∃ c_t m_t cell cell' g1 h_out hyper_c hyper_h,
      state20 = LSTMStateTuple c_t m_t ∧
      hyper_cell_of h_cell cell ∧
      LSTMCell_config cell
        = LSTMCell_config (LSTMCell.new (H_LSTMCell._hyper_num_units (T:=R) h_cell)) ∧
      LSTMCell.__call__ zero_weights
        (concat [x0; slice 0 (H_LSTMCell._num_units (T:=R) h_cell) m_t])
        (LSTMStateTuple (slice_from (H_LSTMCell._num_units (T:=R) h_cell) c_t)
                        (slice_from (H_LSTMCell._num_units (T:=R) h_cell) m_t))
        (cell, empty_graph)
        = (inr (h_out, LSTMStateTuple hyper_c hyper_h), (cell', g1)) ∧
      H_LSTMCell.__dict__ self' !! "_hyper_cell" = Some (PyCell cell').
Proof.
  destruct (h_cell_returns (T:=R)) as (m & new_state & self' & g' & Hcall).
  exists m, new_state, self', g'. split; [apply H_init_wf|]. split; [exact Hcall|].
  destruct (proj2 (proj2 (H_LSTMCell_hyper_gates zero_weights))
              _ _ _ _ _ _ _ _ (H_init_wf _ _ _ _ _ _ _ _ _ _ _) Hcall)
    as (c_t & m_t & cell & cell' & g1 & h_out & hyper_c & hyper_h & Hst & Hof & Hcfg &
        Hrun & Hattr & _).
  exists c_t, m_t, cell, cell', g1, h_out, hyper_c, hyper_h.
  split; [exact Hst|]. split; [exact Hof|]. split; [exact Hcfg|].
  split; [exact Hrun|exact Hattr].
Defined.

(** The constructor of [H_LSTMCell] does not create the attribute
    [_linear] and no statement of [call] assigns it.  With [num_proj] set,
    a call on such a cell therefore never returns an output: it raises, and
    the exception is the [AttributeError] of reading [self._linear] in the
    projection branch whenever the statements before the branch have
    completed; an exception of those statements is raised instead of it. *)
Theorem H_LSTMCell_projection_raises {T : Type} `{!Scalar T}
    (theta : list string → nat → nat → T) :
  (∀ num_units use_peepholes cell_clip initializer num_proj proj_clip forget_bias
     activation reuse hyper_num_units hyper_embed_size,
     no_linear (H_LSTMCell.__init__ (T:=T) num_units use_peepholes cell_clip initializer
                  num_proj proj_clip forget_bias activation reuse hyper_num_units
                  hyper_embed_size)) ∧
  (∀ inputs state,
     preserves (on_self no_linear) (H_LSTMCell.call theta inputs state) (λ _, True) ∧
     preserves (on_self no_linear) (H_LSTMCell.__call__ theta inputs state) (λ _, True)) ∧
  ∀ (self : H_LSTMCell.t) g inputs state p,
    no_linear self → H_LSTMCell._num_proj self = Some p →
    ∃ e s', H_LSTMCell.call theta inputs state (self, g) = (inl e, s') ∧
            ∀ r s1, H_LSTMCell.recurrence theta self inputs state (self, g) = (inr r, s1) →
                    e = AttributeError ∧ s' = s1.
Proof.
  split; [intros; apply H_init_no_linear|]. split.
  - intros inputs state. split; [apply H_call_no_linear|apply H___call___no_linear].
  - intros self g inputs state p. apply H_call_raises.
Qed.

Lemma h_projecting_cell_runs {T : Type} `{!Scalar T} :
  returns (H_LSTMCell.recurrence (T:=T) zero_weights h_projecting_cell x0 state20
             (h_projecting_cell, empty_graph)) = true.
Proof. vm_compute. reflexivity. Qed.

Lemma H_LSTMCell_projection_raises_witness :
  no_linear (T:=R) h_projecting_cell ∧
  H_LSTMCell._num_proj (T:=R) h_projecting_cell = Some 1 ∧
  ∃ s', H_LSTMCell.call zero_weights x0 state20 (h_projecting_cell, empty_graph)
          = (inl AttributeError, s').
Proof.
  split; [reflexivity|]. split; [reflexivity|].
  destruct (proj2 (proj2 (H_LSTMCell_projection_raises (T:=R) zero_weights))
              h_projecting_cell empty_graph x0 state20 1 eq_refl eq_refl)
    as (e & s' & Hcall & He).
  destruct (returns_inr' _ (h_projecting_cell_runs (T:=R))) as (r & s1 & Hrec).
  destruct (He r s1 Hrec) as [-> _]. by exists s'.
Defined.

(** An example with two calls in the same scope without variable reuse:
    the first call raises [AttributeError] in the projection branch and
    leaves its variables in the graph, and the second raises [ValueError]
    when [tf.get_variable] finds [W_xh] there. *)
Lemma h_projecting_cell_second_call {T : Type} `{!Scalar T} :
  ∃ s1 s2,
    H_LSTMCell.call (T:=T) zero_weights x0 state20 (h_projecting_cell, empty_graph)
      = (inl AttributeError, s1) ∧
    H_LSTMCell.call zero_weights x0 state20 s1 = (inl ValueError, s2).
Proof.
  set (r1 := H_LSTMCell.call (T:=T) zero_weights x0 state20
               (h_projecting_cell, empty_graph)).
  assert (r1.1 = inl AttributeError) as H1 by (vm_compute; reflexivity).
  assert ((H_LSTMCell.call zero_weights x0 state20 r1.2).1 = inl ValueError) as H2
    by (vm_compute; reflexivity).
  clearbody r1. destruct r1 as [a1 s1]. simpl in H1, H2. subst a1.
  destruct (H_LSTMCell.call zero_weights x0 state20 s1) as [a2 s2] eqn:E2.
  simpl in H2. subst a2. by exists s1, s2.
Qed.

(** C9, as stated, fails on the second of two calls of the cell
    [H_LSTMCell(1, num_proj=1, hyper_num_units=1, hyper_embed_size=1)] in
    the same scope without variable reuse: the second call raises
    [ValueError], not [AttributeError]. *)
Lemma H_LSTMCell_second_call_counterexample :
  ∃ s1 s2,
    H_LSTMCell.call (T:=R) zero_weights x0 state20 (h_projecting_cell, empty_graph)
      = (inl AttributeError, s1) ∧
    H_LSTMCell.call zero_weights x0 state20 s1 = (inl ValueError, s2) ∧
    ValueError ≠ AttributeError.
Proof.
  destruct (h_projecting_cell_second_call (T:=R)) as (s1 & s2 & H1 & H2).
  exists s1, s2. split; [exact H1|]. split; [exact H2|]. discriminate.
Qed.

(** C9, as amended.  A call of [H_LSTMCell.call] on a cell that was
    constructed with [num_proj] set, in whatever state earlier calls and
    invocations have left the cell, never returns an output.  The attribute
    [_linear] does not exist, since neither the constructor nor a call
    assigns it, and the call raises: the exception is the [AttributeError]
    of reading [self._linear] in the projection branch whenever the
    statements before the branch have completed, and the exception of one
    of those statements otherwise. *)
Theorem H_LSTMCell_num_proj_raises {T : Type} `{!Scalar T}
    (theta : list string → nat → nat → T)
    num_units use_peepholes cell_clip initializer p proj_clip forget_bias activation reuse
    hyper_num_units hyper_embed_size (self : H_LSTMCell.t) g inputs state :
  let cell := H_LSTMCell.__init__ num_units use_peepholes cell_clip initializer (Some p)
                proj_clip forget_bias activation reuse hyper_num_units hyper_embed_size in
  rtc (H_LSTMCell_used theta) cell self →
  H_LSTMCell.__dict__ self !! "_linear" = None ∧
  ∃ e s', H_LSTMCell.call theta inputs state (self, g) = (inl e, s') ∧
          ∀ r s1, H_LSTMCell.recurrence theta self inputs state (self, g) = (inr r, s1) →
                  e = AttributeError ∧ s' = s1.
Proof.
  intros cell Hrtc.
  assert (no_linear cell ∧ H_LSTMCell_inv cell cell) as Hcell.
  { split; [apply H_init_no_linear|]. split; [done|apply H_init_wf]. }
  assert (∀ x, rtc (H_LSTMCell_used theta) x self →
               no_linear x ∧ H_LSTMCell_inv cell x →
               no_linear self ∧ H_LSTMCell_inv cell self) as Hstep.
  { clear Hrtc Hcell. intros x Hx.
    induction Hx as [x|x y z Hxy _ IH]; [done|]. intros [Hno Hinv]. apply IH.
    destruct Hxy as [(i & s & gx & rx & gy & Hxy)|(i & s & gx & rx & gy & Hxy)].
    - split.
      + pose proof (preserves_state _ _ _ (x, gx) (H_call_no_linear theta i s) Hno) as H.
        by rewrite Hxy in H.
      + pose proof (preserves_state _ _ _ (x, gx) (H_call_inv theta cell i s) Hinv) as H.
        by rewrite Hxy in H.
    - split.
      + pose proof (preserves_state _ _ _ (x, gx) (H___call___no_linear theta i s) Hno)
          as H.
        by rewrite Hxy in H.
      + pose proof (preserves_state _ _ _ (x, gx) (H___call___inv theta cell i s) Hinv)
          as H.
        by rewrite Hxy in H. }
  destruct (Hstep cell Hrtc Hcell) as [Hno [Hc _]].
  split; [exact Hno|].
  apply (H_call_raises theta self g inputs state p Hno).
  by rewrite (H_config_num_proj _ _ Hc).
Qed.

Lemma H_LSTMCell_num_proj_raises_witness :
  ∃ s', H_LSTMCell.call (T:=R) zero_weights x0 state20 (h_projecting_cell, empty_graph)
          = (inl AttributeError, s').
Proof.
  destruct (H_LSTMCell_num_proj_raises (T:=R) zero_weights 1 false None None 1 None
              (flit 1) None None 1 1 h_projecting_cell empty_graph x0 state20
              (rtc_refl _ _)) as (_ & e & s' & Hcall & He).
  destruct (returns_inr' _ (h_projecting_cell_runs (T:=R))) as (r & s1 & Hrec).
  destruct (He r s1 Hrec) as [-> _]. by exists s'.
Defined.

Lemma h_projecting_cell_zero_state_raises {T : Type} `{!Scalar T} :
  (H_LSTMCell.call (T:=T) zero_weights x0 (H_LSTMCell.zero_state h_projecting_cell 1)
     (h_projecting_cell, empty_graph)).1 = inl AttributeError.
Proof. vm_compute. reflexivity. Qed.

(** C8.  The cell [H_LSTMCell(1, num_proj=1, hyper_num_units=1,
    hyper_embed_size=1)], called on a row of one input and its own zero
    state in an empty graph: [state_size] is the pair of
    [num_units + hyper_num_units] and [num_proj + hyper_num_units], and the
    call returns no new state; it raises [AttributeError], at
    [self._linear] in the projection branch. *)
Lemma H_LSTMCell_num_proj_no_state {T : Type} `{!Scalar T} :
  H_LSTMCell.state_size (T:=T) h_projecting_cell = SizeTuple (1 + 1) (1 + 1) ∧
  H_LSTMCell.__dict__ (T:=T) h_projecting_cell !! "_linear" = None ∧
  ∃ s',
    H_LSTMCell.call (T:=T) zero_weights x0 (H_LSTMCell.zero_state h_projecting_cell 1)
      (h_projecting_cell, empty_graph) = (inl AttributeError, s').
Proof.
  split; [done|]. split; [done|].
  pose proof (h_projecting_cell_zero_state_raises (T:=T)) as H.
  destruct (H_LSTMCell.call zero_weights x0 (H_LSTMCell.zero_state h_projecting_cell 1)
              (h_projecting_cell, empty_graph)) as [r s'].
  simpl in H. subst r. by exists s'.
Qed.

(** ** Shapes of the tensor operations *)

Section Shapes.
Context {T : Type} `{!Scalar T}.
Variable theta : list string → nat → nat → T.
Implicit Types (a b m : matrix (T:=T)) (v : vector (T:=T)).

Lemma shaped_map {A B} (f : list A → list B) rows cols cols' (m : list (list A)) :
  (∀ r, length r = cols → length (f r) = cols') →
  shaped rows cols m → shaped rows cols' (map f m).
Proof.
  intros Hf [Hl Hr]. split; [by rewrite length_map|].
  apply Forall_map. eapply Forall_impl; [exact Hr|]. exact Hf.
Qed.

Lemma shaped_zip_with {A B C} (f : list A → list B → list C) rows c1 c2 c3
    (a : list (list A)) (b : list (list B)) :
  (∀ r s, length r = c1 → length s = c2 → length (f r s) = c3) →
  shaped rows c1 a → shaped rows c2 b → shaped rows c3 (zip_with f a b).
Proof.
  intros Hf [Hla Hra] [Hlb Hrb]. split.
  - rewrite length_zip_with. lia.
  - clear Hla Hlb. revert b Hrb. induction Hra as [|r a Hr Hra IH]; intros [|s b] Hrb;
      simpl; try constructor.
    + apply Hf; [done|]. by inversion Hrb.
    + apply IH. by inversion Hrb.
Qed.

Lemma shaped_mmap f rows cols m : shaped rows cols m → shaped rows cols (mmap f m).
Proof. apply shaped_map. intros r Hr. by rewrite length_map. Qed.

Lemma shaped_sigmoid rows cols m : shaped rows cols m → shaped rows cols (sigmoid m).
Proof. apply shaped_mmap. Qed.

Lemma shaped_tanh rows cols m : shaped rows cols m → shaped rows cols (tanh m).
Proof. apply shaped_mmap. Qed.

Lemma shaped_sadd rows cols m s : shaped rows cols m → shaped rows cols (sadd m s).
Proof. apply shaped_mmap. Qed.

Lemma shaped_clip_by_value rows cols m lo hi :
  shaped rows cols m → shaped rows cols (clip_by_value m lo hi).
Proof. apply shaped_mmap. Qed.

Lemma shaped_clipped rows cols bound m :
  shaped rows cols m → shaped rows cols (clipped bound m).
Proof. destruct bound; [apply shaped_clip_by_value|done]. Qed.

Lemma shaped_madd rows cols a b :
  shaped rows cols a → shaped rows cols b → shaped rows cols (madd a b).
Proof. apply shaped_zip_with. intros r s Hr Hs. rewrite length_zip_with. lia. Qed.

Lemma shaped_mmul rows cols a b :
  shaped rows cols a → shaped rows cols b → shaped rows cols (mmul a b).
Proof. apply shaped_zip_with. intros r s Hr Hs. rewrite length_zip_with. lia. Qed.

Lemma shaped_vmul rows cols v m :
  length v = cols → shaped rows cols m → shaped rows cols (vmul v m).
Proof. intros Hv. apply shaped_map. intros r Hr. rewrite length_zip_with. lia. Qed.

Lemma shaped_vadd rows cols v m :
  length v = cols → shaped rows cols m → shaped rows cols (vadd v m).
Proof. intros Hv. apply shaped_map. intros r Hr. rewrite length_zip_with. lia. Qed.

Lemma shaped_bias_add rows cols m v :
  length v = cols → shaped rows cols m → shaped rows cols (bias_add m v).
Proof. intros Hv. apply shaped_map. intros r Hr. rewrite length_zip_with. lia. Qed.

Lemma shaped_matmul a b p : shaped (length a) p (matmul a b p).
Proof.
  unfold matmul. split; [by rewrite length_map|].
  apply Forall_map, Forall_forall. intros r _. by rewrite length_map, length_seq.
Qed.

Lemma shaped_concat rows c1 c2 a b :
  shaped rows c1 a → shaped rows c2 b → shaped rows (c1 + c2) (concat [a; b]).
Proof. apply shaped_zip_with. intros r s <- <-. apply length_app. Qed.

Lemma slice_concat rows c1 c2 a b :
  shaped rows c1 a → shaped rows c2 b →
  slice 0 c1 (concat [a; b]) = a ∧ slice c1 c2 (concat [a; b]) = b.
Proof.
  intros [Hla Hra] [Hlb Hrb]. unfold slice. simpl.
  revert rows b Hla Hlb Hrb.
  induction Hra as [|r a Hr Hra IH]; intros rows [|s b] Hla Hlb Hrb; simpl in *;
    try done; try lia.
  inversion Hrb as [|? ? Hs Hrb']. clear Hrb.
  destruct (IH (length a) b eq_refl ltac:(lia) Hrb') as [IH1 IH2].
  rewrite IH1, IH2. rewrite drop_0. subst c1 c2.
  by rewrite take_app_length, drop_app_length, firstn_all.
Qed.

Lemma slice_from_concat rows c1 a b :
  shaped rows c1 a → length b = rows → slice_from c1 (concat [a; b]) = b.
Proof.
  intros [Hla Hra] Hlb. unfold slice_from. simpl. revert rows b Hla Hlb.
  induction Hra as [|r a Hr Hra IH]; intros rows [|s b] Hla Hlb; simpl in *;
    try done; try lia.
  rewrite (IH (length a) b eq_refl ltac:(lia)). subst c1.
  by rewrite drop_app_length.
Qed.

Lemma length_concat a b : length (concat [a; b]) = length a `min` length b.
Proof. simpl. apply length_zip_with. Qed.

Lemma shaped_slice rows cols start size m :
  start + size ≤ cols → shaped rows cols m → shaped rows size (slice start size m).
Proof.
  intros Hle. apply shaped_map. intros r Hr. rewrite length_take, length_drop. lia.
Qed.

Lemma shaped_slice_from rows cols start m :
  shaped rows cols m → shaped rows (cols - start) (slice_from start m).
Proof. apply shaped_map. intros r Hr. rewrite length_drop. lia. Qed.

Lemma shaped_ncols rows cols m : shaped (S rows) cols m → ncols m = cols.
Proof. intros [Hl Hr]. destruct m as [|r m]; [discriminate|]. by inversion Hr. Qed.

Lemma shaped_empty cols cols' m : shaped 0 cols m → shaped 0 cols' m.
Proof. intros [Hl _]. destruct m; [|discriminate]. split; [done|constructor]. Qed.

Lemma shaped_split rows n m i j f o :
  shaped rows (4 * n) m → split m = (i, j, f, o) →
  shaped rows n i ∧ shaped rows n j ∧ shaped rows n f ∧ shaped rows n o.
Proof.
  intros Hm. unfold split. destruct rows as [|rows].
  - pose proof Hm as [Hl _]. destruct m; [|discriminate]. simpl.
    intros [= <- <- <- <-]. repeat split; constructor.
  - rewrite (shaped_ncols _ _ _ Hm).
    assert (4 * n / 4 = n) as -> by (rewrite Nat.mul_comm; apply Nat.div_mul; lia).
    intros [= <- <- <- <-].
    repeat split; (eapply shaped_slice; [|exact Hm]); lia.
Qed.

Lemma length_read_vector w n : v_shape w = [n] → length (read_vector theta w) = n.
Proof. intros Hw. unfold read_vector. rewrite Hw. by rewrite length_map, length_seq. Qed.

Lemma length_split_vector n v i j f o :
  length v = 4 * n → split_vector v = (i, j, f, o) →
  length i = n ∧ length j = n ∧ length f = n ∧ length o = n.
Proof.
  intros Hv. unfold split_vector. rewrite Hv.
  assert (4 * n / 4 = n) as -> by (rewrite Nat.mul_comm; apply Nat.div_mul; lia).
  intros [= <- <- <- <-]. rewrite !length_take, !length_drop. lia.
Qed.

Lemma shaped_matmul_var x w : shaped (length x) (out_dim w) (matmul_var theta x w).
Proof. apply shaped_matmul. Qed.

Lemma shaped_linear_map out lin args :
  linear_ok out lin → shaped (length (concat args)) out (linear_map theta lin args).
Proof.
  intros [Hw Hb]. unfold linear_map. pose proof (shaped_matmul_var (concat args)
    (_Linear._weights lin)) as Hm. rewrite Hw in Hm.
  destruct (_Linear._build_bias lin); [|done].
  destruct (_Linear._biases lin) as [b|]; [|done].
  apply shaped_bias_add; [|done]. apply length_read_vector. by apply Hb.
Qed.

Lemma shaped_linear_map2 rows out lin x y :
  linear_ok out lin → length x = rows → length y = rows →
  shaped rows out (linear_map theta lin [x; y]).
Proof.
  intros Hok Hx Hy. pose proof (shaped_linear_map out lin [x; y] Hok) as [Hl Hr].
  split; [|done]. rewrite Hl. simpl. rewrite length_zip_with. lia.
Qed.

Lemma shaped_linear_map1 rows out lin x :
  linear_ok out lin → length x = rows → shaped rows out (linear_map theta lin [x]).
Proof.
  intros Hok Hx. pose proof (shaped_linear_map out lin [x] Hok) as [Hl Hr].
  split; [|done]. by rewrite Hl.
Qed.

Lemma shaped_layer_norm rows n ln x :
  norm_ok [n] ln → shaped rows n x → shaped rows n (layer_norm theta ln x).
Proof.
  intros (_ & Hg & Hb). apply shaped_map. intros r Hr.
  rewrite !length_zip_with. unfold normalized. rewrite length_map.
  rewrite (length_read_vector _ _ Hg), (length_read_vector _ _ Hb). lia.
Qed.

Lemma shaped_h_linear_value path x out use_bias :
  shaped (length x) out (h_linear_value theta path x out use_bias).
Proof.
  unfold h_linear_value. destruct use_bias; [|apply shaped_matmul].
  apply shaped_bias_add; [|apply shaped_matmul]. by apply length_read_vector.
Qed.

Lemma shaped_hyper_scale path e n h_out :
  shaped (length h_out) n (hyper_scale theta path e n h_out).
Proof.
  unfold hyper_scale.
  pose proof (shaped_h_linear_value ("zw" :: path) h_out e true) as [Hl _].
  rewrite <- Hl at 1. apply shaped_h_linear_value.
Qed.

Lemma shaped_hyper_shift path e n h_out :
  shaped (length h_out) n (hyper_shift theta path e n h_out).
Proof.
  unfold hyper_shift.
  pose proof (shaped_h_linear_value ("zb" :: path) h_out e false) as [Hl _].
  rewrite <- Hl at 1. apply shaped_h_linear_value.
Qed.

Lemma shaped_hyper_combine path n e batch xh hh bias h_out i j f o :
  shaped batch (4 * n) xh → shaped batch (4 * n) hh → length bias = 4 * n →
  length h_out = batch →
  hyper_combine theta path n e xh hh bias h_out = (i, j, f, o) →
  shaped batch n i ∧ shaped batch n j ∧ shaped batch n f ∧ shaped batch n o.
Proof.
  intros Hxh Hhh Hb Hh. unfold hyper_combine.
  destruct (split xh) as [[[ix jx] fx] ox] eqn:Ex.
  destruct (split hh) as [[[ih jh] fh] oh] eqn:Eh.
  destruct (split_vector bias) as [[[ib jb] fb] ob] eqn:Eb.
  destruct (shaped_split _ _ _ _ _ _ _ Hxh Ex) as (? & ? & ? & ?).
  destruct (shaped_split _ _ _ _ _ _ _ Hhh Eh) as (? & ? & ? & ?).
  destruct (length_split_vector _ _ _ _ _ _ Hb Eb) as (? & ? & ? & ?).
  assert (∀ p, shaped batch n (hyper_scale theta p e n h_out)) as Hscale
    by (intros p; rewrite <- Hh; apply shaped_hyper_scale).
  assert (∀ p, shaped batch n (hyper_shift theta p e n h_out)) as Hshift
    by (intros p; rewrite <- Hh; apply shaped_hyper_shift).
  cbv beta zeta. intros [= <- <- <- <-].
  split; [|split; [|split]]; repeat apply shaped_madd;
    first [by apply shaped_mmul | by apply shaped_vadd].
Qed.

End Shapes.

Create HintDb shape discriminated.
#[export] Hint Resolve shaped_sigmoid shaped_tanh shaped_mmap shaped_sadd shaped_madd
  shaped_mmul shaped_vmul shaped_vadd shaped_clipped shaped_clip_by_value shaped_layer_norm
  length_read_vector : shape.

(** ** The shapes of a step of [LSTMCell] *)

Section LSTMCellShapes.
Context {T : Type} `{!Scalar T}.
Variable theta : list string → nat → nat → T.
Implicit Types (self : LSTMCell.t (T:=T)) (g : tf_graph).

(** The sizes [call] works with: [num_units] columns of cell state and
    [num_proj] columns of output, [num_units] when [num_proj] is [None]. *)
Lemma LSTMCell_call_parts self self' g g' (inputs : matrix) state m ns batch :
  let n := LSTMCell._num_units self in
  let p := default n (LSTMCell._num_proj self) in
  let sz := if LSTMCell._state_is_tuple self then SizeTuple n p else SizeInt (n + p) in
  LSTMCell_wf self → length inputs = batch → state_shaped batch sz state →
  LSTMCell.call theta inputs state (self, g) = (inr (m, ns), (self', g')) →
  ∃ c, ns = packed (LSTMCell._state_is_tuple self) c m ∧
       shaped batch n c ∧ shaped batch p m.
Proof.
  intros n p sz Hwf Hin Hst Hcall.
  pose proof (preserves_run_self _ _ _ _ _ _ _ _ (LSTMCell_call_inv theta self inputs state)
                (conj eq_refl Hwf) Hcall) as [[Hc Hwf'] _].
  pose proof (LSTMCell_config_num_units _ _ Hc) as Hn.
  pose proof (LSTMCell_config_num_proj _ _ Hc) as Hp.
  unfold LSTMCell_wf in Hwf'. rewrite Hn, Hp in Hwf'. fold n in Hwf'.
  apply LSTMCell_call_inr in Hcall as (c_prev & m_prev & Hu & c & m0 & Hgates & -> & Hproj).
  apply LSTMCell_unpack_state_inr in Hu as [_ Hu].
  assert (shaped batch n c_prev ∧ shaped batch p m_prev) as [Hcp Hmp].
  { subst sz. destruct (LSTMCell._state_is_tuple self).
    - subst state. exact Hst.
    - destruct Hu as (s & -> & -> & ->). simpl in Hst. fold n p.
      split; (eapply shaped_slice; [|exact Hst]); lia. }
  assert (shaped batch n c ∧ shaped batch n m0) as [Hcs Hm0].
  { destruct Hgates as (lin & Hlin & Hg).
    pose proof (Hwf' _ _ Hlin) as [Hok _]. specialize (Hok eq_refl).
    pose proof (shaped_linear_map2 theta batch _ _ inputs m_prev Hok Hin (proj1 Hmp)) as Hlm.
    destruct (split (linear_map theta lin [inputs; m_prev])) as [[[i j] f] o] eqn:Hsplit.
    destruct (shaped_split _ _ _ _ _ _ _ Hlm Hsplit) as (Hi & Hj & Hf & Ho).
    destruct (LSTMCell._use_peepholes self).
    - destruct Hg as (w_f & w_i & w_o & Hwf_ & Hwi & Hwo & -> & ->).
      pose proof (Hwf' _ _ Hwf_) as Hsf. pose proof (Hwf' _ _ Hwi) as Hsi.
      pose proof (Hwf' _ _ Hwo) as Hso. simpl in Hsf, Hsi, Hso.
      split; auto 20 with shape.
    - destruct Hg as [-> ->]. split; auto 20 with shape. }
  assert (shaped batch p m) as Hm.
  { subst p. destruct (LSTMCell._num_proj self) as [q|]; simpl; [|by subst m].
    destruct Hproj as (lin2 & Hlin2 & ->).
    pose proof (Hwf' _ _ Hlin2) as [_ Hok]. destruct (Hok eq_refl) as (_ & q' & [= <-] & Hok').
    apply shaped_clipped.
    exact (shaped_linear_map1 theta batch _ _ m0 Hok' (proj1 Hm0)). }
  by exists c.
Qed.

Lemma LSTMCell_call_shaped self self' g g' (inputs : matrix) state m ns batch :
  let n := LSTMCell._num_units self in
  let p := default n (LSTMCell._num_proj self) in
  let sz := if LSTMCell._state_is_tuple self then SizeTuple n p else SizeInt (n + p) in
  LSTMCell_wf self → length inputs = batch → state_shaped batch sz state →
  LSTMCell.call theta inputs state (self, g) = (inr (m, ns), (self', g')) →
  shaped batch p m ∧ state_shaped batch sz ns.
Proof.
  intros n p sz Hwf Hin Hst Hcall.
  destruct (LSTMCell_call_parts _ _ _ _ _ _ _ _ _ Hwf Hin Hst Hcall) as (c & -> & Hc & Hm).
  split; [done|]. subst sz. unfold packed.
  destruct (LSTMCell._state_is_tuple self); simpl; [done|].
  by apply (shaped_concat _ _ _ c m).
Qed.

End LSTMCellShapes.

Section RNNCellCall.
Context {Self A : Type}.
Variable layer : Self → Layer.
Variable set_layer : Layer → Self → Self.
Variable base_name : string.

(** A returning invocation has run [call] on the object with another
    [layer] record, inside the captured scope; [built] is set afterwards. *)
Lemma RNNCell_call_inr (call : M (Self * tf_graph) A) scope x g a x' g' :
  RNNCell.__call__ layer set_layer base_name call scope (x, g) = (inr a, (x', g')) →
  ∃ ly g0 x1 g1,
    g_vars g0 = g_vars g ∧
    call (set_layer ly x, g0) = (inr a, (x1, g1)) ∧
    x' = set_layer {| _reuse := _reuse (layer x1); built := true;
                      _scope := _scope (layer x1) |} x1 ∧
    g' = leave_scope g g1.
Proof.
  unfold RNNCell.__call__.
  destruct (call _) as [[e|a'] [x1 g1]] eqn:E; [discriminate|].
  intros [= <- <- <-]. eexists _, _, x1, g1. split; [|split; [exact E|done]]. done.
Qed.

End RNNCellCall.

Section ZeroState.
Context {T : Type} `{!Scalar T}.

Lemma shaped_zeros rows cols : shaped (T:=T) rows cols (zeros (_concat rows cols)).
Proof.
  simpl. split; [apply length_replicate|].
  apply Forall_replicate, length_replicate.
Qed.

Lemma zero_state_tensors_shaped sz batch :
  state_shaped (T:=T) batch sz (_zero_state_tensors sz batch).
Proof. destruct sz; simpl; auto using shaped_zeros. Qed.

End ZeroState.

Section LSTMCellSteps.
Context {T : Type} `{!Scalar T}.
Variable theta : list string → nat → nat → T.

Lemma LSTMCell_init_sizes num_units use_peepholes cell_clip initializer num_proj proj_clip
    num_unit_shards num_proj_shards forget_bias state_is_tuple activation reuse :
  num_proj ≠ Some 0 →
  let cell := LSTMCell.__init__ (T:=T) num_units use_peepholes cell_clip initializer
                num_proj proj_clip num_unit_shards num_proj_shards forget_bias
                state_is_tuple activation reuse in
  let p := default num_units num_proj in
  LSTMCell._state_size cell
    = (if state_is_tuple then SizeTuple num_units p else SizeInt (num_units + p)) ∧
  LSTMCell._output_size cell = p.
Proof.
  intros Hp. simpl. destruct num_proj as [[|q]|]; [done| |]; simpl.
  - by destruct state_is_tuple.
  - destruct state_is_tuple; [done|]. split; [|done]. f_equal. lia.
Qed.

End LSTMCellSteps.

(** A step of an [LSTMCell] keeps the shapes its constructor declares.  For
    a cell constructed with [num_proj] other than 0, in whatever state
    earlier calls have left it: when the inputs have [batch] rows and the
    state has the shape [state_size] for that batch size, an invocation
    that returns gives an output of [batch] rows and [output_size] columns
    and a new state of the shape [state_size] again, and the cell can be
    invoked in the same way afterwards. *)
Theorem LSTMCell_step_keeps_shapes {T : Type} `{!Scalar T}
    (theta : list string → nat → nat → T)
    num_units use_peepholes cell_clip initializer num_proj proj_clip num_unit_shards
    num_proj_shards forget_bias state_is_tuple activation reuse
    (self self' : LSTMCell.t) g g' (inputs : matrix) state m new_state batch :
  let cell := LSTMCell.__init__ (T:=T) num_units use_peepholes cell_clip initializer
                num_proj proj_clip num_unit_shards num_proj_shards forget_bias
                state_is_tuple activation reuse in
  num_proj ≠ Some 0 →
  LSTMCell_inv cell self →
  length inputs = batch →
  state_shaped batch (LSTMCell.state_size self) state →
  LSTMCell.__call__ theta inputs state (self, g) = (inr (m, new_state), (self', g')) →
  shaped batch (LSTMCell.output_size self') m ∧
  state_shaped batch (LSTMCell.state_size self') new_state ∧
  LSTMCell.state_size self' = LSTMCell.state_size self ∧
  LSTMCell_inv cell self'.
Proof.
  intros cell Hp Hinv Hin Hst Hcall.
  pose proof (preserves_run_self _ _ _ _ _ _ _ _
                (LSTMCell___call___inv theta cell inputs state) Hinv Hcall) as [Hinv' _].
  destruct Hinv as [Hc Hwf]. destruct Hinv' as [Hc' Hwf'].
  destruct (LSTMCell_init_sizes num_units use_peepholes cell_clip initializer num_proj
              proj_clip num_unit_shards num_proj_shards forget_bias state_is_tuple
              activation reuse Hp) as [Hsz Hout].
  fold cell in Hsz, Hout.
  assert (LSTMCell.state_size self = LSTMCell._state_size cell) as Hs
    by exact (f_equal LSTMCell._state_size Hc).
  assert (LSTMCell.state_size self' = LSTMCell._state_size cell) as Hs'
    by exact (f_equal LSTMCell._state_size Hc').
  assert (LSTMCell.output_size self' = LSTMCell._output_size cell) as Ho'
    by exact (f_equal LSTMCell._output_size Hc').
  rewrite Hs', Ho', Hout. rewrite Hs in Hst |- *. rewrite Hsz in Hst |- *.
  apply RNNCell_call_inr in Hcall as (ly & g0 & x1 & g1 & _ & Hcall & _ & _).
  pose proof (LSTMCell_call_shaped theta (LSTMCell.set_layer ly self) x1 g0 g1 inputs state
                m new_state batch) as Hshape.
  simpl in Hshape.
  rewrite (LSTMCell_config_num_units _ _ Hc), (LSTMCell_config_num_proj _ _ Hc) in Hshape.
  assert (LSTMCell._state_is_tuple self = state_is_tuple) as Ht
    by exact (f_equal LSTMCell._state_is_tuple Hc).
  rewrite Ht in Hshape. simpl in Hshape.
  destruct (Hshape Hwf Hin Hst Hcall) as [Hm Hns]. done.
Qed.

Lemma projecting_cell_zero_state_runs {T : Type} `{!Scalar T} :
  returns (LSTMCell.__call__ (T:=T) zero_weights x0 (LSTMCell.zero_state projecting_cell 1)
             (projecting_cell, empty_graph)) = true.
Proof. vm_compute. reflexivity. Qed.

Lemma LSTMCell_step_keeps_shapes_witness :
  ∃ m new_state self' g',
    LSTMCell.__call__ (T:=R) zero_weights x0 (LSTMCell.zero_state projecting_cell 1)
      (projecting_cell, empty_graph) = (inr (m, new_state), (self', g')) ∧
    shaped 1 (LSTMCell.output_size self') m ∧
    state_shaped 1 (LSTMCell.state_size self') new_state.
Proof.
  destruct (returns_inr _ (projecting_cell_zero_state_runs (T:=R)))
    as (m & new_state & self' & g' & Hcall).
  exists m, new_state, self', g'. split; [exact Hcall|].
  destruct (LSTMCell_step_keeps_shapes zero_weights 1 false None None (Some 1)
              (Some (flit (1 # 2))) None None (flit 1) true None None
              projecting_cell self' empty_graph g' x0
              (LSTMCell.zero_state projecting_cell 1) m new_state 1
              ltac:(discriminate)
              (conj eq_refl (LSTMCell_init_wf _ _ _ _ _ _ _ _ _ _ _ _))
              eq_refl (zero_state_tensors_shaped _ _) Hcall) as (Hm & Hns & _).
  split; [exact Hm|exact Hns].
Defined.

(** The state a call of [LSTMCell.call] returns is read back by the next
    call as it was packed.  On a well-formed cell, with inputs of [batch]
    rows and a state of the sizes of the cell: the new state packs the new
    cell state [c] and the output [m], as a tuple or, when [state_is_tuple]
    is false, side by side in one tensor, and [unpack_state] (the first
    statements of [call]) splits it into [c] and [m] again. *)
Theorem LSTMCell_state_round_trip {T : Type} `{!Scalar T}
    (theta : list string → nat → nat → T)
    (self self' : LSTMCell.t) g g' (inputs : matrix) state m new_state batch s :
  let n := LSTMCell._num_units self in
  let p := default n (LSTMCell._num_proj self) in
  let sz := if LSTMCell._state_is_tuple self then SizeTuple n p else SizeInt (n + p) in
  LSTMCell_wf self → length inputs = batch → state_shaped batch sz state →
  LSTMCell.call theta inputs state (self, g) = (inr (m, new_state), (self', g')) →
  ∃ c, new_state = packed (LSTMCell._state_is_tuple self) c m ∧
       LSTMCell.unpack_state self' new_state s = (inr (c, m), s).
Proof.
  intros n p sz Hwf Hin Hst Hcall.
  pose proof (preserves_run_self _ _ _ _ _ _ _ _ (LSTMCell_call_inv theta self inputs state)
                (conj eq_refl Hwf) Hcall) as [[Hc _] _].
  destruct (LSTMCell_call_parts theta _ _ _ _ _ _ _ _ _ Hwf Hin Hst Hcall)
    as (c & -> & Hcs & Hm).
  exists c. split; [done|]. unfold LSTMCell.unpack_state, packed.
  rewrite (LSTMCell_config_num_units _ _ Hc), (LSTMCell_config_num_proj _ _ Hc).
  assert (LSTMCell._state_is_tuple self' = LSTMCell._state_is_tuple self) as ->
    by exact (f_equal LSTMCell._state_is_tuple Hc).
  destruct (LSTMCell._state_is_tuple self); [done|].
  destruct (slice_concat _ _ _ _ _ Hcs Hm) as [-> ->]. done.
Qed.

Lemma concat_state_cell_runs {T : Type} `{!Scalar T} :
  returns (LSTMCell.call (T:=T) zero_weights x0 (LSTMCell.zero_state concat_state_cell 1)
             (concat_state_cell, empty_graph)) = true.
Proof. vm_compute. reflexivity. Qed.

Lemma LSTMCell_state_round_trip_witness :
  ∃ m new_state self' g' c,
    LSTMCell.call (T:=R) zero_weights x0 (LSTMCell.zero_state concat_state_cell 1)
      (concat_state_cell, empty_graph) = (inr (m, new_state), (self', g')) ∧
    new_state = StateTensor (concat [c; m]) ∧
    LSTMCell.unpack_state self' new_state (self', g') = (inr (c, m), (self', g')).
Proof.
  destruct (returns_inr _ (concat_state_cell_runs (T:=R)))
    as (m & new_state & self' & g' & Hcall).
  destruct (LSTMCell_state_round_trip zero_weights concat_state_cell self' empty_graph g'
              x0 (LSTMCell.zero_state concat_state_cell 1) m new_state 1 (self', g')
              (LSTMCell_init_wf _ _ _ _ _ _ _ _ _ _ _ _) eq_refl
              (zero_state_tensors_shaped _ _) Hcall) as (c & Hns & Hu).
  exists m, new_state, self', g', c. split; [exact Hcall|]. split; [exact Hns|exact Hu].
Defined.

(** ** The shapes of a step of [LN_LSTMCell] *)

Section LNCellShapes.
Context {T : Type} `{!Scalar T}.
Variable theta : list string → nat → nat → T.
Implicit Types (self : LN_LSTMCell.t (T:=T)) (g : tf_graph).

Lemma LN___call___inv self0 inputs state :
  preserves (on_self (LN_LSTMCell_inv self0)) (LN_LSTMCell.__call__ theta inputs state)
    (λ _, True).
Proof.
  apply preserves_RNNCell_call; [|apply LN_call_inv].
  intros ly x [Hc Hwf]. split; [done|]. exact Hwf.
Qed.

(** The cell state and the output of [norm_gates] have the shape of the
    previous cell state when the attributes have the shapes of [attr_ok]. *)
Lemma shaped_norm_gates {C} (cell_ok : C → Prop) (d : gmap string (attr T C))
    num_proj use_peepholes forget_bias activation batch n
    (c_prev i j f o c m0 : matrix) :
  map_Forall (attr_ok cell_ok n num_proj) d →
  shaped batch n c_prev → shaped batch n i → shaped batch n j → shaped batch n f →
  shaped batch n o →
  norm_gates theta d use_peepholes forget_bias activation c_prev i j f o c m0 →
  shaped batch n c ∧ shaped batch n m0.
Proof.
  intros Hd Hcp Hi Hj Hf Ho (ln_c & Hlc & Hg).
  pose proof (Hd _ _ Hlc) as Hnc. simpl in Hnc.
  destruct use_peepholes.
  - destruct Hg as (w_f & w_i & w_o & ln_p1 & ln_p2 & Hwf & Hwi & Hwo & Hp1 & Hp2 & -> & ->).
    pose proof (Hd _ _ Hwf) as Hsf. pose proof (Hd _ _ Hwi) as Hsi.
    pose proof (Hd _ _ Hwo) as Hso. pose proof (Hd _ _ Hp1) as Hn1.
    pose proof (Hd _ _ Hp2) as Hn2. simpl in Hsf, Hsi, Hso, Hn1, Hn2.
    split; auto 20 with shape.
  - destruct Hg as [-> ->]. split; auto 20 with shape.
Qed.

Lemma LN_call_parts self self' g g' (inputs : matrix) state m ns batch :
  let n := LN_LSTMCell._num_units self in
  let p := default n (LN_LSTMCell._num_proj self) in
  let sz := if LN_LSTMCell._state_is_tuple self then SizeTuple n p else SizeInt (n + p) in
  LN_LSTMCell_wf self → length inputs = batch → state_shaped batch sz state →
  LN_LSTMCell.call theta inputs state (self, g) = (inr (m, ns), (self', g')) →
  ∃ c, ns = packed (LN_LSTMCell._state_is_tuple self) c m ∧
       shaped batch n c ∧ shaped batch p m.
Proof.
  intros n p sz Hwf Hin Hst Hcall.
  pose proof (preserves_run_self _ _ _ _ _ _ _ _ (LN_call_inv theta self inputs state)
                (conj eq_refl Hwf) Hcall) as [[Hc Hwf'] _].
  pose proof (LN_config_num_units _ _ Hc) as Hn.
  pose proof (LN_config_num_proj _ _ Hc) as Hp.
  unfold LN_LSTMCell_wf in Hwf'. rewrite Hn, Hp in Hwf'. fold n in Hwf'.
  apply LN_call_inr in Hcall as (c_prev & m_prev & Hu & i & j & f & o & c & m0 &
    (lin & ln_i & ln_j & ln_f & ln_o & Hlin & Hi & Hj & Hf & Ho & Hpre) & Hgates & -> & Hproj).
  apply LN_unpack_state_inr in Hu as [_ Hu].
  assert (shaped batch n c_prev ∧ shaped batch p m_prev) as [Hcp Hmp].
  { subst sz. destruct (LN_LSTMCell._state_is_tuple self).
    - subst state. exact Hst.
    - destruct Hu as (s & -> & -> & ->). simpl in Hst. fold n p.
      split; (eapply shaped_slice; [|exact Hst]); lia. }
  assert (shaped batch n c ∧ shaped batch n m0) as [Hcs Hm0].
  { pose proof (Hwf' _ _ Hlin) as [Hok _]. specialize (Hok eq_refl).
    pose proof (shaped_linear_map2 theta batch _ _ inputs m_prev Hok Hin (proj1 Hmp)) as Hlm.
    destruct (split (linear_map theta lin [inputs; m_prev])) as [[[i0 j0] f0] o0] eqn:Hsplit.
    destruct (shaped_split _ _ _ _ _ _ _ Hlm Hsplit) as (Hi0 & Hj0 & Hf0 & Ho0).
    destruct Hpre as (-> & -> & -> & ->).
    pose proof (Hwf' _ _ Hi) as Hni. pose proof (Hwf' _ _ Hj) as Hnj.
    pose proof (Hwf' _ _ Hf) as Hnf. pose proof (Hwf' _ _ Ho) as Hno.
    simpl in Hni, Hnj, Hnf, Hno.
    eapply shaped_norm_gates; [exact Hwf'|exact Hcp| | | | |exact Hgates];
      by apply shaped_layer_norm. }
  assert (shaped batch p m) as Hm.
  { subst p. destruct (LN_LSTMCell._num_proj self) as [q|]; simpl; [|by subst m].
    destruct Hproj as (lin2 & Hlin2 & ->).
    pose proof (Hwf' _ _ Hlin2) as [_ Hok]. destruct (Hok eq_refl) as (_ & q' & [= <-] & Hok').
    apply shaped_clipped.
    exact (shaped_linear_map1 theta batch _ _ m0 Hok' (proj1 Hm0)). }
  by exists c.
Qed.

Lemma LN_init_sizes num_units use_peepholes cell_clip initializer num_proj proj_clip
    forget_bias state_is_tuple activation reuse :
  num_proj ≠ Some 0 →
  let cell := LN_LSTMCell.__init__ (T:=T) num_units use_peepholes cell_clip initializer
                num_proj proj_clip forget_bias state_is_tuple activation reuse in
  let p := default num_units num_proj in
  LN_LSTMCell._state_size cell
    = (if state_is_tuple then SizeTuple num_units p else SizeInt (num_units + p)) ∧
  LN_LSTMCell._output_size cell = p.
Proof.
  intros Hp. simpl. destruct num_proj as [[|q]|]; [done| |]; simpl;
    by destruct state_is_tuple.
Qed.

End LNCellShapes.

(** A step of an [LN_LSTMCell] keeps the shapes its constructor declares:
    for a cell constructed with [num_proj] other than 0, inputs of [batch]
    rows and a state of the shape [state_size], an invocation that returns
    gives an output of [batch] rows and [output_size] columns and a new
    state of the shape [state_size], from a cell that is well formed
    again. *)
Theorem LN_LSTMCell_step_keeps_shapes {T : Type} `{!Scalar T}
    (theta : list string → nat → nat → T)
    num_units use_peepholes cell_clip initializer num_proj proj_clip forget_bias
    state_is_tuple activation reuse
    (self self' : LN_LSTMCell.t) g g' (inputs : matrix) state m new_state batch :
  let cell := LN_LSTMCell.__init__ (T:=T) num_units use_peepholes cell_clip initializer
                num_proj proj_clip forget_bias state_is_tuple activation reuse in
  num_proj ≠ Some 0 →
  LN_LSTMCell_inv cell self →
  length inputs = batch →
  state_shaped batch (LN_LSTMCell.state_size self) state →
  LN_LSTMCell.__call__ theta inputs state (self, g) = (inr (m, new_state), (self', g')) →
  shaped batch (LN_LSTMCell.output_size self') m ∧
  state_shaped batch (LN_LSTMCell.state_size self') new_state ∧
  LN_LSTMCell.state_size self' = LN_LSTMCell.state_size self ∧
  LN_LSTMCell_inv cell self'.
Proof.
  intros cell Hp Hinv Hin Hst Hcall.
  pose proof (preserves_run_self _ _ _ _ _ _ _ _
                (LN___call___inv theta cell inputs state) Hinv Hcall) as [Hinv' _].
  destruct Hinv as [Hc Hwf]. destruct Hinv' as [Hc' Hwf'].
  destruct (LN_init_sizes num_units use_peepholes cell_clip initializer num_proj
              proj_clip forget_bias state_is_tuple activation reuse Hp) as [Hsz Hout].
  fold cell in Hsz, Hout.
  assert (LN_LSTMCell.state_size self = LN_LSTMCell._state_size cell) as Hs
    by exact (f_equal LN_LSTMCell._state_size Hc).
  assert (LN_LSTMCell.state_size self' = LN_LSTMCell._state_size cell) as Hs'
    by exact (f_equal LN_LSTMCell._state_size Hc').
  assert (LN_LSTMCell.output_size self' = LN_LSTMCell._output_size cell) as Ho'
    by exact (f_equal LN_LSTMCell._output_size Hc').
  rewrite Hs', Ho', Hout. rewrite Hs in Hst |- *. rewrite Hsz in Hst |- *.
  apply RNNCell_call_inr in Hcall as (ly & g0 & x1 & g1 & _ & Hcall & _ & _).
  pose proof (LN_call_parts theta (LN_LSTMCell.set_layer ly self) x1 g0 g1 inputs state
                m new_state batch) as Hshape.
  simpl in Hshape.
  rewrite (LN_config_num_units _ _ Hc), (LN_config_num_proj _ _ Hc) in Hshape.
  assert (LN_LSTMCell._state_is_tuple self = state_is_tuple) as Ht
    by exact (f_equal LN_LSTMCell._state_is_tuple Hc).
  rewrite Ht in Hshape. simpl in Hshape.
  destruct (Hshape Hwf Hin Hst Hcall) as (c & -> & Hcs & Hm).
  split; [done|]. split; [|done]. unfold packed.
  destruct state_is_tuple; simpl; [done|]. by apply (shaped_concat _ _ _ c m).
Qed.

Lemma ln_peephole_cell_zero_state_runs {T : Type} `{!Scalar T} :
  returns (LN_LSTMCell.__call__ (T:=T) zero_weights x0
             (LN_LSTMCell.zero_state ln_peephole_cell 1)
             (ln_peephole_cell, empty_graph)) = true.
Proof. vm_compute. reflexivity. Qed.

Lemma LN_LSTMCell_step_keeps_shapes_witness :
  ∃ m new_state self' g',
    LN_LSTMCell.__call__ (T:=R) zero_weights x0 (LN_LSTMCell.zero_state ln_peephole_cell 1)
      (ln_peephole_cell, empty_graph) = (inr (m, new_state), (self', g')) ∧
    shaped 1 (LN_LSTMCell.output_size self') m ∧
    state_shaped 1 (LN_LSTMCell.state_size self') new_state.
Proof.
  destruct (returns_inr _ (ln_peephole_cell_zero_state_runs (T:=R)))
    as (m & new_state & self' & g' & Hcall).
  exists m, new_state, self', g'. split; [exact Hcall|].
  destruct (LN_LSTMCell_step_keeps_shapes zero_weights 2 true None None None None (flit 1)
              true None None ln_peephole_cell self' empty_graph g' x0
              (LN_LSTMCell.zero_state ln_peephole_cell 1) m new_state 1
              ltac:(discriminate)
              (conj eq_refl (LN_init_wf _ _ _ _ _ _ _ _ _ _))
              eq_refl (zero_state_tensors_shaped _ _) Hcall) as (Hm & Hns & _).
  split; [exact Hm|exact Hns].
Defined.

(** ** The shapes of a step of [H_LSTMCell] *)

Section HCellShapes.
Context {T : Type} `{!Scalar T}.
Variable theta : list string → nat → nat → T.
Implicit Types (self : H_LSTMCell.t (T:=T)) (g : tf_graph).

(** An invocation of a well-formed [LSTMCell(h)] on [batch] rows. *)
Lemma hyper_cell_shaped h (cell cell' : LSTMCell.t (T:=T)) g g1 (x : matrix) c_s h_s h_out nhs
    batch :
  LSTMCell_inv (LSTMCell.new h) cell → length x = batch →
  shaped batch h c_s → shaped batch h h_s →
  LSTMCell.__call__ theta x (LSTMStateTuple c_s h_s) (cell, g) = (inr (h_out, nhs), (cell', g1)) →
  ∃ c, nhs = LSTMStateTuple c h_out ∧ shaped batch h c ∧ shaped batch h h_out.
Proof.
  intros [Hc Hwf] Hx Hcs Hhs Hcall.
  apply RNNCell_call_inr in Hcall as (ly & g0 & x1 & g2 & _ & Hcall & _ & _).
  pose proof (LSTMCell_call_parts theta (LSTMCell.set_layer ly cell) x1 g0 g2 x
                (LSTMStateTuple c_s h_s) h_out nhs batch) as Hparts.
  simpl in Hparts.
  rewrite (LSTMCell_config_num_units _ _ Hc), (LSTMCell_config_num_proj _ _ Hc) in Hparts.
  assert (LSTMCell._state_is_tuple cell = true) as Ht
    by exact (f_equal LSTMCell._state_is_tuple Hc).
  rewrite Ht in Hparts. simpl in Hparts.
  exact (Hparts Hwf Hx (conj Hcs Hhs) Hcall).
Qed.

Lemma H_call_parts self self' g g' (inputs : matrix) state m ns batch :
  let n := H_LSTMCell._num_units self in
  let h := H_LSTMCell._hyper_num_units self in
  H_LSTMCell_wf self → H_LSTMCell._num_proj self = None → length inputs = batch →
  state_shaped batch (SizeTuple (n + h) (n + h)) state →
  H_LSTMCell.call theta inputs state (self, g) = (inr (m, ns), (self', g')) →
  ∃ c hyper_c hyper_h,
    ns = LSTMStateTuple (concat [c; hyper_c]) (concat [m; hyper_h]) ∧
    shaped batch n c ∧ shaped batch n m ∧
    shaped batch h hyper_c ∧ shaped batch h hyper_h.
Proof.
  intros n h Hwf Hproj Hin Hst Hcall.
  pose proof (preserves_run_self _ _ _ _ _ _ _ _ (H_call_inv theta self inputs state)
                (conj eq_refl Hwf) Hcall) as [[Hc Hwf'] _].
  unfold H_LSTMCell_wf in Hwf'.
  rewrite (H_config_num_units _ _ Hc), (H_config_num_proj _ _ Hc),
    (H_config_hyper_num_units _ _ Hc) in Hwf'. fold n h in Hwf'.
  apply H_call_inr in Hcall as (c & m0 & hyper_c & hyper_h & Hrec & -> & Hm).
  rewrite Hproj in Hm. subst m0.
  apply H_recurrence_inr in Hrec as (c_t & m_t & -> & Heq).
  destruct Hst as [Hct Hmt].
  destruct Heq as (i0 & j0 & f0 & o0 & self1 & g1 & ln_i & ln_j & ln_f & ln_o &
                   Hgates & _ & Hi & Hj & Hf & Ho & Hnorm).
  apply H_gates_inr in Hgates as (cell & cell' & gc & h_out & Hof & Hrun & _ & _ & Hcomb).
  fold n in Hrun, Hcomb. cbv zeta in Hcomb.
  assert (LSTMCell_inv (LSTMCell.new h) cell) as Hcell.
  { destruct Hof as [Hin_| [_ ->]].
    - apply (Hwf _ _ Hin_).
    - split; [done|]. apply LSTMCell_init_wf. }
  assert (shaped batch n (slice 0 n c_t)) as Hcp by (eapply shaped_slice; [|exact Hct]; lia).
  assert (shaped batch n (slice 0 n m_t)) as Hmp by (eapply shaped_slice; [|exact Hmt]; lia).
  assert (shaped batch h (slice_from n c_t)) as Hhc.
  { replace h with (n + h - n) at 1 by lia. by apply shaped_slice_from. }
  assert (shaped batch h (slice_from n m_t)) as Hhh.
  { replace h with (n + h - n) at 1 by lia. by apply shaped_slice_from. }
  assert (length (concat [inputs; slice 0 n m_t]) = batch) as Hx.
  { rewrite length_concat, Hin, (proj1 Hmp). apply Nat.min_id. }
  destruct (hyper_cell_shaped _ _ _ _ _ _ _ _ _ _ _ Hcell Hx Hhc Hhh Hrun)
    as (c' & [= <- <-] & Hc' & Hho).
  symmetry in Hcomb.
  apply (shaped_hyper_combine theta _ _ _ batch) in Hcomb
    as (Hi0 & Hj0 & Hf0 & Ho0).
  2, 3: rewrite Nat.mul_comm, <- Hin; apply shaped_matmul_var.
  2: by apply length_read_vector; unfold W_bias; simpl; rewrite Nat.mul_comm.
  2: exact (proj1 Hho).
  pose proof (Hwf' _ _ Hi) as Hni. pose proof (Hwf' _ _ Hj) as Hnj.
  pose proof (Hwf' _ _ Hf) as Hnf. pose proof (Hwf' _ _ Ho) as Hno.
  simpl in Hni, Hnj, Hnf, Hno.
  destruct (shaped_norm_gates theta _ _ _ _ _ _ batch n _ _ _ _ _ _ _ Hwf' Hcp
              (shaped_layer_norm theta _ _ _ _ Hni Hi0) (shaped_layer_norm theta _ _ _ _ Hnj Hj0)
              (shaped_layer_norm theta _ _ _ _ Hnf Hf0) (shaped_layer_norm theta _ _ _ _ Hno Ho0)
              Hnorm) as [Hcs Hms].
  by exists c, hyper_c, hyper_h.
Qed.

End HCellShapes.

(** A step of an [H_LSTMCell] keeps the layout of its state.  For a cell
    constructed without [num_proj], in whatever state earlier calls have
    left it, inputs of [batch] rows and a state of the shape [state_size]
    (two tensors of [num_units + hyper_num_units] columns): an invocation
    that returns gives an output of [batch] rows and [output_size] columns
    and a new state of the shape [state_size]; its two tensors are the new
    cell state and the output of the main cell, of [num_units] columns,
    each followed by the [hyper_num_units] columns of the auxiliary cell,
    so that the slices the next call takes give these parts back. *)
Theorem H_LSTMCell_step_keeps_layout {T : Type} `{!Scalar T}
    (theta : list string → nat → nat → T)
    num_units use_peepholes cell_clip initializer proj_clip forget_bias activation reuse
    hyper_num_units hyper_embed_size
    (self self' : H_LSTMCell.t) g g' (inputs : matrix) state m new_state batch :
  let cell := H_LSTMCell.__init__ (T:=T) num_units use_peepholes cell_clip initializer None
                proj_clip forget_bias activation reuse hyper_num_units hyper_embed_size in
  H_LSTMCell_inv cell self →
  length inputs = batch →
  state_shaped batch (H_LSTMCell.state_size self) state →
  H_LSTMCell.__call__ theta inputs state (self, g) = (inr (m, new_state), (self', g')) →
  shaped batch (H_LSTMCell.output_size self') m ∧
  state_shaped batch (H_LSTMCell.state_size self') new_state ∧
  H_LSTMCell.state_size self' = H_LSTMCell.state_size self ∧
  H_LSTMCell_inv cell self' ∧
  ∃ c hyper_c hyper_h,
    new_state = LSTMStateTuple (concat [c; hyper_c]) (concat [m; hyper_h]) ∧
    shaped batch num_units c ∧
    shaped batch hyper_num_units hyper_c ∧ shaped batch hyper_num_units hyper_h ∧
    slice 0 num_units (concat [c; hyper_c]) = c ∧
    slice_from num_units (concat [c; hyper_c]) = hyper_c ∧
    slice 0 num_units (concat [m; hyper_h]) = m ∧
    slice_from num_units (concat [m; hyper_h]) = hyper_h.
Proof.
  intros cell Hinv Hin Hst Hcall.
  pose proof (preserves_run_self _ _ _ _ _ _ _ _
                (H___call___inv theta cell inputs state) Hinv Hcall) as [Hinv' _].
  destruct Hinv as [Hc Hwf]. destruct Hinv' as [Hc' Hwf'].
  assert (H_LSTMCell.state_size self
          = SizeTuple (num_units + hyper_num_units) (num_units + hyper_num_units)) as Hs
    by exact (f_equal H_LSTMCell._state_size Hc).
  assert (H_LSTMCell.state_size self'
          = SizeTuple (num_units + hyper_num_units) (num_units + hyper_num_units)) as Hs'
    by exact (f_equal H_LSTMCell._state_size Hc').
  assert (H_LSTMCell.output_size self' = num_units) as Ho'
    by exact (f_equal H_LSTMCell._output_size Hc').
  rewrite Hs', Ho'. rewrite Hs in Hst |- *.
  apply RNNCell_call_inr in Hcall as (ly & g0 & x1 & g1 & _ & Hcall & _ & _).
  pose proof (H_call_parts theta (H_LSTMCell.set_layer ly self) x1 g0 g1 inputs state
                m new_state batch) as Hparts.
  simpl in Hparts.
  rewrite (H_config_num_units _ _ Hc), (H_config_hyper_num_units _ _ Hc),
    (H_config_num_proj _ _ Hc) in Hparts. simpl in Hparts.
  destruct (Hparts Hwf eq_refl Hin Hst Hcall)
    as (c & hyper_c & hyper_h & -> & Hcs & Hm & Hhc & Hhh).
  split; [done|]. split.
  { split; by apply shaped_concat. }
  split; [done|]. split; [done|].
  exists c, hyper_c, hyper_h. split; [done|]. repeat (split; [done|]).
  split; [exact (proj1 (slice_concat _ _ _ _ _ Hcs Hhc))|].
  split; [exact (slice_from_concat _ _ _ _ Hcs (proj1 Hhc))|].
  split; [exact (proj1 (slice_concat _ _ _ _ _ Hm Hhh))|].
  exact (slice_from_concat _ _ _ _ Hm (proj1 Hhh)).
Qed.

Lemma h_cell_zero_state_runs {T : Type} `{!Scalar T} :
  returns (H_LSTMCell.__call__ (T:=T) zero_weights x0 (H_LSTMCell.zero_state h_cell 1)
             (h_cell, empty_graph)) = true.
Proof. vm_compute. reflexivity. Qed.

Lemma H_LSTMCell_step_keeps_layout_witness :
  ∃ m new_state self' g',
    H_LSTMCell.__call__ (T:=R) zero_weights x0 (H_LSTMCell.zero_state h_cell 1)
      (h_cell, empty_graph) = (inr (m, new_state), (self', g')) ∧
    shaped 1 (H_LSTMCell.output_size self') m ∧
    state_shaped 1 (H_LSTMCell.state_size self') new_state.
Proof.
  destruct (returns_inr _ (h_cell_zero_state_runs (T:=R)))
    as (m & new_state & self' & g' & Hcall).
  exists m, new_state, self', g'. split; [exact Hcall|].
  destruct (H_LSTMCell_step_keeps_layout zero_weights 1 false None None None (flit 1) None
              None 1 1 h_cell self' empty_graph g' x0 (H_LSTMCell.zero_state h_cell 1)
              m new_state 1
              (conj eq_refl (H_init_wf _ _ _ _ _ _ _ _ _ _ _))
              eq_refl (zero_state_tensors_shaped _ _) Hcall) as (Hm & Hns & _).
  split; [exact Hm|exact Hns].
Defined.

(** ** Variables are created by the first invocation only *)

Section RNNCellReuse.
Context {Self A : Type}.
Variable layer : Self → Layer.
Variable set_layer : Layer → Self → Self.
Variable base_name : string.
Hypothesis layer_set_layer : ∀ ly x, layer (set_layer ly x) = ly.

Lemma RNNCell_call_sets_built (call : M (Self * tf_graph) A) scope x g a x' g' :
  RNNCell.__call__ layer set_layer base_name call scope (x, g) = (inr a, (x', g')) →
  built (layer x') = true.
Proof using layer_set_layer.
  intros H. apply RNNCell_call_inr in H as (ly & g0 & x1 & g1 & _ & _ & -> & _).
  by rewrite layer_set_layer.
Qed.

(** An invocation of a built cell runs [call] in a scope that reuses
    variables: whatever the graph and the outcome, no variable is created,
    and the cell stays built. *)
Lemma RNNCell_call_built (P : Self → Prop) (call : M (Self * tf_graph) A) scope x g r x' g' :
  (∀ ly x, built ly = true → P x → P (set_layer ly x)) →
  (∀ x, P x → built (layer x) = true) →
  (∀ vars, preserves (reusing P vars) call (λ _, True)) →
  P x →
  RNNCell.__call__ layer set_layer base_name call scope (x, g) = (r, (x', g')) →
  g_vars g' = g_vars g ∧ P x'.
Proof using layer_set_layer.
  intros Hset Hbuilt Hcall HP. unfold RNNCell.__call__.
  rewrite (Hbuilt x HP). simpl.
  match goal with |- context [call ?s] => specialize (Hcall (g_vars g) s) end.
  assert (∀ ly, built ly = true → P (set_layer ly x)) as HP0 by (intros; by apply Hset).
  destruct (call _) as [[e|a] [x1 g1]].
  - intros [= <- <- <-]. simpl.
    destruct Hcall as (HP1 & Hv & _); [split; [by apply HP0|done]|]. done.
  - intros [= <- <- <-]. simpl.
    destruct Hcall as [(HP1 & Hv & _) _]; [split; [by apply HP0|done]|].
    split; [done|]. by apply Hset.
Qed.

End RNNCellReuse.

Section CellReuse.
Context {T : Type} `{!Scalar T}.
Variable theta : list string → nat → nat → T.

Lemma LSTMCell_call_reusing vars inputs state :
  preserves (reusing (λ x, built (LSTMCell.layer x) = true) vars)
    (LSTMCell.call theta inputs state) (λ _, True).
Proof.
  unfold LSTMCell.call, LSTMCell.self_get, LSTMCell.self_set, LSTMCell.unpack_state.
  pres; by intros.
Qed.

Lemma LSTMCell___call___built inputs state x g r x' g' :
  built (LSTMCell.layer x) = true →
  LSTMCell.__call__ theta inputs state (x, g) = (r, (x', g')) →
  g_vars g' = g_vars g ∧ built (LSTMCell.layer x') = true.
Proof.
  apply (RNNCell_call_built LSTMCell.layer LSTMCell.set_layer "lstm_cell" ltac:(done)
           (λ x, built (LSTMCell.layer x) = true)); [done|done|].
  intros vars. apply LSTMCell_call_reusing.
Qed.

Lemma LN_call_reusing vars inputs state :
  preserves (reusing (λ x, built (LN_LSTMCell.layer x) = true) vars)
    (LN_LSTMCell.call theta inputs state) (λ _, True).
Proof.
  unfold LN_LSTMCell.call, LN_LSTMCell.ensure_norm, LN_LSTMCell.norm,
    LN_LSTMCell.self_get, LN_LSTMCell.self_set, LN_LSTMCell.unpack_state.
  pres; by intros.
Qed.

Lemma LN___call___built inputs state x g r x' g' :
  built (LN_LSTMCell.layer x) = true →
  LN_LSTMCell.__call__ theta inputs state (x, g) = (r, (x', g')) →
  g_vars g' = g_vars g ∧ built (LN_LSTMCell.layer x') = true.
Proof.
  apply (RNNCell_call_built LN_LSTMCell.layer LN_LSTMCell.set_layer "ln_lstm_cell"
           ltac:(done) (λ x, built (LN_LSTMCell.layer x) = true)); [done|done|].
  intros vars. apply LN_call_reusing.
Qed.

End CellReuse.

Section HCellReuse.
Context {T : Type} `{!Scalar T}.
Variable theta : list string → nat → nat → T.
Implicit Types (x : H_LSTMCell.t (T:=T)).

Lemma H_built_set x name a :
  name ≠ "_hyper_cell" → H_LSTMCell_built x →
  H_LSTMCell_built (H_LSTMCell.set_dict (<[name := a]> (H_LSTMCell.__dict__ x)) x).
Proof.
  intros Hne (Hb & cell & Hcell & Hbc). split; [done|]. exists cell. split; [|done].
  simpl. by rewrite lookup_insert_ne.
Qed.

Lemma H_hyper_cell_reusing vars inputs state :
  preserves (reusing H_LSTMCell_built vars) (H_LSTMCell.hyper_cell theta inputs state)
    (λ _, True).
Proof.
  unfold H_LSTMCell.hyper_cell, H_LSTMCell.self_get.
  eapply preserves_bind with (Q1 := λ cell, built (LSTMCell.layer cell) = true).
  { eapply preserves_bind.
    - apply reusing_getattr
        with (Q := λ a, ∀ c, a = PyCell c → built (LSTMCell.layer c) = true).
      intros x a (_ & cell & Hcell & Hb) Ha c ->. rewrite Hcell in Ha. by simplify_eq.
    - intros a Ha. destruct a; simpl; try apply preserves_raise.
      apply preserves_ret. by apply Ha. }
  intros cell Hcell [x g] ((Hb & _) & Hv & Hr). unfold H_LSTMCell.invoke. simpl in Hv, Hr.
  destruct (LSTMCell.__call__ theta inputs state (cell, g)) as [r [cell' g']] eqn:Hcall.
  pose proof (RNNCell_call_same_scope _ _ _ _ _ _ _ _ _ _ Hcall) as (_ & Hr' & _).
  apply LSTMCell___call___built in Hcall as [Hv' Hb']; [|done].
  assert (reusing H_LSTMCell_built vars
            (H_LSTMCell.set_dict (<["_hyper_cell" := PyCell cell']> (H_LSTMCell.__dict__ x)) x,
             g')) as Hinv.
  { split; [|split; simpl; congruence]. split; [done|]. exists cell'. split; [|done].
    simpl. by rewrite lookup_insert_eq. }
  by destruct r.
Qed.

Lemma H_gates_reusing vars self inputs m_prev hyper_state :
  preserves (reusing H_LSTMCell_built vars)
    (H_LSTMCell.gates theta self inputs m_prev hyper_state) (λ _, True).
Proof.
  unfold H_LSTMCell.gates, H_LSTMCell.self_get, H_LSTMCell.self_set.
  eapply preserves_bind with (Q1 := λ a, is_None a = false).
  { apply reusing_getattr. intros x a (_ & cell & Hcell & _) Ha.
    rewrite Hcell in Ha. by simplify_eq. }
  intros a Ha. rewrite Ha. simpl.
  eapply preserves_bind; [by apply (preserves_ret _ () (λ _, True))|]. intros _ _.
  eapply preserves_bind; [apply H_hyper_cell_reusing|]. intros [h_out nhs] _.
  pres.
Qed.

End HCellReuse.

Ltac pres_method ::=
  lazymatch goal with
  | |- preserves (on_self (H_LSTMCell_inv _)) (H_LSTMCell.hyper_cell _ _ _) _ =>
      apply H_hyper_cell_inv
  | |- preserves (reusing _ _) (H_LSTMCell.gates _ _ _ _ _) _ => apply H_gates_reusing
  | |- preserves _ (H_LSTMCell.hyper_cell _ _ _) _ => apply preserves_hyper_cell
  end.

Section HCellReuseCall.
Context {T : Type} `{!Scalar T}.
Variable theta : list string → nat → nat → T.
Implicit Types (x : H_LSTMCell.t (T:=T)).

Lemma H_call_reusing vars inputs state :
  preserves (reusing H_LSTMCell_built vars) (H_LSTMCell.call theta inputs state) (λ _, True).
Proof.
  unfold H_LSTMCell.call, H_LSTMCell.recurrence, H_LSTMCell.ensure_norm, H_LSTMCell.norm,
    H_LSTMCell.self_get, H_LSTMCell.self_set.
  pres; (intros; by apply H_built_set).
Qed.

Lemma H___call___built inputs state x g r x' g' :
  H_LSTMCell_built x →
  H_LSTMCell.__call__ theta inputs state (x, g) = (r, (x', g')) →
  g_vars g' = g_vars g ∧ H_LSTMCell_built x'.
Proof.
  apply (RNNCell_call_built H_LSTMCell.layer H_LSTMCell.set_layer "h_lstm_cell"
           ltac:(done) H_LSTMCell_built).
  - intros ly y Hly (_ & Hc). by split.
  - by intros y [Hb _].
  - intros vars. apply H_call_reusing.
Qed.

(** An invocation that has returned leaves the cell and its auxiliary cell
    built. *)
Lemma H___call___sets_built inputs state x g a x' g' :
  H_LSTMCell.__call__ theta inputs state (x, g) = (inr a, (x', g')) → H_LSTMCell_built x'.
Proof.
  intros H. apply RNNCell_call_inr in H as (ly & g0 & x1 & g1 & _ & Hcall & -> & _).
  split; [done|]. destruct a as [m ns].
  apply H_call_inr in Hcall as (c & m0 & hyper_c & hyper_h & Hrec & _).
  apply H_recurrence_inr in Hrec as (c_t & m_t & _ & Heq).
  destruct Heq as (i0 & j0 & f0 & o0 & self1 & g2 & ln_i & ln_j & ln_f & ln_o &
                   Hgates & Hcell & _).
  apply H_gates_inr in Hgates as (cell & cell' & gc & h_out & _ & Hrun & -> & _).
  exists cell'. split.
  - simpl. rewrite Hcell. simpl. by rewrite lookup_insert_eq.
  - by apply (RNNCell_call_sets_built LSTMCell.layer LSTMCell.set_layer "lstm_cell"
                ltac:(done)) in Hrun.
Qed.

End HCellReuseCall.

(** Once an invocation of an [LSTMCell] has returned, no later invocation
    creates a variable: whatever the inputs, the state, the graph it is
    made in and its outcome, and however many invocations lie in between,
    the variable store is the same before and after. *)
Theorem LSTMCell_variables_created_once {T : Type} `{!Scalar T}
    (theta : list string → nat → nat → T)
    (self self1 self2 self3 : LSTMCell.t) g g1 g2 g3 inputs state a inputs' state' r :
  LSTMCell.__call__ theta inputs state (self, g) = (inr a, (self1, g1)) →
  rtc (invocation (LSTMCell.__call__ theta)) self1 self2 →
  LSTMCell.__call__ theta inputs' state' (self2, g2) = (r, (self3, g3)) →
  g_vars g3 = g_vars g2.
Proof.
  intros H1 Hrtc H2.
  apply (RNNCell_call_sets_built LSTMCell.layer LSTMCell.set_layer "lstm_cell"
           ltac:(done)) in H1.
  assert (built (LSTMCell.layer self2) = true) as Hb.
  { induction Hrtc as [|x y z (i & s & gx & rx & gy & Hxy) _ IH]; [done|].
    apply IH; [|done]. by apply LSTMCell___call___built in Hxy as [_ ?]. }
  by apply LSTMCell___call___built in H2 as [? _].
Qed.

Lemma clipping_cell_runs {T : Type} `{!Scalar T} :
  returns (LSTMCell.__call__ (T:=T) zero_weights x0 state10 (clipping_cell, empty_graph))
    = true.
Proof. vm_compute. reflexivity. Qed.

Lemma LSTMCell_variables_created_once_witness :
  ∃ a self1 g1 r self3 g3,
    LSTMCell.__call__ (T:=R) zero_weights x0 state10 (clipping_cell, empty_graph)
      = (inr a, (self1, g1)) ∧
    LSTMCell.__call__ zero_weights x0 state10 (self1, g1) = (r, (self3, g3)) ∧
    g_vars g3 = g_vars g1.
Proof.
  destruct (returns_inr' _ (clipping_cell_runs (T:=R))) as (a & [self1 g1] & H1).
  destruct (LSTMCell.__call__ zero_weights x0 state10 (self1, g1)) as [r [self3 g3]] eqn:H2.
  exists a, self1, g1, r, self3, g3. split; [exact H1|]. split; [exact H2|].
  exact (LSTMCell_variables_created_once zero_weights clipping_cell self1 self1 self3
           empty_graph g1 g1 g3 x0 state10 a x0 state10 r H1 (rtc_refl _ _) H2).
Defined.

(** Once an invocation of an [LN_LSTMCell] has returned, no later invocation
    creates a variable, whatever its inputs, state, graph and outcome. *)
Theorem LN_LSTMCell_variables_created_once {T : Type} `{!Scalar T}
    (theta : list string → nat → nat → T)
    (self self1 self2 self3 : LN_LSTMCell.t) g g1 g2 g3 inputs state a inputs' state' r :
  LN_LSTMCell.__call__ theta inputs state (self, g) = (inr a, (self1, g1)) →
  rtc (invocation (LN_LSTMCell.__call__ theta)) self1 self2 →
  LN_LSTMCell.__call__ theta inputs' state' (self2, g2) = (r, (self3, g3)) →
  g_vars g3 = g_vars g2.
Proof.
  intros H1 Hrtc H2.
  apply (RNNCell_call_sets_built LN_LSTMCell.layer LN_LSTMCell.set_layer "ln_lstm_cell"
           ltac:(done)) in H1.
  assert (built (LN_LSTMCell.layer self2) = true) as Hb.
  { induction Hrtc as [|x y z (i & s & gx & rx & gy & Hxy) _ IH]; [done|].
    apply IH; [|done]. by apply LN___call___built in Hxy as [_ ?]. }
  by apply LN___call___built in H2 as [? _].
Qed.

Lemma ln_cell_runs {T : Type} `{!Scalar T} :
  returns (LN_LSTMCell.__call__ (T:=T) zero_weights x0 state20 (ln_cell, empty_graph))
    = true.
Proof. vm_compute. reflexivity. Qed.

Lemma LN_LSTMCell_variables_created_once_witness :
  ∃ a self1 g1 r self3 g3,
    LN_LSTMCell.__call__ (T:=R) zero_weights x0 state20 (ln_cell, empty_graph)
      = (inr a, (self1, g1)) ∧
    LN_LSTMCell.__call__ zero_weights x0 state20 (self1, g1) = (r, (self3, g3)) ∧
    g_vars g3 = g_vars g1.
Proof.
  destruct (returns_inr' _ (ln_cell_runs (T:=R))) as (a & [self1 g1] & H1).
  destruct (LN_LSTMCell.__call__ zero_weights x0 state20 (self1, g1))
    as [r [self3 g3]] eqn:H2.
  exists a, self1, g1, r, self3, g3. split; [exact H1|]. split; [exact H2|].
  exact (LN_LSTMCell_variables_created_once zero_weights ln_cell self1 self1 self3
           empty_graph g1 g1 g3 x0 state20 a x0 state20 r H1 (rtc_refl _ _) H2).
Defined.

(** Once an invocation of an [H_LSTMCell] has returned, no later invocation
    creates a variable, neither for the cell nor for its auxiliary cell,
    whatever its inputs, state, graph and outcome: [W_xh], [W_hh], [W_bias]
    and the variables of [_hyper_norm] and [_hyper_bias], requested again by
    every call, are found in the scope the first invocation captured. *)
Theorem H_LSTMCell_variables_created_once {T : Type} `{!Scalar T}
    (theta : list string → nat → nat → T)
    (self self1 self2 self3 : H_LSTMCell.t) g g1 g2 g3 inputs state a inputs' state' r :
  H_LSTMCell.__call__ theta inputs state (self, g) = (inr a, (self1, g1)) →
  rtc (invocation (H_LSTMCell.__call__ theta)) self1 self2 →
  H_LSTMCell.__call__ theta inputs' state' (self2, g2) = (r, (self3, g3)) →
  g_vars g3 = g_vars g2.
Proof.
  intros H1 Hrtc H2. apply H___call___sets_built in H1.
  assert (H_LSTMCell_built self2) as Hb.
  { induction Hrtc as [|x y z (i & s & gx & rx & gy & Hxy) _ IH]; [done|].
    apply IH; [|done]. by apply H___call___built in Hxy as [_ ?]. }
  by apply H___call___built in H2 as [? _].
Qed.

Lemma h_cell___call___runs {T : Type} `{!Scalar T} :
  returns (H_LSTMCell.__call__ (T:=T) zero_weights x0 state20 (h_cell, empty_graph)) = true.
Proof. vm_compute. reflexivity. Qed.

Lemma H_LSTMCell_variables_created_once_witness :
  ∃ a self1 g1 r self3 g3,
    H_LSTMCell.__call__ (T:=R) zero_weights x0 state20 (h_cell, empty_graph)
      = (inr a, (self1, g1)) ∧
    H_LSTMCell.__call__ zero_weights x0 state20 (self1, g1) = (r, (self3, g3)) ∧
    g_vars g3 = g_vars g1.
Proof.
  destruct (returns_inr' _ (h_cell___call___runs (T:=R))) as (a & [self1 g1] & H1).
  destruct (H_LSTMCell.__call__ zero_weights x0 state20 (self1, g1))
    as [r [self3 g3]] eqn:H2.
  exists a, self1, g1, r, self3, g3. split; [exact H1|]. split; [exact H2|].
  exact (H_LSTMCell_variables_created_once zero_weights h_cell self1 self1 self3
           empty_graph g1 g1 g3 x0 state20 a x0 state20 r H1 (rtc_refl _ _) H2).
Defined.



(** ** The equations with peephole connections *)

(** A call of [LSTMCell.call] with [use_peepholes=True] that returns has
    computed, from the four column-splits [i, j, f, o] of the linear map of
    [[inputs, m_prev]] and the diagonals held by [_w_f_diag], [_w_i_diag]
    and [_w_o_diag]: the new cell state [sigmoid(f + forget_bias + w_f_diag
    * c_prev) * c_prev + sigmoid(i + w_i_diag * c_prev) * activation(j)],
    clipped when [cell_clip] is set, and the output [sigmoid(o + w_o_diag *
    c) * activation(c)] of the clipped state [c], before the projection. *)
Theorem LSTMCell_call_with_peepholes {T : Type} `{!Scalar T}
    (theta : list string → nat → nat → T)
    (self self' : LSTMCell.t) g g' inputs state m new_state :
  LSTMCell._use_peepholes self = true →
  LSTMCell.call theta inputs state (self, g) = (inr (m, new_state), (self', g')) →
  ∃ c_prev m_prev lin w_f w_i w_o,
    LSTMCell.unpack_state self state (self, g) = (inr (c_prev, m_prev), (self, g)) ∧
    LSTMCell.__dict__ self' !! "_linear1" = Some (PyLinear lin) ∧
    LSTMCell.__dict__ self' !! "_w_f_diag" = Some (PyVar w_f) ∧
    LSTMCell.__dict__ self' !! "_w_i_diag" = Some (PyVar w_i) ∧
    LSTMCell.__dict__ self' !! "_w_o_diag" = Some (PyVar w_o) ∧
    let '(i, j, f, o) := split (linear_map theta lin [inputs; m_prev]) in
    let activation := mmap (LSTMCell._activation self) in
    let forget_gate :=
      sigmoid (madd (sadd f (LSTMCell._forget_bias self))
                    (vmul (read_vector theta w_f) c_prev)) in
    let input_gate := sigmoid (madd i (vmul (read_vector theta w_i) c_prev)) in
    let c := clipped (LSTMCell._cell_clip self)
               (madd (mmul forget_gate c_prev) (mmul input_gate (activation j))) in
    let m0 := mmul (sigmoid (madd o (vmul (read_vector theta w_o) c))) (activation c) in
    new_state = packed (LSTMCell._state_is_tuple self) c m ∧
    match LSTMCell._num_proj self with
    | None => m = m0
    | Some _ =>
        ∃ lin2, LSTMCell.__dict__ self' !! "_linear2" = Some (PyLinear lin2) ∧
                m = clipped (LSTMCell._proj_clip self) (linear_map theta lin2 [m0])
    end.
Proof.
  intros Hpeep Hcall.
  apply LSTMCell_call_inr in Hcall
    as (c_prev & m_prev & Hu & c & m0 & (lin & Hlin & Hgate) & Hstate & Hproj).
  destruct (split (linear_map theta lin [inputs; m_prev])) as [[[i j] f] o] eqn:Hsplit.
  rewrite Hpeep in Hgate.
  destruct Hgate as (w_f & w_i & w_o & Hwf & Hwi & Hwo & -> & ->).
  exists c_prev, m_prev, lin, w_f, w_i, w_o. rewrite Hsplit. done.
Qed.

Lemma peephole_cell_runs {T : Type} `{!Scalar T} :
  returns (LSTMCell.call (T:=T) zero_weights x0 state10 (peephole_cell, empty_graph)) = true.
Proof. vm_compute. reflexivity. Qed.

Lemma LSTMCell_call_with_peepholes_witness :
  ∃ m new_state self' g' w_f w_i w_o,
    LSTMCell._use_peepholes (T:=R) peephole_cell = true ∧
    LSTMCell.call zero_weights x0 state10 (peephole_cell, empty_graph)
      = (inr (m, new_state), (self', g')) ∧
    LSTMCell.__dict__ self' !! "_w_f_diag" = Some (PyVar w_f) ∧
    LSTMCell.__dict__ self' !! "_w_i_diag" = Some (PyVar w_i) ∧
    LSTMCell.__dict__ self' !! "_w_o_diag" = Some (PyVar w_o).
Proof.
  destruct (returns_inr _ (peephole_cell_runs (T:=R)))
    as (m & new_state & self' & g' & Hcall).
  destruct (LSTMCell_call_with_peepholes zero_weights peephole_cell self' empty_graph g'
              x0 state10 m new_state eq_refl Hcall)
    as (c_prev & m_prev & lin & w_f & w_i & w_o & _ & _ & Hwf & Hwi & Hwo & _).
  exists m, new_state, self', g', w_f, w_i, w_o.
  split; [reflexivity|]. split; [exact Hcall|]. split; [exact Hwf|].
  split; [exact Hwi|exact Hwo].
Defined.

(** A call of [LN_LSTMCell.call] with [use_peepholes=True] that returns has
    computed the new cell state as the normalisation [_ln_c] of
    [sigmoid(f + forget_bias + ln_p1(w_f_diag * c_prev)) + sigmoid(i +
    ln_p2(w_i_diag * c_prev)) * activation(j)], where [i, j, f, o] are the
    normalised pre-activations: the previous cell state enters through the
    two peephole products only, and the forget gate is added as it is.
    The output before the projection is [sigmoid(o + w_o_diag * c) *
    activation(c)] of the normalised [c]. *)
Theorem LN_LSTMCell_call_with_peepholes {T : Type} `{!Scalar T}
    (theta : list string → nat → nat → T)
    (self self' : LN_LSTMCell.t) g g' inputs state m new_state :
  LN_LSTMCell._use_peepholes self = true →
  LN_LSTMCell.call theta inputs state (self, g) = (inr (m, new_state), (self', g')) →
  ∃ c_prev m_prev i j f o w_f w_i w_o ln_p1 ln_p2 ln_c,
    LN_LSTMCell.unpack_state self state (self, g) = (inr (c_prev, m_prev), (self, g)) ∧
    ln_preactivations theta self' inputs m_prev i j f o ∧
    LN_LSTMCell.__dict__ self' !! "_w_f_diag" = Some (PyVar w_f) ∧
    LN_LSTMCell.__dict__ self' !! "_w_i_diag" = Some (PyVar w_i) ∧
    LN_LSTMCell.__dict__ self' !! "_w_o_diag" = Some (PyVar w_o) ∧
    LN_LSTMCell.__dict__ self' !! "_ln_p1" = Some (PyNorm ln_p1) ∧
    LN_LSTMCell.__dict__ self' !! "_ln_p2" = Some (PyNorm ln_p2) ∧
    LN_LSTMCell.__dict__ self' !! "_ln_c" = Some (PyNorm ln_c) ∧
    let activation := mmap (LN_LSTMCell._activation self) in
    let forget_gate :=
      sigmoid (madd (sadd f (LN_LSTMCell._forget_bias self))
                    (layer_norm theta ln_p1 (vmul (read_vector theta w_f) c_prev))) in
    let input_gate :=
      sigmoid (madd i (layer_norm theta ln_p2 (vmul (read_vector theta w_i) c_prev))) in
    let c := layer_norm theta ln_c (madd forget_gate (mmul input_gate (activation j))) in
    let m0 := mmul (sigmoid (madd o (vmul (read_vector theta w_o) c))) (activation c) in
    new_state = packed (LN_LSTMCell._state_is_tuple self) c m ∧
    match LN_LSTMCell._num_proj self with
    | None => m = m0
    | Some _ =>
        ∃ lin2, LN_LSTMCell.__dict__ self' !! "_linear2" = Some (PyLinear lin2) ∧
                m = clipped (LN_LSTMCell._proj_clip self) (linear_map theta lin2 [m0])
    end.
Proof.
  intros Hpeep Hcall.
  apply LN_call_inr in Hcall as (c_prev & m_prev & Hu & i & j & f & o & c & m0 &
    Hpre & (ln_c & Hlc & Hgates) & Hns & Hproj).
  rewrite Hpeep in Hgates.
  destruct Hgates as (w_f & w_i & w_o & ln_p1 & ln_p2 & Hwf & Hwi & Hwo & Hp1 & Hp2 & -> & ->).
  exists c_prev, m_prev, i, j, f, o, w_f, w_i, w_o, ln_p1, ln_p2, ln_c. done.
Qed.

Lemma ln_peephole_cell_runs {T : Type} `{!Scalar T} :
  returns (LN_LSTMCell.call (T:=T) zero_weights x0 state20 (ln_peephole_cell, empty_graph))
    = true.
Proof. vm_compute. reflexivity. Qed.

Lemma LN_LSTMCell_call_with_peepholes_witness :
  ∃ m new_state self' g' ln_p1 ln_p2 ln_c,
    LN_LSTMCell._use_peepholes (T:=R) ln_peephole_cell = true ∧
    LN_LSTMCell.call zero_weights x0 state20 (ln_peephole_cell, empty_graph)
      = (inr (m, new_state), (self', g')) ∧
    LN_LSTMCell.__dict__ self' !! "_ln_p1" = Some (PyNorm ln_p1) ∧
    LN_LSTMCell.__dict__ self' !! "_ln_p2" = Some (PyNorm ln_p2) ∧
    LN_LSTMCell.__dict__ self' !! "_ln_c" = Some (PyNorm ln_c).
Proof.
  destruct (returns_inr _ (ln_peephole_cell_runs (T:=R)))
    as (m & new_state & self' & g' & Hcall).
  destruct (LN_LSTMCell_call_with_peepholes zero_weights ln_peephole_cell self' empty_graph
              g' x0 state20 m new_state eq_refl Hcall)
    as (c_prev & m_prev & i & j & f & o & w_f & w_i & w_o & ln_p1 & ln_p2 & ln_c &
        _ & _ & _ & _ & _ & Hp1 & Hp2 & Hlc & _).
  exists m, new_state, self', g', ln_p1, ln_p2, ln_c.
  split; [reflexivity|]. split; [exact Hcall|]. split; [exact Hp1|].
  split; [exact Hp2|exact Hlc].
Defined.

(** A call of [H_LSTMCell.call] with [use_peepholes=True] that returns has
    computed, from the normalised pre-activations [i, j, f, o] of the gates
    and the first [num_units] columns [c_prev] of the cell state: the new
    cell state, the normalisation [_ln_c] of [sigmoid(f + forget_bias +
    ln_p1(w_f_diag * c_prev)) + sigmoid(i + ln_p2(w_i_diag * c_prev)) *
    activation(j)], and the output [sigmoid(o + w_o_diag * c) *
    activation(c)]; the new state is each of them followed by the columns
    of the auxiliary cell. *)
Theorem H_LSTMCell_call_with_peepholes {T : Type} `{!Scalar T}
    (theta : list string → nat → nat → T)
    (self self' : H_LSTMCell.t) g g' inputs state m new_state :
  H_LSTMCell._use_peepholes self = true →
  H_LSTMCell.call theta inputs state (self, g) = (inr (m, new_state), (self', g')) →
  ∃ c_t m_t i0 j0 f0 o0 self1 g1 hyper_c hyper_h ln_i ln_j ln_f ln_o w_f w_i w_o
    ln_p1 ln_p2 ln_c,
    state = LSTMStateTuple c_t m_t ∧
    let n := H_LSTMCell._num_units self in
    let c_prev := slice 0 n c_t in
    H_LSTMCell.gates theta self inputs (slice 0 n m_t)
      (LSTMStateTuple (slice_from n c_t) (slice_from n m_t)) (self, g)
      = (inr (i0, j0, f0, o0, LSTMStateTuple hyper_c hyper_h), (self1, g1)) ∧
    H_LSTMCell.__dict__ self' !! "_ln_i" = Some (PyNorm ln_i) ∧
    H_LSTMCell.__dict__ self' !! "_ln_j" = Some (PyNorm ln_j) ∧
    H_LSTMCell.__dict__ self' !! "_ln_f" = Some (PyNorm ln_f) ∧
    H_LSTMCell.__dict__ self' !! "_ln_o" = Some (PyNorm ln_o) ∧
    H_LSTMCell.__dict__ self' !! "_w_f_diag" = Some (PyVar w_f) ∧
    H_LSTMCell.__dict__ self' !! "_w_i_diag" = Some (PyVar w_i) ∧
    H_LSTMCell.__dict__ self' !! "_w_o_diag" = Some (PyVar w_o) ∧
    H_LSTMCell.__dict__ self' !! "_ln_p1" = Some (PyNorm ln_p1) ∧
    H_LSTMCell.__dict__ self' !! "_ln_p2" = Some (PyNorm ln_p2) ∧
    H_LSTMCell.__dict__ self' !! "_ln_c" = Some (PyNorm ln_c) ∧
    let activation := mmap (H_LSTMCell._activation self) in
    let i := layer_norm theta ln_i i0 in
    let j := layer_norm theta ln_j j0 in
    let f := layer_norm theta ln_f f0 in
    let o := layer_norm theta ln_o o0 in
    let forget_gate :=
      sigmoid (madd (sadd f (H_LSTMCell._forget_bias self))
                    (layer_norm theta ln_p1 (vmul (read_vector theta w_f) c_prev))) in
    let input_gate :=
      sigmoid (madd i (layer_norm theta ln_p2 (vmul (read_vector theta w_i) c_prev))) in
    let c := layer_norm theta ln_c (madd forget_gate (mmul input_gate (activation j))) in
    let m0 := mmul (sigmoid (madd o (vmul (read_vector theta w_o) c))) (activation c) in
    new_state = LSTMStateTuple (concat [c; hyper_c]) (concat [m; hyper_h]) ∧
    match H_LSTMCell._num_proj self with
    | None => m = m0
    | Some _ =>
        ∃ lin2, H_LSTMCell.__dict__ self' !! "_linear2" = Some (PyLinear lin2) ∧
                m = clipped (H_LSTMCell._proj_clip self) (linear_map theta lin2 [m0])
    end.
Proof.
  intros Hpeep Hcall.
  apply H_call_inr in Hcall as (c & m0 & hyper_c & hyper_h & Hrec & -> & Hm).
  apply H_recurrence_inr in Hrec as (c_t & m_t & -> & Heq).
  destruct Heq as (i0 & j0 & f0 & o0 & self1 & g1 & ln_i & ln_j & ln_f & ln_o &
                   Hgates & _ & Hi & Hj & Hf & Ho & (ln_c & Hlc & Hnorm)).
  rewrite Hpeep in Hnorm.
  destruct Hnorm as (w_f & w_i & w_o & ln_p1 & ln_p2 & Hwf & Hwi & Hwo & Hp1 & Hp2 & -> & ->).
  exists c_t, m_t, i0, j0, f0, o0, self1, g1, hyper_c, hyper_h, ln_i, ln_j, ln_f, ln_o,
    w_f, w_i, w_o, ln_p1, ln_p2, ln_c.
  split; [done|]. cbv zeta. repeat (split; [done|]).
  destruct (H_LSTMCell._num_proj self); [|done].
  destruct Hm as (a & lin2 & _ & _ & Hlin2 & ->). by exists lin2.
Qed.

Lemma h_peephole_cell_runs {T : Type} `{!Scalar T} :
  returns (H_LSTMCell.call (T:=T) zero_weights x0 state20 (h_peephole_cell, empty_graph))
    = true.
Proof. vm_compute. reflexivity. Qed.

Lemma H_LSTMCell_call_with_peepholes_witness :
  ∃ m new_state self' g' ln_p1 ln_p2 ln_c,
    H_LSTMCell._use_peepholes (T:=R) h_peephole_cell = true ∧
    H_LSTMCell.call zero_weights x0 state20 (h_peephole_cell, empty_graph)
      = (inr (m, new_state), (self', g')) ∧
    H_LSTMCell.__dict__ self' !! "_ln_p1" = Some (PyNorm ln_p1) ∧
    H_LSTMCell.__dict__ self' !! "_ln_p2" = Some (PyNorm ln_p2) ∧
    H_LSTMCell.__dict__ self' !! "_ln_c" = Some (PyNorm ln_c).
Proof.
  destruct (returns_inr _ (h_peephole_cell_runs (T:=R)))
    as (m & new_state & self' & g' & Hcall).
  destruct (H_LSTMCell_call_with_peepholes zero_weights h_peephole_cell self' empty_graph
              g' x0 state20 m new_state eq_refl Hcall)
    as (c_t & m_t & i0 & j0 & f0 & o0 & self1 & g1 & hyper_c & hyper_h & ln_i & ln_j &
        ln_f & ln_o & w_f & w_i & w_o & ln_p1 & ln_p2 & ln_c &
        _ & _ & _ & _ & _ & _ & _ & _ & _ & Hp1 & Hp2 & Hlc & _).
  exists m, new_state, self', g', ln_p1, ln_p2, ln_c.
  split; [reflexivity|]. split; [exact Hcall|]. split; [exact Hp1|].
  split; [exact Hp2|exact Hlc].
Defined.

(** ** [_Linear], [_h_linear] and the initializer *)

Section VariableStore.
Context {Self : Type}.

(** A variable that [get_variable] has returned is in the store, under its
    name and with its shape. *)
Lemma get_variable_stored name shape init (self self' : Self) g g' v :
  get_variable name shape init (self, g) = (inr v, (self', g')) →
  g_vars g' !! (name :: g_scope g) = Some shape ∧
  (∀ other, other ≠ name :: g_scope g → g_vars g' !! other = g_vars g !! other) ∧
  (g_reuse g = true → g' = g).
Proof.
  unfold get_variable.
  destruct (g_vars g !! (name :: g_scope g)) as [sh|] eqn:E; destruct (g_reuse g) eqn:Hr;
    try discriminate.
  - destruct (decide (sh = shape)) as [->|]; [|discriminate].
    by intros [= <- <- <-].
  - destruct (run_initializer init g shape); [discriminate|].
    intros [= <- <- <-]. simpl. split; [by rewrite lookup_insert_eq|].
    split; [|done]. intros other Hne. by rewrite lookup_insert_ne.
Qed.

End VariableStore.

Lemma length_concat_rows {T : Type} batch (l : list (list (list T))) :
  l ≠ [] → Forall (λ x, length x = batch) l → length (concat l) = batch.
Proof.
  intros Hne Hl. induction Hl as [|x l Hx Hl IH]; [done|].
  destruct l as [|y l]; [done|].
  change (concat (x :: y :: l)) with (zip_with app x (concat (y :: l))).
  rewrite length_zip_with, IH by done. lia.
Qed.

(** [_Linear(args, output_size, build_bias)] followed by a call on the same
    arguments, which are tensors of rank 2 with the same number [batch] of
    rows, one row at least.  When the constructor returns, the list of
    arguments is not empty; the weights are the variable [kernel] of the
    current scope, with as many rows as the arguments have columns in total
    and [output_size] columns; the biases are the variable [bias] of
    [output_size] entries when [build_bias] is set, and none otherwise; both
    are in the variable store.  Calling the object on the arguments it was
    built from does not raise: it returns [linear_map], the product of the
    concatenated arguments with the weights plus the biases, a tensor of
    [batch] rows and [output_size] columns. *)
Theorem Linear_init_then_call {T : Type} `{!Scalar T} {Self S : Type}
    (theta : list string → nat → nat → T) (a : _Linear.args) output_size build_bias
    (self self' : Self) g g' lin (s : S) batch :
  0 < batch →
  Forall (λ x, shaped batch (ncols x) x) (args_list a) →
  _Linear.__init__ a output_size build_bias (self, g) = (inr lin, (self', g')) →
  let kernel := {| v_name := "kernel" :: g_scope g;
                   v_shape := [foldl (λ acc x, acc + ncols x) 0 (args_list a);
                               output_size] |} in
  let bias := {| v_name := "bias" :: g_scope g; v_shape := [output_size] |} in
  self' = self ∧ same_scope g g' ∧ args_list a ≠ [] ∧
  _Linear._weights lin = kernel ∧
  _Linear._biases lin = (if build_bias then Some bias else None) ∧
  g_vars g' !! v_name kernel = Some (v_shape kernel) ∧
  (build_bias = true → g_vars g' !! v_name bias = Some (v_shape bias)) ∧
  _Linear.__call__ theta lin a s = (inr (linear_map theta lin (args_list a)), s) ∧
  shaped batch output_size (linear_map theta lin (args_list a)).
Proof.
  intros Hbatch Hargs H kernel bias. unfold _Linear.__init__ in H.
  apply bind_inr in H as ([l is_seq] & s1 & Hl & H).
  assert (s1 = (self, g) ∧ l = args_list a ∧ l ≠ [] ∧
          is_seq = match a with _Linear.Single _ => false | _ => true end)
    as (-> & -> & Hne & ->).
  { destruct a as [x|[|x l']]; try discriminate; by apply ret_inr in Hl as [[= -> ->] ->]. }
  clear Hl.
  assert (length (concat (args_list a)) = batch) as Hrows.
  { apply length_concat_rows; [done|].
    eapply Forall_impl; [exact Hargs|]. by intros x [Hx _]. }
  apply bind_inr in H as (w & [self1 g1] & Hw & H).
  pose proof (get_variable_stored _ _ _ _ _ _ _ _ Hw) as (Hsw & _ & _).
  apply get_variable_inr' in Hw as (-> & -> & Hs1).
  assert (∀ lin0 : _Linear.t,
    _Linear._weights lin0 = kernel →
    _Linear._is_sequence lin0 = match a with _Linear.Single _ => false | _ => true end →
    _Linear._build_bias lin0 = build_bias →
    _Linear._biases lin0 = (if build_bias then Some bias else None) →
    _Linear.__call__ theta lin0 a s = (inr (linear_map theta lin0 (args_list a)), s) ∧
    shaped batch output_size (linear_map theta lin0 (args_list a))) as Hcall.
  { intros lin0 Hw0 Hseq Hbb Hbias. split.
    - unfold _Linear.__call__, linear_map. rewrite Hseq, Hbb, Hbias.
      destruct a as [x|[|x [|y l']]]; try done; by destruct build_bias.
    - rewrite <- Hrows. apply shaped_linear_map. split; [by rewrite Hw0|].
      intros b. rewrite Hbias. destruct build_bias; [|done]. by intros [= <-]. }
  destruct build_bias.
  - apply bind_inr in H as (b & [self2 g2] & Hb & [-> [= -> ->]]%ret_inr).
    pose proof (get_variable_stored _ _ _ _ _ _ _ _ Hb) as (Hsb & Hother & _).
    apply get_variable_inr' in Hb as (-> & -> & Hs2).
    rewrite (proj1 Hs1) in *.
    split; [done|]. split; [by eapply same_scope_trans|]. split; [done|].
    split; [done|]. split; [done|]. split.
    { simpl. rewrite Hother; [done|]. by intros [=]. }
    split; [done|]. by apply Hcall.
  - apply ret_inr in H as [-> [= -> ->]].
    split; [done|]. split; [done|]. split; [done|]. split; [done|]. split; [done|].
    split; [done|]. split; [done|]. by apply Hcall.
Qed.

Lemma linear_of_two_runs {T : Type} `{!Scalar T} :
  returns (_Linear.__init__ (T:=T) (Self:=()) (_Linear.Sequence [x0; x0]) 4 true
             ((), empty_graph)) = true.
Proof. vm_compute. reflexivity. Qed.

Lemma Linear_init_then_call_witness :
  ∃ lin g',
    0 < 1 ∧
    Forall (λ x, shaped 1 (ncols x) x) (args_list (T:=R) (_Linear.Sequence [x0; x0])) ∧
    _Linear.__init__ (T:=R) (_Linear.Sequence [x0; x0]) 4 true ((), empty_graph)
      = (inr lin, ((), g')) ∧
    _Linear.__call__ zero_weights lin (_Linear.Sequence [x0; x0]) ()
      = (inr (linear_map zero_weights lin [x0; x0]), ()) ∧
    shaped 1 4 (linear_map zero_weights lin [x0; x0]).
Proof.
  destruct (returns_inr' _ (linear_of_two_runs (T:=R))) as (lin & [[] g'] & Hinit).
  assert (Forall (λ x, shaped 1 (ncols x) x)
            (args_list (T:=R) (_Linear.Sequence [x0; x0]))) as Hargs.
  { repeat constructor. }
  exists lin, g'. split; [lia|]. split; [exact Hargs|]. split; [exact Hinit|].
  exact (proj2 (proj2 (proj2 (proj2 (proj2 (proj2 (proj2
           (Linear_init_then_call zero_weights _ _ _ _ _ _ _ _ () 1 ltac:(lia) Hargs
              Hinit)))))))).
Defined.

(** [_h_linear(x, output_size, ...)] when it returns: the result is
    [matmul(x, w)], plus [b] when [use_bias] is set, a tensor of
    [output_size] columns; [w] is the variable [super_linear_w] of the scope
    [scope or 'linear'], with [output_size] columns and as many rows as [x]
    has columns, or [output_size] rows when [input_size] is given; [b] is
    the variable [super_linear_b] of [output_size] entries.  Both are in the
    variable store afterwards, the current scope is the one of before, and
    with [reuse=True] no variable has been created. *)
Theorem h_linear_returns {T : Type} `{!Scalar T} {Self : Type}
    (theta : list string → nat → nat → T) (x : matrix) output_size scope reuse init_w
    weight_start use_bias bias_start input_size (self self' : Self) g g' r :
  _h_linear theta x output_size scope reuse init_w weight_start use_bias bias_start
    input_size (self, g) = (inr r, (self', g')) →
  let path := default "linear" scope :: g_scope g in
  let x_size := match input_size with None => ncols x | Some _ => output_size end in
  let w := {| v_name := "super_linear_w" :: path; v_shape := [x_size; output_size] |} in
  let b := {| v_name := "super_linear_b" :: path; v_shape := [output_size] |} in
  self' = self ∧ same_scope g g' ∧
  r = (if use_bias then bias_add (matmul_var theta x w) (read_vector theta b)
       else matmul_var theta x w) ∧
  shaped (length x) output_size r ∧
  g_vars g' !! v_name w = Some (v_shape w) ∧
  (use_bias = true → g_vars g' !! v_name b = Some (v_shape b)) ∧
  (reuse = true → g_vars g' = g_vars g).
Proof.
  intros H path x_size w b. unfold _h_linear in H.
  apply variable_scope_inr in H as (g1 & H & ->).
  apply bind_inr in H as ([] & [self0 g0] & Hre & H).
  assert (self0 = self ∧ g_scope g0 = path ∧ g_vars g0 = g_vars g ∧
          (reuse = true → g_reuse g0 = true)) as (-> & Hsc & Hv0 & Hr0).
  { destruct reuse; simpl in Hre; injection Hre as <- <-; done. }
  clear Hre.
  apply bind_inr in H as (w' & [self1 g2] & Hw & H).
  pose proof (get_variable_stored _ _ _ _ _ _ _ _ Hw) as (Hsw & _ & Hrw).
  apply get_variable_inr' in Hw as (-> & -> & Hs1). rewrite Hsc in *. fold x_size w in H |- *.
  destruct use_bias.
  - apply bind_inr in H as (b' & [self2 g3] & Hb & [-> [= -> ->]]%ret_inr).
    pose proof (get_variable_stored _ _ _ _ _ _ _ _ Hb) as (Hsb & Hother & Hrb).
    apply get_variable_inr' in Hb as (-> & -> & Hs2).
    rewrite (proj1 Hs1), Hsc in *. fold b.
    split; [done|]. split; [apply same_scope_leave|]. split; [done|]. split.
    { apply shaped_bias_add; [by apply length_read_vector|apply shaped_matmul]. }
    split; [simpl; rewrite Hother; [done|by intros [=]]|]. split; [done|].
    intros Hre. simpl. specialize (Hr0 Hre). rewrite (Hrw Hr0) in Hrb.
    by rewrite (Hrb Hr0).
  - apply ret_inr in H as [-> [= -> ->]].
    split; [done|]. split; [apply same_scope_leave|]. split; [done|].
    split; [apply shaped_matmul|]. split; [done|]. split; [done|].
    intros Hre. simpl. by rewrite (Hrw (Hr0 Hre)).
Qed.

Lemma h_linear_runs {T : Type} `{!Scalar T} :
  returns (_h_linear (T:=T) (Self:=()) zero_weights x0 3 (Some "zw") false "constant" 0
             true 1 None ((), empty_graph)) = true.
Proof. vm_compute. reflexivity. Qed.

Lemma h_linear_returns_witness :
  ∃ r g',
    _h_linear (T:=R) zero_weights x0 3 (Some "zw") false "constant" 0 true 1 None
      ((), empty_graph) = (inr r, ((), g')) ∧
    shaped 1 3 r ∧
    g_vars g' !! ["super_linear_w"; "zw"] = Some [1; 3] ∧
    g_vars g' !! ["super_linear_b"; "zw"] = Some [3].
Proof.
  destruct (returns_inr' _ (h_linear_runs (T:=R))) as (r & [[] g'] & Hrun).
  exists r, g'. split; [exact Hrun|].
  destruct (h_linear_returns zero_weights x0 3 (Some "zw") false "constant" 0 true 1 None
              () () empty_graph g' r Hrun) as (_ & _ & _ & Hshape & Hw & Hb & _).
  split; [exact Hshape|]. split; [exact Hw|exact (Hb eq_refl)].
Defined.

Lemma ortho_initializer_matrix {A : Type} (scale : pynum) n m rest :
  ortho_initializer (A:=A) scale (n :: m :: rest) = Some NameError.
Proof. reflexivity. Qed.

(** With its default [init_w="ortho"], [_h_linear] cannot create its
    weight: in a scope that does not reuse variables and does not hold
    [super_linear_w] yet, the initializer of [lstm_ortho_initializer] is
    run on the shape of the weight and the call raises [NameError], leaving
    the variable store as it was. *)
Theorem h_linear_default_initializer_raises {T : Type} `{!Scalar T} {Self : Type}
    (theta : list string → nat → nat → T) (x : matrix) output_size scope weight_start
    use_bias bias_start input_size (self : Self) g :
  g_reuse g = false →
  g_vars g !! ("super_linear_w" :: default "linear" scope :: g_scope g) = None →
  _h_linear theta x output_size scope false "ortho" weight_start use_bias bias_start
    input_size (self, g) = (inl NameError, (self, g)).
Proof.
  intros Hr Hv. unfold _h_linear, variable_scope.
  erewrite bind_run by reflexivity. erewrite bind_raise.
  2: { unfold get_variable. cbn [enter_scope g_vars g_scope g_reuse]. rewrite Hv, Hr.
       unfold run_initializer. cbn [String.eqb Ascii.eqb Bool.eqb andb].
       rewrite ortho_initializer_matrix. reflexivity. }
  cbv beta iota zeta. by rewrite leave_enter_scope.
Qed.

Lemma h_linear_default_initializer_raises_witness :
  _h_linear (T:=R) (Self:=()) zero_weights x0 3 None false "ortho" 0 true 0 None
    ((), empty_graph) = (inl NameError, ((), empty_graph)).
Proof.
  exact (h_linear_default_initializer_raises zero_weights x0 3 None 0 true 0 None ()
           empty_graph eq_refl eq_refl).
Defined.

(** A cell cannot be used with the initializer of the module: the first
    call of an [LSTMCell] constructed with
    [initializer=lstm_ortho_initializer(scale)], in a scope that does not
    reuse variables and does not hold [kernel] yet, raises [NameError] when
    the weights of [_linear1] are created, and leaves the cell and the
    variable store as they were. *)
Theorem LSTMCell_ortho_initializer_raises {T : Type} `{!Scalar T} {A : Type}
    (theta : list string → nat → nat → T) (scale : pynum)
    (self : LSTMCell.t) g inputs state c_prev m_prev :
  LSTMCell._initializer self = Some (ortho_initializer (A:=A) scale) →
  LSTMCell.__dict__ self !! "_linear1" = Some PyNone →
  LSTMCell.unpack_state self state (self, g) = (inr (c_prev, m_prev), (self, g)) →
  g_reuse g = false →
  g_vars g !! ("kernel" :: g_scope g) = None →
  LSTMCell.call theta inputs state (self, g) = (inl NameError, (self, g)).
Proof.
  intros Hinit Hlin Hu Hr Hv. unfold LSTMCell.call, LSTMCell.self_get.
  rewrite (bind_run _ _ (self, g) self (self, g)) by done.
  rewrite (bind_run _ _ _ _ _ Hu). cbv beta iota.
  rewrite (bind_run _ _ _ _ _ (getattr_run _ _ (self, g) _ Hlin)). cbv beta.
  apply bind_raise. cbn [is_None when].
  unfold scope_initializer. rewrite Hinit.
  match goal with |- context [mbind ?f ?m ?st] =>
    assert (mbind f m st = (inl NameError, st)) as ->
  end.
  { apply bind_raise. unfold _Linear.__init__.
    erewrite bind_run by reflexivity. apply bind_raise.
    unfold get_variable. cbn [enter_scope g_vars g_scope g_reuse]. rewrite Hv, Hr.
    unfold run_initializer. cbn [enter_scope g_initializer].
    rewrite ortho_initializer_matrix. reflexivity. }
  by rewrite leave_enter_scope.
Qed.

Lemma LSTMCell_ortho_initializer_raises_witness :
  LSTMCell.call (T:=R) zero_weights x0 state10 (ortho_cell, empty_graph)
  = (inl NameError, (ortho_cell, empty_graph)).
Proof.
  exact (LSTMCell_ortho_initializer_raises (A:=()) zero_weights (PyFloat 1) ortho_cell
           empty_graph x0 state10 [[flit 1]] [[flit 0]] eq_refl eq_refl eq_refl eq_refl
           eq_refl).
Defined.

(** ** [hyper_embed_size = 0] *)

Section HyperEdge.
Context {T : Type} `{!Scalar T}.
Variable theta : list string → nat → nat → T.

Lemma hyper_norm_inr_pos {Self} layer_ h_out e n scope (s s' : Self * tf_graph) r :
  _hyper_norm theta layer_ h_out e n scope s = (inr r, s') → e ≠ 0.
Proof.
  destruct s as [self g]. destruct s' as [self' g']. unfold _hyper_norm. intros H.
  apply variable_scope_inr in H as (g1 & H & ->).
  apply bind_inr in H as (zw & s1 & _ & H).
  apply bind_inr in H as (ws & s2 & Hws & _).
  by destruct (decide (e = 0)).
Qed.

Lemma H_gates_inr_pos (self : H_LSTMCell.t (T:=T)) inputs m_prev hyper_state s r s' :
  H_LSTMCell.gates theta self inputs m_prev hyper_state s = (inr r, s') →
  H_LSTMCell._hyper_embed_size self ≠ 0.
Proof.
  unfold H_LSTMCell.gates. intros H.
  apply bind_inr in H as (a & s1 & _ & H).
  apply bind_inr in H as ([] & s2 & _ & H).
  apply bind_inr in H as ([h_out nhs] & s3 & _ & H).
  apply bind_inr in H as (wx & s4 & _ & H).
  apply bind_inr in H as (wh & s5 & _ & H).
  apply bind_inr in H as (wb & s6 & _ & H).
  destruct (split (matmul_var theta inputs wx)) as [[[ix jx] fx] ox].
  apply bind_inr in H as (ix' & s7 & Hix & _).
  by apply hyper_norm_inr_pos in Hix.
Qed.

End HyperEdge.

(** [_hyper_norm] divides [init_gamma] by [embedding_size] after the first
    [_h_linear] has returned.  With [embedding_size = 0], in a scope that
    does not reuse variables and holds neither variable of [zw] yet, the
    call creates these two variables, of shapes [[columns of hyper_output,
    0]] and [[0]], and raises [ZeroDivisionError]; the current scope is the
    one of before. *)
Theorem hyper_norm_zero_embedding {T : Type} `{!Scalar T} {Self : Type}
    (theta : list string → nat → nat → T) (layer_ hyper_output : matrix) num_units scope
    (self : Self) g :
  let w := ["super_linear_w"; "zw"] ++ scope :: g_scope g in
  let b := ["super_linear_b"; "zw"] ++ scope :: g_scope g in
  g_reuse g = false → g_vars g !! w = None → g_vars g !! b = None →
  _hyper_norm theta layer_ hyper_output 0 num_units scope (self, g)
  = (inl ZeroDivisionError,
     (self, {| g_vars := <[b := [0]]> (<[w := [ncols hyper_output; 0]]> (g_vars g));
               g_scope := g_scope g; g_reuse := g_reuse g;
               g_initializer := g_initializer g |})).
Proof.
  intros w b Hr Hw Hb. unfold _hyper_norm, variable_scope. cbv beta iota.
  match goal with |- context [mbind ?f ?m ?st] =>
    assert (mbind f m st
            = (inl ZeroDivisionError,
               (self, {| g_vars := <[b := [0]]> (<[w := [ncols hyper_output; 0]]> (g_vars g));
                         g_scope := scope :: g_scope g; g_reuse := g_reuse g;
                         g_initializer := g_initializer g |}))) as ->
  end; [|done].
  erewrite bind_run; [by apply bind_raise|].
  unfold _h_linear, variable_scope. cbv beta iota.
  cbn [default when enter_scope g_scope g_reuse g_vars g_initializer].
  match goal with |- context [mbind ?f ?m ?st] =>
    assert (mbind f m st
            = (inr (bias_add (matmul_var theta hyper_output
                                {| v_name := w; v_shape := [ncols hyper_output; 0] |})
                      (read_vector theta {| v_name := b; v_shape := [0] |})),
               (self, {| g_vars := <[b := [0]]> (<[w := [ncols hyper_output; 0]]> (g_vars g));
                         g_scope := "zw" :: scope :: g_scope g; g_reuse := g_reuse g;
                         g_initializer := g_initializer g |}))) as ->
  end; [|done].
  erewrite bind_run by reflexivity.
  subst w b. cbn [app] in *.
  unfold get_variable, mbind, M_bind, run_initializer, default.
  cbn [from_option id enter_scope g_vars g_scope g_reuse g_initializer].
  unfold Datatypes.id. rewrite Hw, Hr.
  cbn [String.eqb Ascii.eqb Bool.eqb g_vars g_scope g_reuse g_initializer].
  rewrite lookup_insert_ne by (by intros [=]).
  rewrite Hb.
  done.
Qed.

Lemma hyper_norm_zero_embedding_witness :
  _hyper_norm (T:=R) (Self:=()) zero_weights x0 x0 0 1 "hyper_ix" ((), empty_graph)
  = (inl ZeroDivisionError,
     ((), {| g_vars := <[["super_linear_b"; "zw"; "hyper_ix"] := [0]]>
                         (<[["super_linear_w"; "zw"; "hyper_ix"] := [ncols (T:=R) x0; 0]]> ∅);
             g_scope := []; g_reuse := false; g_initializer := None |})).
Proof.
  exact (hyper_norm_zero_embedding zero_weights x0 x0 1 "hyper_ix" () empty_graph
           eq_refl eq_refl eq_refl).
Defined.

(** An [H_LSTMCell] with [hyper_embed_size = 0] never returns from [call]:
    whatever the inputs, the state and the graph, the call raises, at the
    latest in the first [_hyper_norm]. *)
Theorem H_LSTMCell_zero_embedding_raises {T : Type} `{!Scalar T}
    (theta : list string → nat → nat → T) (self : H_LSTMCell.t) inputs state s :
  H_LSTMCell._hyper_embed_size self = 0 →
  ∃ e s', H_LSTMCell.call theta inputs state (self, s) = (inl e, s').
Proof.
  intros He.
  destruct (H_LSTMCell.call theta inputs state (self, s)) as [[e|[m ns]] [self' g']] eqn:Hcall;
    [by eauto|].
  apply H_call_inr in Hcall as (c & m0 & hyper_c & hyper_h & Hrec & _).
  apply H_recurrence_inr in Hrec as (c_t & m_t & _ & Heq).
  destruct Heq as (i0 & j0 & f0 & o0 & self1 & g1 & ln_i & ln_j & ln_f & ln_o & Hgates & _).
  by apply H_gates_inr_pos in Hgates.
Qed.

Lemma H_LSTMCell_zero_embedding_raises_witness :
  ∃ e s',
    H_LSTMCell.call (T:=R) zero_weights x0 state20
      (H_LSTMCell.__init__ 1 false None None None None (flit 1) None None 1 0, empty_graph)
    = (inl e, s').
Proof.
  exact (H_LSTMCell_zero_embedding_raises zero_weights
           (H_LSTMCell.__init__ 1 false None None None None (flit 1) None None 1 0)
           x0 state20 empty_graph eq_refl).
Defined.
(** ** Bounds on the entries of the state and of the output *)

Section Entries.
Context {T : Type} `{!Scalar T}.
Implicit Types (m a b : matrix (T:=T)).

Lemma entries_mmap (P : T → Prop) (f : T → T) m :
  (∀ x, P (f x)) → entries P (mmap f m).
Proof.
  intros Hf. unfold entries, mmap. apply Forall_map, Forall_true. intros r.
  apply Forall_map, Forall_true. intros x. apply Hf.
Qed.

Lemma entries_zip_with (P Q1 Q2 : T → Prop) (f : T → T → T) a b :
  (∀ x y, Q1 x → Q2 y → P (f x y)) → entries Q1 a → entries Q2 b →
  entries P (zip_with (zip_with f) a b).
Proof.
  intros Hf Ha. revert b. induction Ha as [|r a Hr Ha IH]; intros [|r' b] Hb; try constructor.
  - inversion_clear Hb as [|?? Hr' _]. clear -Hf Hr Hr'. revert r' Hr'.
    induction Hr as [|x r Hx Hr IH]; intros [|y r'] Hr'; try constructor.
    + inversion_clear Hr'. by apply Hf.
    + inversion_clear Hr'. by apply IH.
  - inversion_clear Hb. by apply IH.
Qed.

(** A product [sigmoid(a) * activation(b)], entry by entry. *)
Lemma entries_gated (U B : T → Prop) (activation : T → T) a b :
  (∀ x, U (fsigmoid x)) → (∀ x, B (activation x)) →
  (∀ s t, U s → B t → B (fmul s t)) →
  entries B (mmul (sigmoid a) (mmap activation b)).
Proof.
  intros HU HB Hmul.
  apply (entries_zip_with _ U B); [exact Hmul| |]; by apply entries_mmap.
Qed.

End Entries.

Section Bounds.
Local Open Scope R_scope.
Implicit Types (m : matrix (T:=R)).

(** [clip_by_value] takes the minimum with the upper bound first and the
    maximum with the lower bound last. *)
Lemma clip_by_value_within m (lo hi : R) :
  lo <= hi → entries (λ x, lo <= x <= hi) (clip_by_value m lo hi).
Proof.
  intros Hle. apply entries_mmap. intros x. cbn [fmaximum fminimum R_scalar]. split.
  - apply Rmax_r.
  - apply Rmax_lub; [apply Rmin_r|done].
Qed.

Lemma clip_by_value_crossed m (lo hi : R) :
  hi < lo → entries (λ x, x = lo) (clip_by_value m lo hi).
Proof.
  intros Hlt. apply entries_mmap. intros x. cbn [fmaximum fminimum R_scalar].
  apply Rmax_right. pose proof (Rmin_r x hi). lra.
Qed.

Lemma clipped_within m (clip : R) :
  0 <= clip → entries (λ x, - clip <= x <= clip) (clipped (Some clip) m).
Proof. intros H. apply clip_by_value_within. cbn [fneg R_scalar]. lra. Qed.

Lemma clipped_crossed m (clip : R) :
  clip < 0 → entries (λ x, x = - clip) (clipped (Some clip) m).
Proof. intros H. apply (clip_by_value_crossed m (- clip) clip). lra. Qed.

Lemma Rtanh_bounds x : -1 <= Rtrigo_def.tanh x <= 1.
Proof.
  unfold Rtrigo_def.tanh, sinh, cosh.
  pose proof (exp_pos x) as Ha. pose proof (exp_pos (- x)) as Hb.
  set (a := exp x) in *. set (b := exp (- x)) in *.
  assert ((a - b) / 2 / ((a + b) / 2) = (a - b) / (a + b)) as -> by (field; lra).
  split.
  - apply (Rmult_le_reg_r (a + b)); [lra|].
    unfold Rdiv. rewrite Rmult_assoc, Rinv_l by lra. lra.
  - apply (Rmult_le_reg_r (a + b)); [lra|].
    unfold Rdiv. rewrite Rmult_assoc, Rinv_l by lra. lra.
Qed.

Lemma Rsigmoid_bounds x : 0 <= fsigmoid x <= 1.
Proof.
  cbn [fsigmoid R_scalar]. pose proof (Rsigmoid_pos x). pose proof (Rsigmoid_lt_1 x). lra.
Qed.

Lemma Rmult_bounds (s t : R) : 0 <= s <= 1 → -1 <= t <= 1 → -1 <= fmul s t <= 1.
Proof. cbn [fmul R_scalar]. intros Hs Ht. split; nra. Qed.

End Bounds.

(** On the real numbers, the cell state that [LSTMCell.call] returns is
    clipped when [cell_clip] is set: for a bound [clip >= 0] every entry of
    the new [c] lies in [[-clip, clip]]; for a negative bound every entry is
    [-clip], since the maximum with the lower bound is taken last.  The same
    holds for the projected output and [proj_clip] when [num_proj] is set. *)
Theorem LSTMCell_clip_bounds (theta : list string → nat → nat → R)
    (self self' : LSTMCell.t) g g' (inputs : matrix) state m new_state :
  LSTMCell.call theta inputs state (self, g) = (inr (m, new_state), (self', g')) →
  ∃ c, new_state = packed (LSTMCell._state_is_tuple self) c m ∧
    (∀ clip, LSTMCell._cell_clip self = Some clip →
       ((0 <= clip)%R → entries (λ x, (- clip <= x <= clip)%R) c) ∧
       ((clip < 0)%R → entries (λ x, x = (- clip)%R) c)) ∧
    (∀ n clip, LSTMCell._num_proj self = Some n → LSTMCell._proj_clip self = Some clip →
       ((0 <= clip)%R → entries (λ x, (- clip <= x <= clip)%R) m) ∧
       ((clip < 0)%R → entries (λ x, x = (- clip)%R) m)).
Proof.
  intros Hcall.
  apply LSTMCell_call_inr in Hcall
    as (c_prev & m_prev & Hu & c & m0 & (lin & Hlin & Hgate) & Hstate & Hproj).
  exists c. split; [done|]. split.
  - intros clip Hclip.
    destruct (split (linear_map theta lin [inputs; m_prev])) as [[[i j] f] o].
    rewrite Hclip in Hgate.
    destruct (LSTMCell._use_peepholes self).
    + destruct Hgate as (w_f & w_i & w_o & _ & _ & _ & -> & _).
      split; [apply clipped_within|apply clipped_crossed].
    + destruct Hgate as [-> _].
      split; [apply clipped_within|apply clipped_crossed].
  - intros n clip Hn Hclip. rewrite Hn, Hclip in Hproj.
    destruct Hproj as (lin2 & _ & ->).
    split; [apply clipped_within|apply clipped_crossed].
Qed.

Lemma clipping_cell_call_runs {T : Type} `{!Scalar T} :
  returns (LSTMCell.call (T:=T) zero_weights x0 state10 (clipping_cell, empty_graph)) = true.
Proof. vm_compute. reflexivity. Qed.

Lemma LSTMCell_clip_bounds_witness :
  ∃ m new_state self' g',
    LSTMCell.call (T:=R) zero_weights x0 state10 (clipping_cell, empty_graph)
      = (inr (m, new_state), (self', g')) ∧
    ∃ c, new_state = packed (LSTMCell._state_is_tuple (T:=R) clipping_cell) c m ∧
      (∀ clip, LSTMCell._cell_clip (T:=R) clipping_cell = Some clip →
         ((0 <= clip)%R → entries (λ x, (- clip <= x <= clip)%R) c) ∧
         ((clip < 0)%R → entries (λ x, x = (- clip)%R) c)) ∧
      (∀ n clip, LSTMCell._num_proj (T:=R) clipping_cell = Some n →
         LSTMCell._proj_clip (T:=R) clipping_cell = Some clip →
         ((0 <= clip)%R → entries (λ x, (- clip <= x <= clip)%R) m) ∧
         ((clip < 0)%R → entries (λ x, x = (- clip)%R) m)).
Proof.
  destruct (returns_inr _ (clipping_cell_call_runs (T:=R)))
    as (m & new_state & self' & g' & Hcall).
  exists m, new_state, self', g'. split; [exact Hcall|].
  exact (LSTMCell_clip_bounds zero_weights clipping_cell self' empty_graph g' x0 state10 m
           new_state Hcall).
Defined.

(** Every entry of the output of an [LSTMCell] without a projection is a
    product [sigmoid(a) * activation(b)], with and without peepholes,
    whatever the inputs, the state and the weights.  So it has every
    property [B] that the values of the activation have and that the
    multiplication by a value of the sigmoid keeps; [U] is a property of the
    values of the sigmoid.  With the interval from 0 to 1 for [U] and the
    interval from -1 to 1 for [B], bounds included: the output lies between
    -1 and 1, as the values of the activation do. *)
Theorem LSTMCell_output_bounded {T : Type} `{!Scalar T} (U B : T → Prop)
    (theta : list string → nat → nat → T)
    (self self' : LSTMCell.t) g g' (inputs : matrix) state m new_state :
  (∀ x, U (fsigmoid x)) →
  (∀ x, B (LSTMCell._activation self x)) →
  (∀ s t, U s → B t → B (fmul s t)) →
  LSTMCell._num_proj self = None →
  LSTMCell.call theta inputs state (self, g) = (inr (m, new_state), (self', g')) →
  entries B m.
Proof.
  intros HU HB Hmul Hnp Hcall.
  apply LSTMCell_call_inr in Hcall
    as (c_prev & m_prev & Hu & c & m0 & (lin & Hlin & Hgate) & Hstate & Hproj).
  rewrite Hnp in Hproj. subst m.
  destruct (split (linear_map theta lin [inputs; m_prev])) as [[[i j] f] o].
  destruct (LSTMCell._use_peepholes self).
  - destruct Hgate as (w_f & w_i & w_o & _ & _ & _ & _ & ->). by eapply entries_gated.
  - destruct Hgate as [_ ->]. by eapply entries_gated.
Qed.

Lemma LSTMCell_output_bounded_witness :
  ∃ m new_state self' g',
    LSTMCell.call (T:=R) zero_weights x0 state10 (clipping_cell, empty_graph)
      = (inr (m, new_state), (self', g')) ∧
    entries (λ x, (-1 <= x <= 1)%R) m.
Proof.
  destruct (returns_inr _ (clipping_cell_call_runs (T:=R)))
    as (m & new_state & self' & g' & Hcall).
  exists m, new_state, self', g'. split; [exact Hcall|].
  exact (LSTMCell_output_bounded (λ x, (0 <= x <= 1)%R) (λ x, (-1 <= x <= 1)%R)
           zero_weights clipping_cell self' empty_graph g' x0 state10 m new_state
           Rsigmoid_bounds Rtanh_bounds Rmult_bounds eq_refl Hcall).
Defined.

(** ** The first call of a cell on a new graph *)

Section Fresh.
Context {Self : Type}.

Lemma with_vars_same g : with_vars (g_vars g) g = g.
Proof. by destruct g. Qed.

Lemma run_initializer_quiet init g shape :
  quiet init → quiet (g_initializer g) → run_initializer init g shape = None.
Proof.
  intros Hi Hg. unfold run_initializer.
  destruct init as [f|]; [by apply Hi|].
  destruct (g_initializer g) as [f|] eqn:E; [by apply Hg|done].
Qed.

Lemma get_variable_fresh name shape init (self : Self) g :
  g_reuse g = false → g_vars g !! (name :: g_scope g) = None →
  run_initializer init g shape = None →
  get_variable name shape init (self, g)
  = (inr {| v_name := name :: g_scope g; v_shape := shape |},
     (self, with_vars (<[name :: g_scope g := shape]> (g_vars g)) g)).
Proof. intros Hr Hv Hi. unfold get_variable, with_vars. by rewrite Hv, Hr, Hi. Qed.

Lemma scope_initializer_run {A} init (body : M (Self * tf_graph) A) self g r self' g' :
  body (self, enter_scope (g_scope g) (g_reuse g) init g) = (r, (self', g')) →
  scope_initializer init body (self, g) = (r, (self', leave_scope g g')).
Proof. unfold scope_initializer. by intros ->. Qed.

Lemma variable_scope_run {A} name (body : M (Self * tf_graph) A) self g r self' g' :
  body (self, enter_scope (name :: g_scope g) (g_reuse g) None g) = (r, (self', g')) →
  variable_scope name body (self, g) = (r, (self', leave_scope g g')).
Proof. unfold variable_scope. by intros ->. Qed.

End Fresh.

Section FreshLinear.
Context {T : Type} `{!Scalar T} {Self : Type}.

Lemma Linear_init_fresh (a : _Linear.args) output_size build_bias (self : Self) g :
  args_list a ≠ [] → g_reuse g = false → quiet (g_initializer g) →
  g_vars g !! ("kernel" :: g_scope g) = None →
  g_vars g !! ("bias" :: g_scope g) = None →
  let kernel := {| v_name := "kernel" :: g_scope g;
                   v_shape := [foldl (λ acc x, acc + ncols x) 0 (args_list a);
                               output_size] |} in
  let bias := {| v_name := "bias" :: g_scope g; v_shape := [output_size] |} in
  _Linear.__init__ a output_size build_bias (self, g)
  = (inr {| _Linear._build_bias := build_bias;
            _Linear._is_sequence := match a with _Linear.Single _ => false | _ => true end;
            _Linear._weights := kernel;
            _Linear._biases := if build_bias then Some bias else None |},
     (self, with_vars (if build_bias
                       then <[v_name bias := v_shape bias]>
                              (<[v_name kernel := v_shape kernel]> (g_vars g))
                       else <[v_name kernel := v_shape kernel]> (g_vars g)) g)).
Proof.
  intros Hne Hr Hq Hk Hb kernel bias. unfold _Linear.__init__.
  erewrite bind_run; cycle 1.
  { instantiate (1 := (self, g)).
    instantiate (1 := (args_list a, match a with _Linear.Single _ => false | _ => true end)).
    by destruct a as [x|[|x l]]. }
  cbv beta iota.
  erewrite bind_run; cycle 1.
  { apply get_variable_fresh; [done|done|]. by apply run_initializer_quiet. }
  destruct build_bias; [|done].
  erewrite bind_run; cycle 1.
  { apply get_variable_fresh; [done| |done].
    cbn [with_vars g_vars g_scope]. by rewrite lookup_insert_ne. }
  done.
Qed.

End FreshLinear.

Lemma cons_neq {A} (x : A) (l : list A) : x :: l ≠ l.
Proof. intros H. apply (f_equal length) in H. simpl in H. lia. Qed.

Lemma LSTMCell_set_dict_twice {T} `{!Scalar T} d d' (self : LSTMCell.t (T:=T)) :
  LSTMCell.set_dict d (LSTMCell.set_dict d' self) = LSTMCell.set_dict d self.
Proof. reflexivity. Qed.

Lemma LSTMCell_dict_set_dict {T} `{!Scalar T} d (self : LSTMCell.t (T:=T)) :
  LSTMCell.__dict__ (LSTMCell.set_dict d self) = d.
Proof. reflexivity. Qed.

Ltac names_differ :=
  first [by intros [=] | intros [=]; by eapply cons_neq].

(** Reading an attribute that the hypotheses or an earlier assignment give. *)
Ltac attr :=
  apply getattr_run;
  cbn [fst snd LSTMCell.__dict__ LSTMCell.set_dict LN_LSTMCell.__dict__ LN_LSTMCell.set_dict];
  repeat (rewrite lookup_insert_ne by done);
  first [apply lookup_insert_eq | eassumption | by auto].
Ltac run_attr := erewrite bind_run; [|attr].
Ltac run_attr_as := erewrite bind_run; [|erewrite bind_run; [|attr]; reflexivity].

(** Creating a variable whose name is not in the store yet. *)
Ltac norm_graph :=
  unfold with_vars, leave_scope, enter_scope;
  cbn [g_vars g_scope g_reuse g_initializer fst snd args_list foldl v_name v_shape];
  rewrite ?LSTMCell_dict_set_dict, ?LSTMCell_set_dict_twice.

(** A name that is not in the store yet. *)
Ltac fresh_name Hfresh :=
  norm_graph;
  unfold H_gates_variables, norm_variables, hyper_norm_variables, hyper_bias_variables,
    h_linear_variables, LSTMCell_variables;
  cbn [foldl];
  unfold norm_variables, hyper_norm_variables, hyper_bias_variables, h_linear_variables;
  repeat (rewrite lookup_insert_ne by names_differ);
  first [apply (Hfresh [_]) | apply (Hfresh [_; _]) | apply (Hfresh [_; _; _])].
Ltac fresh_var Hfresh Hq :=
  norm_graph; apply get_variable_fresh;
  [ reflexivity
  | fresh_name Hfresh
  | apply run_initializer_quiet; [done|exact Hq] ].
Ltac run_fresh Hfresh Hq := erewrite bind_run; [|fresh_var Hfresh Hq].
(** The output projection and the state that is returned. *)
Ltac projection_tail num_proj Hfresh Hq Hm0 Hbatch :=
  let p := fresh "p" in
  destruct num_proj as [p|];
  [ erewrite bind_run; cycle 1;
    [ run_attr; cbn [is_None when];
      erewrite bind_run; cycle 1;
      [ apply scope_initializer_run; norm_graph; apply variable_scope_run; norm_graph;
        erewrite bind_run; cycle 1;
        [ apply Linear_init_fresh; [done|reflexivity|exact Hq| |]; fresh_name Hfresh
        | reflexivity ]
      | norm_graph; run_attr_as; erewrite bind_run by reflexivity; reflexivity ]
    | norm_graph;
      match type of Hm0 with shaped _ ?n ?m0 =>
        assert (ncols m0 = n) as -> by (destruct Hbatch; by eapply shaped_ncols)
      end;
      eexists _, _, _; reflexivity ]
  | eexists _, _, _; reflexivity ].

Section LSTMCellFirstCall.
Context {T : Type} `{!Scalar T}.
Variable theta : list string → nat → nat → T.

Lemma LSTMCell_call_fresh (self : LSTMCell.t (T:=T)) g (inputs : matrix) state
    (c_prev m_prev : matrix) batch d h :
  let n := LSTMCell._num_units self in
  LSTMCell.__dict__ self !! "_linear1" = Some PyNone →
  LSTMCell.__dict__ self !! "_linear2" = Some PyNone →
  (LSTMCell._use_peepholes self = true →
   LSTMCell.__dict__ self !! "_w_f_diag" = Some PyNone) →
  g_reuse g = false → quiet (LSTMCell._initializer self) → quiet (g_initializer g) →
  (∀ name, g_vars g !! (name ++ g_scope g) = None) →
  LSTMCell.unpack_state self state (self, g) = (inr (c_prev, m_prev), (self, g)) →
  0 < batch → shaped batch d inputs → shaped batch n c_prev → shaped batch h m_prev →
  ∃ m new_state self',
    LSTMCell.call theta inputs state (self, g)
    = (inr (m, new_state),
       (self', with_vars (LSTMCell_variables n (LSTMCell._use_peepholes self)
                            (LSTMCell._num_proj self) d h (g_scope g) (g_vars g)) g)).
Proof.
  intros n Hl1 Hl2 Hpeep Hr Hqi Hqg Hfresh Hu Hbatch Hin Hc Hm.
  assert (quiet (match LSTMCell._initializer self with
                 | Some f => Some f
                 | None => g_initializer g
                 end)) as Hq.
  { intros f shape. destruct (LSTMCell._initializer self) as [f0|] eqn:E.
    - intros [= <-]. by apply Hqi.
    - by apply Hqg. }
  destruct g as [vars scope reuse init]. unfold with_vars.
  cbn [g_vars g_scope g_reuse g_initializer] in *. subst reuse.
  unfold LSTMCell.call, LSTMCell.self_get, LSTMCell.self_set.
  rewrite (bind_run _ _ (self, _) self (self, _)) by done.
  rewrite (bind_run _ _ _ _ _ Hu). cbv beta iota.
  rewrite (bind_run _ _ _ _ _ (getattr_run _ _ (self, _) _ Hl1)). cbv beta.
  cbn [is_None when].
  erewrite bind_run; cycle 1.
  { apply scope_initializer_run.
    erewrite bind_run; cycle 1.
    { apply Linear_init_fresh; [done|done|exact Hq|apply (Hfresh ["kernel"])
                               |apply (Hfresh ["bias"])]. }
    reflexivity. }
  unfold with_vars, leave_scope, enter_scope.
  cbn [g_vars g_scope g_reuse g_initializer fst snd args_list foldl v_name v_shape].
  run_attr_as. erewrite bind_run by reflexivity.
  match goal with |- context [split ?x] => set (lstm_matrix := x) end.
  assert (shaped batch (4 * n) lstm_matrix) as Hlm.
  { apply shaped_bias_add; [by apply length_read_vector|].
    match goal with |- context [matmul_var theta ?x ?w] =>
      pose proof (shaped_matmul_var theta x w) as Hmm end.
    rewrite length_concat, (proj1 Hin), (proj1 Hm), Nat.min_id in Hmm. exact Hmm. }
  destruct (split lstm_matrix) as [[[i j] f] o] eqn:Hsplit.
  destruct (shaped_split _ _ _ _ _ _ _ Hlm Hsplit) as (Hi & Hj & Hf & Ho).
  clearbody lstm_matrix.
  assert (ncols inputs = d) as Hd.
  { destruct batch; [lia|]. by eapply shaped_ncols. }
  assert (ncols m_prev = h) as Hh.
  { destruct batch; [lia|]. by eapply shaped_ncols. }
  rewrite Hd, Hh. unfold LSTMCell_variables.
  destruct (LSTMCell._use_peepholes self) eqn:Epeep.
  - specialize (Hpeep eq_refl).
    erewrite bind_run; cycle 1.
    { run_attr. reflexivity. }
    cbn [is_None when].
    erewrite bind_run; cycle 1.
    { apply scope_initializer_run.
      run_fresh Hfresh Hq. erewrite bind_run by reflexivity. norm_graph.
      run_fresh Hfresh Hq. erewrite bind_run by reflexivity. norm_graph.
      run_fresh Hfresh Hq. reflexivity. }
    norm_graph.
    erewrite bind_run; cycle 1.
    { run_attr_as. run_attr_as. reflexivity. }
    match goal with |- context [clip_by_value ?x _ _] => set (c0 := x) end.
    assert (shaped batch n c0) as Hc0.
    { subst c0. apply shaped_madd; apply shaped_mmul; auto 20 with shape. }
    clearbody c0.
    match goal with |- context [mmap _ ?x] => set (c := x) end.
    assert (shaped batch n c) as Hcc.
    { subst c. destruct (LSTMCell._cell_clip self); auto with shape. }
    clearbody c.
    erewrite bind_run; cycle 1.
    { run_attr_as. reflexivity. }
    match goal with |- context [mmul ?x ?y] => set (m0 := mmul x y) end.
    assert (shaped batch n m0) as Hm0.
    { subst m0. apply shaped_mmul; auto 20 with shape. }
    clearbody m0. norm_graph.
    projection_tail (LSTMCell._num_proj self) Hfresh Hq Hm0 Hbatch.
  - erewrite bind_run by reflexivity. cbn [when].
    erewrite bind_run by reflexivity.
    erewrite bind_run by reflexivity.
    match goal with |- context [clip_by_value ?x _ _] => set (c0 := x) end.
    assert (shaped batch n c0) as Hc0.
    { subst c0. apply shaped_madd; apply shaped_mmul; auto 20 with shape. }
    clearbody c0.
    match goal with |- context [mmap _ ?x] => set (c := x) end.
    assert (shaped batch n c) as Hcc.
    { subst c. destruct (LSTMCell._cell_clip self); auto with shape. }
    clearbody c.
    erewrite bind_run by reflexivity.
    match goal with |- context [mmul ?x ?y] => set (m0 := mmul x y) end.
    assert (shaped batch n m0) as Hm0.
    { subst m0. apply shaped_mmul; auto 20 with shape. }
    clearbody m0. norm_graph.
    projection_tail (LSTMCell._num_proj self) Hfresh Hq Hm0 Hbatch.
Qed.

End LSTMCellFirstCall.

Lemma LSTMCell_new_call_fresh {T : Type} `{!Scalar T}
    (theta : list string → nat → nat → T)
    num_units use_peepholes cell_clip initializer num_proj proj_clip forget_bias
    state_is_tuple activation reuse ly g (inputs : matrix) state batch d :
  let cell := LSTMCell.__init__ num_units use_peepholes cell_clip initializer num_proj
                proj_clip None None forget_bias state_is_tuple activation reuse in
  num_proj ≠ Some 0 →
  g_reuse g = false → quiet initializer → quiet (g_initializer g) →
  (∀ name, g_vars g !! (name ++ g_scope g) = None) →
  0 < batch → shaped batch d inputs → state_shaped batch (LSTMCell.state_size cell) state →
  ∃ m new_state self',
    LSTMCell.call theta inputs state (LSTMCell.set_layer ly cell, g)
    = (inr (m, new_state),
       (self', with_vars (LSTMCell_variables num_units use_peepholes num_proj d
                            (LSTMCell.output_size cell) (g_scope g) (g_vars g)) g)).
Proof.
  intros cell Hproj Hr Hqi Hqg Hfresh Hbatch Hin Hst.
  set (self0 := LSTMCell.set_layer ly cell).
  set (p := default num_units num_proj).
  assert (LSTMCell.state_size cell
          = if state_is_tuple then SizeTuple num_units p else SizeInt (num_units + p)) as Hsz.
  { subst cell p. cbn [LSTMCell.state_size LSTMCell._state_size LSTMCell.__init__].
    destruct num_proj as [[|q]|]; [done| |]; destruct state_is_tuple; cbn; try done.
    f_equal. lia. }
  assert (LSTMCell.output_size cell = p) as Hout.
  { subst cell p. cbn [LSTMCell.output_size LSTMCell._output_size LSTMCell.__init__].
    by destruct num_proj as [[|q]|]. }
  rewrite Hsz in Hst. rewrite Hout.
  assert (∃ c_prev m_prev,
    LSTMCell.unpack_state self0 state (self0, g) = (inr (c_prev, m_prev), (self0, g)) ∧
    shaped batch num_units c_prev ∧ shaped batch p m_prev) as (c_prev & m_prev & Hu & Hc & Hm).
  { unfold LSTMCell.unpack_state.
    cbn [self0 cell LSTMCell._state_is_tuple LSTMCell._num_units LSTMCell._num_proj
         LSTMCell.set_layer LSTMCell.__init__]. fold p.
    destruct state_is_tuple, state as [c m|s]; try done.
    - destruct Hst as [Hc Hm]. by exists c, m.
    - eexists _, _. split; [reflexivity|].
      split; (eapply shaped_slice; [|exact Hst]); lia. }
  destruct (LSTMCell_call_fresh theta self0 g inputs state c_prev m_prev batch d p)
    as (m & new_state & self1 & Hcall); try done.
  - subst self0 cell. cbn [LSTMCell.__dict__ LSTMCell.set_layer LSTMCell.__init__].
    destruct use_peepholes; by repeat (rewrite lookup_insert_ne by done).
  - subst self0 cell. cbn [LSTMCell.__dict__ LSTMCell.set_layer LSTMCell.__init__].
    destruct use_peepholes; repeat (rewrite lookup_insert_ne by done);
      by rewrite lookup_insert_eq.
  - subst self0 cell.
    cbn [LSTMCell.__dict__ LSTMCell._use_peepholes LSTMCell.set_layer LSTMCell.__init__].
    intros ->. repeat (rewrite lookup_insert_ne by done). by rewrite lookup_insert_eq.
  - by exists m, new_state, self1.
Qed.

(** The same through [__call__], in this embedding of it, where a cell
    that has no scope yet takes the default name as it is. *)
Lemma LSTMCell___call___fresh {T : Type} `{!Scalar T}
    (theta : list string → nat → nat → T)
    num_units use_peepholes cell_clip initializer num_proj proj_clip forget_bias
    state_is_tuple activation reuse g (inputs : matrix) state batch d :
  let cell := LSTMCell.__init__ num_units use_peepholes cell_clip initializer num_proj
                proj_clip None None forget_bias state_is_tuple activation reuse in
  reuse ≠ Some true → num_proj ≠ Some 0 →
  g_reuse g = false → quiet initializer → quiet (g_initializer g) →
  (∀ name, g_vars g !! (name ++ "lstm_cell" :: g_scope g) = None) →
  0 < batch → shaped batch d inputs → state_shaped batch (LSTMCell.state_size cell) state →
  ∃ m new_state self',
    LSTMCell.__call__ theta inputs state (cell, g)
    = (inr (m, new_state),
       (self', with_vars (LSTMCell_variables num_units use_peepholes num_proj d
                            (LSTMCell.output_size cell) ("lstm_cell" :: g_scope g)
                            (g_vars g)) g)).
Proof.
  intros cell Hreuse Hproj Hr Hqi Hqg Hfresh Hbatch Hin Hst.
  unfold LSTMCell.__call__, RNNCell.__call__.
  cbn [LSTMCell.layer cell LSTMCell.__init__ new_layer _scope _reuse built default
       from_option fst snd orb].
  rewrite Hr, orb_false_r.
  assert (bool_decide (reuse = Some true) = false) as -> by by apply bool_decide_eq_false.
  match goal with |- context [LSTMCell.call _ _ _ (LSTMCell.set_layer ?l _, ?y)] =>
    set (ly := l); set (g0 := y) end.
  destruct (LSTMCell_new_call_fresh theta num_units use_peepholes cell_clip initializer
              num_proj proj_clip forget_bias state_is_tuple activation reuse ly g0 inputs
              state batch d) as (m & new_state & self1 & Hcall); try done.
  fold cell in Hcall. rewrite Hcall. eexists _, _, _. reflexivity.
Qed.

(** The first run of [call] on a new [LSTMCell], in a variable scope that
    holds no variable yet, as the first [cell(inputs, state)] runs it in the
    scope that the layer has captured, returns, and creates exactly the
    cell's variables in that scope.  The cell is constructed without shards
    and with [num_proj] other than 0; the scope does not reuse variables;
    no initializer raises; the inputs have [batch > 0] rows of [d] columns
    and the state has the shape [state_size] of the cell, so that every
    operation of the call is well shaped.  Then [call] returns, the graph
    keeps its scope, and the variable store has gained, in the scope:
    [kernel] of shape [[d + output_size, 4 * num_units]] and [bias] of shape
    [[4 * num_units]]; with peepholes [w_f_diag], [w_i_diag] and [w_o_diag]
    of shape [[num_units]]; with a projection [projection/kernel] of shape
    [[num_units, num_proj]]; and nothing else. *)
Theorem LSTMCell_first_call_creates_variables {T : Type} `{!Scalar T}
    (theta : list string → nat → nat → T)
    num_units use_peepholes cell_clip initializer num_proj proj_clip forget_bias
    state_is_tuple activation reuse g (inputs : matrix) state batch d :
  let cell := LSTMCell.__init__ num_units use_peepholes cell_clip initializer num_proj
                proj_clip None None forget_bias state_is_tuple activation reuse in
  num_proj ≠ Some 0 →
  g_reuse g = false → quiet initializer → quiet (g_initializer g) →
  (∀ name, g_vars g !! (name ++ g_scope g) = None) →
  0 < batch → shaped batch d inputs → state_shaped batch (LSTMCell.state_size cell) state →
  ∃ m new_state self',
    LSTMCell.call theta inputs state (cell, g)
    = (inr (m, new_state),
       (self', with_vars (LSTMCell_variables num_units use_peepholes num_proj d
                            (LSTMCell.output_size cell) (g_scope g) (g_vars g)) g)).
Proof.
  intros cell.
  exact (LSTMCell_new_call_fresh theta num_units use_peepholes cell_clip initializer
           num_proj proj_clip forget_bias state_is_tuple activation reuse (new_layer reuse)
           g inputs state batch d).
Qed.

Lemma x0_shaped {T : Type} `{!Scalar T} : shaped 1 1 (x0 (T:=T)).
Proof. split; [reflexivity|]. by repeat constructor. Qed.

Lemma state10_shaped {T : Type} `{!Scalar T} :
  state_shaped 1 (SizeTuple 1 1) (state10 (T:=T)).
Proof. split; (split; [reflexivity|]; by repeat constructor). Qed.

Lemma state20_shaped {T : Type} `{!Scalar T} :
  state_shaped 1 (SizeTuple 2 2) (state20 (T:=T)).
Proof. split; (split; [reflexivity|]; by repeat constructor). Qed.

Lemma quiet_None : quiet None.
Proof. by intros f shape. Qed.

Lemma LSTMCell_first_call_creates_variables_witness :
  ∃ m new_state self',
    LSTMCell.call (T:=R) zero_weights x0 state10 (projecting_cell, empty_graph)
    = (inr (m, new_state),
       (self', with_vars (LSTMCell_variables 1 false (Some 1) 1
                            (LSTMCell.output_size (T:=R) projecting_cell)
                            (g_scope empty_graph) (g_vars empty_graph))
                 empty_graph)).
Proof.
  exact (LSTMCell_first_call_creates_variables zero_weights 1 false None None (Some 1)
           (Some (flit (1 # 2))) (flit 1) true None None empty_graph x0 state10 1 1
           ltac:(discriminate) eq_refl quiet_None quiet_None
           (λ name, lookup_empty _) (le_n 1) x0_shaped state10_shaped).
Defined.

(** ** The first call of an [LN_LSTMCell] on a new graph *)

Section FreshNorm.
Context {T : Type} `{!Scalar T}.
Variable theta : list string → nat → nat → T.

Lemma Norm_init_fresh {Self} dim scope (self : Self) g :
  g_reuse g = false →
  g_vars g !! ("gain" :: scope :: g_scope g) = None →
  g_vars g !! ("bias" :: scope :: g_scope g) = None →
  Layer_Normalization.__init__ dim scope Layer_Normalization.epsilon_default (self, g)
  = (inr (norm_at (scope :: g_scope g) dim),
     (self, with_vars (norm_variables (scope :: g_scope g) dim (g_vars g)) g)).
Proof.
  intros Hr Hg Hb. unfold Layer_Normalization.__init__.
  erewrite variable_scope_run; cycle 1.
  { erewrite bind_run; cycle 1.
    { by apply get_variable_fresh. }
    erewrite bind_run; cycle 1.
    { apply get_variable_fresh; [done| |done].
      cbn [with_vars enter_scope g_vars g_scope]. by rewrite lookup_insert_ne. }
    reflexivity. }
  reflexivity.
Qed.

Lemma shaped_Norm_call ln rows n (x : matrix) :
  v_shape (Layer_Normalization._g ln) = [n] → v_shape (Layer_Normalization._b ln) = [n] →
  shaped rows n x → shaped rows n (Layer_Normalization.__call__ theta ln x).
Proof.
  intros Hg Hb. apply shaped_map. intros r Hr. destruct (moments r) as [mu v].
  rewrite !length_zip_with, length_map, !(length_read_vector _ _ n) by done. lia.
Qed.

Lemma shaped_norm_at rows n path (x : matrix) :
  shaped rows n x → shaped rows n (Layer_Normalization.__call__ theta (norm_at path [n]) x).
Proof. by apply shaped_Norm_call. Qed.

Lemma LN_ensure_norm_fresh (self0 self : LN_LSTMCell.t (T:=T)) g name scope :
  LN_LSTMCell.__dict__ self !! name = Some PyNone →
  g_reuse g = false →
  g_vars g !! ("gain" :: scope :: g_scope g) = None →
  g_vars g !! ("bias" :: scope :: g_scope g) = None →
  LN_LSTMCell.ensure_norm self0 name scope (self, g)
  = (inr (),
     (LN_LSTMCell.set_dict
        (<[name := PyNorm (norm_at (scope :: g_scope g) [LN_LSTMCell._num_units self0])]>
           (LN_LSTMCell.__dict__ self)) self,
      with_vars (norm_variables (scope :: g_scope g) [LN_LSTMCell._num_units self0]
                   (g_vars g)) g)).
Proof.
  intros Hd Hr Hg Hb. unfold LN_LSTMCell.ensure_norm, LN_LSTMCell.self_get.
  rewrite (bind_run _ _ _ _ _ (getattr_run _ _ (self, g) _ Hd)). cbn [is_None when].
  erewrite bind_run; cycle 1.
  { by apply Norm_init_fresh. }
  reflexivity.
Qed.

End FreshNorm.

#[export] Hint Resolve shaped_norm_at : shape.

Lemma LN_set_dict_twice {T} `{!Scalar T} d d' (self : LN_LSTMCell.t (T:=T)) :
  LN_LSTMCell.set_dict d (LN_LSTMCell.set_dict d' self) = LN_LSTMCell.set_dict d self.
Proof. reflexivity. Qed.

Lemma LN_dict_set_dict {T} `{!Scalar T} d (self : LN_LSTMCell.t (T:=T)) :
  LN_LSTMCell.__dict__ (LN_LSTMCell.set_dict d self) = d.
Proof. reflexivity. Qed.

Ltac norm_graph ::=
  unfold with_vars, leave_scope, enter_scope;
  cbn [g_vars g_scope g_reuse g_initializer fst snd args_list foldl v_name v_shape];
  rewrite ?LSTMCell_dict_set_dict, ?LSTMCell_set_dict_twice, ?LN_dict_set_dict,
    ?LN_set_dict_twice.

Ltac run_ensure_norm Hfresh :=
  erewrite bind_run;
  [|norm_graph; apply LN_ensure_norm_fresh;
    [ rewrite ?LN_dict_set_dict; repeat (rewrite lookup_insert_ne by done); eassumption
    | reflexivity | fresh_name Hfresh | fresh_name Hfresh ] ].

Ltac run_norm :=
  erewrite bind_run; [|unfold LN_LSTMCell.norm; run_attr_as; reflexivity].

Section LNCellFirstCall.
Context {T : Type} `{!Scalar T}.
Variable theta : list string → nat → nat → T.

Lemma LN_call_fresh (self : LN_LSTMCell.t (T:=T)) g (inputs : matrix) state
    (c_prev m_prev : matrix) batch d h :
  let n := LN_LSTMCell._num_units self in
  LN_LSTMCell_unset self →
  g_reuse g = false → quiet (LN_LSTMCell._initializer self) → quiet (g_initializer g) →
  (∀ name, g_vars g !! (name ++ g_scope g) = None) →
  LN_LSTMCell.unpack_state self state (self, g) = (inr (c_prev, m_prev), (self, g)) →
  0 < batch → shaped batch d inputs → shaped batch n c_prev → shaped batch h m_prev →
  ∃ m new_state self',
    LN_LSTMCell.call theta inputs state (self, g)
    = (inr (m, new_state),
       (self', with_vars (LN_LSTMCell_variables n (LN_LSTMCell._use_peepholes self)
                            (LN_LSTMCell._num_proj self) d h (g_scope g) (g_vars g)) g)).
Proof.
  intros n (Hl1 & Hl2 & Hli & Hlj & Hlf & Hlo & Hlc & Hpeep) Hr Hqi Hqg Hfresh Hu Hbatch Hin
    Hc Hm.
  assert (quiet (match LN_LSTMCell._initializer self with
                 | Some f => Some f
                 | None => g_initializer g
                 end)) as Hq.
  { intros f shape. destruct (LN_LSTMCell._initializer self) as [f0|] eqn:E.
    - intros [= <-]. by apply Hqi.
    - by apply Hqg. }
  destruct g as [vars scope reuse init]. unfold with_vars.
  cbn [g_vars g_scope g_reuse g_initializer] in *. subst reuse.
  unfold LN_LSTMCell.call, LN_LSTMCell.self_get, LN_LSTMCell.self_set.
  rewrite (bind_run _ _ (self, _) self (self, _)) by done.
  rewrite (bind_run _ _ _ _ _ Hu). cbv beta iota.
  rewrite (bind_run _ _ _ _ _ (getattr_run _ _ (self, _) _ Hl1)). cbv beta.
  cbn [is_None when].
  erewrite bind_run; cycle 1.
  { apply scope_initializer_run.
    erewrite bind_run; cycle 1.
    { apply Linear_init_fresh; [done|done|exact Hq|apply (Hfresh ["kernel"])
                               |apply (Hfresh ["bias"])]. }
    reflexivity. }
  norm_graph.
  run_attr_as. erewrite bind_run by reflexivity.
  match goal with |- context [split ?x] => set (lstm_matrix := x) end.
  assert (shaped batch (4 * n) lstm_matrix) as Hlm.
  { apply shaped_bias_add; [by apply length_read_vector|].
    match goal with |- context [matmul_var theta ?x ?w] =>
      pose proof (shaped_matmul_var theta x w) as Hmm end.
    rewrite length_concat, (proj1 Hin), (proj1 Hm), Nat.min_id in Hmm. exact Hmm. }
  destruct (split lstm_matrix) as [[[i0 j0] f0] o0] eqn:Hsplit.
  destruct (shaped_split _ _ _ _ _ _ _ Hlm Hsplit) as (Hi & Hj & Hf & Ho).
  clearbody lstm_matrix.
  assert (ncols inputs = d) as Hd.
  { destruct batch; [lia|]. by eapply shaped_ncols. }
  assert (ncols m_prev = h) as Hh.
  { destruct batch; [lia|]. by eapply shaped_ncols. }
  rewrite Hd, Hh. unfold LN_LSTMCell_variables.
  run_ensure_norm Hfresh. run_ensure_norm Hfresh. run_ensure_norm Hfresh.
  run_ensure_norm Hfresh.
  norm_graph.
  run_norm. run_norm. run_norm. run_norm.
  match goal with |- context [sigmoid (Layer_Normalization.__call__ theta ?l i0)] =>
    set (i := Layer_Normalization.__call__ theta l i0) end.
  match goal with |- context [mmap _ (Layer_Normalization.__call__ theta ?l j0)] =>
    set (j := Layer_Normalization.__call__ theta l j0) end.
  match goal with |- context [sadd (Layer_Normalization.__call__ theta ?l f0)] =>
    set (f := Layer_Normalization.__call__ theta l f0) end.
  match goal with |- context [Layer_Normalization.__call__ theta ?l o0] =>
    set (o := Layer_Normalization.__call__ theta l o0) end.
  assert (shaped batch n i) as Hi' by by apply shaped_norm_at.
  assert (shaped batch n j) as Hj' by by apply shaped_norm_at.
  assert (shaped batch n f) as Hf' by by apply shaped_norm_at.
  assert (shaped batch n o) as Ho' by by apply shaped_norm_at.
  clearbody i j f o. clear Hi Hj Hf Ho Hsplit i0 j0 f0 o0.
  destruct (LN_LSTMCell._use_peepholes self) eqn:Epeep.
  - destruct (Hpeep eq_refl) as (Hwf & Hp1 & Hp2).
    erewrite bind_run; cycle 1.
    { run_attr. reflexivity. }
    cbn [is_None when].
    erewrite bind_run; cycle 1.
    { apply scope_initializer_run.
      run_fresh Hfresh Hq. erewrite bind_run by reflexivity. norm_graph.
      run_fresh Hfresh Hq. erewrite bind_run by reflexivity. norm_graph.
      run_fresh Hfresh Hq. erewrite bind_run by reflexivity. norm_graph.
      run_ensure_norm Hfresh.
      norm_graph. apply LN_ensure_norm_fresh;
        [ rewrite ?LN_dict_set_dict; repeat (rewrite lookup_insert_ne by done); eassumption
        | reflexivity | fresh_name Hfresh | fresh_name Hfresh ]. }
    norm_graph.
    erewrite bind_run; cycle 1.
    { run_attr_as. run_attr_as. run_norm. run_norm. reflexivity. }
    match goal with |- context [LN_LSTMCell.norm theta "_ln_c" ?x] => set (c0 := x) end.
    assert (shaped batch n c0) as Hc0.
    { subst c0. apply shaped_madd; auto 20 with shape. }
    clearbody c0.
    run_ensure_norm Hfresh. norm_graph. run_norm.
    match goal with |- context [mmap _ ?x] => set (c := x) end.
    assert (shaped batch n c) as Hcc by by apply shaped_norm_at.
    clearbody c.
    erewrite bind_run; cycle 1.
    { run_attr_as. reflexivity. }
    match goal with |- context [mmul ?x ?y] => set (m0 := mmul x y) end.
    assert (shaped batch n m0) as Hm0.
    { subst m0. apply shaped_mmul; auto 20 with shape. }
    clearbody m0. norm_graph.
    projection_tail (LN_LSTMCell._num_proj self) Hfresh Hq Hm0 Hbatch.
  - erewrite bind_run by reflexivity. cbn [when].
    erewrite bind_run by reflexivity.
    erewrite bind_run by reflexivity.
    match goal with |- context [LN_LSTMCell.norm theta "_ln_c" ?x] => set (c0 := x) end.
    assert (shaped batch n c0) as Hc0.
    { subst c0. apply shaped_madd; auto 20 with shape. }
    clearbody c0.
    run_ensure_norm Hfresh. norm_graph. run_norm.
    match goal with |- context [mmap _ ?x] => set (c := x) end.
    assert (shaped batch n c) as Hcc by by apply shaped_norm_at.
    clearbody c.
    erewrite bind_run by reflexivity.
    match goal with |- context [mmul ?x ?y] => set (m0 := mmul x y) end.
    assert (shaped batch n m0) as Hm0.
    { subst m0. apply shaped_mmul; auto 20 with shape. }
    clearbody m0. norm_graph.
    projection_tail (LN_LSTMCell._num_proj self) Hfresh Hq Hm0 Hbatch.
Qed.

End LNCellFirstCall.

(** The first run of [call] on a new [LN_LSTMCell], in a variable scope
    that holds no variable yet, as the first [cell(inputs, state)] runs it
    in the scope that the layer has captured, returns, and creates exactly
    the cell's variables in that scope.  The cell is constructed with
    [num_proj] other than 0; the scope does not reuse variables; no
    initializer raises; the inputs have [batch > 0] rows of [d] columns and
    the state has the shape [state_size].  The variable store gains, in the
    scope: [kernel] of shape [[d + output_size, 4 * num_units]] and [bias]
    of shape [[4 * num_units]]; [gain] and [bias] of shape [[num_units]]
    under each of [i_norm], [j_norm], [f_norm], [o_norm] and [c_norm]; with
    peepholes the three diagonals and the gains and biases of [p1_norm] and
    [p2_norm]; with a projection [projection/kernel] of shape
    [[num_units, num_proj]]; and nothing else. *)
Theorem LN_LSTMCell_first_call_creates_variables {T : Type} `{!Scalar T}
    (theta : list string → nat → nat → T)
    num_units use_peepholes cell_clip initializer num_proj proj_clip forget_bias
    state_is_tuple activation reuse g (inputs : matrix) state batch d :
  let cell := LN_LSTMCell.__init__ num_units use_peepholes cell_clip initializer num_proj
                proj_clip forget_bias state_is_tuple activation reuse in
  num_proj ≠ Some 0 →
  g_reuse g = false → quiet initializer → quiet (g_initializer g) →
  (∀ name, g_vars g !! (name ++ g_scope g) = None) →
  0 < batch → shaped batch d inputs →
  state_shaped batch (LN_LSTMCell.state_size cell) state →
  ∃ m new_state self',
    LN_LSTMCell.call theta inputs state (cell, g)
    = (inr (m, new_state),
       (self', with_vars (LN_LSTMCell_variables num_units use_peepholes num_proj d
                            (LN_LSTMCell.output_size cell) (g_scope g) (g_vars g)) g)).
Proof.
  intros cell Hproj Hr Hqi Hqg Hfresh Hbatch Hin Hst.
  set (p := default num_units num_proj).
  assert (LN_LSTMCell.state_size cell
          = if state_is_tuple then SizeTuple num_units p else SizeInt (num_units + p)) as Hsz.
  { subst cell p.
    cbn [LN_LSTMCell.state_size LN_LSTMCell._state_size LN_LSTMCell.__init__].
    by destruct num_proj as [[|q]|]. }
  assert (LN_LSTMCell.output_size cell = p) as Hout.
  { subst cell p.
    cbn [LN_LSTMCell.output_size LN_LSTMCell._output_size LN_LSTMCell.__init__].
    by destruct num_proj as [[|q]|]. }
  rewrite Hsz in Hst. rewrite Hout.
  assert (∃ c_prev m_prev,
    LN_LSTMCell.unpack_state cell state (cell, g) = (inr (c_prev, m_prev), (cell, g)) ∧
    shaped batch num_units c_prev ∧ shaped batch p m_prev) as (c_prev & m_prev & Hu & Hc & Hm).
  { unfold LN_LSTMCell.unpack_state.
    cbn [cell LN_LSTMCell._state_is_tuple LN_LSTMCell._num_units LN_LSTMCell._num_proj
         LN_LSTMCell.__init__]. fold p.
    destruct state_is_tuple, state as [c m|s]; try done.
    - destruct Hst as [Hc Hm]. by exists c, m.
    - eexists _, _. split; [reflexivity|].
      split; (eapply shaped_slice; [|exact Hst]); lia. }
  destruct (LN_call_fresh theta cell g inputs state c_prev m_prev batch d p)
    as (m & new_state & self1 & Hcall); try done.
  - subst cell. unfold LN_LSTMCell_unset.
    cbn [LN_LSTMCell.__dict__ LN_LSTMCell._use_peepholes LN_LSTMCell.__init__].
    destruct use_peepholes; repeat split; try done;
      repeat (rewrite lookup_insert_ne by done); by rewrite lookup_insert_eq.
  - by exists m, new_state, self1.
Qed.

Lemma LN_LSTMCell_first_call_creates_variables_witness :
  ∃ m new_state self',
    LN_LSTMCell.call (T:=R) zero_weights x0 state20 (ln_peephole_cell, empty_graph)
    = (inr (m, new_state),
       (self', with_vars (LN_LSTMCell_variables 2 true None 1
                            (LN_LSTMCell.output_size (T:=R) ln_peephole_cell)
                            (g_scope empty_graph) (g_vars empty_graph))
                 empty_graph)).
Proof.
  exact (LN_LSTMCell_first_call_creates_variables zero_weights 2 true None None None None
           (flit 1) true None None empty_graph x0 state20 1 1
           ltac:(discriminate) eq_refl quiet_None quiet_None
           (λ name, lookup_empty _) (le_n 1) x0_shaped state20_shaped).
Defined.

(** ** The first call of an [H_LSTMCell] on a new graph *)

Section FreshHyper.
Context {T : Type} `{!Scalar T} {Self : Type}.
Variable theta : list string → nat → nat → T.

Lemma h_linear_fresh (x : matrix) out scope init_w weight_start use_bias bias_start
    (self : Self) g :
  init_w = "constant" ∨ init_w = "gaussian" →
  g_reuse g = false →
  g_vars g !! ("super_linear_w" :: scope :: g_scope g) = None →
  (use_bias = true → g_vars g !! ("super_linear_b" :: scope :: g_scope g) = None) →
  _h_linear theta x out (Some scope) false init_w weight_start use_bias bias_start None
    (self, g)
  = (inr (h_linear_value theta (scope :: g_scope g) x out use_bias),
     (self, with_vars (h_linear_variables (scope :: g_scope g) (ncols x) out use_bias
                         (g_vars g)) g)).
Proof.
  intros Hinit Hr Hw Hb. unfold _h_linear, h_linear_value, h_linear_variables.
  assert (run_initializer
            (if String.eqb init_w "zeros" then Some (λ _, None)
             else if String.eqb init_w "constant" then Some (λ _, None)
             else if String.eqb init_w "gaussian" then Some (λ _, None)
             else if String.eqb init_w "ortho"
                  then Some (ortho_initializer (A:=()) (PyFloat 1))
                  else None)
            (enter_scope (default "linear" (Some scope) :: g_scope g) (g_reuse g) None g)
            [ncols x; out] = None) as Hi by (by destruct Hinit as [-> | ->]).
  destruct use_bias.
  - erewrite variable_scope_run; cycle 1.
    { erewrite bind_run by reflexivity.
      erewrite bind_run; cycle 1.
      { by apply get_variable_fresh. }
      erewrite bind_run; cycle 1.
      { apply get_variable_fresh; [done| |done].
        cbn [with_vars enter_scope g_vars g_scope default from_option id].
        rewrite lookup_insert_ne by done. by apply Hb. }
      reflexivity. }
    reflexivity.
  - erewrite variable_scope_run; cycle 1.
    { erewrite bind_run by reflexivity.
      erewrite bind_run; cycle 1.
      { by apply get_variable_fresh. }
      reflexivity. }
    reflexivity.
Qed.

Lemma hyper_norm_fresh (layer_ h_out : matrix) e n scope (self : Self) g batch hn :
  e ≠ 0 → g_reuse g = false → 0 < batch → shaped batch hn h_out →
  g_vars g !! ("super_linear_w" :: "zw" :: scope :: g_scope g) = None →
  g_vars g !! ("super_linear_b" :: "zw" :: scope :: g_scope g) = None →
  g_vars g !! ("super_linear_w" :: "alpha" :: scope :: g_scope g) = None →
  _hyper_norm theta layer_ h_out e n scope (self, g)
  = (inr (mmul (hyper_scale theta (scope :: g_scope g) e n h_out) layer_),
     (self, with_vars (hyper_norm_variables (scope :: g_scope g) hn e n (g_vars g)) g)).
Proof.
  intros He Hr Hbatch Hh Hzw Hzb Haw. unfold _hyper_norm, hyper_scale, hyper_norm_variables.
  assert (ncols h_out = hn) as Hcols by (destruct Hbatch; by eapply shaped_ncols).
  destruct (decide (e = 0)) as [|_]; [done|].
  erewrite variable_scope_run; cycle 1.
  { erewrite bind_run; cycle 1.
    { apply h_linear_fresh; [by left|done|done|done]. }
    erewrite bind_run by reflexivity.
    erewrite bind_run; cycle 1.
    { apply h_linear_fresh; [by left|done| |done].
      cbn [with_vars enter_scope g_vars g_scope]. unfold h_linear_variables.
      by rewrite !lookup_insert_ne. }
    reflexivity. }
  cbn [with_vars enter_scope leave_scope g_vars g_scope g_reuse g_initializer].
  rewrite Hcols.
  match goal with |- context [ncols ?zw] =>
    assert (ncols zw = e) as ->; [|done] end.
  pose proof (shaped_h_linear_value theta ("zw" :: scope :: g_scope g) h_out e true) as Hs.
  rewrite (proj1 Hh) in Hs. destruct Hbatch; by eapply shaped_ncols.
Qed.

Lemma hyper_bias_fresh (layer_ : vector) (h_out : matrix) e n scope (self : Self) g batch hn :
  g_reuse g = false → 0 < batch → shaped batch hn h_out →
  g_vars g !! ("super_linear_w" :: "zb" :: scope :: g_scope g) = None →
  g_vars g !! ("super_linear_w" :: "beta" :: scope :: g_scope g) = None →
  _hyper_bias theta layer_ h_out e n scope (self, g)
  = (inr (vadd layer_ (hyper_shift theta (scope :: g_scope g) e n h_out)),
     (self, with_vars (hyper_bias_variables (scope :: g_scope g) hn e n (g_vars g)) g)).
Proof.
  intros Hr Hbatch Hh Hzw Haw. unfold _hyper_bias, hyper_shift, hyper_bias_variables.
  assert (ncols h_out = hn) as Hcols by (destruct Hbatch; by eapply shaped_ncols).
  erewrite bind_run; cycle 1.
  { erewrite variable_scope_run; cycle 1.
    { erewrite bind_run; cycle 1.
      { apply h_linear_fresh; [by right|done|done|done]. }
      apply h_linear_fresh; [by left|done| |done].
      cbn [with_vars enter_scope g_vars g_scope]. unfold h_linear_variables.
      by rewrite !lookup_insert_ne. }
    reflexivity. }
  cbn [with_vars enter_scope leave_scope g_vars g_scope g_reuse g_initializer].
  rewrite Hcols.
  match goal with |- context [ncols ?zw] =>
    assert (ncols zw = e) as ->; [|done] end.
  pose proof (shaped_h_linear_value theta ("zb" :: scope :: g_scope g) h_out e false) as Hs.
  rewrite (proj1 Hh) in Hs. destruct Hbatch; by eapply shaped_ncols.
Qed.

End FreshHyper.

Lemma H_set_dict_twice {T} `{!Scalar T} d d' (self : H_LSTMCell.t (T:=T)) :
  H_LSTMCell.set_dict d (H_LSTMCell.set_dict d' self) = H_LSTMCell.set_dict d self.
Proof. reflexivity. Qed.

Lemma H_dict_set_dict {T} `{!Scalar T} d (self : H_LSTMCell.t (T:=T)) :
  H_LSTMCell.__dict__ (H_LSTMCell.set_dict d self) = d.
Proof. reflexivity. Qed.

Ltac norm_graph ::=
  unfold with_vars, leave_scope, enter_scope;
  cbn [g_vars g_scope g_reuse g_initializer fst snd args_list foldl v_name v_shape];
  rewrite ?LSTMCell_dict_set_dict, ?LSTMCell_set_dict_twice, ?LN_dict_set_dict,
    ?LN_set_dict_twice, ?H_dict_set_dict, ?H_set_dict_twice.

Ltac attr ::=
  apply getattr_run;
  cbn [fst snd]; rewrite ?LSTMCell_dict_set_dict, ?LN_dict_set_dict, ?H_dict_set_dict;
  repeat (rewrite lookup_insert_ne by done);
  first [apply lookup_insert_eq | eassumption | by auto].

Lemma H_ensure_norm_fresh {T} `{!Scalar T} (self0 self : H_LSTMCell.t (T:=T)) g name scope :
  H_LSTMCell.__dict__ self !! name = Some PyNone →
  g_reuse g = false →
  g_vars g !! ("gain" :: scope :: g_scope g) = None →
  g_vars g !! ("bias" :: scope :: g_scope g) = None →
  H_LSTMCell.ensure_norm self0 name scope (self, g)
  = (inr (),
     (H_LSTMCell.set_dict
        (<[name := PyNorm (norm_at (scope :: g_scope g) [H_LSTMCell._num_units self0])]>
           (H_LSTMCell.__dict__ self)) self,
      with_vars (norm_variables (scope :: g_scope g) [H_LSTMCell._num_units self0]
                   (g_vars g)) g)).
Proof.
  intros Hd Hr Hg Hb. unfold H_LSTMCell.ensure_norm, H_LSTMCell.self_get.
  rewrite (bind_run _ _ _ _ _ (getattr_run _ _ (self, g) _ Hd)). cbn [is_None when].
  erewrite bind_run; cycle 1.
  { by apply Norm_init_fresh. }
  reflexivity.
Qed.

Ltac H_ensure_norm Hfresh :=
  norm_graph; apply H_ensure_norm_fresh;
  [ rewrite ?H_dict_set_dict; repeat (rewrite lookup_insert_ne by done); eassumption
  | reflexivity | fresh_name Hfresh | fresh_name Hfresh ].
Ltac run_H_ensure_norm Hfresh := erewrite bind_run; [|H_ensure_norm Hfresh].
Ltac run_H_norm :=
  erewrite bind_run; [|unfold H_LSTMCell.norm; run_attr_as; reflexivity].

Ltac run_hyper_norm Hfresh He Hbatch Hh :=
  erewrite bind_run;
  [|norm_graph; eapply hyper_norm_fresh;
    [exact He|reflexivity|exact Hbatch|exact Hh
    |fresh_name Hfresh|fresh_name Hfresh|fresh_name Hfresh] ].

Ltac run_hyper_bias Hfresh Hbatch Hh :=
  erewrite bind_run;
  [|norm_graph; eapply hyper_bias_fresh;
    [reflexivity|exact Hbatch|exact Hh|fresh_name Hfresh|fresh_name Hfresh] ].

Section HCellFirstCall.
Context {T : Type} `{!Scalar T}.
Variable theta : list string → nat → nat → T.

Lemma H_gates_fresh (self0 self : H_LSTMCell.t (T:=T)) g (inputs m_prev : matrix)
    (c_s h_s : matrix) batch d :
  let n := H_LSTMCell._num_units self0 in
  let hn := H_LSTMCell._hyper_num_units self0 in
  let e := H_LSTMCell._hyper_embed_size self0 in
  H_LSTMCell.__dict__ self !! "_hyper_cell" = Some PyNone →
  g_reuse g = false → quiet (g_initializer g) → e ≠ 0 →
  (∀ name, g_vars g !! (name ++ g_scope g) = None) →
  0 < batch → shaped batch d inputs → shaped batch n m_prev →
  shaped batch hn c_s → shaped batch hn h_s →
  ∃ i j f o hyper_c hyper_h cell',
    H_LSTMCell.gates theta self0 inputs m_prev (LSTMStateTuple c_s h_s) (self, g)
    = (inr (i, j, f, o, LSTMStateTuple hyper_c hyper_h),
       (H_LSTMCell.set_dict
          (<["_hyper_cell" := PyCell cell']> (H_LSTMCell.__dict__ self)) self,
        with_vars (H_gates_variables "lstm_cell" n hn e d (g_scope g) (g_vars g)) g)) ∧
    shaped batch n i ∧ shaped batch n j ∧ shaped batch n f ∧ shaped batch n o ∧
    shaped batch hn hyper_c ∧ shaped batch hn hyper_h.
Proof.
  intros n hn e Hcell Hr Hq He Hfresh Hbatch Hin Hm Hcs Hhs. subst n hn e.
  set (n := H_LSTMCell._num_units self0) in *.
  set (hn := H_LSTMCell._hyper_num_units self0) in *.
  set (e := H_LSTMCell._hyper_embed_size self0) in *.
  assert (ncols inputs = d) as Hd by (destruct Hbatch; by eapply shaped_ncols).
  destruct (LSTMCell___call___fresh theta hn false None None None None (flit 1)
              true None None g (concat [inputs; m_prev])
              (LSTMStateTuple c_s h_s) batch (d + n))
    as (h_out & nhs & cell' & Hcall); try done.
  { intros name. change (name ++ "lstm_cell" :: g_scope g)
      with (name ++ ["lstm_cell"] ++ g_scope g).
    rewrite app_assoc. apply Hfresh. }
  { by apply shaped_concat. }
  cbn [LSTMCell.output_size LSTMCell._output_size LSTMCell.__init__ truthy] in Hcall.
  destruct (hyper_cell_shaped theta hn (LSTMCell.new hn) cell' _ _ _ _ _ _ _ batch
              (conj eq_refl (LSTMCell_init_wf _ _ _ _ _ _ _ _ _ _ _ _))
              (proj1 (shaped_concat _ _ _ _ _ Hin Hm)) Hcs Hhs Hcall) as (hc & -> & Hhc & Hho).
  destruct g as [vars scope reuse init]. unfold with_vars in *.
  cbn [g_vars g_scope g_reuse g_initializer] in *. subst reuse.
  unfold H_LSTMCell.gates, H_LSTMCell.hyper_cell, H_LSTMCell.self_get, H_LSTMCell.self_set.
  rewrite (bind_run _ _ _ _ _ (getattr_run _ _ (self, _) _ Hcell)).
  cbn [is_None when].
  erewrite bind_run; cycle 1.
  { apply variable_scope_run. reflexivity. }
  norm_graph.
  erewrite bind_run; cycle 1.
  { run_attr_as. unfold H_LSTMCell.invoke. cbv beta iota.
    unfold LSTMCell.new. fold hn. rewrite Hcall. reflexivity. }
  cbv beta iota. norm_graph. rewrite Hd. fold n hn e.
  run_fresh Hfresh Hq. run_fresh Hfresh Hq.
  erewrite bind_run; cycle 1.
  { norm_graph. apply get_variable_fresh; [reflexivity|fresh_name Hfresh|reflexivity]. }
  norm_graph.
  assert (∀ w, v_shape w = [d; n * 4] →
               shaped batch (4 * n) (matmul_var theta inputs w)) as Hmat.
  { intros w Hw. pose proof (shaped_matmul_var theta inputs w) as Hs.
    unfold out_dim in Hs. rewrite Hw, (proj1 Hin), Nat.mul_comm in Hs. exact Hs. }
  set (W_xh := {| v_name := "W_xh" :: scope; v_shape := [d; n * 4] |}).
  set (W_hh := {| v_name := "W_hh" :: scope; v_shape := [d; n * 4] |}).
  destruct (split (matmul_var theta inputs W_xh)) as [[[ix jx] fx] ox] eqn:Hsx.
  destruct (shaped_split _ _ _ _ _ _ _ (Hmat W_xh eq_refl) Hsx) as (Hix & Hjx & Hfx & Hox).
  clear Hsx.
  run_hyper_norm Hfresh He Hbatch Hho. run_hyper_norm Hfresh He Hbatch Hho.
  run_hyper_norm Hfresh He Hbatch Hho. run_hyper_norm Hfresh He Hbatch Hho.
  norm_graph.
  destruct (split (matmul_var theta inputs W_hh)) as [[[ih jh] fh] oh] eqn:Hsh.
  destruct (shaped_split _ _ _ _ _ _ _ (Hmat W_hh eq_refl) Hsh) as (Hih & Hjh & Hfh & Hoh).
  clear Hsh.
  run_hyper_norm Hfresh He Hbatch Hho. run_hyper_norm Hfresh He Hbatch Hho.
  run_hyper_norm Hfresh He Hbatch Hho. run_hyper_norm Hfresh He Hbatch Hho.
  norm_graph.
  set (W_bias := {| v_name := "W_bias" :: scope; v_shape := [n * 4] |}).
  assert (length (read_vector theta W_bias) = 4 * n) as Hlb.
  { rewrite (length_read_vector theta W_bias (n * 4)) by done. lia. }
  destruct (split_vector (read_vector theta W_bias)) as [[[ib jb] fb] ob] eqn:Hsb.
  destruct (length_split_vector n _ _ _ _ _ Hlb Hsb) as (Hib & Hjb & Hfb & Hob).
  clear Hsb.
  run_hyper_bias Hfresh Hbatch Hho. run_hyper_bias Hfresh Hbatch Hho.
  run_hyper_bias Hfresh Hbatch Hho. run_hyper_bias Hfresh Hbatch Hho.
  norm_graph.
  assert (∀ path, shaped batch n (hyper_scale theta path e n h_out)) as Hscale.
  { intros path. rewrite <- (proj1 Hho). apply shaped_hyper_scale. }
  assert (∀ path, shaped batch n (hyper_shift theta path e n h_out)) as Hshift.
  { intros path. rewrite <- (proj1 Hho). apply shaped_hyper_shift. }
  eexists _, _, _, _, hc, h_out, cell'. split.
  { unfold mret, M_ret. do 2 f_equal. f_equal. by rewrite insert_insert_eq. }
  refine (conj _ (conj _ (conj _ (conj _ (conj Hhc Hho)))));
    (apply shaped_madd; [apply shaped_madd; by apply shaped_mmul|by apply shaped_vadd]).
Qed.

Lemma H_call_fresh (self : H_LSTMCell.t (T:=T)) g (inputs c_t m_t : matrix) batch d :
  let n := H_LSTMCell._num_units self in
  let hn := H_LSTMCell._hyper_num_units self in
  let e := H_LSTMCell._hyper_embed_size self in
  H_LSTMCell_unset self → H_LSTMCell._num_proj self = None →
  g_reuse g = false → quiet (H_LSTMCell._initializer self) → quiet (g_initializer g) →
  e ≠ 0 →
  (∀ name, g_vars g !! (name ++ g_scope g) = None) →
  0 < batch → shaped batch d inputs →
  shaped batch (n + hn) c_t → shaped batch (n + hn) m_t →
  ∃ m new_state self',
    H_LSTMCell.call theta inputs (LSTMStateTuple c_t m_t) (self, g)
    = (inr (m, new_state),
       (self', with_vars (H_LSTMCell_variables "lstm_cell" n
                            (H_LSTMCell._use_peepholes self) hn e d
                            (g_scope g) (g_vars g)) g)).
Proof.
  intros n hn e (Hcell & Hli & Hlj & Hlf & Hlo & Hlc & Hpeep) Hnp Hr Hqi Hqg He Hfresh Hbatch
    Hin Hct Hmt.
  assert (quiet (match H_LSTMCell._initializer self with
                 | Some f => Some f
                 | None => g_initializer g
                 end)) as Hq.
  { intros f shape. destruct (H_LSTMCell._initializer self) as [f0|] eqn:E.
    - intros [= <-]. by apply Hqi.
    - by apply Hqg. }
  assert (shaped batch n (slice 0 n c_t)) as Hc by (eapply shaped_slice; [|exact Hct]; lia).
  assert (shaped batch n (slice 0 n m_t)) as Hm by (eapply shaped_slice; [|exact Hmt]; lia).
  assert (shaped batch hn (slice_from n c_t)) as Hcs.
  { pose proof (shaped_slice_from _ _ n _ Hct) as Hs.
    by replace (n + hn - n) with hn in Hs by lia. }
  assert (shaped batch hn (slice_from n m_t)) as Hhs.
  { pose proof (shaped_slice_from _ _ n _ Hmt) as Hs.
    by replace (n + hn - n) with hn in Hs by lia. }
  destruct (H_gates_fresh self self g inputs (slice 0 n m_t) (slice_from n c_t)
              (slice_from n m_t) batch d Hcell Hr Hqg He Hfresh Hbatch Hin Hm Hcs Hhs)
    as (i0 & j0 & f0 & o0 & hyper_c & hyper_h & cell' & Hgates & Hi & Hj & Hf & Ho & Hhc & Hhh).
  set (c_prev := slice 0 n c_t) in *.
  unfold H_LSTMCell_variables. fold n hn e in Hgates.
  destruct g as [vars scope reuse init]. unfold with_vars in *.
  cbn [g_vars g_scope g_reuse g_initializer] in *. subst reuse.
  unfold H_LSTMCell.call, H_LSTMCell.recurrence, H_LSTMCell.self_get, H_LSTMCell.self_set.
  rewrite (bind_run _ _ (self, _) self (self, _)) by done.
  rewrite Hnp.
  destruct (H_LSTMCell._use_peepholes self) eqn:Epeep.
  - destruct (Hpeep eq_refl) as (Hwf & Hp1 & Hp2).
    erewrite bind_run; cycle 1.
    { erewrite bind_run by reflexivity. cbv beta iota.
      fold n hn e. fold c_prev. rewrite (bind_run _ _ _ _ _ Hgates). cbv beta iota.
      clearbody c_prev.
      run_H_ensure_norm Hfresh. run_H_ensure_norm Hfresh. run_H_ensure_norm Hfresh.
      run_H_ensure_norm Hfresh.
      norm_graph.
      run_H_norm. run_H_norm. run_H_norm. run_H_norm.
      erewrite bind_run; cycle 1.
      { run_attr. reflexivity. }
      cbn [is_None when].
      erewrite bind_run; cycle 1.
      { apply scope_initializer_run.
        run_fresh Hfresh Hq. erewrite bind_run by reflexivity. norm_graph.
        run_fresh Hfresh Hq. erewrite bind_run by reflexivity. norm_graph.
        run_fresh Hfresh Hq. erewrite bind_run by reflexivity. norm_graph.
        run_H_ensure_norm Hfresh. H_ensure_norm Hfresh. }
      norm_graph.
      erewrite bind_run; cycle 1.
      { run_attr_as. run_attr_as. run_H_norm. run_H_norm. reflexivity. }
      run_H_ensure_norm Hfresh. norm_graph. run_H_norm.
      erewrite bind_run; cycle 1.
      { run_attr_as. reflexivity. }
      reflexivity. }
    cbv beta iota. erewrite bind_run by reflexivity.
    erewrite bind_run by reflexivity. cbv beta iota.
    eexists _, _, _. reflexivity.
  - erewrite bind_run; cycle 1.
    { erewrite bind_run by reflexivity. cbv beta iota.
      fold n hn e. fold c_prev. rewrite (bind_run _ _ _ _ _ Hgates). cbv beta iota.
      clearbody c_prev.
      run_H_ensure_norm Hfresh. run_H_ensure_norm Hfresh. run_H_ensure_norm Hfresh.
      run_H_ensure_norm Hfresh.
      norm_graph.
      run_H_norm. run_H_norm. run_H_norm. run_H_norm.
      erewrite bind_run by reflexivity. cbn [when].
      erewrite bind_run by reflexivity.
      erewrite bind_run by reflexivity.
      run_H_ensure_norm Hfresh. norm_graph. run_H_norm.
      erewrite bind_run by reflexivity.
      reflexivity. }
    cbv beta iota. erewrite bind_run by reflexivity.
    erewrite bind_run by reflexivity. cbv beta iota.
    eexists _, _, _. reflexivity.
Qed.

End HCellFirstCall.

(** The first run of [call] on a new [H_LSTMCell], in a variable scope
    that holds no variable yet, as the first [cell(inputs, state)] runs it
    in the scope that the layer has captured, returns, and creates exactly
    the cell's variables in that scope.  The cell is constructed without
    [num_proj] and with [hyper_embed_size] other than 0; the scope does not
    reuse variables; no initializer raises; the inputs have [batch > 0] rows
    of [d] columns and the state has the shape [state_size].  The variable
    store gains, in the scope: the [kernel] and [bias] of the auxiliary
    cell, for inputs of [d + num_units] columns, in the scope [aux] that
    the first invocation of the auxiliary cell captures; [W_xh] and [W_hh]
    of shape [[d, 4 * num_units]] and [W_bias]; the three variables of each
    of the eight [_hyper_norm] scopes and the two of each of the four
    [_hyper_bias] scopes; the gains and biases of the normalisations; with
    peepholes the three diagonals; and nothing else. *)
Theorem H_LSTMCell_first_call_creates_variables {T : Type} `{!Scalar T}
    (theta : list string → nat → nat → T)
    num_units use_peepholes cell_clip initializer proj_clip forget_bias activation reuse
    hyper_num_units hyper_embed_size g (inputs : matrix) state batch d :
  let cell := H_LSTMCell.__init__ num_units use_peepholes cell_clip initializer None
                proj_clip forget_bias activation reuse hyper_num_units hyper_embed_size in
  hyper_embed_size ≠ 0 →
  g_reuse g = false → quiet initializer → quiet (g_initializer g) →
  (∀ name, g_vars g !! (name ++ g_scope g) = None) →
  0 < batch → shaped batch d inputs →
  state_shaped batch (H_LSTMCell.state_size cell) state →
  ∃ m new_state self' aux,
    H_LSTMCell.call theta inputs state (cell, g)
    = (inr (m, new_state),
       (self', with_vars (H_LSTMCell_variables aux num_units use_peepholes hyper_num_units
                            hyper_embed_size d (g_scope g) (g_vars g)) g)).
Proof.
  intros cell He Hr Hqi Hqg Hfresh Hbatch Hin Hst.
  destruct state as [c_t m_t|s]; [|done]. destruct Hst as [Hct Hmt].
  destruct (H_call_fresh theta cell g inputs c_t m_t batch d)
    as (m & new_state & self1 & Hcall); try done.
  - subst cell. unfold H_LSTMCell_unset.
    cbn [H_LSTMCell.__dict__ H_LSTMCell._use_peepholes H_LSTMCell.__init__].
    destruct use_peepholes; repeat split; try done;
      repeat (rewrite lookup_insert_ne by done); by rewrite lookup_insert_eq.
  - by exists m, new_state, self1, "lstm_cell".
Qed.

Lemma H_LSTMCell_first_call_creates_variables_witness :
  ∃ m new_state self' aux,
    H_LSTMCell.call (T:=R) zero_weights x0 state20 (h_peephole_cell, empty_graph)
    = (inr (m, new_state),
       (self', with_vars (H_LSTMCell_variables aux 1 true 1 1 1
                            (g_scope empty_graph) (g_vars empty_graph))
                 empty_graph)).
Proof.
  exact (H_LSTMCell_first_call_creates_variables zero_weights 1 true None None None
           (flit 1) None None 1 1 empty_graph x0 state20 1 1
           ltac:(discriminate) eq_refl quiet_None quiet_None
           (λ name, lookup_empty _) (le_n 1) x0_shaped state20_shaped).
Defined.

(** ** [lstm_ortho_initializer] *)

Section InitializerLemmas.
Context {S A : Type}.
Implicit Types (s : S) (sh : list pynum).

Lemma orthogonal_raises x sh s :
  orthogonal (A:=A) (x :: sh) s = (inl NameError, s).
Proof. reflexivity. Qed.

Lemma orthogonal_empty s : orthogonal (A:=A) [] s = (inl IndexError, s).
Proof. reflexivity. Qed.

End InitializerLemmas.

(** C10, as amended.  The function returned by [lstm_ortho_initializer]
    raises [NameError] on every shape with at least two entries: after
    reading [shape[0]] and [shape[1]] it evaluates [np.zeros], and the
    module binds no name [np]; [orthogonal] raises [NameError] as well, on
    every non-empty shape.  On a shape with fewer than two entries the
    function raises [IndexError] before it reaches [np].  The argument of
    the fourth block, a list multiplied by a float, is a [TypeError]. *)
Theorem lstm_ortho_initializer_raises {S A : Type} (scale : pynum) (s : S) :
  (∀ size_x size_1 rest,
     lstm_ortho_initializer (A:=A) scale (size_x :: size_1 :: rest) s = (inl NameError, s)) ∧
  (∀ size_x, lstm_ortho_initializer (A:=A) scale [size_x] s = (inl IndexError, s)) ∧
  lstm_ortho_initializer (A:=A) scale [] s = (inl IndexError, s) ∧
  (∀ size_x rest, orthogonal (A:=A) (size_x :: rest) s = (inl NameError, s)) ∧
  (∀ n m rest, ortho_initializer (A:=A) scale (n :: m :: rest) = Some NameError) ∧
  (∀ (size_x size_h : pynum) q,
     list_mul [size_x; size_h] (PyFloat q) s = (inl TypeError, s)).
Proof. repeat split; intros; reflexivity. Qed.

(** C10, as stated, fails on the shape [[5]] of a vector: the function
    raises [IndexError] at [shape[1]], not [NameError]. *)
Lemma lstm_ortho_initializer_vector_shape :
  lstm_ortho_initializer (S:=()) (A:=()) (PyFloat 1) [PyInt 5] () = (inl IndexError, ()) ∧
  lstm_ortho_initializer (S:=()) (A:=()) (PyFloat 1) [PyInt 5] () ≠ (inl NameError, ()).
Proof. split; [reflexivity|discriminate]. Qed.
